(** * Tabular query pipeline of the pandas dashboards

    A shallow embedding of the dataframe expressions used by the four
    Streamlit dashboards (retail sales, Titanic, e-commerce, Netflix) and
    of the dataframe primitives they call, followed by the properties of
    the filter / aggregate / tabulate pipeline.

    Conventions of the embedding:
    - a missing value (NaN, NaT, None) is the cell [None];
    - float64 values are exact rationals ([Q]); numeric equality is [Qeq];
    - int64 values are integers: a cast to [int] and a product of two
      integers are kept to 64 bits;
    - the dtype of a column is read off its cells: [object] when one of
      them is a string;
    - a column of dates is read by one format, the one guessed from its
      first date;
    - a Series is the list of its (index label, value) pairs, in order; a
      label is a position of the default integer index or a group key;
    - a DataFrame is its column names and its rows, each row carrying its
      index label and its cells in column order;
    - the user's side of a widget is its state: a choice, or none while
      the widget is untouched and returns its default;
    - Python exceptions are the [Raise] results of a small error monad. *)

From Stdlib Require Import List String Ascii ZArith QArith Qabs Qround Bool.
From Stdlib Require Import Lia Arith Sorted Qfield Permutation.
Import ListNotations.

Local Open Scope string_scope.
Local Open Scope list_scope.

(** ** Exceptions and results *)

Inductive exn : Type :=
| KeyError (col : string)
| TypeError
| AttributeError
| ValueError
| OverflowError
| StreamlitAPIException.

Inductive result (A : Type) : Type :=
| Ok (a : A)
| Raise (e : exn).

Arguments Ok {A} a.
Arguments Raise {A} e.

Definition bind {A B : Type} (m : result A) (k : A -> result B) : result B :=
  match m with
  | Ok a => k a
  | Raise e => Raise e
  end.

Notation "x <- m ;; k" := (bind m (fun x => k))
  (at level 61, m at next level, right associativity).

(** ** Values, cells, series and frames *)

Record timestamp : Type := mkTs {
  ts_year : Z; ts_month : Z; ts_day : Z;
  ts_hour : Z; ts_minute : Z; ts_second : Z
}.

Inductive value : Type :=
| VStr (s : string)
| VInt (z : Z)
| VFloat (q : Q)
| VTs (t : timestamp)
| VTime (h m : Z).

Definition cell : Type := option value.

(** An index label: a position of the default integer index, or the value
    of a column that became the index (a group key). *)
Definition label : Type := value.

Definition Series (A : Type) : Type := list (label * A).

Definition Row : Type := list cell.

Record DataFrame : Type := mkDF {
  columns : list string;
  records : list (label * Row)
}.

Definition values {A : Type} (s : Series A) : list A := map snd s.

(** [len(df)] *)
Definition len (df : DataFrame) : nat := List.length (records df).

Fixpoint index_of (c : string) (cols : list string) : option nat :=
  match cols with
  | [] => None
  | c' :: rest =>
      if String.eqb c c' then Some O
      else match index_of c rest with
           | Some k => Some (S k)
           | None => None
           end
  end.

(** [c in df.columns] *)
Definition has_column (df : DataFrame) (c : string) : bool :=
  match index_of c (columns df) with Some _ => true | None => false end.

Definition field (k : nat) (r : Row) : cell := nth k r None.

(** [df[c]]: the column as a Series, [KeyError] when it is absent. *)
Definition getitem (df : DataFrame) (c : string) : result (Series cell) :=
  match index_of c (columns df) with
  | Some k => Ok (map (fun ir => (fst ir, field k (snd ir))) (records df))
  | None => Raise (KeyError c)
  end.

(** ** Comparison of values *)

Definition ts_eqb (a b : timestamp) : bool :=
  (ts_year a =? ts_year b)%Z && (ts_month a =? ts_month b)%Z &&
  (ts_day a =? ts_day b)%Z && (ts_hour a =? ts_hour b)%Z &&
  (ts_minute a =? ts_minute b)%Z && (ts_second a =? ts_second b)%Z.

Definition value_num (v : value) : option Q :=
  match v with
  | VInt z => Some (inject_Z z)
  | VFloat q => Some q
  | _ => None
  end.

Definition value_eqb (a b : value) : bool :=
  match a, b with
  | VStr s, VStr t => String.eqb s t
  | VTs s, VTs t => ts_eqb s t
  | VTime h m, VTime h' m' => (h =? h')%Z && (m =? m')%Z
  | _, _ =>
      match value_num a, value_num b with
      | Some p, Some q => Qeq_bool p q
      | _, _ => false
      end
  end.

(** Equality as the hash tables behind [isin], [unique], [duplicated] and
    [groupby] see it: two missing values are equal. *)
Definition cell_eqb (a b : cell) : bool :=
  match a, b with
  | None, None => true
  | Some x, Some y => value_eqb x y
  | _, _ => false
  end.

Fixpoint row_eqb (r s : Row) : bool :=
  match r, s with
  | [], [] => true
  | a :: r', b :: s' => cell_eqb a b && row_eqb r' s'
  | _, _ => false
  end.

(** ** Element-wise Series operations *)

Definition smap {A B : Type} (f : A -> B) (s : Series A) : Series B :=
  map (fun ix => (fst ix, f (snd ix))) s.

Fixpoint szip {A B C : Type} (f : A -> B -> C) (s : Series A) (t : Series B)
  : Series C :=
  match s, t with
  | (i, a) :: s', (_, b) :: t' => (i, f a b) :: szip f s' t'
  | _, _ => []
  end.

(** [s.isin(allowed)] *)
Definition isin (s : Series cell) (allowed : list cell) : Series bool :=
  smap (fun c => existsb (cell_eqb c) allowed) s.

(** [s.isna()] *)
Definition isna {A : Type} (s : Series (option A)) : Series bool :=
  smap (fun c => match c with None => true | Some _ => false end) s.

(** [a & b] and [a | b] on boolean Series. *)
Definition mask_and (a b : Series bool) : Series bool := szip andb a b.
Definition mask_or (a b : Series bool) : Series bool := szip orb a b.

(** A numeric view of a column; comparing a string with a number raises. *)
Fixpoint as_numeric (s : Series cell) : result (Series (option Q)) :=
  match s with
  | [] => Ok []
  | (i, None) :: s' => t <- as_numeric s' ;; Ok ((i, None) :: t)
  | (i, Some v) :: s' =>
      match value_num v with
      | Some q => t <- as_numeric s' ;; Ok ((i, Some q) :: t)
      | None => Raise TypeError
      end
  end.

(** [s.between(lo, hi, inclusive='both')]; a missing value is not between. *)
Definition between (s : Series (option Q)) (lo hi : Q) : Series bool :=
  smap (fun c => match c with
                 | Some q => Qle_bool lo q && Qle_bool q hi
                 | None => false
                 end) s.

(** [df[mask]]: the rows whose mask entry is [True], in order. *)
Fixpoint select_rows (rs : list (label * Row)) (mask : Series bool)
  : list (label * Row) :=
  match rs, mask with
  | r :: rs', (_, b) :: mask' =>
      if b then r :: select_rows rs' mask' else select_rows rs' mask'
  | _, _ => []
  end.

Definition loc_mask (df : DataFrame) (mask : Series bool) : DataFrame :=
  mkDF (columns df) (select_rows (records df) mask).

(** [s.unique()]: distinct values in order of first appearance; a missing
    value is one of them when present. *)
Fixpoint unique_cells (l : list cell) : list cell :=
  match l with
  | [] => []
  | c :: l' => c :: filter (fun d => negb (cell_eqb c d)) (unique_cells l')
  end.

Definition unique (s : Series cell) : list cell := unique_cells (values s).

(** [s.dropna()] *)
Definition dropna {A : Type} (s : Series (option A)) : Series (option A) :=
  filter (fun ix => match snd ix with Some _ => true | None => false end) s.

(** ** Ordering of cells, [sorted] *)

Definition ts_key (t : timestamp) : list Z :=
  [ts_year t; ts_month t; ts_day t; ts_hour t; ts_minute t; ts_second t].

Fixpoint lex_leb (a b : list Z) : bool :=
  match a, b with
  | [], _ => true
  | _ :: _, [] => false
  | x :: a', y :: b' => (x <? y)%Z || ((x =? y)%Z && lex_leb a' b')
  end.

(** Numbers by value, strings by code point, timestamps by calendar order;
    values of different kinds are ranked by kind, a missing value first. *)
Definition value_rank (v : value) : nat :=
  match v with
  | VInt _ | VFloat _ => 0
  | VStr _ => 1
  | VTs _ => 2
  | VTime _ _ => 3
  end.

Definition value_leb (a b : value) : bool :=
  match a, b with
  | VStr s, VStr t => String.leb s t
  | VTs s, VTs t => lex_leb (ts_key s) (ts_key t)
  | VTime h m, VTime h' m' => lex_leb [h; m] [h'; m']
  | _, _ =>
      match value_num a, value_num b with
      | Some p, Some q => Qle_bool p q
      | _, _ => Nat.leb (value_rank a) (value_rank b)
      end
  end.

Definition cell_leb (a b : cell) : bool :=
  match a, b with
  | None, _ => true
  | Some _, None => false
  | Some x, Some y => value_leb x y
  end.

Fixpoint insert_sorted {A : Type} (leb : A -> A -> bool) (x : A) (l : list A)
  : list A :=
  match l with
  | [] => [x]
  | y :: l' => if leb x y then x :: l else y :: insert_sorted leb x l'
  end.

Fixpoint sort_by {A : Type} (leb : A -> A -> bool) (l : list A) : list A :=
  match l with
  | [] => []
  | x :: l' => insert_sorted leb x (sort_by leb l')
  end.

(** [sorted(xs)] *)
Definition sorted (l : list cell) : list cell := sort_by cell_leb l.

(** The values of a list can be compared with each other: all numbers, a
    missing value being the float NaN, or all strings, and so on. *)
Definition kind_of (c : cell) : nat :=
  match c with
  | None => 0
  | Some v => value_rank v
  end.

Definition same_kind (l : list cell) : bool :=
  match l with
  | [] => true
  | c :: l' => forallb (fun d => Nat.eqb (kind_of d) (kind_of c)) l'
  end.

(** ** Widgets

    A widget returns the user's choice, or its default while untouched. *)

Definition widget {A : Type} (default : A) (choice : option A) : A :=
  match choice with
  | Some x => x
  | None => default
  end.

(** A column that holds numbers and has a gap.  Its distinct values are
    floats, the missing one being a NaN, and a NaN taken from the column
    is a new object each time, equal to nothing; the missing value of a
    column of strings is one and the same object wherever it is taken
    from. *)
Definition numbers_with_gap (s : Series cell) : bool :=
  existsb (fun ic => match snd ic with None => true | Some _ => false end) s
  && existsb (fun ic => match snd ic with
                        | Some v => match value_num v with
                                    | Some _ => true
                                    | None => false
                                    end
                        | None => false
                        end) s.

(** [st.multiselect(options=s.unique(), default=s.unique())]: the
    framework looks every default up among the options, by identity or
    equality, and refuses a default that it does not find. *)
Definition multiselect_unique (s : Series cell) (choice : option (list cell))
  : result (list cell) :=
  if numbers_with_gap s then Raise StreamlitAPIException
  else Ok (widget (unique s) choice).

(** The integers that the page represents exactly: up to [(1 << 53) - 1]
    in absolute value. *)
Definition max_safe_integer : Z := (2 ^ 53 - 1)%Z.

Definition js_safe (z : Z) : bool :=
  ((- max_safe_integer <=? z) && (z <=? max_safe_integer))%Z.

(** [st.slider(min_value=lo, max_value=hi, value=default)] for a range of
    integers.  The framework puts the two ends of the default in order and
    widens the bounds until they hold the default, so a default outside
    [lo .. hi] is no error; it refuses bounds beyond the integers that the
    page represents exactly.  The range returned is the user's, or the
    default. *)
Definition slider (lo hi : Z) (default : Z * Z) (choice : option (Z * Z))
  : result (Z * Z) :=
  let value := if (snd default <? fst default)%Z
               then (snd default, fst default) else default in
  let min_value := Z.min (fst value) (Z.min lo hi) in
  let max_value := Z.max (snd value) (Z.max (Z.min lo hi) hi) in
  if js_safe min_value && js_safe max_value
  then Ok (widget value choice)
  else Raise StreamlitAPIException.

(** ** Datetime accessors *)

(** [s.dt]: only for a datetime column. *)
Fixpoint dt (s : Series cell) : result (Series (option timestamp)) :=
  match s with
  | [] => Ok []
  | (i, None) :: s' => t <- dt s' ;; Ok ((i, None) :: t)
  | (i, Some (VTs x)) :: s' => t <- dt s' ;; Ok ((i, Some x) :: t)
  | (_, Some _) :: _ => Raise AttributeError
  end.

Definition date : Type := (Z * Z * Z)%type.

Definition date_key (d : date) : list Z :=
  let '(y, m, dd) := d in [y; m; dd].

Definition date_leb (a b : date) : bool := lex_leb (date_key a) (date_key b).

Definition ts_date (t : timestamp) : date := (ts_year t, ts_month t, ts_day t).

(** [s.dt.date] *)
Definition dt_date (s : Series (option timestamp)) : Series (option date) :=
  smap (option_map ts_date) s.

(** [s >= d] and [s <= d] against one date; a missing date compares false. *)
Definition date_ge (s : Series (option date)) (d : date) : Series bool :=
  smap (fun c => match c with Some x => date_leb d x | None => false end) s.

Definition date_le (s : Series (option date)) (d : date) : Series bool :=
  smap (fun c => match c with Some x => date_leb x d | None => false end) s.

Definition int_cell (f : timestamp -> Z) (c : option timestamp) : cell :=
  match c with
  | Some t => Some (VInt (f t))
  | None => None
  end.

(** [s.dt.year], [s.dt.month], [s.dt.day], [s.dt.hour] *)
Definition dt_year (s : Series (option timestamp)) : Series cell :=
  smap (int_cell ts_year) s.
Definition dt_month (s : Series (option timestamp)) : Series cell :=
  smap (int_cell ts_month) s.
Definition dt_day (s : Series (option timestamp)) : Series cell :=
  smap (int_cell ts_day) s.

Definition month_names : list string :=
  ["January"; "February"; "March"; "April"; "May"; "June"; "July";
   "August"; "September"; "October"; "November"; "December"].

Definition day_names : list string :=
  ["Monday"; "Tuesday"; "Wednesday"; "Thursday"; "Friday"; "Saturday";
   "Sunday"].

(** Days since 1970-01-01 in the proleptic Gregorian calendar. *)
Definition days_from_civil (y m d : Z) : Z :=
  let y' := (if m <=? 2 then y - 1 else y)%Z in
  let era := (y' / 400)%Z in
  let yoe := (y' - era * 400)%Z in
  let mp := ((m + 9) mod 12)%Z in
  let doy := ((153 * mp + 2) / 5 + d - 1)%Z in
  let doe := (yoe * 365 + yoe / 4 - yoe / 100 + doy)%Z in
  (era * 146097 + doe - 719468)%Z.

(** Monday is 0, as [dt.dayofweek]. *)
Definition weekday (t : timestamp) : Z :=
  ((days_from_civil (ts_year t) (ts_month t) (ts_day t) + 3) mod 7)%Z.

Definition name_cell (names : list string) (k : Z) : cell :=
  match nth_error names (Z.to_nat k) with
  | Some s => if (0 <=? k)%Z then Some (VStr s) else None
  | None => None
  end.

(** [s.dt.month_name()], [s.dt.day_name()] *)
Definition dt_month_name (s : Series (option timestamp)) : Series cell :=
  smap (fun c => match c with
                 | Some t => name_cell month_names (ts_month t - 1)
                 | None => None
                 end) s.

Definition dt_day_name (s : Series (option timestamp)) : Series cell :=
  smap (fun c => match c with
                 | Some t => name_cell day_names (weekday t)
                 | None => None
                 end) s.

(** ** Column assignment *)

Fixpoint set_field (k : nat) (v : cell) (r : Row) : Row :=
  match k, r with
  | O, [] => [v]
  | O, _ :: r' => v :: r'
  | S k', [] => None :: set_field k' v []
  | S k', c :: r' => c :: set_field k' v r'
  end.

Fixpoint assign_rows (k : nat) (rs : list (label * Row)) (s : Series cell)
  : list (label * Row) :=
  match rs, s with
  | (i, r) :: rs', (_, v) :: s' => (i, set_field k v r) :: assign_rows k rs' s'
  | _, _ => []
  end.

(** [df[c] = s]: replaces the column, or appends it when it is new. *)
Definition setitem (df : DataFrame) (c : string) (s : Series cell)
  : DataFrame :=
  match index_of c (columns df) with
  | Some k => mkDF (columns df) (assign_rows k (records df) s)
  | None =>
      mkDF (columns df ++ [c])
           (assign_rows (List.length (columns df)) (records df) s)
  end.

(** ** Library functions taken as given

    Functions of the dataframe library whose result is not computed here:
    the three functions behind [pd.to_datetime] without a format (the
    guess of a format from one string, the reading of one value by a
    format, and the reading of one value on its own, which the library
    falls back to when it can guess no format), the clock parser behind
    [format='%H:%M'], Python's [int(str)], the float square root and the
    Pearson coefficient of two columns. *)

Class Library : Type := {
  guess_datetime_format : string -> option string;
  strptime : string -> value -> option timestamp;
  parse_datetime : value -> option timestamp;
  parse_clock : value -> option (Z * Z);
  int_of_string : string -> option Z;
  sqrt : Q -> Q;
  pearson : list (option Q) -> list (option Q) -> option Q
}.

(** ** Parsing and type conversion *)

(** The strings that [pd.to_datetime] reads as a missing timestamp. *)
Definition nat_strings : list string :=
  [""; "NaT"; "nat"; "NAT"; "nan"; "NaN"; "NAN"].

Definition nat_string (x : string) : bool :=
  existsb (String.eqb x) nat_strings.

(** The first value of a column that is neither missing nor one of these
    strings. *)
Fixpoint first_non_null (s : Series cell) : cell :=
  match s with
  | [] => None
  | (_, None) :: s' => first_non_null s'
  | (_, Some (VStr x)) :: s' =>
      if nat_string x then first_non_null s' else Some (VStr x)
  | (_, Some v) :: _ => Some v
  end.

Section Conversion.
Context {L : Library}.

(** The format of a column: guessed from its first value, when that is a
    string; none when the guess fails or the first value is no string. *)
Definition guess_format_for_array (s : Series cell) : option string :=
  match first_non_null s with
  | Some (VStr x) => guess_datetime_format x
  | _ => None
  end.

(** [pd.to_datetime(s)] with the format [fmt] of the column: every value
    is read by that one format, or each on its own when there is none;
    a value that cannot be read raises. *)
Fixpoint to_datetime_by (fmt : option string) (s : Series cell)
  : result (Series cell) :=
  match s with
  | [] => Ok []
  | (i, None) :: s' => t <- to_datetime_by fmt s' ;; Ok ((i, None) :: t)
  | (i, Some (VTs x)) :: s' =>
      t <- to_datetime_by fmt s' ;; Ok ((i, Some (VTs x)) :: t)
  | (i, Some v) :: s' =>
      if match v with VStr x => nat_string x | _ => false end
      then t <- to_datetime_by fmt s' ;; Ok ((i, None) :: t)
      else
        match match fmt with
              | Some f => strptime f v
              | None => parse_datetime v
              end with
        | Some x => t <- to_datetime_by fmt s' ;; Ok ((i, Some (VTs x)) :: t)
        | None => Raise ValueError
        end
  end.

(** [pd.to_datetime(s)] *)
Definition to_datetime (s : Series cell) : result (Series cell) :=
  to_datetime_by (guess_format_for_array s) s.

(** [pd.to_datetime(s, errors='coerce')]: a value that cannot be read, by
    the format of the column or on its own when there is none, becomes
    missing. *)
Definition to_datetime_coerce (s : Series cell) : Series cell :=
  let fmt := guess_format_for_array s in
  smap (fun c => match c with
                 | None => None
                 | Some (VTs x) => Some (VTs x)
                 | Some v =>
                     if match v with VStr x => nat_string x | _ => false end
                     then None
                     else option_map VTs
                            match fmt with
                            | Some f => strptime f v
                            | None => parse_datetime v
                            end
                 end) s.

(** [pd.to_datetime(s, format='%H:%M').dt.time] *)
Fixpoint to_clock (s : Series cell) : result (Series cell) :=
  match s with
  | [] => Ok []
  | (i, None) :: s' => t <- to_clock s' ;; Ok ((i, None) :: t)
  | (i, Some v) :: s' =>
      match parse_clock v with
      | Some (h, m) => t <- to_clock s' ;; Ok ((i, Some (VTime h m)) :: t)
      | None => Raise ValueError
      end
  end.

(** [pd.to_datetime(s.astype(str)).dt.hour] on a column of clock times:
    the time is printed as HH:MM:SS and parsed back, which keeps its
    hour; a missing time stays missing. *)
Definition clock_hour (s : Series cell) : Series cell :=
  smap (fun c => match c with
                 | Some (VTime h _) => Some (VInt h)
                 | _ => None
                 end) s.

(** The integer part of a rational, toward zero, as [int(x)] of a float. *)
Definition truncate (q : Q) : Z := Z.quot (Qnum q) (Z.pos (Qden q)).

(** The 64-bit integers of an [int] column. *)
Definition int64_min : Z := (- 2 ^ 63)%Z.
Definition int64_max : Z := (2 ^ 63 - 1)%Z.

Definition in_int64 (z : Z) : bool :=
  ((int64_min <=? z) && (z <=? int64_max))%Z.

(** A float cast to a 64-bit integer: toward zero; a float beyond the
    64-bit range gives the smallest 64-bit integer, as the conversion
    instruction of x86-64 does. *)
Definition float_to_int64 (q : Q) : Z :=
  if in_int64 (truncate q) then truncate q else int64_min.

(** [s.astype(int)]: a missing value cannot be cast; a string is read by
    [int(str)], and an integer too large for 64 bits cannot be stored. *)
Fixpoint astype_int (s : Series cell) : result (Series cell) :=
  match s with
  | [] => Ok []
  | (i, c) :: s' =>
      match c with
      | Some (VInt z) => t <- astype_int s' ;; Ok ((i, Some (VInt z)) :: t)
      | Some (VFloat q) =>
          t <- astype_int s' ;; Ok ((i, Some (VInt (float_to_int64 q))) :: t)
      | Some (VStr x) =>
          match int_of_string x with
          | Some z =>
              if in_int64 z
              then t <- astype_int s' ;; Ok ((i, Some (VInt z)) :: t)
              else Raise OverflowError
          | None => Raise ValueError
          end
      | Some _ => Raise TypeError
      | None => Raise ValueError
      end
  end.

End Conversion.

(** [s.fillna(v)] *)
Definition fillna (s : Series cell) (v : value) : Series cell :=
  smap (fun c => match c with None => Some v | Some x => Some x end) s.

(** An integer reduced to 64 bits, as integer arithmetic on an [int]
    column does without a warning. *)
Definition wrap_int64 (z : Z) : Z := ((z + 2 ^ 63) mod 2 ^ 64 - 2 ^ 63)%Z.

(** [a * b] on two numeric columns; a missing factor gives a missing
    product. *)
Definition mul_value (a b : value) : result value :=
  match a, b with
  | VInt x, VInt y => Ok (VInt (wrap_int64 (x * y)))
  | _, _ =>
      match value_num a, value_num b with
      | Some p, Some q => Ok (VFloat (p * q))
      | _, _ => Raise TypeError
      end
  end.

Fixpoint series_mul (a b : Series cell) : result (Series cell) :=
  match a, b with
  | (i, x) :: a', (_, y) :: b' =>
      match x, y with
      | Some u, Some v =>
          w <- mul_value u v ;;
          t <- series_mul a' b' ;; Ok ((i, Some w) :: t)
      | _, _ => t <- series_mul a' b' ;; Ok ((i, None) :: t)
      end
  | _, _ => Ok []
  end.

(** [df.dropna(subset=[c])] *)
Definition dropna_subset (df : DataFrame) (c : string) : result DataFrame :=
  s <- getitem df c ;;
  Ok (loc_mask df (smap negb (isna s))).

(** [df.duplicated()]: a row is marked when an earlier row equals it. *)
Fixpoint duplicated_from (seen : list Row) (rs : list (label * Row))
  : Series bool :=
  match rs with
  | [] => []
  | (i, r) :: rs' =>
      (i, existsb (row_eqb r) seen) :: duplicated_from (r :: seen) rs'
  end.

Definition duplicated (df : DataFrame) : Series bool :=
  duplicated_from [] (records df).

(** [df.drop_duplicates()]: the first of each class of equal rows is kept. *)
Definition drop_duplicates (df : DataFrame) : DataFrame :=
  loc_mask df (smap negb (duplicated df)).

(** [mask.sum()]: the number of [True] entries. *)
Definition count_true (m : Series bool) : nat :=
  List.length (filter (fun ib => snd ib) m).

(** ** Reductions

    The reductions skip missing values while they accumulate, as the
    NaN-aware kernels of the library do. *)

Inductive reduction : Type :=
| Rsum | Rmean | Rcount | Rmin | Rmax | Rstd | Rnunique.

(** Running sum and count of the values seen so far. *)
Fixpoint accumulate (xs : list (option Q)) (acc : Q) (n : nat) : Q * nat :=
  match xs with
  | [] => (acc, n)
  | None :: xs' => accumulate xs' acc n
  | Some q :: xs' => accumulate xs' (acc + q) (S n)
  end.

Definition nansum (xs : list (option Q)) : Q := fst (accumulate xs 0 0).

Definition count {A : Type} (xs : list (option A)) : nat :=
  List.length (filter (fun c => match c with Some _ => true | None => false end)
                      xs).

Definition nanmean (xs : list (option Q)) : option Q :=
  let '(s, n) := accumulate xs 0 0 in
  match n with
  | O => None
  | S _ => Some (s / inject_Z (Z.of_nat n))
  end.

Fixpoint nanmin (xs : list (option Q)) : option Q :=
  match xs with
  | [] => None
  | None :: xs' => nanmin xs'
  | Some q :: xs' =>
      match nanmin xs' with
      | None => Some q
      | Some m => Some (if Qle_bool q m then q else m)
      end
  end.

Fixpoint nanmax (xs : list (option Q)) : option Q :=
  match xs with
  | [] => None
  | None :: xs' => nanmax xs'
  | Some q :: xs' =>
      match nanmax xs' with
      | None => Some q
      | Some m => Some (if Qle_bool m q then q else m)
      end
  end.

(** Sum of squared deviations from [m], skipping missing values. *)
Fixpoint sum_sq_dev (xs : list (option Q)) (m : Q) (acc : Q) : Q :=
  match xs with
  | [] => acc
  | None :: xs' => sum_sq_dev xs' m acc
  | Some q :: xs' => sum_sq_dev xs' m (acc + (q - m) * (q - m))
  end.

(** Sample variance (one degree of freedom removed); missing below two
    values. *)
Definition nanvar (xs : list (option Q)) : option Q :=
  let '(s, n) := accumulate xs 0 0 in
  match n with
  | O | S O => None
  | S (S _) =>
      let m := s / inject_Z (Z.of_nat n) in
      Some (sum_sq_dev xs m 0 / inject_Z (Z.of_nat n - 1))
  end.

Definition nanstd {L : Library} (xs : list (option Q)) : option Q :=
  option_map sqrt (nanvar xs).

Definition float_cell (q : option Q) : cell := option_map VFloat q.

Definition int_of_nat (n : nat) : cell := Some (VInt (Z.of_nat n)).

(** One reduction of one column. *)
Definition reduce {L : Library} (r : reduction) (s : Series cell)
  : result cell :=
  match r with
  | Rcount => Ok (int_of_nat (count (values s)))
  | Rnunique => Ok (int_of_nat (List.length (unique (dropna s))))
  | Rsum => xs <- as_numeric s ;; Ok (Some (VFloat (nansum (values xs))))
  | Rmean => xs <- as_numeric s ;; Ok (float_cell (nanmean (values xs)))
  | Rmin => xs <- as_numeric s ;; Ok (float_cell (nanmin (values xs)))
  | Rmax => xs <- as_numeric s ;; Ok (float_cell (nanmax (values xs)))
  | Rstd => xs <- as_numeric s ;; Ok (float_cell (nanstd (values xs)))
  end.

(** ** Grouping *)

Fixpoint present {A : Type} (l : list (option A)) : list A :=
  match l with
  | [] => []
  | Some a :: l' => a :: present l'
  | None :: l' => present l'
  end.

(** The group keys of [df.groupby(by)]: the distinct non-missing values of
    the column, sorted. *)
Definition group_keys (s : Series cell) : list value :=
  present (sorted (unique (dropna s))).

Definition group_rows (k : nat) (key : value) (rs : list (label * Row))
  : list (label * Row) :=
  filter (fun ir => cell_eqb (field k (snd ir)) (Some key)) rs.

Fixpoint mapM {A B : Type} (f : A -> result B) (l : list A)
  : result (list B) :=
  match l with
  | [] => Ok []
  | a :: l' => b <- f a ;; bs <- mapM f l' ;; Ok (b :: bs)
  end.

(** [df.groupby(by)]: each key with the sub-frame of its rows. *)
Definition groupby (df : DataFrame) (by_ : string)
  : result (list (value * DataFrame)) :=
  match index_of by_ (columns df) with
  | None => Raise (KeyError by_)
  | Some k =>
      s <- getitem df by_ ;;
      Ok (map (fun key => (key, mkDF (columns df)
                                     (group_rows k key (records df))))
              (group_keys s))
  end.

(** An aggregation: output column, metric column, reduction. *)
Definition aggregation : Type := (string * string * reduction)%type.

Definition agg_group {L : Library} (spec : list aggregation) (g : DataFrame)
  : result Row :=
  mapM (fun a => let '(_, col, r) := a in s <- getitem g col ;; reduce r s)
       spec.

(** [df.groupby(by).agg(...)]: one row per group, indexed by the key. *)
Definition groupby_agg {L : Library} (df : DataFrame) (by_ : string)
  (spec : list aggregation) : result DataFrame :=
  gs <- groupby df by_ ;;
  _ <- mapM (fun a => let '(_, col, _) := a in getitem df col) spec ;;
  rows <- mapM (fun kg => r <- agg_group spec (snd kg) ;; Ok (fst kg, r)) gs ;;
  Ok (mkDF (map (fun a => fst (fst a)) spec) rows).

(** [df.groupby(by).size()] *)
Definition groupby_size (df : DataFrame) (by_ : string)
  : result (Series cell) :=
  gs <- groupby df by_ ;;
  Ok (map (fun kg => (fst kg, int_of_nat (len (snd kg)))) gs).

(** ** Rounding and sorting of frames *)

Definition round_half_even (q : Q) : Z :=
  let f := Qfloor q in
  match (q - inject_Z f ?= 1 # 2)%Q with
  | Lt => f
  | Gt => (f + 1)%Z
  | Eq => if Z.even f then f else (f + 1)%Z
  end.

(** [round(q, nd)] *)
Definition round_to (nd : nat) (q : Q) : Q :=
  inject_Z (round_half_even (q * inject_Z (10 ^ Z.of_nat nd)))
  / inject_Z (10 ^ Z.of_nat nd).

Definition round_cell (nd : nat) (c : cell) : cell :=
  match c with
  | Some (VFloat q) => Some (VFloat (round_to nd q))
  | _ => c
  end.

(** [df.round(nd)] *)
Definition df_round (nd : nat) (df : DataFrame) : DataFrame :=
  mkDF (columns df)
       (map (fun ir => (fst ir, map (round_cell nd) (snd ir))) (records df)).

(** Order of [sort_values]: missing values last in either direction. *)
Definition sort_leb (ascending : bool) (a b : cell) : bool :=
  match a, b with
  | _, None => true
  | None, Some _ => false
  | Some x, Some y => if ascending then value_leb x y else value_leb y x
  end.

(** [df.sort_values(c, ascending=...)] *)
Definition sort_values (df : DataFrame) (c : string) (ascending : bool)
  : result DataFrame :=
  match index_of c (columns df) with
  | None => Raise (KeyError c)
  | Some k =>
      Ok (mkDF (columns df)
               (sort_by (fun a b => sort_leb ascending (field k (snd a))
                                             (field k (snd b)))
                        (records df)))
  end.

(** ** String columns: split, explode, value counts *)

(** [x.split(sep)] for a non-empty separator: the pieces between the
    leftmost non-overlapping occurrences of [sep].  [skip] counts the
    characters of a matched separator that are still to be passed over,
    [cur] is the piece read so far. *)
Fixpoint split_from (sep : string) (skip : nat) (cur : string) (s : string)
  : list string :=
  match s with
  | EmptyString => [cur]
  | String c s' =>
      match skip with
      | S k => split_from sep k cur s'
      | O =>
          if String.prefix sep s
          then cur :: split_from sep (String.length sep - 1) EmptyString s'
          else split_from sep 0 (cur ++ String c EmptyString)%string s'
      end
  end.

Definition split (sep : string) (s : string) : list string :=
  split_from sep 0 EmptyString s.

(** [sep.join(parts)] *)
Fixpoint join (sep : string) (parts : list string) : string :=
  match parts with
  | [] => EmptyString
  | [p] => p
  | p :: rest => (p ++ sep ++ join sep rest)%string
  end.

(** The dtype that the file reader gives a column: [object] when a cell
    is a string, and for a column without rows; a numeric dtype
    otherwise. *)
Definition object_dtype (s : Series cell) : bool :=
  match s with
  | [] => true
  | _ => existsb (fun ic => match snd ic with
                            | Some (VStr _) => true
                            | _ => false
                            end) s
  end.

(** Column [c] of the table [df] as read is of dtype object.  A selection
    of rows of [df] keeps the dtypes of [df], whatever rows remain. *)
Definition object_column (df : DataFrame) (c : string) : bool :=
  match getitem df c with
  | Ok s => object_dtype s
  | Raise _ => true
  end.

(** [s.str.split(', ')]: a list per string cell; a cell that is missing or
    not a string gives a missing value.  The [.str] accessor is refused on
    a column that is not of dtype object; [object] is the dtype of the
    column as read, which filtering and [dropna] keep.  The pattern [', ']
    is longer than one character, so the library compiles it as a regular
    expression: it holds no metacharacter and matches itself. *)
Definition str_split (object : bool) (s : Series cell)
  : result (Series (option (list string))) :=
  if object
  then Ok (smap (fun c => match c with
                          | Some (VStr x) => Some (split ", " x)
                          | _ => None
                          end) s)
  else Raise AttributeError.

(** [s.explode()]: one row per list element, under the label of the row it
    comes from; a missing value or an empty list gives one missing row. *)
Definition explode (s : Series (option (list string))) : Series cell :=
  flat_map (fun il =>
              match snd il with
              | None | Some [] => [(fst il, None)]
              | Some parts => map (fun p => (fst il, Some (VStr p))) parts
              end) s.

(** [s.value_counts()]: the distinct non-missing values with their number
    of occurrences, most frequent first. *)
Definition occurrences (v : value) (s : Series cell) : nat :=
  List.length (filter (fun ic => cell_eqb (snd ic) (Some v)) s).

Definition value_counts (s : Series cell) : list (value * nat) :=
  sort_by (fun a b => Nat.leb (snd b) (snd a))
          (map (fun v => (v, occurrences v s)) (present (unique (dropna s)))).

(** ** Rendered elements

    What a view hands to the page, in order.  A number that is NaN is the
    missing cell; the cards print it as "nan".  Titles and labels are kept
    without the pictograph that precedes them in the source; the text of
    a warning or an info box is the source's. *)

Inductive element : Type :=
| st_header (title : string)
| st_subheader (title : string)
| st_metric_card (label_ : string) (shown : cell)
| st_warning (msg : string)
| st_info (msg : string)
| st_error (msg : string)
| st_dataframe (df : DataFrame)
| st_plotly_chart (title : string).

Definition is_message (e : element) : bool :=
  match e with
  | st_warning _ | st_info _ | st_error _ => true
  | _ => false
  end.

(** ** Retail dashboard (project1_retail_sales_analytics/streamlit_app.py) *)

Module Retail.

Record sidebar_state : Type := mkSidebar {
  date_choice : option (list date);
  product_choice : option (list cell);
  branch_choice : option (list cell)
}.

Record corr_matrix : Type := mkCorr {
  cm_columns : list string;
  cm_data : list (list (option Q))
}.

(** A row of [strong_corr]. *)
Record strong_row : Type := mkStrong {
  variable_1 : string;
  variable_2 : string;
  correlation : Q
}.

Definition min_date (ds : list date) : option date :=
  match ds with
  | [] => None
  | d :: ds' => Some (fold_left (fun m x => if date_leb x m then x else m)
                                ds' d)
  end.

Definition max_date (ds : list date) : option date :=
  match ds with
  | [] => None
  | d :: ds' => Some (fold_left (fun m x => if date_leb m x then x else m)
                                ds' d)
  end.

Section App.
Context {L : Library}.

Definition dt_of (df : DataFrame) (c : string)
  : result (Series (option timestamp)) :=
  s <- getitem df c ;; dt s.

(** The body of [load_data], on the frame read from the file. *)
Definition load_data_steps (df : DataFrame) : result DataFrame :=
  raw <- getitem df "Date" ;;
  parsed <- to_datetime raw ;;
  let df := setitem df "Date" parsed in
  d <- dt_of df "Date" ;;
  let df := setitem df "Year" (dt_year d) in
  d <- dt_of df "Date" ;;
  let df := setitem df "Month" (dt_month d) in
  d <- dt_of df "Date" ;;
  let df := setitem df "Month_Name" (dt_month_name d) in
  d <- dt_of df "Date" ;;
  let df := setitem df "Day" (dt_day d) in
  d <- dt_of df "Date" ;;
  let df := setitem df "DayOfWeek" (dt_day_name d) in
  if has_column df "Time" then
    raw_time <- getitem df "Time" ;;
    clock <- to_clock raw_time ;;
    let df := setitem df "Time" clock in
    time <- getitem df "Time" ;;
    Ok (setitem df "Hour" (clock_hour time))
  else Ok df.

(** [load_data]: any exception is reported and [None] is returned. *)
Definition load_data (df : DataFrame) : option DataFrame :=
  match load_data_steps df with
  | Ok loaded => Some loaded
  | Raise _ => None
  end.

(** [[
    date_range = st.sidebar.date_input("Select Date Range",
        value=(df['Date'].min(), df['Date'].max()), ...)
    ]]
    A column without any date has no earliest and latest day. *)
Definition date_input (df : DataFrame) (ui : sidebar_state)
  : result (list date) :=
  d <- dt_of df "Date" ;;
  let days := present (values (dt_date d)) in
  match min_date days, max_date days with
  | Some lo, Some hi => Ok (widget [lo; hi] (date_choice ui))
  | _, _ => Raise ValueError
  end.

(** The date range filter of [main]. *)
Definition date_range_filter (df : DataFrame) (ui : sidebar_state)
  : result DataFrame :=
  if has_column df "Date" then
    date_range <- date_input df ui ;;
    match date_range with
    | [d0; d1] =>
        d <- dt_of df "Date" ;;
        d' <- dt_of df "Date" ;;
        Ok (loc_mask df (mask_and (date_ge (dt_date d) d0)
                                  (date_le (dt_date d') d1)))
    | _ => Ok df
    end
  else Ok df.

(** A multiselect filter of [main]: options and default are the
    distinct values of the column. *)
Definition multiselect_filter (c : string) (choice : option (list cell))
  (df : DataFrame) : result DataFrame :=
  if has_column df c then
    options <- getitem df c ;;
    selected <- multiselect_unique options choice ;;
    s <- getitem df c ;;
    Ok (loc_mask df (isin s selected))
  else Ok df.

Definition product_line_filter (df : DataFrame) (ui : sidebar_state)
  : result DataFrame :=
  multiselect_filter "Product line" (product_choice ui) df.

Definition branch_filter (df : DataFrame) (ui : sidebar_state)
  : result DataFrame :=
  multiselect_filter "Branch" (branch_choice ui) df.

(** The sidebar filters of [main], in order. *)
Definition main_filters (df : DataFrame) (ui : sidebar_state)
  : result DataFrame :=
  df <- date_range_filter df ui ;;
  df <- product_line_filter df ui ;;
  branch_filter df ui.

(** [product_stats] of [show_product_analysis]. *)
Definition product_stats (df : DataFrame) : result DataFrame :=
  stats <- groupby_agg df "Product line"
             [("Total Revenue", "Total", Rsum);
              ("Avg Sale", "Total", Rmean);
              ("Transactions", "Total", Rcount);
              ("Units Sold", "Quantity", Rsum);
              ("Avg Rating", "Rating", Rmean)] ;;
  sort_values (df_round 2 stats) "Total Revenue" false.

(** [df.select_dtypes(include=[np.number]).columns.tolist()] *)
Definition is_number (c : cell) : bool :=
  match c with
  | None | Some (VInt _) | Some (VFloat _) => true
  | Some _ => false
  end.

Definition numeric_dtype (df : DataFrame) (c : string) : bool :=
  match getitem df c with
  | Ok s => forallb is_number (values s)
  | Raise _ => false
  end.

Definition select_dtypes_number (df : DataFrame) : list string :=
  filter (numeric_dtype df) (columns df).

Definition calendar_columns : list string :=
  ["Year"; "Month"; "Day"; "Hour"].

Definition numerical_cols (df : DataFrame) : list string :=
  filter (fun c => negb (existsb (String.eqb c) calendar_columns))
         (select_dtypes_number df).

(** [df[cols].corr()] *)
Definition corr (df : DataFrame) (cols : list string)
  : result corr_matrix :=
  series <- mapM (fun c => s <- getitem df c ;; as_numeric s) cols ;;
  Ok (mkCorr cols
        (map (fun a => map (fun b => pearson (values a) (values b))
                           series)
             series)).

(** [corr_matrix.iloc[i, j]] *)
Definition iloc (m : corr_matrix) (i j : nat) : option Q :=
  nth j (nth i (cm_data m) []) None.

(** The loop that fills [strong_corr]; the source fixes the threshold
    at 0.7.  [abs(nan) > threshold] is false. *)
Definition strong_corr_above (threshold : Q) (m : corr_matrix)
  : list strong_row :=
  let n := List.length (cm_columns m) in
  flat_map
    (fun i =>
       flat_map
         (fun j =>
            match iloc m i j with
            | Some r =>
                if Qle_bool (Qabs r) threshold then []
                else [mkStrong (nth i (cm_columns m) "")
                               (nth j (cm_columns m) "")
                               (round_to 3 r)]
            | None => []
            end)
         (seq (S i) (n - S i)))
    (seq 0 n).

Definition strong_corr (m : corr_matrix) : list strong_row :=
  strong_corr_above (7 # 10) m.

(** [pd.DataFrame(strong_corr)] *)
Definition strong_frame (rows : list strong_row) : DataFrame :=
  mkDF ["Variable 1"; "Variable 2"; "Correlation"]
       (map (fun ir =>
               (VInt (Z.of_nat (fst ir)),
                [Some (VStr (variable_1 (snd ir)));
                 Some (VStr (variable_2 (snd ir)));
                 Some (VFloat (correlation (snd ir)))]))
            (combine (seq 0 (List.length rows)) rows)).

Definition show_correlations (df : DataFrame) : result (list element) :=
  let cols := numerical_cols df in
  if Nat.ltb (List.length cols) 2 then
    Ok [st_header "Correlation Analysis";
        st_warning
          "Not enough numerical columns for correlation analysis"]
  else
    corr_matrix <- corr df cols ;;
    Ok [st_header "Correlation Analysis";
        st_plotly_chart "Correlation";
        st_subheader "Strong Correlations (|r| > 0.7)";
        match strong_corr corr_matrix with
        | [] => st_info "No strong correlations found (|r| > 0.7)"
        | rows => st_dataframe (strong_frame rows)
        end].

End App.

End Retail.

(** [int(df[c].min())] and [int(df[c].max())]: the bounds of a slider over
    a numeric column; a column without any value has no bounds. *)
Definition int_bounds (df : DataFrame) (c : string) : result (Z * Z) :=
  s <- getitem df c ;;
  num <- as_numeric s ;;
  match nanmin (values num), nanmax (values num) with
  | Some lo, Some hi => Ok (truncate lo, truncate hi)
  | _, _ => Raise ValueError
  end.

(** ** Titanic dashboard (project_1_titanic/app.py) *)

Module Titanic.

Record sidebar_state : Type := mkSidebar {
  gender_choice : option (list cell);
  class_choice : option (list cell);
  age_choice : option (Z * Z)
}.

(** [gender_filter = st.multiselect(options=df['Sex'].unique(),
     default=df['Sex'].unique())] *)
Definition gender_filter (df : DataFrame) (ui : sidebar_state)
  : result (list cell) :=
  sex <- getitem df "Sex" ;;
  multiselect_unique sex (gender_choice ui).

(** [class_filter = st.multiselect(options=sorted(df['Pclass'].unique()),
     default=sorted(df['Pclass'].unique()))]
    [sorted] raises when it compares a string with a number, a missing
    value being the float NaN.  The framework then looks every default up
    among the options by equality, and NaN equals nothing, the NaN of the
    other list included: a class column with a gap stops the page. *)
Definition class_filter (df : DataFrame) (ui : sidebar_state)
  : result (list cell) :=
  pclass <- getitem df "Pclass" ;;
  let classes := unique pclass in
  if negb (same_kind classes) then Raise TypeError
  else if existsb (fun c => match c with None => true | Some _ => false end)
                  classes
       then Raise StreamlitAPIException
       else Ok (widget (sorted classes) (class_choice ui)).

(** [age_min, age_max = st.slider(min_value=int(df['Age'].min()),
     max_value=int(df['Age'].max()), value=(0, 80))] *)
Definition age_range (df : DataFrame) (ui : sidebar_state)
  : result (Z * Z) :=
  bounds <- int_bounds df "Age" ;;
  slider (fst bounds) (snd bounds) (0%Z, 80%Z) (age_choice ui).

(** [[
    filtered_df = df[
        (df['Sex'].isin(gender_filter)) &
        (df['Pclass'].isin(class_filter)) &
        (df['Age'].between(age_min, age_max, inclusive='both')
         | df['Age'].isna())]
    ]] *)
Definition apply_filters (df : DataFrame) (gender class : list cell)
  (age_min age_max : Z) : result DataFrame :=
  sex <- getitem df "Sex" ;;
  pclass <- getitem df "Pclass" ;;
  age <- getitem df "Age" ;;
  age_num <- as_numeric age ;;
  Ok (loc_mask df
        (mask_and
           (mask_and (isin sex gender) (isin pclass class))
           (mask_or (between age_num (inject_Z age_min) (inject_Z age_max))
                    (isna age)))).

Definition filtered_df (df : DataFrame) (ui : sidebar_state)
  : result DataFrame :=
  gender <- gender_filter df ui ;;
  class <- class_filter df ui ;;
  range <- age_range df ui ;;
  apply_filters df gender class (fst range) (snd range).

(** The key metrics row: four cards, printed whatever the values. *)
Definition column_mean (df : DataFrame) (c : string) : result (option Q) :=
  s <- getitem df c ;;
  xs <- as_numeric s ;;
  Ok (nanmean (values xs)).

Definition key_metrics (filtered : DataFrame) : result (list element) :=
  let total := int_of_nat (len filtered) in
  survived <- column_mean filtered "Survived" ;;
  let survival_rate := option_map (fun m => m * inject_Z 100)%Q survived in
  avg_age <- column_mean filtered "Age" ;;
  avg_fare <- column_mean filtered "Fare" ;;
  Ok [st_metric_card "Total Passengers" total;
      st_metric_card "Survival Rate" (float_cell survival_rate);
      st_metric_card "Average Age" (float_cell avg_age);
      st_metric_card "Average Fare" (float_cell avg_fare)].

(** [filtered_df.groupby(['Sex', 'Pclass'])['Survived'].mean().unstack()
     * 100]: rows are the sexes, columns the classes of the groups that
    exist; a combination without rows is missing. *)
Record pivot : Type := mkPivot {
  pivot_index : list value;
  pivot_columns : list value;
  pivot_values : list (list (option Q))
}.

Definition complete_keys (a b : list cell) : list (value * value) :=
  flat_map (fun ab => match ab with
                      | (Some x, Some y) => [(x, y)]
                      | _ => []
                      end) (combine a b).

Definition distinct_sorted (l : list value) : list value :=
  present (sorted (unique_cells (map Some l))).

Definition group_mean (a b : list cell) (m : list (option Q))
  (x y : value) : option Q :=
  nanmean (map snd
             (filter (fun abm => cell_eqb (fst (fst abm)) (Some x)
                                 && cell_eqb (snd (fst abm)) (Some y))
                     (combine (combine a b) m))).

Definition pivot_data (filtered : DataFrame) : result pivot :=
  sex <- getitem filtered "Sex" ;;
  pclass <- getitem filtered "Pclass" ;;
  survived <- getitem filtered "Survived" ;;
  m <- as_numeric survived ;;
  let keys := complete_keys (values sex) (values pclass) in
  let index := distinct_sorted (map fst keys) in
  let cols := distinct_sorted (map snd keys) in
  Ok (mkPivot index cols
        (map (fun x =>
                map (fun y =>
                       if existsb (fun k => value_eqb (fst k) x
                                            && value_eqb (snd k) y) keys
                       then option_map (fun v => v * inject_Z 100)%Q
                              (group_mean (values sex) (values pclass)
                                          (values m) x y)
                       else None)
                    cols)
             index)).

(** [pivot_data.empty] *)
Definition pivot_empty (p : pivot) : bool :=
  match pivot_index p, pivot_columns p with
  | [], _ | _, [] => true
  | _, _ => false
  end.

Definition heatmap (filtered : DataFrame) : result (list element) :=
  p <- pivot_data filtered ;;
  if negb (pivot_empty p) then
    Ok [st_plotly_chart "Survival Rate (%) by Gender and Class"]
  else
    Ok [st_warning "No data available for heatmap with current filters."].

End Titanic.

(** ** E-commerce dashboard (project_2_ecommerce/ecommerce_app.py) *)

Module Ecommerce.

Definition clean_data {L : Library} (df : DataFrame) : result DataFrame :=
  let df_clean := df in
  (* Drop missing CustomerID *)
  df_clean <- dropna_subset df_clean "CustomerID" ;;
  (* Fill missing Description *)
  description <- getitem df_clean "Description" ;;
  let df_clean :=
    setitem df_clean "Description"
            (fillna description (VStr "No Description")) in
  (* Remove duplicates *)
  let df_clean := drop_duplicates df_clean in
  (* Convert types *)
  customer <- getitem df_clean "CustomerID" ;;
  customer <- astype_int customer ;;
  let df_clean := setitem df_clean "CustomerID" customer in
  invoice <- getitem df_clean "InvoiceDate" ;;
  invoice <- to_datetime invoice ;;
  let df_clean := setitem df_clean "InvoiceDate" invoice in
  (* Add columns *)
  d <- getitem df_clean "InvoiceDate" ;;
  d <- dt d ;;
  let df_clean := setitem df_clean "Year" (dt_year d) in
  d <- getitem df_clean "InvoiceDate" ;;
  d <- dt d ;;
  let df_clean := setitem df_clean "Month" (dt_month d) in
  quantity <- getitem df_clean "Quantity" ;;
  unit_price <- getitem df_clean "UnitPrice" ;;
  total <- series_mul quantity unit_price ;;
  Ok (setitem df_clean "TotalPrice" total).

(** [dups_clean = df_clean.duplicated().sum()] *)
Definition dups (df : DataFrame) : nat := count_true (duplicated df).

End Ecommerce.

(** ** Netflix dashboard (project_3_netflix/netflix_app.py) *)

Module Netflix.

(** [load_data], on the frame read from the file. *)
Definition load_data {L : Library} (df : DataFrame) : result DataFrame :=
  added <- getitem df "date_added" ;;
  let df := setitem df "date_added" (to_datetime_coerce added) in
  added <- getitem df "date_added" ;;
  d <- dt added ;;
  Ok (setitem df "year_added" (dt_year d)).

Record sidebar_state : Type := mkSidebar {
  type_choice : option (list cell);
  year_choice : option (Z * Z);
  rating_choice : option (list cell)
}.

(** [type_filter = st.multiselect(options=df['type'].unique(),
     default=df['type'].unique())] *)
Definition type_filter (df : DataFrame) (ui : sidebar_state)
  : result (list cell) :=
  ty <- getitem df "type" ;;
  multiselect_unique ty (type_choice ui).

(** [year_min, year_max = st.slider(
       min_value=int(df['release_year'].min()),
       max_value=int(df['release_year'].max()), value=(2000, 2021))] *)
Definition year_range (df : DataFrame) (ui : sidebar_state)
  : result (Z * Z) :=
  bounds <- int_bounds df "release_year" ;;
  slider (fst bounds) (snd bounds) (2000%Z, 2021%Z) (year_choice ui).

(** [ratings = df['rating'].dropna().unique().tolist()], default
    [ratings[:5]]. *)
Definition rating_filter (df : DataFrame) (ui : sidebar_state)
  : result (list cell) :=
  rating <- getitem df "rating" ;;
  Ok (widget (firstn 5 (unique (dropna rating))) (rating_choice ui)).

(** [[
    filtered_df = df[
        (df['type'].isin(type_filter)) &
        (df['release_year'].between(year_min, year_max)) &
        (df['rating'].isin(rating_filter) | df['rating'].isna())]
    ]] *)
Definition apply_filters (df : DataFrame) (types : list cell)
  (year_min year_max : Z) (ratings : list cell) : result DataFrame :=
  ty <- getitem df "type" ;;
  release_year <- getitem df "release_year" ;;
  year_num <- as_numeric release_year ;;
  rating <- getitem df "rating" ;;
  Ok (loc_mask df
        (mask_and
           (mask_and (isin ty types)
                     (between year_num (inject_Z year_min)
                              (inject_Z year_max)))
           (mask_or (isin rating ratings) (isna rating)))).

Definition filtered_df (df : DataFrame) (ui : sidebar_state)
  : result DataFrame :=
  types <- type_filter df ui ;;
  range <- year_range df ui ;;
  ratings <- rating_filter df ui ;;
  apply_filters df types (fst range) (snd range) ratings.

(** [[
    countries_series = filtered_df['country'].dropna()
                                  .str.split(', ').explode()
    top_countries = countries_series.value_counts().head(10)
    ]]
    [filtered_df] is a selection of the rows of [df], the table as
    loaded, and has its dtypes. *)
Definition countries_series (df filtered : DataFrame)
  : result (Series cell) :=
  country <- getitem filtered "country" ;;
  pieces <- str_split (object_column df "country") (dropna country) ;;
  Ok (explode pieces).

Definition top_countries (df filtered : DataFrame)
  : result (list (value * nat)) :=
  s <- countries_series df filtered ;;
  Ok (firstn 10 (value_counts s)).

(** [[
    genres = filtered_df['listed_in'].str.split(', ').explode()
    top_genres = genres.value_counts().head(10)
    ]] *)
Definition genres (df filtered : DataFrame) : result (Series cell) :=
  listed_in <- getitem filtered "listed_in" ;;
  pieces <- str_split (object_column df "listed_in") listed_in ;;
  Ok (explode pieces).

Definition top_genres (df filtered : DataFrame)
  : result (list (value * nat)) :=
  s <- genres df filtered ;;
  Ok (firstn 10 (value_counts s)).

(** [type_counts = filtered_df['type'].value_counts()] *)
Definition type_counts (filtered : DataFrame)
  : result (list (value * nat)) :=
  ty <- getitem filtered "type" ;;
  Ok (value_counts ty).

(** The GroupBy statistics table. *)
Definition stats_spec : list aggregation :=
  [("Total", "show_id", Rcount);
   ("Avg_Year", "release_year", Rmean);
   ("Min_Year", "release_year", Rmin);
   ("Max_Year", "release_year", Rmax);
   ("Std_Year", "release_year", Rstd);
   ("Countries", "country", Rnunique);
   ("Directors", "director", Rnunique)].

Definition stats {L : Library} (filtered : DataFrame) : result DataFrame :=
  grouped <- groupby_agg filtered "type" stats_spec ;;
  Ok (df_round 2 grouped).

End Netflix.

(** ** A concrete library for the worked examples

    Timestamps written as a day ([YYYY-MM-DD], [M/D/YYYY], or [D/M/YYYY]
    when the first number cannot be a month; the digits padded or not),
    optionally followed by [H:M] or [H:M:S], with the formats [%Y-%m-%d],
    [%m/%d/%Y] and [%d/%m/%Y] and their variants with [%H:%M] and
    [%H:%M:%S]; decimal integers; a square root to six decimals; and
    Pearson's coefficient wherever it is a rational number. *)

Module Reference.

Definition digit (c : ascii) : option Z :=
  let n := nat_of_ascii c in
  if (48 <=? n)%nat && (n <=? 57)%nat then Some (Z.of_nat (n - 48))
  else None.

Fixpoint digits (s : string) (acc : Z) : option Z :=
  match s with
  | EmptyString => Some acc
  | String c s' =>
      match digit c with
      | Some d => digits s' (10 * acc + d)%Z
      | None => None
      end
  end.

Definition number (s : string) : option Z :=
  match s with
  | EmptyString => None
  | _ => digits s 0
  end.

Definition numbers (sep : string) (s : string) : option (list Z) :=
  fold_right (fun p acc =>
                match number p, acc with
                | Some z, Some l => Some (z :: l)
                | _, _ => None
                end)
             (Some []) (split sep s).

Definition in_range (lo hi z : Z) : bool := (lo <=? z)%Z && (z <=? hi)%Z.

Definition iso_clock (s : string) : option (Z * Z * Z) :=
  match numbers ":" s with
  | Some [h; m] =>
      if in_range 0 23 h && in_range 0 59 m then Some (h, m, 0%Z) else None
  | Some [h; m; sec] =>
      if in_range 0 23 h && in_range 0 59 m && in_range 0 59 sec
      then Some (h, m, sec) else None
  | _ => None
  end.

Definition iso_day (s : string) : option (Z * Z * Z) :=
  match numbers "-" s, numbers "/" s with
  | Some [y; m; d], _ | _, Some [m; d; y] =>
      if in_range 1 12 m && in_range 1 31 d then Some (y, m, d) else None
  | _, _ => None
  end.

Definition iso_timestamp (v : value) : option timestamp :=
  match v with
  | VStr s =>
      match split " " s with
      | [day] =>
          match iso_day day with
          | Some (y, m, d) => Some (mkTs y m d 0 0 0)
          | None => None
          end
      | [day; clock] =>
          match iso_day day, iso_clock clock with
          | Some (y, m, d), Some (h, mi, sec) => Some (mkTs y m d h mi sec)
          | _, _ => None
          end
      | _ => None
      end
  | VTs t => Some t
  | _ => None
  end.

(** The format guessed from one string. *)
Definition day_format (day : string) : option string :=
  match numbers "-" day, numbers "/" day with
  | Some [y; m; d], _ =>
      if in_range 1 12 m && in_range 1 31 d then Some "%Y-%m-%d" else None
  | _, Some [a; b; y] =>
      if in_range 1 12 a && in_range 1 31 b then Some "%m/%d/%Y"
      else if in_range 1 31 a && in_range 1 12 b then Some "%d/%m/%Y"
           else None
  | _, _ => None
  end.

Definition clock_format (clock : string) : option string :=
  match iso_clock clock, numbers ":" clock with
  | Some _, Some [_; _] => Some "%H:%M"
  | Some _, Some [_; _; _] => Some "%H:%M:%S"
  | _, _ => None
  end.

Definition guess_format (s : string) : option string :=
  match split " " s with
  | [day] => day_format day
  | [day; clock] =>
      match day_format day, clock_format clock with
      | Some d, Some c => Some (d ++ " " ++ c)%string
      | _, _ => None
      end
  | _ => None
  end.

(** One string read by a format. *)
Definition day_by (fmt day : string) : option (Z * Z * Z) :=
  let valid y m d :=
    if in_range 1 12 m && in_range 1 31 d then Some (y, m, d) else None in
  if String.eqb fmt "%Y-%m-%d" then
    match numbers "-" day with Some [y; m; d] => valid y m d | _ => None end
  else if String.eqb fmt "%m/%d/%Y" then
    match numbers "/" day with Some [m; d; y] => valid y m d | _ => None end
  else if String.eqb fmt "%d/%m/%Y" then
    match numbers "/" day with Some [d; m; y] => valid y m d | _ => None end
  else None.

Definition clock_by (fmt clock : string) : option (Z * Z * Z) :=
  match iso_clock clock, numbers ":" clock with
  | Some t, Some [_; _] => if String.eqb fmt "%H:%M" then Some t else None
  | Some t, Some [_; _; _] =>
      if String.eqb fmt "%H:%M:%S" then Some t else None
  | _, _ => None
  end.

Definition read_by_format (fmt : string) (v : value) : option timestamp :=
  match v with
  | VStr s =>
      match split " " fmt, split " " s with
      | [dfmt], [day] =>
          match day_by dfmt day with
          | Some (y, m, d) => Some (mkTs y m d 0 0 0)
          | None => None
          end
      | [dfmt; cfmt], [day; clock] =>
          match day_by dfmt day, clock_by cfmt clock with
          | Some (y, m, d), Some (h, mi, sec) => Some (mkTs y m d h mi sec)
          | _, _ => None
          end
      | _, _ => None
      end
  | _ => None
  end.

Definition hour_minute (v : value) : option (Z * Z) :=
  match v with
  | VStr s =>
      match numbers ":" s with
      | Some [h; m] =>
          if in_range 0 23 h && in_range 0 59 m then Some (h, m) else None
      | _ => None
      end
  | _ => None
  end.

Definition decimal (s : string) : option Z :=
  match s with
  | String "-" s' => option_map Z.opp (number s')
  | _ => number s
  end.

Definition sqrt6 (q : Q) : Q :=
  Z.sqrt (Qfloor (q * inject_Z (10 ^ 12))) # (10 ^ 6).

(** The exact square root of a rational that is a square. *)
Definition exact_root (q : Q) : option Q :=
  let r := Qred q in
  let n := Z.sqrt (Qnum r) in
  let d := Z.sqrt (Z.pos (Qden r)) in
  if ((n * n =? Qnum r) && (d * d =? Z.pos (Qden r)))%Z
  then Some (Qred (n # Z.to_pos d)) else None.

Fixpoint paired (xs ys : list (option Q)) : list (Q * Q) :=
  match xs, ys with
  | Some x :: xs', Some y :: ys' => (x, y) :: paired xs' ys'
  | _ :: xs', _ :: ys' => paired xs' ys'
  | _, _ => []
  end.

Definition total (l : list Q) : Q := fold_left Qplus l 0.

(** n times the co-moment of the paired observations. *)
Definition comoment (ps : list (Q * Q)) (f g : Q * Q -> Q) : Q :=
  inject_Z (Z.of_nat (List.length ps)) * total (map (fun p => f p * g p) ps)
  - total (map f ps) * total (map g ps).

Definition pearson_rational (xs ys : list (option Q)) : option Q :=
  let ps := paired xs ys in
  let sxy := comoment ps fst snd in
  let sxx := comoment ps fst fst in
  let syy := comoment ps snd snd in
  match exact_root (sxx * syy) with
  | Some root => if Qeq_bool root 0 then None else Some (Qred (sxy / root))
  | None => None
  end.

#[export] Instance library : Library := {
  guess_datetime_format := guess_format;
  strptime := read_by_format;
  parse_datetime := iso_timestamp;
  parse_clock := hour_minute;
  int_of_string := decimal;
  sqrt := sqrt6;
  pearson := pearson_rational
}.

End Reference.

(** Frames written row by row, under the default integer index. *)
Definition frame (cols : list string) (rows : list Row) : DataFrame :=
  mkDF cols
       (combine (map (fun n => VInt (Z.of_nat n)) (seq 0 (List.length rows)))
                rows).

Definition str (s : string) : cell := Some (VStr s).
Definition int (z : Z) : cell := Some (VInt z).
Definition float (q : Q) : cell := Some (VFloat q).
Definition nan : cell := None.

(** ** Vocabulary of the statements *)

(** The cells of the column at position [k], row by row. *)
Definition column_of (k : nat) (rs : list (label * Row)) : Series cell :=
  map (fun ir => (fst ir, field k (snd ir))) rs.

(** A mask computed from each row on its own. *)
Definition row_mask (p : Row -> bool) (rs : list (label * Row))
  : Series bool :=
  map (fun ir => (fst ir, p (snd ir))) rs.

Definition member (c : cell) (allowed : list cell) : bool :=
  existsb (cell_eqb c) allowed.

Definition cell_num (c : cell) : option Q :=
  match c with
  | Some v => value_num v
  | None => None
  end.

Definition within (c : cell) (lo hi : Z) : bool :=
  match cell_num c with
  | Some q => Qle_bool (inject_Z lo) q && Qle_bool q (inject_Z hi)
  | None => false
  end.

Definition missing (c : cell) : bool :=
  match c with
  | None => true
  | Some _ => false
  end.

(** The value of column [c] in a row of [df]; missing when the frame has
    no such column. *)
Definition cell_at (df : DataFrame) (c : string) (r : Row) : cell :=
  match index_of c (columns df) with
  | Some k => field k r
  | None => None
  end.

(** Column [c] has no gap, or holds no number: a multiselect over its
    distinct values can be built. *)
Definition no_gap_among_numbers (df : DataFrame) (c : string) : Prop :=
  (forall ir, In ir (records df) ->
              missing (cell_at df c (snd ir)) = false)
  \/ (forall ir, In ir (records df) ->
                 cell_num (cell_at df c (snd ir)) = None).

(** The rows a Titanic filter keeps. *)
Definition titanic_keeps (df : DataFrame) (gender class : list cell)
  (age_min age_max : Z) (r : Row) : bool :=
  member (cell_at df "Sex" r) gender
  && member (cell_at df "Pclass" r) class
  && (within (cell_at df "Age" r) age_min age_max
      || missing (cell_at df "Age" r)).

(** The rows a Netflix filter keeps. *)
Definition netflix_keeps (df : DataFrame) (types : list cell)
  (year_min year_max : Z) (ratings : list cell) (r : Row) : bool :=
  member (cell_at df "type" r) types
  && within (cell_at df "release_year" r) year_min year_max
  && (member (cell_at df "rating" r) ratings
      || missing (cell_at df "rating" r)).

(** A column all of whose present cells are numbers. *)
Definition numeric_column (df : DataFrame) (c : string) : Prop :=
  forall ir, In ir (records df) -> cell_at df c (snd ir) <> None ->
             cell_num (cell_at df c (snd ir)) <> None.

(** A multiselect allows every value of its column: it is untouched, and so
    holds the distinct values of the column, or the chosen values include
    the cell of every row. *)
Definition allows_all (df : DataFrame) (c : string)
  (choice : option (list cell)) : Prop :=
  match choice with
  | None => True
  | Some chosen =>
      forall ir, In ir (records df) ->
                 member (cell_at df c (snd ir)) chosen = true
  end.

(** A range allows every value of its column: each present cell lies in
    it. *)
Definition range_allows_all (df : DataFrame) (c : string) (range : Z * Z)
  : Prop :=
  forall ir, In ir (records df) ->
             missing (cell_at df c (snd ir)) = false ->
             within (cell_at df c (snd ir)) (fst range) (snd range) = true.

(** ** Sample tables *)

Module Samples.

(** Passengers; one has no recorded sex, one no recorded age. *)
Definition titanic : DataFrame :=
  frame ["PassengerId"; "Survived"; "Pclass"; "Sex"; "Age"; "Fare"]
    [[int 1; int 0; int 3; str "male"; float 22; float (29 # 4)];
     [int 2; int 1; int 1; str "female"; float 80; float (7128 # 100)];
     [int 3; int 1; int 3; nan; float (42 # 100); float (79 # 10)];
     [int 4; int 0; int 2; str "male"; nan; float 13]].

Definition titanic_untouched : Titanic.sidebar_state :=
  Titanic.mkSidebar None None None.

(** Passengers of whom one has no recorded class. *)
Definition titanic_class_gap : DataFrame :=
  frame ["PassengerId"; "Survived"; "Pclass"; "Sex"; "Age"; "Fare"]
    [[int 1; int 0; float 3; str "male"; float 22; float (29 # 4)];
     [int 2; int 1; nan; str "female"; float 38; float (7128 # 100)]].

(** The gender selection emptied: no passenger passes the filter. *)
Definition titanic_nobody : Titanic.sidebar_state :=
  Titanic.mkSidebar (Some []) None None.

(** The manifest without its [Sex] column. *)
Definition titanic_without_sex : DataFrame :=
  frame ["PassengerId"; "Survived"; "Pclass"; "Age"; "Fare"]
    [[int 1; int 0; int 3; float 22; float (29 # 4)];
     [int 2; int 1; int 1; float 38; float (7128 # 100)]].

(** Sales; one has no product line, one no total, one no rating. *)
Definition retail : DataFrame :=
  frame ["Invoice ID"; "Branch"; "Product line"; "Quantity"; "Total";
         "Rating"]
    [[str "750-67-8428"; str "A"; str "Health and beauty"; int 7;
      float 10; float (91 # 10)];
     [str "226-31-3081"; str "C"; str "Health and beauty"; int 5;
      float 20; float (96 # 10)];
     [str "631-41-3108"; str "A"; str "Health and beauty"; int 7;
      nan; float (74 # 10)];
     [str "123-19-1176"; str "B"; str "Health and beauty"; int 8;
      float 40; nan];
     [str "373-73-7910"; str "A"; str "Sports and travel"; int 7;
      float 30; float (53 # 10)];
     [str "699-14-3026"; str "B"; nan; int 1; float 5; float 6]].

(** Titles; one has no rating, one no country, one no genre. *)
Definition netflix : DataFrame :=
  frame ["show_id"; "type"; "title"; "director"; "country"; "date_added";
         "release_year"; "rating"; "listed_in"]
    [[str "s1"; str "Movie"; str "Dick Johnson Is Dead";
      str "Kirsten Johnson"; str "United States, France";
      str "2021-09-25"; int 2020; str "PG-13"; str "Documentaries"];
     [str "s2"; str "TV Show"; str "Blood & Water"; nan;
      str "South Africa"; str "2021-09-24"; int 2021; nan;
      str "International TV Shows, TV Dramas"];
     [str "s3"; str "Movie"; str "Sankofa"; str "Haile Gerima"; nan;
      str "2021-09-24"; int 1993; str "TV-MA"; nan];
     [str "s4"; str "Movie"; str "The Starling"; str "Theodore Melfi";
      str "United States"; str "September 24, 2021"; int 2021;
      str "PG-13"; str "Comedies, Dramas"]].

(** The catalog without its [rating] column. *)
Definition netflix_without_rating : DataFrame :=
  frame ["show_id"; "type"; "release_year"]
    [[str "s1"; str "Movie"; int 2020]; [str "s2"; str "TV Show"; int 2021];
     [str "s3"; str "Movie"; int 1993]].

Definition netflix_untouched : Netflix.sidebar_state :=
  Netflix.mkSidebar None None None.

(** Three measured columns between a text column and calendar columns. *)
Definition correlated : DataFrame :=
  frame ["A"; "Year"; "B"; "name"; "C"; "Hour"]
    [[int 1; int 2019; int 4; str "a"; int 12; int 10];
     [int (-1); int 2019; int (-4); str "b"; int (-12); int 11];
     [int 0; int 2020; int 3; str "c"; int 5; int 12];
     [int 0; int 2021; int (-3); str "d"; int (-5); int 13]].

(** The three titles of the grouping scenario. *)
Definition catalog : DataFrame :=
  frame ["type"; "year"]
    [[str "Movie"; int 2000]; [str "Movie"; int 2010];
     [str "TV Show"; int 2005]].

(** Order lines as read from the file: the second repeats the first, the
    third has no description, the fourth no customer. *)
Definition order_columns : list string :=
  ["InvoiceNo"; "StockCode"; "Description"; "Quantity"; "InvoiceDate";
   "UnitPrice"; "CustomerID"; "Country"].

Definition orders : DataFrame :=
  frame order_columns
    [[str "536365"; str "85123A"; str "WHITE HANGING HEART T-LIGHT HOLDER";
      int 6; str "12/1/2010 8:26"; float (255 # 100); float 17850;
      str "United Kingdom"];
     [str "536365"; str "85123A"; str "WHITE HANGING HEART T-LIGHT HOLDER";
      int 6; str "12/1/2010 8:26"; float (255 # 100); float 17850;
      str "United Kingdom"];
     [str "536366"; str "22633"; nan; int 6; str "12/1/2010 8:28";
      float (185 # 100); float 17850; str "United Kingdom"];
     [str "536367"; str "84879"; str "ASSORTED COLOUR BIRD ORNAMENT";
      int 32; str "12/1/2010 8:34"; float (169 # 100); nan;
      str "United Kingdom"]].

(** Two order lines that differ only in how the invoice date is
    written. *)
Definition orders_restamped : DataFrame :=
  frame order_columns
    [[str "536365"; str "85123A"; str "WHITE HANGING HEART T-LIGHT HOLDER";
      int 6; str "12/1/2010 8:26"; float (255 # 100); float 17850;
      str "United Kingdom"];
     [str "536365"; str "85123A"; str "WHITE HANGING HEART T-LIGHT HOLDER";
      int 6; str "12/01/2010 08:26"; float (255 # 100); float 17850;
      str "United Kingdom"]].

(** Two order lines that differ only in the fraction of the customer
    number. *)
Definition orders_fractional : DataFrame :=
  frame order_columns
    [[str "536365"; str "85123A"; str "WHITE HANGING HEART T-LIGHT HOLDER";
      int 6; str "12/1/2010 8:26"; float (255 # 100); float (178502 # 10);
      str "United Kingdom"];
     [str "536365"; str "85123A"; str "WHITE HANGING HEART T-LIGHT HOLDER";
      int 6; str "12/1/2010 8:26"; float (255 # 100); float (178507 # 10);
      str "United Kingdom"]].

(** Supermarket sales as read from the file. *)
Definition sales : DataFrame :=
  frame ["Invoice ID"; "Branch"; "Product line"; "Total"; "Date"; "Time"]
    [[str "750-67-8428"; str "A"; str "Health and beauty"; float 10;
      str "1/5/2019"; str "13:08"];
     [str "226-31-3081"; str "C"; str "Electronic accessories"; float 20;
      str "3/8/2019"; str "10:29"];
     [str "631-41-3108"; str "A"; nan; float 30; str "3/3/2019";
      str "13:23"]].

(** The sales after [load_data]. *)
Definition sales_loaded : DataFrame :=
  match Retail.load_data (L := Reference.library) sales with
  | Some loaded => loaded
  | None => sales
  end.

(** Sales of which the second has no date, as read and after
    [load_data]. *)
Definition sales_undated : DataFrame :=
  frame ["Invoice ID"; "Branch"; "Product line"; "Total"; "Date"; "Time"]
    [[str "750-67-8428"; str "A"; str "Health and beauty"; float 10;
      str "1/5/2019"; str "13:08"];
     [str "226-31-3081"; str "C"; str "Electronic accessories"; float 20;
      nan; str "10:29"];
     [str "631-41-3108"; str "A"; nan; float 30; str "3/3/2019";
      str "13:23"]].

Definition sales_undated_loaded : DataFrame :=
  match Retail.load_data (L := Reference.library) sales_undated with
  | Some loaded => loaded
  | None => sales_undated
  end.

(** Sales whose dates are written in two ways. *)
Definition sales_mixed_dates : DataFrame :=
  frame ["Invoice ID"; "Total"; "Date"]
    [[str "750-67-8428"; float 10; str "1/5/2019"];
     [str "226-31-3081"; float 20; str "2019-03-08"]].

(** The second of these sales alone. *)
Definition sales_iso_date : DataFrame :=
  frame ["Invoice ID"; "Total"; "Date"]
    [[str "226-31-3081"; float 20; str "2019-03-08"]].

(** Sales whose first date can only be read day first. *)
Definition sales_day_first : DataFrame :=
  frame ["Invoice ID"; "Total"; "Date"]
    [[str "750-67-8428"; float 10; str "13/1/2019"];
     [str "226-31-3081"; float 20; str "3/4/2019"]].

(** Titles whose dates are written in two ways, and the second alone. *)
Definition titles_mixed_dates : DataFrame :=
  frame ["show_id"; "date_added"]
    [[str "s1"; str "2021-09-25"]; [str "s2"; str "9/24/2021"]].

Definition titles_second : DataFrame :=
  frame ["show_id"; "date_added"] [[str "s2"; str "9/24/2021"]].

Definition retail_health_only : Retail.sidebar_state :=
  Retail.mkSidebar None (Some [str "Health and beauty"]) None.

Definition retail_untouched : Retail.sidebar_state :=
  Retail.mkSidebar None None None.

(** Sales without the [Product line] and [Branch] columns. *)
Definition retail_bare : DataFrame :=
  frame ["Invoice ID"; "Total"]
    [[str "750-67-8428"; float 10]; [str "226-31-3081"; float 20]].

End Samples.

(** A selection that holds the missing value itself, as the distinct
    values of a column with gaps do. *)
Definition selects_missing (chosen : list cell) : bool := member None chosen.

(** ** Vocabulary of the correlation statements *)

(** Position pairs in reading order of the upper triangle. *)
Definition pair_lt (p q : nat * nat) : Prop :=
  (fst p < fst q)%nat \/ (fst p = fst q /\ (snd p < snd q)%nat).

Definition coefficient (m : Retail.corr_matrix) (ij : nat * nat) : Q :=
  match Retail.iloc m (fst ij) (snd ij) with
  | Some r => r
  | None => 0
  end.

(** The row reported for the pair of columns at positions [ij]. *)
Definition strong_row_of (m : Retail.corr_matrix) (ij : nat * nat)
  : Retail.strong_row :=
  Retail.mkStrong (nth (fst ij) (Retail.cm_columns m) "")
                  (nth (snd ij) (Retail.cm_columns m) "")
                  (round_to 3 (coefficient m ij)).

(** The numeric view of a column of the frame. *)
Definition column_values (df : DataFrame) (c : string) : list (option Q) :=
  match getitem df c with
  | Ok s => map cell_num (values s)
  | Raise _ => []
  end.

(** Rows listed by descending absolute coefficient. *)
Definition descending_abs (rows : list Retail.strong_row) : Prop :=
  StronglySorted
    (fun a b => Qabs (Retail.correlation b) <= Qabs (Retail.correlation a))
    rows.

(** The position pairs that the loop of [strong_corr] keeps. *)
Definition kept_pairs (threshold : Q) (m : Retail.corr_matrix)
  : list (nat * nat) :=
  let n := List.length (Retail.cm_columns m) in
  flat_map
    (fun i =>
       flat_map
         (fun j =>
            match Retail.iloc m i j with
            | Some r => if Qle_bool (Qabs r) threshold then [] else [(i, j)]
            | None => []
            end)
         (seq (S i) (n - S i)))
    (seq 0 n).

(** ** Vocabulary of the explode statements *)

Fixpoint string_drop (n : nat) (s : string) : string :=
  match n, s with
  | O, _ => s
  | S n', String _ s' => string_drop n' s'
  | S _, EmptyString => EmptyString
  end.

(** The output rows that one input row gives: one per piece of a string
    cell, under the label of the row; one missing row for a cell that is
    not a string; for a missing cell one missing row or none. *)
Definition exploded_rows (sep : string) (keep_missing : bool)
  (ic : label * cell) : Series cell :=
  match snd ic with
  | Some (VStr x) => map (fun p => (fst ic, Some (VStr p))) (split sep x)
  | Some _ => [(fst ic, None)]
  | None => if keep_missing then [(fst ic, None)] else []
  end.

(** [sep] occurs inside [x]. *)
Definition occurs (sep x : string) : Prop :=
  exists a b, x = (a ++ sep ++ b)%string.

(** No occurrence of [sep] starts inside [cur] in the text [cur ++ s]. *)
Definition clean (sep cur s : string) : Prop :=
  forall a t, cur = (a ++ t)%string -> t <> "" ->
              String.prefix sep (t ++ s) = false.

(** ** Vocabulary of the aggregation statements *)

(** Reductions of a list of plain numbers, none missing. *)
Definition Qsum (l : list Q) : Q := fold_left Qplus l 0.

Definition mean_of (l : list Q) : option Q :=
  match l with
  | [] => None
  | _ :: _ => Some (Qsum l / inject_Z (Z.of_nat (List.length l)))
  end.

Fixpoint min_of (l : list Q) : option Q :=
  match l with
  | [] => None
  | q :: l' =>
      match min_of l' with
      | None => Some q
      | Some m => Some (if Qle_bool q m then q else m)
      end
  end.

Fixpoint max_of (l : list Q) : option Q :=
  match l with
  | [] => None
  | q :: l' =>
      match max_of l' with
      | None => Some q
      | Some m => Some (if Qle_bool m q then q else m)
      end
  end.

Definition var_of (l : list Q) : option Q :=
  match l with
  | [] | [_] => None
  | _ =>
      let n := inject_Z (Z.of_nat (List.length l)) in
      let m := Qsum l / n in
      Some (fold_left (fun acc q => acc + (q - m) * (q - m)) l 0
            / inject_Z (Z.of_nat (List.length l) - 1))
  end.

Definition over_present {L : Library} (r : reduction) (l : list Q) : cell :=
  match r with
  | Rsum => Some (VFloat (Qsum l))
  | Rmean => float_cell (mean_of l)
  | Rmin => float_cell (min_of l)
  | Rmax => float_cell (max_of l)
  | Rstd => float_cell (option_map sqrt (var_of l))
  | Rcount | Rnunique => int_of_nat (List.length l)
  end.

Definition skips_missing (r : reduction) : bool :=
  match r with
  | Rsum | Rmean | Rstd | Rmin | Rmax => true
  | Rcount | Rnunique => false
  end.

(** The rows of [df] whose [by_] cell equals the key. *)
Definition group_of (df : DataFrame) (by_ : string) (key : value)
  : DataFrame :=
  mkDF (columns df)
       (filter (fun ir => cell_eqb (cell_at df by_ (snd ir)) (Some key))
               (records df)).

(** The present numbers of the column [c] of a frame. *)
Definition present_numbers (df : DataFrame) (c : string) : list Q :=
  present (column_values df c).

Definition pairwise_distinct (keys : list value) : Prop :=
  ForallOrdPairs (fun a b => value_eqb a b = false) keys.

(** ** Vocabulary of the derived-column statements *)

(** The position a column assignment writes to. *)
Definition slot (df : DataFrame) (c : string) : nat :=
  match index_of c (columns df) with
  | Some k => k
  | None => List.length (columns df)
  end.

(** A Series computed from each row of the frame on its own. *)
Definition row_series (f : Row -> cell) (df : DataFrame) : Series cell :=
  map (fun ir => (fst ir, f (snd ir))) (records df).

Definition timestamp_of (c : cell) : option timestamp :=
  match c with
  | Some (VTs t) => Some t
  | _ => None
  end.

(** The calendar part [part] of a timestamp cell. *)
Definition calendar_part (part : timestamp -> Z) (c : cell) : cell :=
  int_cell part (timestamp_of c).

Definition clock_hour_of (c : cell) : cell :=
  match c with
  | Some (VTime h _) => Some (VInt h)
  | _ => None
  end.

(** The product of two cells of one row. *)
Definition cell_product (a b : cell) : cell :=
  match a, b with
  | Some u, Some v =>
      match mul_value u v with
      | Ok w => Some w
      | Raise _ => None
      end
  | _, _ => None
  end.


Definition is_int (c : cell) : bool :=
  match c with
  | Some (VInt _) => true
  | _ => false
  end.

(** A date cell lies in the range of days [d0 .. d1]; a missing date does
    not. *)
Definition date_within (c : cell) (d0 d1 : date) : bool :=
  match timestamp_of c with
  | Some t => date_leb d0 (ts_date t) && date_leb (ts_date t) d1
  | None => false
  end.

(** The date range of the retail sidebar allows every row: there is no
    date column, or the range is incomplete and so not applied, or every
    row has a date within it. *)
Definition date_range_allows_all (df : DataFrame)
  (ui : Retail.sidebar_state) : Prop :=
  has_column df "Date" = false
  \/ exists dates,
       Retail.date_input df ui = Ok dates
       /\ match dates with
          | [d0; d1] =>
              forall ir, In ir (records df) ->
                         date_within (cell_at df "Date" (snd ir)) d0 d1 = true
          | _ => True
          end.

(** What [astype(int)] makes of one cell when the cast succeeds: a float
    loses its fraction, and becomes the smallest 64-bit integer when it
    lies beyond the 64-bit range. *)
Definition int_cast {L : Library} (c : cell) : cell :=
  match c with
  | Some (VInt z) => Some (VInt z)
  | Some (VFloat q) =>
      Some (VInt (if ((- 2 ^ 63 <=? truncate q) && (truncate q <? 2 ^ 63))%Z
                  then truncate q else (- 2 ^ 63)%Z))
  | Some (VStr x) => option_map VInt (int_of_string x)
  | _ => None
  end.

(** A cell that [pd.to_datetime] reads as a missing timestamp. *)
Definition null_like (c : cell) : bool :=
  match c with
  | None => true
  | Some (VStr x) => nat_string x
  | Some _ => false
  end.

(** The format that [pd.to_datetime] reads column [c] by: the one guessed
    from the cell of the first row whose cell is not read as missing, when
    that cell is a string and a format can be guessed from it. *)
Definition column_format {L : Library} (df : DataFrame) (c : string)
  : option string :=
  match find (fun ir => negb (null_like (cell_at df c (snd ir))))
             (records df) with
  | Some ir => match cell_at df c (snd ir) with
               | Some (VStr x) => guess_datetime_format x
               | _ => None
               end
  | None => None
  end.

(** One value read by the format of its column, or on its own when the
    column has none. *)
Definition read_value {L : Library} (fmt : option string) (v : value)
  : option timestamp :=
  match fmt with
  | Some f => strptime f v
  | None => parse_datetime v
  end.

(** What [pd.to_datetime] makes of one cell of a column read by [fmt]:
    the timestamp read, or a missing value when the cell cannot be
    read. *)
Definition datetime_cast {L : Library} (fmt : option string) (c : cell)
  : cell :=
  match c with
  | Some (VTs x) => Some (VTs x)
  | Some v => if null_like c then None else option_map VTs (read_value fmt v)
  | None => None
  end.

(** ** Further primitives, used by the views *)

(** [df.groupby(by)[col].sum()] and the like: one value per group, under
    the key of the group. *)
Definition groupby_reduce {L : Library} (df : DataFrame) (by_ col : string)
  (r : reduction) : result (Series cell) :=
  gs <- groupby df by_ ;;
  _ <- getitem df col ;;
  mapM (fun kg => s <- getitem (snd kg) col ;;
                  v <- reduce r s ;; Ok (fst kg, v)) gs.

(** [s.sort_values(ascending=...)] on a Series: missing values last. *)
Definition series_sort_values (ascending : bool) (s : Series cell)
  : Series cell :=
  sort_by (fun a b => sort_leb ascending (snd a) (snd b)) s.

(** [s.reset_index()]: the index becomes a column beside the values, under
    a fresh integer index. *)
Definition reset_index (index_name value_name : string) (s : Series cell)
  : DataFrame :=
  frame [index_name; value_name] (map (fun kv => [Some (fst kv); snd kv]) s).

(** [s.reindex(labels)]: the value under each label, missing where the
    Series has none.  The index of [s] holds each label once. *)
Definition lookup (k : label) (s : Series cell) : cell :=
  match find (fun kv => value_eqb (fst kv) k) s with
  | Some kv => snd kv
  | None => None
  end.

Definition reindex (labels : list label) (s : Series cell) : Series cell :=
  map (fun k => (k, lookup k s)) labels.

(** [s == v] *)
Definition eq_mask (s : Series cell) (v : value) : Series bool :=
  smap (fun c => cell_eqb c (Some v)) s.

(** [s.nunique()] *)
Definition nunique (s : Series cell) : nat :=
  List.length (unique (dropna s)).

(** [s * k] for a scalar [k]. *)
Fixpoint series_mul_scalar (s : Series cell) (k : value)
  : result (Series cell) :=
  match s with
  | [] => Ok []
  | (i, Some v) :: s' =>
      w <- mul_value v k ;;
      t <- series_mul_scalar s' k ;; Ok ((i, Some w) :: t)
  | (i, None) :: s' => t <- series_mul_scalar s' k ;; Ok ((i, None) :: t)
  end.

(** [s.map(d)] for a dict [d]: a value that is no key of the dict, and a
    missing value, give a missing value. *)
Definition map_dict (d : list (value * value)) (s : Series cell)
  : Series cell :=
  smap (fun c => match c with
                 | Some v =>
                     option_map snd (find (fun kv => value_eqb v (fst kv)) d)
                 | None => None
                 end) s.

(** [df.dropna()]: the rows without any missing cell. *)
Definition df_dropna (df : DataFrame) : DataFrame :=
  mkDF (columns df)
       (filter (fun ir => forallb (fun c => match c with
                                            | Some _ => true
                                            | None => false
                                            end) (snd ir))
               (records df)).



(** [px.pie(values=..., names=...)]: the plotting library refuses
    arguments of different lengths; the k-th name labels the k-th value. *)
Definition px_pie {A : Type} (values_ : list A) (names : list string)
  : result (list (string * A)) :=
  if Nat.eqb (List.length names) (List.length values_)
  then Ok (combine names values_)
  else Raise ValueError.

(** ** Grouping by several columns *)

Fixpoint key_eqb (a b : list value) : bool :=
  match a, b with
  | [], [] => true
  | x :: a', y :: b' => value_eqb x y && key_eqb a' b'
  | _, _ => false
  end.

(** Keys are ordered column by column. *)
Fixpoint key_leb (a b : list value) : bool :=
  match a, b with
  | [], _ => true
  | _ :: _, [] => false
  | x :: a', y :: b' => if value_eqb x y then key_leb a' b' else value_leb x y
  end.

(** The key of a row: its values at the key columns, when none is
    missing. *)
Fixpoint row_key (ks : list nat) (r : Row) : option (list value) :=
  match ks with
  | [] => Some []
  | k :: ks' =>
      match field k r, row_key ks' r with
      | Some v, Some key => Some (v :: key)
      | _, _ => None
      end
  end.

Fixpoint unique_keys (l : list (list value)) : list (list value) :=
  match l with
  | [] => []
  | k :: l' => k :: filter (fun d => negb (key_eqb k d)) (unique_keys l')
  end.

Definition indices_of (by_ : list string) (cols : list string)
  : result (list nat) :=
  mapM (fun c => match index_of c cols with
                 | Some k => Ok k
                 | None => Raise (KeyError c)
                 end) by_.

(** [df.groupby([c1, c2, ...])]: each key with the sub-frame of its rows,
    the keys sorted; a row with a missing value in a key column is in no
    group. *)
Definition groupby_columns (df : DataFrame) (by_ : list string)
  : result (list (list value * DataFrame)) :=
  match by_ with
  | [] => Raise ValueError
  | _ =>
      ks <- indices_of by_ (columns df) ;;
      let keys :=
        sort_by key_leb
          (unique_keys
             (present (map (fun ir => row_key ks (snd ir)) (records df)))) in
      Ok (map (fun key =>
                 (key,
                  mkDF (columns df)
                       (filter (fun ir => match row_key ks (snd ir) with
                                          | Some k => key_eqb k key
                                          | None => false
                                          end) (records df))))
              keys)
  end.

(** [df.groupby([c1, c2, ...]).size()] *)
Definition groupby_columns_size (df : DataFrame) (by_ : list string)
  : result (list (list value * nat)) :=
  gs <- groupby_columns df by_ ;;
  Ok (map (fun kg => (fst kg, len (snd kg))) gs).

(** ** Retail dashboard: the data behind the pages *)

Module RetailViews.

Section Views.
Context {L : Library}.

(** [show_overview]: [total_revenue = df['Total'].sum()] *)
Definition total_revenue (df : DataFrame) : result cell :=
  total <- getitem df "Total" ;; reduce Rsum total.

(** [df.groupby('Product line')['Total'].sum()
       .sort_values(ascending=True)] *)
Definition product_revenue (df : DataFrame) : result (Series cell) :=
  revenue <- groupby_reduce df "Product line" "Total" Rsum ;;
  Ok (series_sort_values true revenue).

(** [df.groupby('Branch')['Total'].sum()] *)
Definition branch_revenue (df : DataFrame) : result (Series cell) :=
  groupby_reduce df "Branch" "Total" Rsum.

(** [df.groupby('Product line')['Quantity'].sum()
       .sort_values(ascending=True)] *)
Definition qty_data (df : DataFrame) : result (Series cell) :=
  qty <- groupby_reduce df "Product line" "Quantity" Rsum ;;
  Ok (series_sort_values true qty).

(** [df.groupby('DayOfWeek')['Total'].sum().reindex(['Monday', ...,
     'Sunday'])] *)
Definition dow_data (df : DataFrame) : result (Series cell) :=
  revenue <- groupby_reduce df "DayOfWeek" "Total" Rsum ;;
  Ok (reindex [VStr "Monday"; VStr "Tuesday"; VStr "Wednesday";
               VStr "Thursday"; VStr "Friday"; VStr "Saturday";
               VStr "Sunday"] revenue).

(** [df.groupby('Hour')['Total'].sum()] *)
Definition hourly_data (df : DataFrame) : result (Series cell) :=
  groupby_reduce df "Hour" "Total" Rsum.

End Views.

End RetailViews.

(** ** Titanic dashboard: the data behind the charts *)

Module TitanicViews.

Section Views.
Context {L : Library}.

(** [[
    gender_survival = filtered_df.groupby('Sex')['Survived'].mean()
                                 .reset_index()
    gender_survival['Survived'] = gender_survival['Survived'] * 100
    ]] *)
Definition gender_survival (filtered : DataFrame) : result DataFrame :=
  rate <- groupby_reduce filtered "Sex" "Survived" Rmean ;;
  let gender_survival := reset_index "Sex" "Survived" rate in
  survived <- getitem gender_survival "Survived" ;;
  scaled <- series_mul_scalar survived (VInt 100) ;;
  Ok (setitem gender_survival "Survived" scaled).

(** [[
    class_survival = filtered_df.groupby('Pclass')['Survived'].mean()
                                .reset_index()
    class_survival['Survived'] = class_survival['Survived'] * 100
    class_survival['Class'] = class_survival['Pclass'].map(
        {1: '1st Class', 2: '2nd Class', 3: '3rd Class'})
    ]] *)
Definition class_survival (filtered : DataFrame) : result DataFrame :=
  rate <- groupby_reduce filtered "Pclass" "Survived" Rmean ;;
  let class_survival := reset_index "Pclass" "Survived" rate in
  survived <- getitem class_survival "Survived" ;;
  scaled <- series_mul_scalar survived (VInt 100) ;;
  let class_survival := setitem class_survival "Survived" scaled in
  pclass <- getitem class_survival "Pclass" ;;
  Ok (setitem class_survival "Class"
        (map_dict [(VInt 1, VStr "1st Class"); (VInt 2, VStr "2nd Class");
                   (VInt 3, VStr "3rd Class")] pclass)).

(** The table behind the age histogram:
    [filtered_df.dropna(subset=['Age'])]. *)
Definition age_distribution (filtered : DataFrame) : result DataFrame :=
  dropna_subset filtered "Age".

(** [survival_counts = filtered_df['Survived'].value_counts()] *)
Definition survival_counts (filtered : DataFrame)
  : result (list (value * nat)) :=
  survived <- getitem filtered "Survived" ;;
  Ok (value_counts survived).

(** [px.pie(values=survival_counts.values,
            names=['Did Not Survive', 'Survived'], ...)] *)
Definition survival_pie (filtered : DataFrame)
  : result (list (string * nat)) :=
  counts <- survival_counts filtered ;;
  px_pie (map snd counts) ["Did Not Survive"; "Survived"].



End Views.

End TitanicViews.

(** ** E-commerce dashboard: the data behind the metrics and charts *)

Module EcommerceViews.

Section Views.
Context {L : Library}.

(** The sidebar's "Rows Removed": [len(df_original) - len(df_clean)]. *)
Definition rows_removed (df_original df_clean : DataFrame) : Z :=
  Z.of_nat (len df_original) - Z.of_nat (len df_clean).

(** [df_clean.groupby('Country')['TotalPrice'].sum()
            .sort_values(ascending=False).head(10)] *)
Definition country_sales (df_clean : DataFrame) : result (Series cell) :=
  sales <- groupby_reduce df_clean "Country" "TotalPrice" Rsum ;;
  Ok (firstn 10 (series_sort_values false sales)).

(** [df_clean.groupby('Month')['TotalPrice'].sum()] *)
Definition monthly_sales (df_clean : DataFrame) : result (Series cell) :=
  groupby_reduce df_clean "Month" "TotalPrice" Rsum.

End Views.

End EcommerceViews.

(** ** Netflix dashboard: the data behind the metrics and charts *)

Module NetflixViews.

(** [len(filtered_df[filtered_df['type'] == v])] *)
Definition count_type (filtered : DataFrame) (v : string) : result nat :=
  ty <- getitem filtered "type" ;;
  Ok (len (loc_mask filtered (eq_mask ty (VStr v)))).

Definition movies (filtered : DataFrame) : result nat :=
  count_type filtered "Movie".

Definition tv_shows (filtered : DataFrame) : result nat :=
  count_type filtered "TV Show".

(** [[
    yearly = filtered_df.groupby(['release_year', 'type']).size()
                        .reset_index(name='count')
    ]] *)
Definition yearly (filtered : DataFrame) : result DataFrame :=
  sizes <- groupby_columns_size filtered ["release_year"; "type"] ;;
  Ok (frame ["release_year"; "type"; "count"]
        (map (fun kn => map Some (fst kn) ++ [int_of_nat (snd kn)]) sizes)).

(** [rating_counts = filtered_df['rating'].value_counts().head(10)] *)
Definition rating_counts (filtered : DataFrame)
  : result (list (value * nat)) :=
  rating <- getitem filtered "rating" ;;
  Ok (firstn 10 (value_counts rating)).

(** [[
    added = filtered_df.groupby('year_added').size()
                       .reset_index(name='count')
    added = added.dropna()
    ]] *)
Definition added_counts (filtered : DataFrame) : result DataFrame :=
  sizes <- groupby_size filtered "year_added" ;;
  Ok (reset_index "year_added" "count" sizes).

Definition added (filtered : DataFrame) : result DataFrame :=
  added <- added_counts filtered ;;
  Ok (df_dropna added).

End NetflixViews.

(** ** Vocabulary of the view statements *)

(** The number a cell holds; 0 for a cell without a number. *)
Definition number_of (c : cell) : Q :=
  match cell_num c with
  | Some q => q
  | None => 0
  end.

(** The rows of [df] that have a value in column [c]. *)
Definition having (df : DataFrame) (c : string) : DataFrame :=
  mkDF (columns df)
       (filter (fun ir => negb (missing (cell_at df c (snd ir))))
               (records df)).

(** The sum of the values of a Series. *)
Definition series_total (s : Series cell) : Q :=
  Qsum (map (fun kv => number_of (snd kv)) s).

(** Values listed in increasing, or decreasing, order. *)
Definition increasing (s : Series cell) : Prop :=
  StronglySorted (fun a b => number_of (snd a) <= number_of (snd b)) s.

Definition decreasing (s : Series cell) : Prop :=
  StronglySorted (fun a b => number_of (snd b) <= number_of (snd a)) s.

(** A list taken from another by leaving entries out. *)
Inductive subsequence {A : Type} : list A -> list A -> Prop :=
| subsequence_nil : forall l, subsequence [] l
| subsequence_keep : forall a l l',
    subsequence l l' -> subsequence (a :: l) (a :: l')
| subsequence_skip : forall a l l',
    subsequence l l' -> subsequence l (a :: l').

(** A cell that holds a timestamp, or nothing. *)
Definition timestamp_cell (c : cell) : bool :=
  match c with
  | None | Some (VTs _) => true
  | Some _ => false
  end.

(** Row [ir'] of [df'] is the row [ir] of [df], under the same label, with
    the same cells in the columns that are not listed. *)
Definition same_row_outside (cs : list string) (df df' : DataFrame)
  (ir ir' : label * Row) : Prop :=
  fst ir' = fst ir
  /\ forall c, ~ In c cs -> cell_at df' c (snd ir') = cell_at df c (snd ir).

(** The cell can be read by [pd.to_datetime] in a column read by [fmt]:
    it is read as missing, it is a timestamp, or it is a value that the
    format, or the parser when there is no format, accepts. *)
Definition parses_as_datetime {L : Library} (fmt : option string) (c : cell)
  : bool :=
  match c with
  | None | Some (VTs _) => true
  | Some v => null_like c
              || match read_value fmt v with Some _ => true | None => false end
  end.

(** The cell can be read as a clock time: it is missing or a value that
    the clock parser accepts. *)
Definition parses_as_clock {L : Library} (c : cell) : bool :=
  match c with
  | None => true
  | Some v => match parse_clock v with Some _ => true | None => false end
  end.

(** What [pd.to_datetime(..., format='%H:%M').dt.time] makes of one cell
    when the parse succeeds. *)
Definition clock_cast {L : Library} (c : cell) : cell :=
  match c with
  | Some v => match parse_clock v with
              | Some (h, m) => Some (VTime h m)
              | None => None
              end
  | None => None
  end.

(** The month name and the day name of a timestamp cell. *)
Definition month_name_of (c : cell) : cell :=
  match timestamp_of c with
  | Some t => name_cell month_names (ts_month t - 1)
  | None => None
  end.

Definition day_name_of (c : cell) : cell :=
  match timestamp_of c with
  | Some t => name_cell day_names (weekday t)
  | None => None
  end.

(** A frame whose [Date] column exists and holds timestamps. *)
Definition dated (df : DataFrame) : Prop :=
  has_column df "Date" = true
  /\ forall ir, In ir (records df) ->
                timestamp_cell (cell_at df "Date" (snd ir)) = true.

Definition calendar_names : list string :=
  ["Date"; "Year"; "Month"; "Month_Name"; "Day"; "DayOfWeek"].

(** Row [ir'] of the loaded retail frame against the row [ir] of the file
    it comes from: the same label, the date read from the file's cell, the
    names of its month and day, the clock time read from the file's cell,
    and the file's cells in every column that [load_data] does not
    assign. *)
Definition loaded_row {L : Library} (df loaded : DataFrame)
  (ir ir' : label * Row) : Prop :=
  let date := cell_at loaded "Date" (snd ir') in
  fst ir' = fst ir
  /\ date = datetime_cast (column_format df "Date")
                         (cell_at df "Date" (snd ir))
  /\ cell_at loaded "Month_Name" (snd ir') = month_name_of date
  /\ cell_at loaded "DayOfWeek" (snd ir') = day_name_of date
  /\ (has_column df "Time" = true ->
      cell_at loaded "Time" (snd ir')
      = clock_cast (cell_at df "Time" (snd ir)))
  /\ (has_column df "Time" = false ->
      cell_at loaded "Hour" (snd ir') = cell_at df "Hour" (snd ir))
  /\ forall c, ~ In c (calendar_names ++ ["Time"; "Hour"]) ->
               cell_at loaded c (snd ir') = cell_at df c (snd ir).

(** The frame with column [c] computed from the [Date] of each row. *)
Definition with_calendar (c : string) (h : cell -> cell) (df : DataFrame)
  : DataFrame :=
  setitem df c (row_series (fun r => h (cell_at df "Date" r)) df).

(** The calendar columns of [load_data], added one after the other to a
    frame whose dates are parsed. *)
Definition with_calendar_columns (df : DataFrame) : DataFrame :=
  with_calendar "DayOfWeek" day_name_of
    (with_calendar "Day" (calendar_part ts_day)
       (with_calendar "Month_Name" month_name_of
          (with_calendar "Month" (calendar_part ts_month)
             (with_calendar "Year" (calendar_part ts_year) df)))).

(** The frame with its [Date] column parsed. *)
Definition with_parsed_dates {L : Library} (df : DataFrame) : DataFrame :=
  setitem df "Date"
          (row_series (fun r => datetime_cast (column_format df "Date")
                                              (cell_at df "Date" r)) df).

(** The frame with its [Time] column parsed and the [Hour] column
    computed from it. *)
Definition with_clock {L : Library} (df : DataFrame) : DataFrame :=
  setitem df "Time"
          (row_series (fun r => clock_cast (cell_at df "Time" r)) df).

Definition with_hours (df : DataFrame) : DataFrame :=
  setitem df "Hour"
          (row_series (fun r => clock_hour_of (cell_at df "Time" r)) df).

(** The block of [load_data] under [if 'Time' in df.columns]. *)
Definition clock_steps {L : Library} (df : DataFrame) : result DataFrame :=
  if has_column df "Time" then
    raw_time <- getitem df "Time" ;;
    clock <- to_clock raw_time ;;
    let df := setitem df "Time" clock in
    time <- getitem df "Time" ;;
    Ok (setitem df "Hour" (clock_hour time))
  else Ok df.

(** Some row of the frame falls on the named day of the week. *)
Definition sold_on (df : DataFrame) (day : string) : bool :=
  existsb (fun ir => cell_eqb (cell_at df "DayOfWeek" (snd ir))
                              (Some (VStr day)))
          (records df).

(** What a multiselect lets through: every value while untouched on the
    table it was built from, the chosen values otherwise. *)
Definition allowed (choice : option (list cell)) (c : cell) : bool :=
  match choice with
  | Some chosen => member c chosen
  | None => true
  end.

(** The rows the retail sidebar keeps, for the range of days [d0 .. d1]. *)
Definition retail_keeps (df : DataFrame) (d0 d1 : date)
  (ui : Retail.sidebar_state) (r : Row) : bool :=
  date_within (cell_at df "Date" r) d0 d1
  && allowed (Retail.product_choice ui) (cell_at df "Product line" r)
  && allowed (Retail.branch_choice ui) (cell_at df "Branch" r).

(** The keys of the groups of a column: its distinct present values,
    sorted. *)
Definition group_keys_of (df : DataFrame) (c : string) : list value :=
  match getitem df c with
  | Ok s => group_keys s
  | Raise _ => []
  end.

(** The share of survivors in a group, as the percentage that the charts
    show; missing when no member of the group has a recorded outcome. *)
Definition survival_percent (filtered : DataFrame) (by_ : string)
  (key : value) : cell :=
  option_map (fun m => VFloat (m * inject_Z 100))
             (mean_of (present_numbers (group_of filtered by_ key)
                                       "Survived")).

(** The survival table of a grouping column, as [gender_survival] and
    [class_survival] build it. *)
Definition survival_by {L : Library} (by_ : string) (filtered : DataFrame)
  : result DataFrame :=
  rate <- groupby_reduce filtered by_ "Survived" Rmean ;;
  let survival := reset_index by_ "Survived" rate in
  survived <- getitem survival "Survived" ;;
  scaled <- series_mul_scalar survived (VInt 100) ;;
  Ok (setitem survival "Survived" scaled).

(** The class names of the survival chart. *)
Definition class_name (c : cell) : cell :=
  match c with
  | Some v =>
      option_map snd
        (find (fun kv => value_eqb v (fst kv))
              [(VInt 1, VStr "1st Class"); (VInt 2, VStr "2nd Class");
               (VInt 3, VStr "3rd Class")])
  | None => None
  end.

(** A column of outcomes: every recorded value lies between 0 and 1. *)
Definition outcome_column (df : DataFrame) (c : string) : Prop :=
  forall ir v, In ir (records df) ->
               cell_num (cell_at df c (snd ir)) = Some v -> 0 <= v <= 1.

(** What [fillna('No Description')] makes of a cell. *)
Definition described (c : cell) : cell :=
  match c with
  | None => Some (VStr "No Description")
  | Some x => Some x
  end.

(** Row [ir] of the cleaned table comes from row [ir0] of the file, which
    has a customer number: the same label, the customer number as a 64-bit
    integer, the description filled in, the invoice date read by [fmt],
    and the file's cells in the columns that cleaning does not assign. *)
Definition cleaned_row {L : Library} (fmt : option string)
  (df cleaned : DataFrame) (ir0 ir : label * Row) : Prop :=
  missing (cell_at df "CustomerID" (snd ir0)) = false
  /\ cell_at cleaned "CustomerID" (snd ir)
     = int_cast (cell_at df "CustomerID" (snd ir0))
  /\ cell_at cleaned "Description" (snd ir)
     = described (cell_at df "Description" (snd ir0))
  /\ cell_at cleaned "InvoiceDate" (snd ir)
     = datetime_cast fmt (cell_at df "InvoiceDate" (snd ir0))
  /\ same_row_outside
       ["CustomerID"; "Description"; "InvoiceDate"; "Year"; "Month";
        "TotalPrice"] df cleaned ir0 ir.




(** [bars] holds one sum of column [col] per group of [df] by column
    [by_]: the keys are the distinct values of [by_] in sorted order, and
    the sums add up to the sum of [col] over the rows that have a key. *)
Definition sums_by (df : DataFrame) (by_ col : string) (bars : Series cell)
  : Prop :=
  map fst bars = group_keys_of df by_
  /\ series_total bars == Qsum (present_numbers (having df by_) col).

(** ** Vocabulary of the grouping statements *)

(** The group key of a row: its cells at the group-by columns. *)
Definition key_at (df : DataFrame) (by_ : list string) (r : Row)
  : list cell :=
  map (fun c => cell_at df c r) by_.

Fixpoint cells_eqb (a b : list cell) : bool :=
  match a, b with
  | [], [] => true
  | x :: a', y :: b' => cell_eqb x y && cells_eqb a' b'
  | _, _ => false
  end.

(** A key none of whose components is missing. *)
Definition complete_key (key : list cell) : bool :=
  forallb (fun c => negb (missing c)) key.

(** The number of different entries of a list: an entry counts where it
    occurs for the last time. *)
Fixpoint count_distinct {K : Type} (eqb : K -> K -> bool) (l : list K)
  : nat :=
  match l with
  | [] => 0
  | k :: l' =>
      (if existsb (eqb k) l' then 0 else 1) + count_distinct eqb l'
  end.

Definition row_keys (df : DataFrame) (by_ : list string)
  : list (list cell) :=
  map (fun ir => key_at df by_ (snd ir)) (records df).

(** The distinct group keys of a table, a missing value being a value like
    any other. *)
Definition distinct_keys (df : DataFrame) (by_ : list string) : nat :=
  count_distinct cells_eqb (row_keys df by_).

(** The distinct group keys without a missing component. *)
Definition distinct_complete_keys (df : DataFrame) (by_ : list string)
  : nat :=
  count_distinct cells_eqb (filter complete_key (row_keys df by_)).

(** * Properties *)

(** ** Equality of cells is an equivalence *)

Lemma ts_eqb_eq (a b : timestamp) : ts_eqb a b = true <-> a = b.
Proof.
  unfold ts_eqb. destruct a, b; simpl.
  rewrite !andb_true_iff, !Z.eqb_eq. split.
  - intros [[[[[-> ->] ->] ->] ->] ->]. reflexivity.
  - intros H. inversion H. repeat split; reflexivity.
Qed.

Lemma value_eqb_refl (v : value) : value_eqb v v = true.
Proof.
  destruct v; simpl.
  - apply String.eqb_refl.
  - apply Qeq_bool_iff. reflexivity.
  - apply Qeq_bool_iff. reflexivity.
  - apply ts_eqb_eq. reflexivity.
  - rewrite !Z.eqb_refl. reflexivity.
Qed.

Lemma value_eqb_sym (a b : value) : value_eqb a b = value_eqb b a.
Proof.
  assert (Q_sym : forall p q, Qeq_bool p q = Qeq_bool q p).
  { intros p q. apply eq_true_iff_eq. rewrite !Qeq_bool_iff.
    split; intros H; symmetry; exact H. }
  destruct a, b; simpl; try reflexivity; try apply Q_sym.
  - apply String.eqb_sym.
  - apply eq_true_iff_eq. rewrite !ts_eqb_eq. split; congruence.
  - rewrite (Z.eqb_sym h), (Z.eqb_sym m). reflexivity.
Qed.

Lemma value_eqb_trans (a b c : value) :
  value_eqb a b = true -> value_eqb b c = true -> value_eqb a c = true.
Proof.
  assert (Q_trans : forall p q r,
             Qeq_bool p q = true -> Qeq_bool q r = true ->
             Qeq_bool p r = true).
  { intros p q r. rewrite !Qeq_bool_iff. intros H1 H2.
    rewrite H1. exact H2. }
  destruct a, b; simpl; try discriminate; destruct c; simpl;
    try discriminate; try apply Q_trans.
  - rewrite !String.eqb_eq. congruence.
  - rewrite !ts_eqb_eq. congruence.
  - rewrite !andb_true_iff, !Z.eqb_eq. intros [-> ->] [-> ->]. auto.
Qed.

Lemma cell_eqb_refl (c : cell) : cell_eqb c c = true.
Proof. destruct c; simpl; [apply value_eqb_refl | reflexivity]. Qed.

Lemma cell_eqb_sym (a b : cell) : cell_eqb a b = cell_eqb b a.
Proof. destruct a, b; simpl; try reflexivity. apply value_eqb_sym. Qed.

Lemma cell_eqb_trans (a b c : cell) :
  cell_eqb a b = true -> cell_eqb b c = true -> cell_eqb a c = true.
Proof.
  destruct a, b; simpl; try discriminate; destruct c; simpl;
    try discriminate; auto.
  apply value_eqb_trans.
Qed.

(** ** Masks computed row by row *)

Lemma getitem_column (df : DataFrame) (c : string) (k : nat) :
  index_of c (columns df) = Some k ->
  getitem df c = Ok (column_of k (records df)).
Proof. intros H. unfold getitem. rewrite H. reflexivity. Qed.

Lemma getitem_absent (df : DataFrame) (c : string) :
  index_of c (columns df) = None -> getitem df c = Raise (KeyError c).
Proof. intros H. unfold getitem. rewrite H. reflexivity. Qed.

Lemma has_column_index (df : DataFrame) (c : string) :
  has_column df c = true <-> exists k, index_of c (columns df) = Some k.
Proof.
  unfold has_column. destruct (index_of c (columns df)) as [k|].
  - split; [intros _; exists k; reflexivity | reflexivity].
  - split; [discriminate | intros [k H]; discriminate].
Qed.

Lemma has_column_false (df : DataFrame) (c : string) :
  has_column df c = false <-> index_of c (columns df) = None.
Proof.
  unfold has_column. destruct (index_of c (columns df)); split;
    congruence.
Qed.

Lemma smap_column {B : Type} (f : cell -> B) (k : nat)
  (rs : list (label * Row)) :
  smap f (column_of k rs) = map (fun ir => (fst ir, f (field k (snd ir)))) rs.
Proof. unfold smap, column_of. rewrite map_map. reflexivity. Qed.

Lemma isin_column (k : nat) (rs : list (label * Row)) (sel : list cell) :
  isin (column_of k rs) sel = row_mask (fun r => member (field k r) sel) rs.
Proof. unfold isin. rewrite smap_column. reflexivity. Qed.

Lemma isna_column (k : nat) (rs : list (label * Row)) :
  isna (column_of k rs) = row_mask (fun r => missing (field k r)) rs.
Proof. unfold isna. rewrite smap_column. reflexivity. Qed.

Lemma as_numeric_smap (s : Series cell) (t : Series (option Q)) :
  as_numeric s = Ok t -> t = smap cell_num s.
Proof.
  revert t. induction s as [|[i c] s IH]; intros t; simpl.
  - intros [= <-]. reflexivity.
  - destruct c as [v|].
    + destruct (value_num v) as [q|] eqn:Hv; [|discriminate].
      destruct (as_numeric s) as [t'|]; simpl; [|discriminate].
      intros [= <-]. rewrite (IH t' eq_refl). simpl. rewrite Hv. reflexivity.
    + destruct (as_numeric s) as [t'|]; simpl; [|discriminate].
      intros [= <-]. rewrite (IH t' eq_refl). reflexivity.
Qed.

Lemma as_numeric_total (s : Series cell) :
  (forall ic, In ic s -> snd ic <> None -> cell_num (snd ic) <> None) ->
  as_numeric s = Ok (smap cell_num s).
Proof.
  induction s as [|[i c] s IH]; intros H; simpl; [reflexivity|].
  assert (Hs : as_numeric s = Ok (smap cell_num s)).
  { apply IH. intros ic Hin. apply H. right. exact Hin. }
  destruct c as [v|].
  - destruct (value_num v) as [q|] eqn:Hv.
    + rewrite Hs. simpl. rewrite Hv. reflexivity.
    + exfalso. apply (H (i, Some v)); simpl; auto. discriminate.
  - rewrite Hs. reflexivity.
Qed.

Lemma between_column (k : nat) (rs : list (label * Row)) (lo hi : Z) :
  between (smap cell_num (column_of k rs)) (inject_Z lo) (inject_Z hi)
  = row_mask (fun r => within (field k r) lo hi) rs.
Proof.
  unfold between, smap, column_of, row_mask. rewrite !map_map.
  apply map_ext. intros [i r]. simpl. unfold within.
  destruct (cell_num (field k r)); reflexivity.
Qed.

Lemma szip_row_mask (f : bool -> bool -> bool) (p q : Row -> bool)
  (rs : list (label * Row)) :
  szip f (row_mask p rs) (row_mask q rs)
  = row_mask (fun r => f (p r) (q r)) rs.
Proof.
  induction rs as [|[i r] rs IH]; simpl; [reflexivity|].
  rewrite IH. reflexivity.
Qed.

Lemma select_rows_row_mask (p : Row -> bool) (rs : list (label * Row)) :
  select_rows rs (row_mask p rs) = filter (fun ir => p (snd ir)) rs.
Proof.
  induction rs as [|[i r] rs IH]; simpl; [reflexivity|].
  rewrite IH. reflexivity.
Qed.

Lemma filter_all {A : Type} (p : A -> bool) (l : list A) :
  (forall x, In x l -> p x = true) -> filter p l = l.
Proof.
  induction l as [|a l IH]; intros H; simpl; [reflexivity|].
  rewrite (H a (or_introl eq_refl)). f_equal. apply IH.
  intros x Hx. apply H. right. exact Hx.
Qed.

Lemma frame_eta (df : DataFrame) : mkDF (columns df) (records df) = df.
Proof. destruct df. reflexivity. Qed.

Lemma cell_at_index (df : DataFrame) (c : string) (k : nat) (r : Row) :
  index_of c (columns df) = Some k -> cell_at df c r = field k r.
Proof. intros H. unfold cell_at. rewrite H. reflexivity. Qed.

Lemma as_numeric_column (df : DataFrame) (c : string) (k : nat) :
  index_of c (columns df) = Some k ->
  numeric_column df c ->
  as_numeric (column_of k (records df))
  = Ok (smap cell_num (column_of k (records df))).
Proof.
  intros Hk Hnum. apply as_numeric_total.
  intros ic Hin. unfold column_of in Hin. apply in_map_iff in Hin.
  destruct Hin as [ir [<- Hir]]. simpl.
  specialize (Hnum ir Hir). rewrite (cell_at_index _ _ _ _ Hk) in Hnum.
  exact Hnum.
Qed.

(** ** The three filters as row predicates *)

Lemma titanic_filter_rows (df : DataFrame) (gender class : list cell)
  (lo hi : Z) (ks kp ka : nat) :
  index_of "Sex" (columns df) = Some ks ->
  index_of "Pclass" (columns df) = Some kp ->
  index_of "Age" (columns df) = Some ka ->
  numeric_column df "Age" ->
  Titanic.apply_filters df gender class lo hi
  = Ok (mkDF (columns df)
          (filter (fun ir => titanic_keeps df gender class lo hi (snd ir))
                  (records df))).
Proof.
  intros Hs Hp Ha Hnum. unfold Titanic.apply_filters.
  rewrite (getitem_column _ _ _ Hs), (getitem_column _ _ _ Hp),
    (getitem_column _ _ _ Ha). simpl.
  rewrite (as_numeric_column _ _ _ Ha Hnum). simpl.
  rewrite !isin_column, between_column, isna_column.
  unfold mask_and, mask_or. rewrite !szip_row_mask.
  unfold loc_mask. rewrite select_rows_row_mask. do 2 f_equal.
  apply filter_ext. intros [i r]. simpl. unfold titanic_keeps.
  rewrite (cell_at_index _ _ _ _ Hs), (cell_at_index _ _ _ _ Hp),
    (cell_at_index _ _ _ _ Ha). reflexivity.
Qed.

Lemma numbers_with_gap_column (df : DataFrame) (c : string) (k : nat) :
  index_of c (columns df) = Some k ->
  no_gap_among_numbers df c ->
  numbers_with_gap (column_of k (records df)) = false.
Proof.
  intros Hk H. unfold numbers_with_gap. apply andb_false_iff.
  destruct H as [H|H]; [left | right]; apply not_true_is_false;
    intros E; apply existsb_exists in E; destruct E as [ic [Hic E]];
    unfold column_of in Hic; apply in_map_iff in Hic;
    destruct Hic as [ir [<- Hir]]; cbn [snd] in E;
    specialize (H ir Hir); rewrite (cell_at_index _ _ _ _ Hk) in H;
    destruct (field k (snd ir)) as [v|]; try discriminate.
  simpl in H. rewrite H in E. discriminate E.
Qed.

Lemma numbers_with_gap_rows (k : nat) (rs rs' : list (label * Row)) :
  (forall ir, In ir rs' -> In ir rs) ->
  numbers_with_gap (column_of k rs) = false ->
  numbers_with_gap (column_of k rs') = false.
Proof.
  intros Hsub H. unfold numbers_with_gap in *.
  apply andb_false_iff in H. apply andb_false_iff.
  destruct H as [H|H]; [left | right]; apply not_true_is_false;
    intros E; apply existsb_exists in E; destruct E as [ic [Hic E]];
    unfold column_of in Hic; apply in_map_iff in Hic;
    destruct Hic as [ir [<- Hir]];
    apply not_true_iff_false in H; apply H; apply existsb_exists;
    exists (fst ir, field k (snd ir));
    (split; [apply in_map_iff; exists ir; split;
             [reflexivity | apply Hsub; exact Hir] | exact E]).
Qed.

Lemma multiselect_filter_rows {L : Library} (df : DataFrame) (c : string)
  (choice : option (list cell)) (k : nat) :
  index_of c (columns df) = Some k ->
  numbers_with_gap (column_of k (records df)) = false ->
  Retail.multiselect_filter c choice df
  = Ok (mkDF (columns df)
          (filter (fun ir =>
                     member (field k (snd ir))
                            (widget (unique (column_of k (records df)))
                                    choice))
                  (records df))).
Proof.
  intros Hk Hgap. unfold Retail.multiselect_filter, multiselect_unique.
  assert (Hc : has_column df c = true)
    by (apply has_column_index; exists k; exact Hk).
  rewrite Hc, (getitem_column _ _ _ Hk). cbn [bind]. rewrite Hgap.
  cbn [bind].
  rewrite isin_column. unfold loc_mask. rewrite select_rows_row_mask.
  reflexivity.
Qed.

Lemma multiselect_filter_gap {L : Library} (df : DataFrame) (c : string)
  (choice : option (list cell)) (k : nat) :
  index_of c (columns df) = Some k ->
  numbers_with_gap (column_of k (records df)) = true ->
  Retail.multiselect_filter c choice df = Raise StreamlitAPIException.
Proof.
  intros Hk Hgap. unfold Retail.multiselect_filter, multiselect_unique.
  assert (Hc : has_column df c = true)
    by (apply has_column_index; exists k; exact Hk).
  rewrite Hc, (getitem_column _ _ _ Hk). cbn [bind]. rewrite Hgap.
  reflexivity.
Qed.

Lemma multiselect_filter_absent {L : Library} (df : DataFrame) (c : string)
  (choice : option (list cell)) :
  has_column df c = false -> Retail.multiselect_filter c choice df = Ok df.
Proof. intros H. unfold Retail.multiselect_filter. rewrite H. reflexivity. Qed.

(** ** The default selection allows every value of its column *)

Lemma member_unique_cells (c : cell) (l : list cell) :
  member c l = true -> member c (unique_cells l) = true.
Proof.
  unfold member. induction l as [|d l IH]; simpl; [discriminate|].
  destruct (cell_eqb c d) eqn:Hcd; simpl; [reflexivity|].
  intros H. specialize (IH H). apply existsb_exists in IH.
  destruct IH as [e [He Hce]]. apply existsb_exists. exists e. split.
  - apply filter_In. split; [exact He|].
    destruct (cell_eqb d e) eqn:Hde; [|reflexivity].
    rewrite cell_eqb_sym in Hde.
    rewrite (cell_eqb_trans c e d Hce Hde) in Hcd. discriminate.
  - exact Hce.
Qed.

Lemma member_self (c : cell) (l : list cell) : In c l -> member c l = true.
Proof.
  intros H. unfold member. apply existsb_exists. exists c.
  split; [exact H | apply cell_eqb_refl].
Qed.

Lemma member_unique_column (k : nat) (rs : list (label * Row))
  (ir : label * Row) :
  In ir rs -> member (field k (snd ir)) (unique (column_of k rs)) = true.
Proof.
  intros H. unfold unique. apply member_unique_cells, member_self.
  unfold values, column_of. rewrite map_map. simpl.
  apply in_map_iff. exists ir. split; [reflexivity | exact H].
Qed.

Lemma existsb_insert_sorted {A : Type} (leb : A -> A -> bool)
  (f : A -> bool) (x : A) (l : list A) :
  existsb f (insert_sorted leb x l) = f x || existsb f l.
Proof.
  induction l as [|y l IH]; simpl; [reflexivity|].
  destruct (leb x y); simpl; [reflexivity|].
  rewrite IH. destruct (f x), (f y); reflexivity.
Qed.

Lemma existsb_sort_by {A : Type} (leb : A -> A -> bool) (f : A -> bool)
  (l : list A) :
  existsb f (sort_by leb l) = existsb f l.
Proof.
  induction l as [|x l IH]; simpl; [reflexivity|].
  rewrite existsb_insert_sorted, IH. reflexivity.
Qed.

Lemma member_sorted (c : cell) (l : list cell) :
  member c (sorted l) = member c l.
Proof. apply existsb_sort_by. Qed.

Lemma allows_all_widget (df : DataFrame) (c : string) (k : nat)
  (choice : option (list cell)) (ir : label * Row) :
  index_of c (columns df) = Some k ->
  allows_all df c choice ->
  In ir (records df) ->
  member (field k (snd ir))
         (widget (unique (column_of k (records df))) choice) = true.
Proof.
  intros Hk Hall Hin. destruct choice as [chosen|]; simpl.
  - specialize (Hall ir Hin). rewrite (cell_at_index _ _ _ _ Hk) in Hall.
    exact Hall.
  - apply member_unique_column. exact Hin.
Qed.

Lemma multiselect_filter_identity {L : Library} (df : DataFrame) (c : string)
  (choice : option (list cell)) :
  no_gap_among_numbers df c ->
  allows_all df c choice -> Retail.multiselect_filter c choice df = Ok df.
Proof.
  intros Hgap Hall. destruct (index_of c (columns df)) as [k|] eqn:Hk.
  - rewrite (multiselect_filter_rows _ _ _ _ Hk
               (numbers_with_gap_column _ _ _ Hk Hgap)).
    rewrite filter_all; [rewrite frame_eta; reflexivity|].
    intros ir Hin. apply (allows_all_widget df c k choice ir Hk Hall Hin).
  - apply multiselect_filter_absent, has_column_false. exact Hk.
Qed.

(** ** Inversion of successful runs *)

Lemma bind_Ok {A B : Type} (m : result A) (k : A -> result B) (b : B) :
  bind m k = Ok b -> exists a, m = Ok a /\ k a = Ok b.
Proof.
  destruct m as [a|e]; simpl; [|discriminate].
  intros H. exists a. split; [reflexivity | exact H].
Qed.

Lemma getitem_Ok (df : DataFrame) (c : string) (s : Series cell) :
  getitem df c = Ok s ->
  exists k, index_of c (columns df) = Some k
            /\ s = column_of k (records df).
Proof.
  unfold getitem. destruct (index_of c (columns df)) as [k|];
    [|discriminate].
  intros [= <-]. exists k. split; reflexivity.
Qed.

Lemma titanic_filter_Ok (df out : DataFrame) (gender class : list cell)
  (lo hi : Z) :
  Titanic.apply_filters df gender class lo hi = Ok out ->
  out = mkDF (columns df)
          (filter (fun ir => titanic_keeps df gender class lo hi (snd ir))
                  (records df)).
Proof.
  intros H. unfold Titanic.apply_filters in H.
  apply bind_Ok in H. destruct H as [sex [Hsex H]].
  apply bind_Ok in H. destruct H as [pclass [Hpclass H]].
  apply bind_Ok in H. destruct H as [age [Hage H]].
  apply bind_Ok in H. destruct H as [num [Hnum H]].
  apply getitem_Ok in Hsex, Hpclass, Hage.
  destruct Hsex as [ks [Hs ->]], Hpclass as [kp [Hp ->]],
    Hage as [ka [Ha ->]].
  apply as_numeric_smap in Hnum. subst num.
  injection H as <-.
  rewrite !isin_column, between_column, isna_column.
  unfold mask_and, mask_or. rewrite !szip_row_mask.
  unfold loc_mask. rewrite select_rows_row_mask. f_equal.
  apply filter_ext. intros [i r]. simpl. unfold titanic_keeps.
  rewrite (cell_at_index _ _ _ _ Hs), (cell_at_index _ _ _ _ Hp),
    (cell_at_index _ _ _ _ Ha). reflexivity.
Qed.

Lemma netflix_filter_Ok (df out : DataFrame) (types : list cell)
  (lo hi : Z) (ratings : list cell) :
  Netflix.apply_filters df types lo hi ratings = Ok out ->
  out = mkDF (columns df)
          (filter (fun ir => netflix_keeps df types lo hi ratings (snd ir))
                  (records df)).
Proof.
  intros H. unfold Netflix.apply_filters in H.
  apply bind_Ok in H. destruct H as [ty [Hty H]].
  apply bind_Ok in H. destruct H as [year [Hyear H]].
  apply bind_Ok in H. destruct H as [num [Hnum H]].
  apply bind_Ok in H. destruct H as [rating [Hrating H]].
  apply getitem_Ok in Hty, Hyear, Hrating.
  destruct Hty as [kt [Ht ->]], Hyear as [ky [Hy ->]],
    Hrating as [kr [Hr ->]].
  apply as_numeric_smap in Hnum. subst num.
  injection H as <-.
  rewrite !isin_column, between_column, isna_column.
  unfold mask_and, mask_or. rewrite !szip_row_mask.
  unfold loc_mask. rewrite select_rows_row_mask. f_equal.
  apply filter_ext. intros [i r]. simpl. unfold netflix_keeps.
  rewrite (cell_at_index _ _ _ _ Ht), (cell_at_index _ _ _ _ Hy),
    (cell_at_index _ _ _ _ Hr). reflexivity.
Qed.

Lemma missing_None (c : cell) : missing c = true -> c = None.
Proof. destruct c; [discriminate | reflexivity]. Qed.

Lemma within_None (lo hi : Z) : within None lo hi = false.
Proof. reflexivity. Qed.

(** ** Missing values under the filters *)

(** C5, as amended.  A row with a missing value in a filtered column is
    kept by the predicates written [... | isna()] (the Titanic age range,
    the Netflix rating selection) whatever they select; it is dropped by
    the plain range predicate (the Netflix release year); and a plain
    membership predicate (sex, class, type) keeps it exactly when the
    selection itself holds the missing value. *)
Theorem missing_value_retention
  (titanic netflix t_out n_out : DataFrame)
  (gender class types ratings : list cell) (lo hi ylo yhi : Z)
  (p q : label * Row) :
  Titanic.apply_filters titanic gender class lo hi = Ok t_out ->
  Netflix.apply_filters netflix types ylo yhi ratings = Ok n_out ->
  In p (records titanic) ->
  In q (records netflix) ->
  let sex := cell_at titanic "Sex" (snd p) in
  let pclass := cell_at titanic "Pclass" (snd p) in
  let age := cell_at titanic "Age" (snd p) in
  let type := cell_at netflix "type" (snd q) in
  let year := cell_at netflix "release_year" (snd q) in
  let rating := cell_at netflix "rating" (snd q) in
  (missing age = true ->
   (In p (records t_out) <->
    member sex gender = true /\ member pclass class = true))
  /\ (missing sex = true ->
      (In p (records t_out) <->
       selects_missing gender = true /\ member pclass class = true
       /\ (within age lo hi || missing age) = true))
  /\ (missing pclass = true ->
      (In p (records t_out) <->
       member sex gender = true /\ selects_missing class = true
       /\ (within age lo hi || missing age) = true))
  /\ (missing rating = true ->
      (In q (records n_out) <->
       member type types = true /\ within year ylo yhi = true))
  /\ (missing year = true -> ~ In q (records n_out))
  /\ (missing type = true ->
      (In q (records n_out) <->
       selects_missing types = true /\ within year ylo yhi = true
       /\ (member rating ratings || missing rating) = true)).
Proof.
  intros Ht Hn Hp Hq sex pclass age type year rating.
  apply titanic_filter_Ok in Ht. apply netflix_filter_Ok in Hn.
  subst t_out n_out. simpl records.
  assert (Tin : In p (filter (fun ir => titanic_keeps titanic gender class
                                          lo hi (snd ir)) (records titanic))
                <-> titanic_keeps titanic gender class lo hi (snd p) = true)
    by (rewrite filter_In; tauto).
  assert (Nin : In q (filter (fun ir => netflix_keeps netflix types ylo yhi
                                          ratings (snd ir)) (records netflix))
                <-> netflix_keeps netflix types ylo yhi ratings (snd q)
                    = true)
    by (rewrite filter_In; tauto).
  rewrite Tin, Nin. unfold titanic_keeps, netflix_keeps, selects_missing.
  fold sex pclass age type year rating.
  split; [|split; [|split; [|split; [|split]]]];
    intros Hm; apply missing_None in Hm; rewrite Hm; simpl;
    rewrite ?within_None, ?orb_true_r, ?andb_true_r, ?andb_false_r;
    simpl; rewrite ?andb_true_iff; try tauto.
  intros H. discriminate H.
Qed.

Lemma missing_value_retention_witness :
  exists t_out n_out,
    Titanic.apply_filters Samples.titanic
      [str "male"; str "female"] [int 1; int 2; int 3] 0 80 = Ok t_out
    /\ Netflix.apply_filters Samples.netflix
         [str "Movie"; str "TV Show"] 2000 2021 [str "PG-13"] = Ok n_out
    /\ In (VInt 3, [int 4; int 0; int 2; str "male"; nan; float 13])
          (records t_out)
    /\ ~ In (VInt 2, [int 3; int 1; int 3; nan; float (42 # 100);
                      float (79 # 10)])
            (records t_out)
    /\ In (VInt 1, [str "s2"; str "TV Show"; str "Blood & Water"; nan;
                    str "South Africa"; str "2021-09-24"; int 2021; nan;
                    str "International TV Shows, TV Dramas"])
          (records n_out).
Proof.
  pose (p := (VInt 3, [int 4; int 0; int 2; str "male"; nan; float 13])).
  pose (q := (VInt 1, [str "s2"; str "TV Show"; str "Blood & Water"; nan;
                       str "South Africa"; str "2021-09-24"; int 2021; nan;
                       str "International TV Shows, TV Dramas"])).
  exists (mkDF (columns Samples.titanic)
            (filter (fun ir => titanic_keeps Samples.titanic
                                 [str "male"; str "female"]
                                 [int 1; int 2; int 3] 0 80 (snd ir))
                    (records Samples.titanic))).
  exists (mkDF (columns Samples.netflix)
            (filter (fun ir => netflix_keeps Samples.netflix
                                 [str "Movie"; str "TV Show"] 2000 2021
                                 [str "PG-13"] (snd ir))
                    (records Samples.netflix))).
  assert (Ht : Titanic.apply_filters Samples.titanic
                 [str "male"; str "female"] [int 1; int 2; int 3] 0 80
               = Ok (mkDF (columns Samples.titanic)
                       (filter (fun ir => titanic_keeps Samples.titanic
                                            [str "male"; str "female"]
                                            [int 1; int 2; int 3] 0 80
                                            (snd ir))
                               (records Samples.titanic))))
    by (vm_compute; reflexivity).
  assert (Hn : Netflix.apply_filters Samples.netflix
                 [str "Movie"; str "TV Show"] 2000 2021 [str "PG-13"]
               = Ok (mkDF (columns Samples.netflix)
                       (filter (fun ir => netflix_keeps Samples.netflix
                                            [str "Movie"; str "TV Show"]
                                            2000 2021 [str "PG-13"]
                                            (snd ir))
                               (records Samples.netflix))))
    by (vm_compute; reflexivity).
  assert (Hp : In p (records Samples.titanic)) by (simpl; auto 6).
  assert (Hq : In q (records Samples.netflix)) by (simpl; auto 6).
  destruct (missing_value_retention _ _ _ _ _ _ _ _ _ _ _ _ p q
              Ht Hn Hp Hq) as [A [_ [_ [D _]]]].
  split; [exact Ht|]. split; [exact Hn|].
  split; [|split].
  - apply A; [reflexivity | split; reflexivity].
  - vm_compute. intros H. repeat destruct H as [H | H]; try discriminate H.
    exact H.
  - apply D; [reflexivity | split; reflexivity].
Defined.

(** The claim of C5 fails as stated: with the sidebar untouched the gender
    selection is [df['Sex'].unique()], which holds the missing value of the
    third passenger, and the membership filter keeps that passenger. *)
Lemma membership_filter_keeps_missing :
  ~ (forall out ir,
        Titanic.filtered_df Samples.titanic Samples.titanic_untouched
        = Ok out ->
        In ir (records out) ->
        missing (cell_at Samples.titanic "Sex" (snd ir)) = false).
Proof.
  intros H.
  specialize (H Samples.titanic
                (VInt 2, [int 3; int 1; int 3; nan; float (42 # 100);
                          float (79 # 10)])).
  assert (E : missing nan = false).
  { apply H; [vm_compute; reflexivity | simpl; auto]. }
  discriminate E.
Qed.

(** ** Predicates on absent columns *)

Lemma date_range_filter_columns {L : Library} (df out : DataFrame)
  (ui : Retail.sidebar_state) :
  Retail.date_range_filter df ui = Ok out -> columns out = columns df.
Proof.
  unfold Retail.date_range_filter. destruct (has_column df "Date").
  - intros H. apply bind_Ok in H. destruct H as [range [_ H]].
    destruct range as [|d0 [|d1 [|d2 w]]];
      try (injection H as <-; reflexivity).
    apply bind_Ok in H. destruct H as [d' [_ H]].
    apply bind_Ok in H. destruct H as [d'' [_ H]].
    injection H as <-. reflexivity.
  - intros [= <-]. reflexivity.
Qed.

Lemma has_column_same_columns (df df' : DataFrame) (c : string) :
  columns df' = columns df -> has_column df' c = has_column df c.
Proof. intros H. unfold has_column. rewrite H. reflexivity. Qed.

Lemma bind_ext {A B : Type} (m : result A) (k k' : A -> result B) :
  (forall a, m = Ok a -> k a = k' a) -> bind m k = bind m k'.
Proof. destruct m as [a|e]; simpl; intros H; [apply H|]; reflexivity. Qed.

(** C3, as amended.  The retail dashboard applies a sidebar predicate only
    when its column exists: a multiselect on an absent column returns the
    table as it is, the remaining predicates are still applied, and with
    none of the three columns the table comes back unchanged.  The Titanic
    and Netflix dashboards read their filter columns unguarded: with one of
    them absent the Titanic filter raises, [KeyError] for the absent column
    unless the gender or the class selection, which are built before the
    later columns are read, has failed already, and the Netflix filter
    raises too. *)
Theorem absent_column_predicates {L : Library}
  (retail titanic netflix : DataFrame)
  (ur : Retail.sidebar_state) (ut : Titanic.sidebar_state)
  (un : Netflix.sidebar_state)
  (c tc nc : string) (choice : option (list cell)) :
  has_column retail c = false ->
  has_column retail "Product line" = false ->
  In tc ["Sex"; "Pclass"; "Age"] ->
  has_column titanic tc = false ->
  In nc ["type"; "release_year"; "rating"] ->
  has_column netflix nc = false ->
  Retail.multiselect_filter c choice retail = Ok retail
  /\ Retail.main_filters retail ur
     = (df <- Retail.date_range_filter retail ur ;; Retail.branch_filter df ur)
  /\ (has_column retail "Date" = false ->
      has_column retail "Branch" = false ->
      Retail.main_filters retail ur = Ok retail)
  /\ ((exists absent,
          has_column titanic absent = false
          /\ Titanic.filtered_df titanic ut = Raise (KeyError absent))
      \/ (exists e,
            (Titanic.gender_filter titanic ut = Raise e
             \/ Titanic.class_filter titanic ut = Raise e)
            /\ Titanic.filtered_df titanic ut = Raise e))
  /\ (exists e, Netflix.filtered_df netflix un = Raise e).
Proof.
  intros Hc Hpl Htc Ht Hnc Hn.
  assert (Hmain : Retail.main_filters retail ur
                  = (df <- Retail.date_range_filter retail ur ;;
                     Retail.branch_filter df ur)).
  { unfold Retail.main_filters. apply bind_ext. intros df Hdf.
    unfold Retail.product_line_filter.
    rewrite multiselect_filter_absent; [reflexivity|].
    rewrite (has_column_same_columns retail df); [exact Hpl|].
    apply (date_range_filter_columns _ _ _ Hdf). }
  split; [apply multiselect_filter_absent; exact Hc|].
  split; [exact Hmain|].
  split.
  { intros Hd Hb. rewrite Hmain. unfold Retail.date_range_filter.
    rewrite Hd. simpl. apply multiselect_filter_absent. exact Hb. }
  split.
  - unfold Titanic.filtered_df.
    destruct (index_of "Sex" (columns titanic)) as [ks|] eqn:Hs.
    2:{ left. exists "Sex". split; [apply has_column_false; exact Hs|].
        unfold Titanic.gender_filter.
        rewrite (getitem_absent _ _ Hs). reflexivity. }
    destruct (Titanic.gender_filter titanic ut) as [gender|e] eqn:Hgender.
    2:{ right. exists e. split; [left|]; reflexivity. }
    cbn [bind].
    destruct (Titanic.class_filter titanic ut) as [classes|e] eqn:Hclass.
    2:{ right. exists e. split; [right|]; reflexivity. }
    cbn [bind]. left.
    destruct (index_of "Pclass" (columns titanic)) as [kp|] eqn:Hp.
    2:{ unfold Titanic.class_filter in Hclass.
        rewrite (getitem_absent _ _ Hp) in Hclass. discriminate Hclass. }
    destruct (index_of "Age" (columns titanic)) as [ka|] eqn:Ha.
    2:{ exists "Age". split; [apply has_column_false; exact Ha|].
        unfold Titanic.age_range, int_bounds.
        rewrite (getitem_absent _ _ Ha). reflexivity. }
    exfalso. apply has_column_false in Ht.
    simpl in Htc. destruct Htc as [<-|[<-|[<-|[]]]]; congruence.
  - unfold Netflix.filtered_df, Netflix.rating_filter.
    destruct (Netflix.type_filter netflix un) as [types|e] eqn:Htypes.
    2:{ exists e. reflexivity. }
    cbn [bind].
    destruct (Netflix.year_range netflix un) as [range|e] eqn:Hrange.
    2:{ exists e. reflexivity. }
    cbn [bind].
    destruct (index_of "rating" (columns netflix)) as [kr|] eqn:Hr.
    2:{ exists (KeyError "rating"). rewrite (getitem_absent _ _ Hr).
        reflexivity. }
    exfalso. unfold Netflix.year_range, int_bounds in Hrange.
    apply bind_Ok in Hrange. destruct Hrange as [bounds [Hb _]].
    apply bind_Ok in Hb. destruct Hb as [s [Hs _]].
    apply getitem_Ok in Hs. destruct Hs as [ky [Hy _]].
    unfold Netflix.type_filter in Htypes.
    apply bind_Ok in Htypes. destruct Htypes as [ty [Hty _]].
    apply getitem_Ok in Hty. destruct Hty as [kt [Hty _]].
    apply has_column_false in Hn.
    simpl in Hnc. destruct Hnc as [<-|[<-|[<-|[]]]]; congruence.
Qed.

Lemma absent_column_predicates_witness :
  Retail.multiselect_filter "Branch" None Samples.retail_bare
  = Ok Samples.retail_bare
  /\ Retail.main_filters Samples.retail_bare Samples.retail_untouched
     = Ok Samples.retail_bare
  /\ (exists absent,
         has_column Samples.titanic_without_sex absent = false
         /\ Titanic.filtered_df Samples.titanic_without_sex
              Samples.titanic_untouched = Raise (KeyError absent))
  /\ Netflix.filtered_df Samples.netflix_without_rating
       Samples.netflix_untouched = Raise (KeyError "rating").
Proof.
  destruct (absent_column_predicates (L := Reference.library)
              Samples.retail_bare Samples.titanic_without_sex
              Samples.netflix_without_rating
              Samples.retail_untouched Samples.titanic_untouched
              Samples.netflix_untouched "Branch" "Sex" "rating" None)
    as [A [_ [C [D E]]]].
  - reflexivity.
  - reflexivity.
  - simpl. auto.
  - reflexivity.
  - simpl. auto.
  - reflexivity.
  - split; [exact A|]. split; [apply C; reflexivity|].
    split; [|reflexivity].
    destruct D as [D|[e [[D|D] F]]]; [exact D | | discriminate D].
    injection D as <-. exists "Sex". split; [reflexivity | exact F].
Defined.

(** The claim of C3 fails as stated for the Titanic filter: on a manifest
    without the [Sex] column the table does not come back unchanged, the
    filter raises [KeyError]. *)
Lemma unguarded_filter_raises :
  has_column Samples.titanic_without_sex "Sex" = false
  /\ Titanic.filtered_df Samples.titanic_without_sex
       Samples.titanic_untouched = Raise (KeyError "Sex")
  /\ Titanic.filtered_df Samples.titanic_without_sex
       Samples.titanic_untouched <> Ok Samples.titanic_without_sex.
Proof.
  split; [reflexivity|]. split; [reflexivity|].
  intros H. discriminate H.
Qed.

(** ** The reference Pearson coefficient is Pearson's *)

Lemma exact_root_square (q s : Q) :
  Reference.exact_root q = Some s -> s * s == q /\ 0 <= s.
Proof.
  unfold Reference.exact_root. cbv zeta.
  remember (Qred q) as r eqn:Er.
  remember (Z.sqrt (Qnum r)) as n eqn:En.
  remember (Z.sqrt (Z.pos (Qden r))) as d eqn:Ed.
  destruct ((n * n =? Qnum r) && (d * d =? Z.pos (Qden r)))%Z eqn:E;
    [|discriminate].
  apply andb_true_iff in E. destruct E as [Hn Hd].
  apply Z.eqb_eq in Hn, Hd. intros H.
  assert (Hs : s = Qred (n # Z.to_pos d)) by congruence. clear H.
  assert (Hd0 : (0 < d)%Z).
  { assert (0 <= d)%Z by (rewrite Ed; apply Z.sqrt_nonneg). nia. }
  assert (Hroot : (n # Z.to_pos d) * (n # Z.to_pos d) == r).
  { unfold Qeq, Qmult. cbn [Qnum Qden].
    rewrite Pos2Z.inj_mul, Z2Pos.id by exact Hd0.
    rewrite Hn, Hd. reflexivity. }
  assert (Hs' : s == n # Z.to_pos d) by (rewrite Hs; apply Qred_correct).
  split.
  - transitivity ((n # Z.to_pos d) * (n # Z.to_pos d));
      [apply Qmult_comp; exact Hs'|].
    transitivity r; [exact Hroot | rewrite Er; apply Qred_correct].
  - apply (Qle_trans _ (n # Z.to_pos d)).
    + unfold Qle. cbn [Qnum Qden]. rewrite Z.mul_1_r, Z.mul_0_l, En.
      apply Z.sqrt_nonneg.
    + apply Qle_lteq. right. symmetry. exact Hs'.
Qed.

(** Where the reference gives a coefficient [r], it satisfies the defining
    equation of Pearson's coefficient, [r * sqrt (sxx * syy) = sxy] with
    the non-negative root: [r] has the sign of the co-moment [sxy] and
    [r^2 * (sxx * syy) = sxy^2]. *)
Lemma pearson_rational_sound (xs ys : list (option Q)) (r : Q) :
  Reference.pearson_rational xs ys = Some r ->
  exists root,
    0 < root
    /\ root * root
       == Reference.comoment (Reference.paired xs ys) fst fst
          * Reference.comoment (Reference.paired xs ys) snd snd
    /\ r * root == Reference.comoment (Reference.paired xs ys) fst snd.
Proof.
  unfold Reference.pearson_rational. cbv zeta.
  remember (Reference.comoment (Reference.paired xs ys) fst snd) as sxy.
  remember (Reference.comoment (Reference.paired xs ys) fst fst) as sxx.
  remember (Reference.comoment (Reference.paired xs ys) snd snd) as syy.
  destruct (Reference.exact_root (sxx * syy)) as [root|] eqn:E;
    [|discriminate].
  destruct (Qeq_bool root 0) eqn:E0; [discriminate|].
  intros H. assert (Hr : r = Qred (sxy / root)) by congruence. clear H.
  apply exact_root_square in E. destruct E as [Hsq Hpos].
  assert (Hne : ~ root == 0).
  { intros Hc. apply Qeq_bool_iff in Hc. congruence. }
  exists root. split; [|split; [exact Hsq|]].
  - apply Qle_lteq in Hpos. destruct Hpos as [Hlt|Heq]; [exact Hlt|].
    exfalso. apply Hne. symmetry. exact Heq.
  - transitivity (sxy / root * root);
      [apply Qmult_comp; [rewrite Hr; apply Qred_correct | reflexivity]|].
    field. exact Hne.
Qed.

(** ** Strong correlations *)

Lemma StronglySorted_app {A : Type} (R : A -> A -> Prop) (l1 l2 : list A) :
  StronglySorted R l1 -> StronglySorted R l2 ->
  (forall x y, In x l1 -> In y l2 -> R x y) ->
  StronglySorted R (l1 ++ l2).
Proof.
  induction l1 as [|a l1 IH]; intros H1 H2 H; simpl; [exact H2|].
  apply StronglySorted_inv in H1. destruct H1 as [H1 Ha].
  constructor.
  - apply IH; [exact H1 | exact H2 |].
    intros x y Hx Hy. apply H; [right; exact Hx | exact Hy].
  - apply Forall_app. split; [exact Ha|].
    apply Forall_forall. intros y Hy. apply H; [left; reflexivity | exact Hy].
Qed.

Lemma StronglySorted_seq (a n : nat) : StronglySorted lt (seq a n).
Proof.
  revert a. induction n as [|n IH]; intros a; simpl; constructor.
  - apply IH.
  - apply Forall_forall. intros x Hx. apply in_seq in Hx. lia.
Qed.

Lemma StronglySorted_flat_map {A B : Type} (R : A -> A -> Prop)
  (S : B -> B -> Prop) (g : A -> list B) (l : list A) :
  StronglySorted R l ->
  (forall a, In a l -> StronglySorted S (g a)) ->
  (forall a b x y, In a l -> In b l -> R a b -> In x (g a) -> In y (g b) ->
                   S x y) ->
  StronglySorted S (flat_map g l).
Proof.
  induction l as [|a l IH]; intros Hl Hg Hab; simpl; [constructor|].
  apply StronglySorted_inv in Hl. destruct Hl as [Hl Ha].
  apply StronglySorted_app.
  - apply Hg. left. reflexivity.
  - apply IH; [exact Hl | |].
    + intros b Hb. apply Hg. right. exact Hb.
    + intros b c x y Hb Hc. apply Hab; right; assumption.
  - intros x y Hx Hy. apply in_flat_map in Hy. destruct Hy as [b [Hb Hy]].
    apply (Hab a b x y); [left; reflexivity | right; exact Hb | | exact Hx
                          | exact Hy].
    rewrite Forall_forall in Ha. apply Ha. exact Hb.
Qed.

Lemma StronglySorted_NoDup {A : Type} (R : A -> A -> Prop) (l : list A) :
  (forall x, ~ R x x) -> StronglySorted R l -> NoDup l.
Proof.
  intros Hirr. induction 1 as [|a l Hl IH Ha]; constructor; [|exact IH].
  intros Hin. rewrite Forall_forall in Ha. apply (Hirr a). apply Ha.
  exact Hin.
Qed.

Lemma map_flat_map {A B C : Type} (f : B -> C) (g : A -> list B)
  (l : list A) :
  map f (flat_map g l) = flat_map (fun a => map f (g a)) l.
Proof.
  induction l as [|a l IH]; simpl; [reflexivity|].
  rewrite map_app, IH. reflexivity.
Qed.

Lemma strong_corr_kept_pairs (threshold : Q) (m : Retail.corr_matrix) :
  Retail.strong_corr_above threshold m
  = map (strong_row_of m) (kept_pairs threshold m).
Proof.
  unfold Retail.strong_corr_above, kept_pairs. rewrite map_flat_map.
  apply flat_map_ext. intros i. rewrite map_flat_map.
  apply flat_map_ext. intros j.
  unfold strong_row_of, coefficient. simpl.
  destruct (Retail.iloc m i j) as [r|] eqn:E; [|reflexivity].
  destruct (Qle_bool (Qabs r) threshold); [reflexivity|].
  simpl. rewrite E. reflexivity.
Qed.

Lemma kept_pairs_In (threshold : Q) (m : Retail.corr_matrix) (i j : nat) :
  In (i, j) (kept_pairs threshold m) <->
  (i < j < List.length (Retail.cm_columns m))%nat
  /\ exists r, Retail.iloc m i j = Some r /\ threshold < Qabs r.
Proof.
  unfold kept_pairs. rewrite in_flat_map. split.
  - intros [i' [Hi H]]. apply in_flat_map in H. destruct H as [j' [Hj H]].
    apply in_seq in Hi, Hj.
    destruct (Retail.iloc m i' j') as [r|] eqn:E; [|contradiction].
    destruct (Qle_bool (Qabs r) threshold) eqn:Hle; [contradiction|].
    destruct H as [[= <- <-]|[]]. split; [lia|].
    exists r. split; [exact E|].
    apply Qnot_le_lt. intros Hc. apply Qle_bool_iff in Hc. congruence.
  - intros [Hij [r [E Hr]]]. exists i. split; [apply in_seq; lia|].
    apply in_flat_map. exists j. split; [apply in_seq; lia|].
    rewrite E. destruct (Qle_bool (Qabs r) threshold) eqn:Hle.
    + apply Qle_bool_iff in Hle. exfalso. apply (Qlt_not_le _ _ Hr Hle).
    + left. reflexivity.
Qed.

Lemma kept_pairs_sorted (threshold : Q) (m : Retail.corr_matrix) :
  StronglySorted pair_lt (kept_pairs threshold m).
Proof.
  unfold kept_pairs.
  apply (StronglySorted_flat_map lt pair_lt); [apply StronglySorted_seq | |].
  - intros i _.
    apply (StronglySorted_flat_map lt pair_lt);
      [apply StronglySorted_seq | |].
    + intros j _. destruct (Retail.iloc m i j) as [r|]; [|constructor].
      destruct (Qle_bool (Qabs r) threshold); repeat constructor.
    + intros a b x y _ _ Hab Hx Hy.
      destruct (Retail.iloc m i a) as [r|]; [|contradiction].
      destruct (Qle_bool (Qabs r) threshold); [contradiction|].
      destruct (Retail.iloc m i b) as [r'|]; [|contradiction].
      destruct (Qle_bool (Qabs r') threshold); [contradiction|].
      destruct Hx as [<-|[]], Hy as [<-|[]]. right. simpl. split; auto.
  - intros a b x y _ _ Hab Hx Hy.
    apply in_flat_map in Hx, Hy.
    destruct Hx as [j [_ Hx]], Hy as [j' [_ Hy]].
    destruct (Retail.iloc m a j) as [r|]; [|contradiction].
    destruct (Qle_bool (Qabs r) threshold); [contradiction|].
    destruct (Retail.iloc m b j') as [r'|]; [|contradiction].
    destruct (Qle_bool (Qabs r') threshold); [contradiction|].
    destruct Hx as [<-|[]], Hy as [<-|[]]. left. exact Hab.
Qed.

Lemma mapM_Ok {A B : Type} (f : A -> result B) (l : list A) (bs : list B) :
  mapM f l = Ok bs -> Forall2 (fun a b => f a = Ok b) l bs.
Proof.
  revert bs. induction l as [|a l IH]; intros bs; simpl.
  - intros [= <-]. constructor.
  - intros H. apply bind_Ok in H. destruct H as [b [Hb H]].
    apply bind_Ok in H. destruct H as [bs' [Hbs H]].
    injection H as <-. constructor; [exact Hb | apply IH; exact Hbs].
Qed.

Lemma Forall2_nth {A B : Type} (R : A -> B -> Prop) (l : list A)
  (l' : list B) (da : A) (db : B) (i : nat) :
  Forall2 R l l' -> (i < List.length l)%nat -> R (nth i l da) (nth i l' db).
Proof.
  intros H. revert i. induction H as [|a b l l' Hab H IH]; intros i Hi;
    simpl in *; [lia|].
  destruct i as [|i]; [exact Hab | apply IH; lia].
Qed.

Lemma Forall2_length_eq {A B : Type} (R : A -> B -> Prop) (l : list A)
  (l' : list B) :
  Forall2 R l l' -> List.length l = List.length l'.
Proof. induction 1; simpl; congruence. Qed.

Lemma numeric_series (df : DataFrame) (c : string) (t : Series (option Q)) :
  (s <- getitem df c ;; as_numeric s) = Ok t ->
  values t = column_values df c.
Proof.
  intros H. apply bind_Ok in H. destruct H as [s [Hs H]].
  apply as_numeric_smap in H. subst t.
  unfold column_values. rewrite Hs. unfold values, smap.
  rewrite !map_map. reflexivity.
Qed.

Lemma corr_entries {L : Library} (df : DataFrame) (cols : list string)
  (m : Retail.corr_matrix) :
  Retail.corr df cols = Ok m ->
  Retail.cm_columns m = cols
  /\ forall i j, (i < List.length cols)%nat -> (j < List.length cols)%nat ->
       Retail.iloc m i j
       = pearson (column_values df (nth i cols ""))
                 (column_values df (nth j cols "")).
Proof.
  unfold Retail.corr. intros H. apply bind_Ok in H.
  destruct H as [series [Hs H]]. injection H as <-. simpl.
  split; [reflexivity|]. intros i j Hi Hj.
  apply mapM_Ok in Hs. pose proof (Forall2_length_eq _ _ _ Hs) as Hlen.
  unfold Retail.iloc. simpl.
  rewrite (nth_indep _ [] (map (fun b => pearson (values []) (values b))
                               series));
    [|rewrite length_map; lia].
  rewrite (map_nth (fun a => map (fun b => pearson (values a) (values b))
                                 series) series [] i).
  rewrite (nth_indep _ None (pearson (values (nth i series [])) (values [])));
    [|rewrite length_map; lia].
  rewrite (map_nth (fun b => pearson (values (nth i series [])) (values b))
                   series [] j).
  rewrite (numeric_series df (nth i cols "") (nth i series [])),
    (numeric_series df (nth j cols "") (nth j series [])).
  - reflexivity.
  - apply (Forall2_nth _ _ _ "" [] j Hs Hj).
  - apply (Forall2_nth _ _ _ "" [] i Hs Hi).
Qed.

Lemma numerical_cols_In (df : DataFrame) (c : string) :
  In c (Retail.numerical_cols df) <->
  In c (columns df) /\ Retail.numeric_dtype df c = true
  /\ ~ In c Retail.calendar_columns.
Proof.
  unfold Retail.numerical_cols, Retail.select_dtypes_number.
  rewrite !filter_In, negb_true_iff. split.
  - intros [[Hc Hn] Hcal]. repeat split; try assumption.
    intros Hin. assert (E : existsb (String.eqb c) Retail.calendar_columns
                            = true).
    { apply existsb_exists. exists c. split; [exact Hin|].
      apply String.eqb_refl. }
    congruence.
  - intros [Hc [Hn Hcal]]. repeat split; try assumption.
    destruct (existsb (String.eqb c) Retail.calendar_columns) eqn:E;
      [|reflexivity].
    apply existsb_exists in E. destruct E as [c' [Hin Heq]].
    apply String.eqb_eq in Heq. subst c'. contradiction.
Qed.

Lemma pair_lt_irrefl (p : nat * nat) : ~ pair_lt p p.
Proof. unfold pair_lt. lia. Qed.

(** C1, as amended.  The strong correlations are taken over the numeric
    columns of the table other than Year, Month, Day and Hour; for every
    threshold the loop reports exactly the pairs of column positions
    [i < j] whose Pearson coefficient exceeds the threshold in absolute
    value (an undefined coefficient never does), each pair once with the
    earlier column first and never also reversed, with the coefficient
    rounded to three decimals; the rows come in column order (by first
    column, then by second), not by descending coefficient. *)
Theorem strong_correlations_in_column_order {L : Library}
  (df : DataFrame) (m : Retail.corr_matrix) (threshold : Q) :
  Retail.corr df (Retail.numerical_cols df) = Ok m ->
  let cols := Retail.numerical_cols df in
  (forall c, In c cols <->
             In c (columns df) /\ Retail.numeric_dtype df c = true
             /\ ~ In c ["Year"; "Month"; "Day"; "Hour"])
  /\ Retail.cm_columns m = cols
  /\ (forall i j, (i < List.length cols)%nat -> (j < List.length cols)%nat ->
        Retail.iloc m i j
        = pearson (column_values df (nth i cols ""))
                  (column_values df (nth j cols "")))
  /\ exists pairs,
       Retail.strong_corr_above threshold m = map (strong_row_of m) pairs
       /\ StronglySorted pair_lt pairs
       /\ NoDup pairs
       /\ (forall i j, In (i, j) pairs <->
             (i < j < List.length cols)%nat
             /\ exists r, Retail.iloc m i j = Some r /\ threshold < Qabs r)
       /\ (forall i j, In (i, j) pairs -> ~ In (j, i) pairs).
Proof.
  intros Hm cols. destruct (corr_entries df cols m Hm) as [Hcols Hent].
  split; [intros c; apply numerical_cols_In|].
  split; [exact Hcols|]. split; [exact Hent|].
  exists (kept_pairs threshold m).
  split; [apply strong_corr_kept_pairs|].
  split; [apply kept_pairs_sorted|].
  split; [apply (StronglySorted_NoDup pair_lt);
          [apply pair_lt_irrefl | apply kept_pairs_sorted]|].
  split.
  - intros i j. rewrite kept_pairs_In, Hcols. reflexivity.
  - intros i j Hij Hji. apply kept_pairs_In in Hij, Hji. lia.
Qed.

Lemma strong_correlations_in_column_order_witness :
  exists m pairs,
    Retail.corr (L := Reference.library) Samples.correlated
      (Retail.numerical_cols Samples.correlated) = Ok m
    /\ Retail.numerical_cols Samples.correlated = ["A"; "B"; "C"]
    /\ Retail.strong_corr m = map (strong_row_of m) pairs
    /\ StronglySorted pair_lt pairs.
Proof.
  assert (Hm : exists m,
             Retail.corr (L := Reference.library) Samples.correlated
               (Retail.numerical_cols Samples.correlated) = Ok m)
    by (eexists; vm_compute; reflexivity).
  destruct Hm as [m Hm].
  destruct (strong_correlations_in_column_order (L := Reference.library)
              Samples.correlated m (7 # 10) Hm)
    as [_ [_ [_ [pairs [P1 [P2 _]]]]]].
  exists m, pairs. split; [exact Hm|]. split; [reflexivity|].
  split; [exact P1 | exact P2].
Defined.

(** The claim of C1 fails as stated: the coefficients of A with B, A with C
    and B with C are 0.8, 12/13 and 63/65; all three exceed 0.7 and they
    are listed in column order, which is ascending here. *)
Lemma strong_correlations_not_descending :
  exists m,
    Retail.corr (L := Reference.library) Samples.correlated
      (Retail.numerical_cols Samples.correlated) = Ok m
    /\ Retail.strong_corr m
       = [Retail.mkStrong "A" "B" (800 # 1000);
          Retail.mkStrong "A" "C" (923 # 1000);
          Retail.mkStrong "B" "C" (969 # 1000)]
    /\ ~ descending_abs (Retail.strong_corr m).
Proof.
  eexists. split; [vm_compute; reflexivity|].
  split; [vm_compute; reflexivity|].
  intros H. vm_compute in H. apply StronglySorted_inv in H.
  destruct H as [_ H]. apply Forall_inv in H.
  apply H. reflexivity.
Qed.

(** ** Splitting and exploding *)

Lemma split_from_nonempty (sep : string) (s : string) (skip : nat)
  (cur : string) :
  split_from sep skip cur s <> [].
Proof.
  revert skip cur. induction s as [|c s IH]; intros skip cur;
    cbn [split_from].
  - discriminate.
  - destruct skip as [|k]; [|apply IH].
    destruct (String.prefix sep (String c s)); [discriminate | apply IH].
Qed.

Lemma join_cons (sep p : string) (rest : list string) :
  rest <> [] -> join sep (p :: rest) = (p ++ sep ++ join sep rest)%string.
Proof. destruct rest; [congruence | reflexivity]. Qed.

Lemma append_nil_r (s : string) : (s ++ "")%string = s.
Proof. induction s; simpl; congruence. Qed.

Lemma append_assoc (a b c : string) :
  ((a ++ b) ++ c)%string = (a ++ b ++ c)%string.
Proof. induction a; simpl; congruence. Qed.

Lemma prefix_drop (p s : string) :
  String.prefix p s = true -> s = (p ++ string_drop (String.length p) s)%string.
Proof.
  revert s. induction p as [|a p IH]; intros s; destruct s as [|b s];
    simpl; try reflexivity; try (intros H; discriminate H).
  destruct (ascii_dec a b) as [->|]; [|intros H; discriminate H].
  intros H. f_equal. apply IH. exact H.
Qed.

Lemma string_drop_nil (n : nat) : string_drop n "" = "".
Proof. destruct n; reflexivity. Qed.

Lemma join_split_from (sep : string) (s : string) (skip : nat)
  (cur : string) :
  sep <> "" ->
  join sep (split_from sep skip cur s) = (cur ++ string_drop skip s)%string.
Proof.
  intros Hsep. revert skip cur. induction s as [|c s IH]; intros skip cur.
  - simpl. rewrite string_drop_nil. symmetry. apply append_nil_r.
  - cbn [split_from]. destruct skip as [|k]; [|apply IH].
    destruct (String.prefix sep (String c s)) eqn:Hp.
    + rewrite join_cons by apply split_from_nonempty.
      rewrite IH. simpl. f_equal.
      destruct sep as [|a sep']; [congruence|].
      apply prefix_drop in Hp. simpl in Hp. injection Hp as -> Hs.
      simpl. rewrite Nat.sub_0_r. f_equal. symmetry. exact Hs.
    + rewrite IH. simpl. rewrite append_assoc. reflexivity.
Qed.

Lemma join_split (sep x : string) : sep <> "" -> join sep (split sep x) = x.
Proof. intros H. unfold split. rewrite join_split_from by exact H. reflexivity. Qed.

Lemma prefix_append (p x : string) : String.prefix p (p ++ x) = true.
Proof.
  induction p as [|a p IH]; simpl; [destruct x; reflexivity|].
  destruct (ascii_dec a a); [exact IH | congruence].
Qed.

Lemma append_eq_nil (a b : string) :
  (a ++ b)%string = "" -> a = "" /\ b = "".
Proof. destruct a; simpl; [auto | discriminate]. Qed.

Lemma snoc_split (cur a t : string) (c : ascii) :
  (cur ++ String c "")%string = (a ++ t)%string -> t <> "" ->
  exists t0, t = (t0 ++ String c "")%string /\ cur = (a ++ t0)%string.
Proof.
  revert cur. induction a as [|x a IH]; intros cur H Ht; simpl in H.
  - exists cur. split; [symmetry; exact H | reflexivity].
  - destruct cur as [|y cur]; simpl in H.
    + injection H as _ H. symmetry in H. apply append_eq_nil in H.
      destruct H as [_ H]. contradiction.
    + injection H as -> H. destruct (IH cur H Ht) as [t0 [E1 E2]].
      exists t0. split; [exact E1 | simpl; f_equal; exact E2].
Qed.

Lemma clean_no_occurrence (sep cur s : string) :
  sep <> "" -> clean sep cur s -> ~ occurs sep cur.
Proof.
  intros Hsep Hclean [a [b E]].
  assert (Ht : (sep ++ b)%string <> "").
  { intros H. apply append_eq_nil in H. destruct H as [H _]. contradiction. }
  specialize (Hclean a (sep ++ b)%string E Ht).
  rewrite append_assoc, prefix_append in Hclean. discriminate Hclean.
Qed.

Lemma clean_nil (sep s : string) : clean sep "" s.
Proof.
  intros a t E Ht. symmetry in E. apply append_eq_nil in E.
  destruct E as [_ E]. contradiction.
Qed.

Lemma split_from_pieces (sep : string) (s : string) (skip : nat)
  (cur : string) :
  sep <> "" ->
  (skip = 0%nat -> clean sep cur s) ->
  (skip <> 0%nat -> cur = "") ->
  forall piece, In piece (split_from sep skip cur s) -> ~ occurs sep piece.
Proof.
  intros Hsep. revert skip cur.
  induction s as [|c s IH]; intros skip cur H0 Hk piece Hin;
    cbn [split_from] in Hin.
  - destruct Hin as [<-|[]]. destruct skip as [|k].
    + apply (clean_no_occurrence sep cur ""); [exact Hsep | apply H0].
      reflexivity.
    + rewrite Hk by discriminate. apply (clean_no_occurrence sep "" "");
        [exact Hsep | apply clean_nil].
  - destruct skip as [|k].
    + specialize (H0 eq_refl).
      destruct (String.prefix sep (String c s)) eqn:Hp.
      * destruct Hin as [<-|Hin].
        -- apply (clean_no_occurrence sep cur (String c s) Hsep H0).
        -- apply (IH _ "" (fun _ => clean_nil sep s) (fun _ => eq_refl)
                     piece Hin).
      * apply (IH 0%nat (cur ++ String c "")%string); [| congruence | exact Hin].
        intros _ a t E Ht. destruct (snoc_split cur a t c E Ht) as [t0 [-> Ec]].
        rewrite append_assoc. simpl.
        destruct t0 as [|y t0]; [exact Hp|].
        apply (H0 a (String y t0)); [exact Ec | discriminate].
    + apply (IH k cur); [| | exact Hin].
      * intros _. rewrite Hk by discriminate. apply clean_nil.
      * intros _. apply Hk. discriminate.
Qed.

Lemma split_pieces (sep x piece : string) :
  sep <> "" -> In piece (split sep x) -> ~ occurs sep piece.
Proof.
  intros Hsep. apply (split_from_pieces sep x 0 "" Hsep).
  - intros _. apply clean_nil.
  - congruence.
Qed.

Lemma explode_dropna_rows (s : Series cell) :
  (pieces <- str_split true (dropna s) ;; Ok (explode pieces))
  = Ok (flat_map (exploded_rows ", " false) s).
Proof.
  unfold str_split. cbn [bind]. f_equal. unfold explode, smap, dropna.
  induction s as [|[i c] s IH]; [reflexivity|].
  cbn [filter flat_map map snd fst]. destruct c as [v|].
  - cbn [flat_map map snd fst]. rewrite IH. f_equal.
    unfold exploded_rows. cbn [snd fst]. destruct v; try reflexivity.
    unfold split. destruct (split_from ", " 0 "" s0) eqn:E; [|reflexivity].
    exfalso. apply (split_from_nonempty _ _ _ _ E).
  - exact IH.
Qed.

Lemma explode_all_rows (s : Series cell) :
  (pieces <- str_split true s ;; Ok (explode pieces))
  = Ok (flat_map (exploded_rows ", " true) s).
Proof.
  unfold str_split. cbn [bind]. f_equal. unfold explode, smap.
  induction s as [|[i c] s IH]; [reflexivity|].
  cbn [flat_map map snd fst]. rewrite IH. f_equal.
  unfold exploded_rows. cbn [snd fst]. destruct c as [v|]; [|reflexivity].
  destruct v; try reflexivity.
  unfold split. destruct (split_from ", " 0 "" s0) eqn:E; [|reflexivity].
  exfalso. apply (split_from_nonempty _ _ _ _ E).
Qed.

Lemma dropna_idempotent {A : Type} (s : Series (option A)) :
  dropna (dropna s) = dropna s.
Proof.
  unfold dropna. induction s as [|[i c] s IH]; simpl; [reflexivity|].
  destruct c; simpl; rewrite IH; reflexivity.
Qed.

Lemma occurrences_dropna (v : value) (s : Series cell) :
  occurrences v (dropna s) = occurrences v s.
Proof.
  unfold occurrences, dropna.
  induction s as [|[i c] s IH]; simpl; [reflexivity|].
  destruct c; simpl; [destruct (value_eqb v0 v); simpl|]; rewrite IH;
    reflexivity.
Qed.

Lemma value_counts_dropna (s : Series cell) :
  value_counts (dropna s) = value_counts s.
Proof.
  unfold value_counts. rewrite dropna_idempotent. f_equal.
  apply map_ext. intros v. rewrite occurrences_dropna. reflexivity.
Qed.

Lemma dropna_exploded (sep : string) (s : Series cell) :
  dropna (flat_map (exploded_rows sep true) s)
  = dropna (flat_map (exploded_rows sep false) s).
Proof.
  induction s as [|[i c] s IH]; [reflexivity|].
  cbn [flat_map]. unfold dropna in *. rewrite !filter_app.
  f_equal; [|exact IH]. destruct c as [v|]; reflexivity.
Qed.

(** The two paths on the rows of a selection [filtered] of the table
    [df].  When the column is of dtype object: on the countries path
    ([dropna] before the split) the output has exactly one row per
    (original row, piece) pair, each under the label of its row, and no row
    for a missing cell; on the genres path (no [dropna]) the rows are the
    same except that each missing cell gives one row holding a missing
    value; the value count that follows ignores those rows, so both paths
    count the same.  The pieces of a cell are its values separated by
    [", "]: joined by it they give back the cell, and none contains it.
    On a column that is not of dtype object both paths stop at the [.str]
    accessor. *)
Lemma explode_paths (df filtered : DataFrame) (kc kg : nat) :
  index_of "country" (columns filtered) = Some kc ->
  index_of "listed_in" (columns filtered) = Some kg ->
  let country := column_of kc (records filtered) in
  let listed_in := column_of kg (records filtered) in
  (object_column df "country" = true ->
   Netflix.countries_series df filtered
   = Ok (flat_map (exploded_rows ", " false) country))
  /\ (object_column df "listed_in" = true ->
      Netflix.genres df filtered
      = Ok (flat_map (exploded_rows ", " true) listed_in))
  /\ (object_column df "country" = false ->
      Netflix.countries_series df filtered = Raise AttributeError)
  /\ (object_column df "listed_in" = false ->
      Netflix.genres df filtered = Raise AttributeError)
  /\ value_counts (flat_map (exploded_rows ", " true) listed_in)
     = value_counts (flat_map (exploded_rows ", " false) listed_in)
  /\ (forall x, split ", " x <> []
                /\ join ", " (split ", " x) = x
                /\ forall piece, In piece (split ", " x) ->
                                 ~ occurs ", " piece).
Proof.
  intros Hc Hg country listed_in.
  assert (Hsep : ", " <> "") by discriminate.
  unfold Netflix.countries_series, Netflix.genres.
  rewrite (getitem_column _ _ _ Hc), (getitem_column _ _ _ Hg). cbn [bind].
  fold country. fold listed_in.
  split; [intros ->; apply explode_dropna_rows|].
  split; [intros ->; apply explode_all_rows|].
  split; [intros ->; reflexivity|].
  split; [intros ->; reflexivity|].
  split.
  - rewrite <- (value_counts_dropna (flat_map _ listed_in)),
      <- (value_counts_dropna (flat_map (exploded_rows ", " false) _)).
    rewrite dropna_exploded. reflexivity.
  - intros x.
    split; [apply split_from_nonempty|].
    split; [apply join_split; exact Hsep|].
    intros piece. apply split_pieces. exact Hsep.
Qed.

(** C2 on the code.  The countries path drops the missing cells before it
    splits, as the claim says: the third title, which has no country, has
    no row among the countries.  The genres path does not: the same title
    has no genre either, and [genres] holds a row for it, with a missing
    value.  Of the selection that holds this title alone the countries are
    no row and the genres one row with a missing value.  A cell
    "USA, France" gives two rows with the same label, holding "USA" and
    "France". *)
Theorem genres_keep_missing_cell :
  In (VInt 2, nan) (column_of 4 (records Samples.netflix))
  /\ In (VInt 2, nan) (column_of 8 (records Samples.netflix))
  /\ Netflix.countries_series Samples.netflix Samples.netflix
     = Ok [(VInt 0, str "United States"); (VInt 0, str "France");
           (VInt 1, str "South Africa"); (VInt 3, str "United States")]
  /\ Netflix.genres Samples.netflix Samples.netflix
     = Ok [(VInt 0, str "Documentaries");
           (VInt 1, str "International TV Shows");
           (VInt 1, str "TV Dramas");
           (VInt 2, nan);
           (VInt 3, str "Comedies"); (VInt 3, str "Dramas")]
  /\ (let third :=
        mkDF (columns Samples.netflix)
             (filter (fun ir => value_eqb (fst ir) (VInt 2))
                     (records Samples.netflix))
      in len third = 1%nat
         /\ Netflix.countries_series Samples.netflix third = Ok []
         /\ Netflix.genres Samples.netflix third = Ok [(VInt 2, nan)])
  /\ (let titles :=
        frame ["country"; "listed_in"] [[str "USA, France"; str "Dramas"]]
      in Netflix.countries_series titles titles
         = Ok [(VInt 0, str "USA"); (VInt 0, str "France")]).
Proof.
  split; [simpl; tauto|]. split; [simpl; tauto|].
  split; [reflexivity|]. split; [reflexivity|].
  split; [repeat split; reflexivity | reflexivity].
Qed.

(** ** Reductions skip missing values *)

Lemma accumulate_present (xs : list (option Q)) (acc : Q) (n : nat) :
  accumulate xs acc n
  = (fold_left Qplus (present xs) acc, (n + List.length (present xs))%nat).
Proof.
  revert acc n. induction xs as [|[q|] xs IH]; intros acc n; simpl.
  - rewrite Nat.add_0_r. reflexivity.
  - rewrite IH. f_equal. lia.
  - apply IH.
Qed.

Lemma nansum_present (xs : list (option Q)) : nansum xs = Qsum (present xs).
Proof. unfold nansum. rewrite accumulate_present. reflexivity. Qed.

Lemma nanmean_present (xs : list (option Q)) :
  nanmean xs = mean_of (present xs).
Proof.
  unfold nanmean. rewrite accumulate_present. simpl.
  destruct (present xs); reflexivity.
Qed.

Lemma nanmin_present (xs : list (option Q)) : nanmin xs = min_of (present xs).
Proof.
  induction xs as [|[q|] xs IH]; simpl; [reflexivity | | exact IH].
  rewrite IH. reflexivity.
Qed.

Lemma nanmax_present (xs : list (option Q)) : nanmax xs = max_of (present xs).
Proof.
  induction xs as [|[q|] xs IH]; simpl; [reflexivity | | exact IH].
  rewrite IH. reflexivity.
Qed.

Lemma sum_sq_dev_present (xs : list (option Q)) (m acc : Q) :
  sum_sq_dev xs m acc
  = fold_left (fun a q => a + (q - m) * (q - m)) (present xs) acc.
Proof.
  revert acc. induction xs as [|[q|] xs IH]; intros acc; simpl;
    [reflexivity | apply IH | apply IH].
Qed.

Lemma nanvar_present (xs : list (option Q)) : nanvar xs = var_of (present xs).
Proof.
  unfold nanvar. rewrite accumulate_present. simpl.
  rewrite sum_sq_dev_present.
  destruct (present xs) as [|a [|b l]]; reflexivity.
Qed.

Lemma count_present {A : Type} (xs : list (option A)) :
  count xs = List.length (present xs).
Proof.
  unfold count. induction xs as [|[a|] xs IH]; simpl; congruence.
Qed.

Lemma reduce_over_present {L : Library} (r : reduction) (s : Series cell)
  (t : Series (option Q)) :
  skips_missing r = true ->
  as_numeric s = Ok t ->
  reduce r s = Ok (over_present r (present (values t))).
Proof.
  intros Hr Ht. destruct r; try discriminate Hr; simpl; rewrite Ht; simpl.
  - rewrite nansum_present. reflexivity.
  - rewrite nanmean_present. reflexivity.
  - rewrite nanmin_present. reflexivity.
  - rewrite nanmax_present. reflexivity.
  - unfold nanstd. rewrite nanvar_present. reflexivity.
Qed.

Lemma min_of_least (l : list Q) (m : Q) :
  min_of l = Some m -> In m l /\ forall x, In x l -> m <= x.
Proof.
  revert m. induction l as [|q l IH]; intros m; simpl; [discriminate|].
  destruct (min_of l) as [m'|] eqn:E.
  - destruct (IH m' eq_refl) as [Hin Hle].
    destruct (Qle_bool q m') eqn:Hq; intros [= <-].
    + apply Qle_bool_iff in Hq. split; [left; reflexivity|].
      intros x [<-|Hx]; [apply Qle_refl|].
      apply (Qle_trans _ m'); [exact Hq | apply Hle; exact Hx].
    + split; [right; exact Hin|].
      intros x [<-|Hx]; [|apply Hle; exact Hx].
      apply Qlt_le_weak, Qnot_le_lt. intros Hc.
      apply Qle_bool_iff in Hc. congruence.
  - intros [= <-]. destruct l as [|a l]; [|simpl in E; destruct (min_of l);
                                             discriminate E].
    split; [left; reflexivity|]. intros x [<-|[]]. apply Qle_refl.
Qed.

Lemma max_of_greatest (l : list Q) (m : Q) :
  max_of l = Some m -> In m l /\ forall x, In x l -> x <= m.
Proof.
  revert m. induction l as [|q l IH]; intros m; simpl; [discriminate|].
  destruct (max_of l) as [m'|] eqn:E.
  - destruct (IH m' eq_refl) as [Hin Hle].
    destruct (Qle_bool m' q) eqn:Hq; intros [= <-].
    + apply Qle_bool_iff in Hq. split; [left; reflexivity|].
      intros x [<-|Hx]; [apply Qle_refl|].
      apply (Qle_trans _ m'); [apply Hle; exact Hx | exact Hq].
    + split; [right; exact Hin|].
      intros x [<-|Hx]; [|apply Hle; exact Hx].
      apply Qlt_le_weak, Qnot_le_lt. intros Hc.
      apply Qle_bool_iff in Hc. congruence.
  - intros [= <-]. destruct l as [|a l]; [|simpl in E; destruct (max_of l);
                                             discriminate E].
    split; [left; reflexivity|]. intros x [<-|[]]. apply Qle_refl.
Qed.

(** ** Grouped aggregation, cell by cell *)

Lemma Forall2_In_r {A B : Type} (R : A -> B -> Prop) (l : list A)
  (l' : list B) (b : B) :
  Forall2 R l l' -> In b l' -> exists a, In a l /\ R a b.
Proof.
  induction 1 as [|a b' l l' Hab H IH]; intros Hin; [contradiction|].
  destruct Hin as [<-|Hin].
  - exists a. split; [left; reflexivity | exact Hab].
  - destruct (IH Hin) as [a' [Ha' Hr]]. exists a'.
    split; [right; exact Ha' | exact Hr].
Qed.

Lemma Forall2_map_fst {A B C : Type} (R : A * B -> A * C -> Prop)
  (l : list (A * B)) (l' : list (A * C)) :
  Forall2 R l l' -> (forall x y, R x y -> fst x = fst y) ->
  map fst l' = map fst l.
Proof.
  induction 1 as [|a b l l' Hab H IH]; intros HR; simpl; [reflexivity|].
  rewrite (HR a b Hab), (IH HR). reflexivity.
Qed.

Lemma Forall2_nth_error {A B : Type} (R : A -> B -> Prop) (l : list A)
  (l' : list B) (db : B) (n : nat) (a : A) :
  Forall2 R l l' -> nth_error l n = Some a -> R a (nth n l' db).
Proof.
  intros H. revert n. induction H as [|x y l l' Hxy H IH]; intros n Hn.
  - destruct n; discriminate Hn.
  - destruct n as [|n]; simpl in *; [injection Hn as <-; exact Hxy|].
    apply IH. exact Hn.
Qed.

Lemma groupby_Ok (df : DataFrame) (by_ : string)
  (gs : list (value * DataFrame)) :
  groupby df by_ = Ok gs ->
  exists k, index_of by_ (columns df) = Some k
            /\ gs = map (fun key => (key, group_of df by_ key))
                        (group_keys (column_of k (records df))).
Proof.
  unfold groupby. destruct (index_of by_ (columns df)) as [k|] eqn:Hk;
    [|discriminate].
  rewrite (getitem_column _ _ _ Hk). simpl. intros [= <-].
  exists k. split; [reflexivity|]. apply map_ext. intros key.
  unfold group_of, group_rows. do 2 f_equal. apply filter_ext.
  intros ir. rewrite (cell_at_index _ _ _ _ Hk). reflexivity.
Qed.

Lemma groupby_agg_Ok {L : Library} (df out : DataFrame) (by_ : string)
  (spec : list aggregation) :
  groupby_agg df by_ spec = Ok out ->
  exists k, index_of by_ (columns df) = Some k
    /\ columns out = map (fun a => fst (fst a)) spec
    /\ map fst (records out) = group_keys (column_of k (records df))
    /\ forall key row, In (key, row) (records out) ->
         agg_group spec (group_of df by_ key) = Ok row.
Proof.
  unfold groupby_agg. intros H.
  apply bind_Ok in H. destruct H as [gs [Hgs H]].
  apply bind_Ok in H. destruct H as [checked [_ H]].
  apply bind_Ok in H. destruct H as [rows [Hrows H]].
  injection H as <-. simpl.
  apply groupby_Ok in Hgs. destruct Hgs as [k [Hk ->]].
  exists k. split; [exact Hk|]. split; [reflexivity|].
  apply mapM_Ok in Hrows. split.
  - etransitivity; [apply (Forall2_map_fst _ _ _ Hrows)|].
    + intros x y Hxy. apply bind_Ok in Hxy. destruct Hxy as [r [_ Hxy]].
      injection Hxy as <-. reflexivity.
    + rewrite map_map. simpl. apply map_id.
  - intros key row Hin.
    destruct (Forall2_In_r _ _ _ _ Hrows Hin) as [kg [Hkg Hr]].
    apply in_map_iff in Hkg. destruct Hkg as [key' [<- _]]. simpl in Hr.
    apply bind_Ok in Hr. destruct Hr as [r [Hr E]].
    injection E as <- <-. exact Hr.
Qed.

Lemma agg_group_cell {L : Library} (spec : list aggregation)
  (g : DataFrame) (row : Row) (n : nat) (name col : string) (r : reduction) :
  agg_group spec g = Ok row ->
  nth_error spec n = Some (name, col, r) ->
  (s <- getitem g col ;; reduce r s) = Ok (nth n row None).
Proof.
  intros H Hn. unfold agg_group in H. apply mapM_Ok in H.
  apply (Forall2_nth_error _ _ _ None n _ H) in Hn. exact Hn.
Qed.

Lemma reduce_column {L : Library} (g : DataFrame) (col : string)
  (r : reduction) (c : cell) :
  skips_missing r = true ->
  (s <- getitem g col ;; reduce r s) = Ok c ->
  c = over_present r (present_numbers g col).
Proof.
  intros Hr H. apply bind_Ok in H. destruct H as [s [Hs H]].
  assert (Hnum : exists t, as_numeric s = Ok t).
  { destruct r; try discriminate Hr; simpl in H;
      destruct (as_numeric s) as [t|]; try discriminate H; exists t;
      reflexivity. }
  destruct Hnum as [t Ht].
  rewrite (reduce_over_present r s t Hr Ht) in H. injection H as <-.
  unfold present_numbers. rewrite <- (numeric_series g col t); [reflexivity|].
  rewrite Hs. simpl. exact Ht.
Qed.

Lemma In_insert_sorted {A : Type} (leb : A -> A -> bool) (x y : A)
  (l : list A) :
  In y (insert_sorted leb x l) <-> y = x \/ In y l.
Proof.
  induction l as [|a l IH]; simpl; [intuition congruence|].
  destruct (leb x a); simpl; [intuition congruence|].
  rewrite IH. intuition congruence.
Qed.

Lemma In_sort_by {A : Type} (leb : A -> A -> bool) (y : A) (l : list A) :
  In y (sort_by leb l) <-> In y l.
Proof.
  induction l as [|a l IH]; simpl; [reflexivity|].
  rewrite In_insert_sorted, IH. intuition congruence.
Qed.

Lemma product_stats_rows {L : Library} (df stats : DataFrame)
  (key : value) (row : Row) :
  Retail.product_stats df = Ok stats ->
  In (key, row) (records stats) ->
  exists raw,
    row = map (round_cell 2) raw
    /\ agg_group [("Total Revenue", "Total", Rsum);
                  ("Avg Sale", "Total", Rmean);
                  ("Transactions", "Total", Rcount);
                  ("Units Sold", "Quantity", Rsum);
                  ("Avg Rating", "Rating", Rmean)]
                 (group_of df "Product line" key) = Ok raw.
Proof.
  unfold Retail.product_stats. intros H Hin.
  apply bind_Ok in H. destruct H as [grouped [Hg H]].
  unfold sort_values in H.
  destruct (index_of "Total Revenue" (columns (df_round 2 grouped)));
    [|discriminate H].
  injection H as <-. simpl in Hin. apply In_sort_by in Hin.
  apply in_map_iff in Hin. destruct Hin as [[key' raw] [E Hraw]].
  simpl in E. injection E as <- <-.
  exists raw. split; [reflexivity|].
  apply groupby_agg_Ok in Hg. destruct Hg as [k [_ [_ [_ Hrows]]]].
  apply Hrows. exact Hraw.
Qed.

Lemma nth_round (nd n : nat) (raw : Row) :
  nth n (map (round_cell nd) raw) None = round_cell nd (nth n raw None).
Proof. exact (map_nth (round_cell nd) raw None n). Qed.

(** C6. In a grouped aggregation every cell computed by sum, mean, std, min
    or max is that reduction of the non-missing values of the metric
    column within the group, and of nothing else; so are the revenue,
    average sale, units and average rating of [product_stats], rounded to
    two decimals.  The reductions of the present values are the usual
    ones (the minimum is the least of them, the maximum the greatest).  In
    particular the mean of 10, 20, missing, 40 is 70/3, shown as 23.33,
    and not 17.5. *)
Theorem aggregation_skips_missing {L : Library}
  (df out : DataFrame) (by_ : string) (spec : list aggregation)
  (key : value) (row : Row) (n : nat) (name col : string) (r : reduction) :
  groupby_agg df by_ spec = Ok out ->
  In (key, row) (records out) ->
  nth_error spec n = Some (name, col, r) ->
  skips_missing r = true ->
  nth n row None = over_present r (present_numbers (group_of df by_ key) col)
  /\ (forall stats line shown,
        Retail.product_stats df = Ok stats ->
        In (line, shown) (records stats) ->
        let group := group_of df "Product line" line in
        nth 0 shown None
        = round_cell 2 (over_present Rsum (present_numbers group "Total"))
        /\ nth 1 shown None
           = round_cell 2 (over_present Rmean (present_numbers group "Total"))
        /\ nth 3 shown None
           = round_cell 2
               (over_present Rsum (present_numbers group "Quantity"))
        /\ nth 4 shown None
           = round_cell 2
               (over_present Rmean (present_numbers group "Rating")))
  /\ (forall xs,
        nansum xs = Qsum (present xs)
        /\ nanmean xs = mean_of (present xs)
        /\ nanmin xs = min_of (present xs)
        /\ nanmax xs = max_of (present xs)
        /\ nanstd xs = option_map sqrt (var_of (present xs)))
  /\ (forall l m, min_of l = Some m ->
                  In m l /\ forall x, In x l -> m <= x)
  /\ (forall l m, max_of l = Some m ->
                  In m l /\ forall x, In x l -> x <= m)
  /\ nanmean [Some 10; Some 20; None; Some 40] = Some (70 # 3)
  /\ round_to 2 (70 # 3) = 2333 # 100
  /\ ~ 70 # 3 == 175 # 10.
Proof.
  intros Hout Hin Hn Hr.
  split.
  { apply groupby_agg_Ok in Hout. destruct Hout as [k [_ [_ [_ Hrows]]]].
    apply (reduce_column _ col r _ Hr).
    apply (agg_group_cell spec _ row n name col r (Hrows key row Hin) Hn). }
  split.
  { intros stats line shown Hstats Hshown group.
    destruct (product_stats_rows df stats line shown Hstats Hshown)
      as [raw [-> Hraw]].
    repeat split.
    - rewrite nth_round. f_equal.
      apply (reduce_column _ "Total" Rsum _ eq_refl).
      apply (agg_group_cell _ _ raw 0 "Total Revenue" "Total" Rsum Hraw
               eq_refl).
    - rewrite nth_round. f_equal.
      apply (reduce_column _ "Total" Rmean _ eq_refl).
      apply (agg_group_cell _ _ raw 1 "Avg Sale" "Total" Rmean Hraw eq_refl).
    - rewrite nth_round. f_equal.
      apply (reduce_column _ "Quantity" Rsum _ eq_refl).
      apply (agg_group_cell _ _ raw 3 "Units Sold" "Quantity" Rsum Hraw
               eq_refl).
    - rewrite nth_round. f_equal.
      apply (reduce_column _ "Rating" Rmean _ eq_refl).
      apply (agg_group_cell _ _ raw 4 "Avg Rating" "Rating" Rmean Hraw
               eq_refl). }
  split.
  { intros xs. repeat split.
    - apply nansum_present.
    - apply nanmean_present.
    - apply nanmin_present.
    - apply nanmax_present.
    - unfold nanstd. rewrite nanvar_present. reflexivity. }
  split; [exact min_of_least|]. split; [exact max_of_greatest|].
  split; [reflexivity|]. split; [reflexivity|].
  intros H. discriminate H.
Qed.

Lemma aggregation_skips_missing_witness :
  exists out stats,
    groupby_agg (L := Reference.library) Samples.retail "Product line"
      [("Avg Sale", "Total", Rmean)] = Ok out
    /\ In (VStr "Health and beauty", [float (70 # 3)]) (records out)
    /\ present_numbers (group_of Samples.retail "Product line"
                                 (VStr "Health and beauty")) "Total"
       = [10; 20; 40]
    /\ float (70 # 3)
       = over_present (L := Reference.library) Rmean
           (present_numbers (group_of Samples.retail "Product line"
                                      (VStr "Health and beauty")) "Total")
    /\ Retail.product_stats (L := Reference.library) Samples.retail
       = Ok stats
    /\ In (VStr "Health and beauty",
           [float (7000 # 100); float (2333 # 100); int 3;
            float (2700 # 100); float (870 # 100)]) (records stats)
    /\ float (2333 # 100)
       = round_cell 2
           (over_present (L := Reference.library) Rmean
              (present_numbers (group_of Samples.retail "Product line"
                                         (VStr "Health and beauty"))
                               "Total")).
Proof.
  pose (out := mkDF ["Avg Sale"]
                 [(VStr "Health and beauty", [float (70 # 3)]);
                  (VStr "Sports and travel", [float 30])]).
  pose (stats := mkDF ["Total Revenue"; "Avg Sale"; "Transactions";
                       "Units Sold"; "Avg Rating"]
                   [(VStr "Health and beauty",
                     [float (7000 # 100); float (2333 # 100); int 3;
                      float (2700 # 100); float (870 # 100)]);
                    (VStr "Sports and travel",
                     [float (3000 # 100); float (3000 # 100); int 1;
                      float (700 # 100); float (530 # 100)])]).
  assert (Hout : groupby_agg (L := Reference.library) Samples.retail
                   "Product line" [("Avg Sale", "Total", Rmean)] = Ok out)
    by (vm_compute; reflexivity).
  assert (Hstats : Retail.product_stats (L := Reference.library)
                     Samples.retail = Ok stats)
    by (vm_compute; reflexivity).
  assert (Hin : In (VStr "Health and beauty", [float (70 # 3)])
                   (records out)) by (left; reflexivity).
  destruct (aggregation_skips_missing (L := Reference.library)
              Samples.retail out "Product line"
              [("Avg Sale", "Total", Rmean)] (VStr "Health and beauty")
              [float (70 # 3)] 0 "Avg Sale" "Total" Rmean
              Hout Hin eq_refl eq_refl) as [A [B _]].
  exists out, stats.
  split; [exact Hout|]. split; [exact Hin|].
  split; [vm_compute; reflexivity|]. split; [exact A|].
  split; [exact Hstats|].
  assert (Hshown : In (VStr "Health and beauty",
                       [float (7000 # 100); float (2333 # 100); int 3;
                        float (2700 # 100); float (870 # 100)])
                      (records stats)) by (left; reflexivity).
  split; [exact Hshown|].
  destruct (B stats _ _ Hstats Hshown) as [_ [B1 _]]. exact B1.
Defined.

(** ** One row per group key *)

Lemma ForallOrdPairs_filter {A : Type} (R : A -> A -> Prop)
  (p : A -> bool) (l : list A) :
  ForallOrdPairs R l -> ForallOrdPairs R (filter p l).
Proof.
  induction 1 as [|a l Ha H IH]; simpl; [constructor|].
  destruct (p a); [|exact IH]. constructor; [|exact IH].
  apply Forall_forall. intros x Hx. apply filter_In in Hx.
  rewrite Forall_forall in Ha. apply Ha. apply Hx.
Qed.

Lemma ForallOrdPairs_insert {A : Type} (R : A -> A -> Prop)
  (leb : A -> A -> bool) (x : A) (l : list A) :
  (forall a b, R a b -> R b a) ->
  Forall (R x) l -> ForallOrdPairs R l ->
  ForallOrdPairs R (insert_sorted leb x l).
Proof.
  intros Hsym Hx H. induction H as [|a l Ha H IH]; simpl.
  - constructor; constructor.
  - destruct (leb x a).
    + constructor; [exact Hx | constructor; assumption].
    + constructor.
      * apply Forall_forall. intros y Hy. apply In_insert_sorted in Hy.
        destruct Hy as [->|Hy].
        -- apply Hsym. apply (Forall_inv Hx).
        -- rewrite Forall_forall in Ha. apply Ha. exact Hy.
      * apply IH. apply (Forall_inv_tail Hx).
Qed.

Lemma ForallOrdPairs_sort_by {A : Type} (R : A -> A -> Prop)
  (leb : A -> A -> bool) (l : list A) :
  (forall a b, R a b -> R b a) ->
  ForallOrdPairs R l -> ForallOrdPairs R (sort_by leb l).
Proof.
  intros Hsym. induction 1 as [|a l Ha H IH]; simpl; [constructor|].
  apply ForallOrdPairs_insert; [exact Hsym | | exact IH].
  apply Forall_forall. intros y Hy. apply In_sort_by in Hy.
  rewrite Forall_forall in Ha. apply Ha. exact Hy.
Qed.

Lemma unique_cells_distinct (l : list cell) :
  ForallOrdPairs (fun a b => cell_eqb a b = false) (unique_cells l).
Proof.
  induction l as [|c l IH]; simpl; constructor.
  - apply Forall_forall. intros d Hd. apply filter_In in Hd.
    destruct Hd as [_ Hd]. apply negb_true_iff in Hd. exact Hd.
  - apply ForallOrdPairs_filter. exact IH.
Qed.

Lemma unique_cells_subset (l : list cell) (c : cell) :
  In c (unique_cells l) -> In c l.
Proof.
  induction l as [|d l IH]; simpl; [auto|].
  intros [->|H]; [left; reflexivity|].
  apply filter_In in H. right. apply IH. apply H.
Qed.

Lemma present_In {A : Type} (l : list (option A)) (a : A) :
  In a (present l) <-> In (Some a) l.
Proof.
  induction l as [|[b|] l IH]; simpl; [reflexivity | |].
  - rewrite IH. split; intros [H|H]; auto; left; congruence.
  - rewrite IH. split; [auto | intros [H|H]; [discriminate H | exact H]].
Qed.

Lemma present_distinct (l : list cell) :
  ForallOrdPairs (fun a b => cell_eqb a b = false) l ->
  pairwise_distinct (present l).
Proof.
  unfold pairwise_distinct.
  induction 1 as [|c l Hc H IH]; simpl; [constructor|].
  destruct c as [v|]; [|exact IH]. constructor; [|exact IH].
  apply Forall_forall. intros w Hw. apply present_In in Hw.
  rewrite Forall_forall in Hc. apply (Hc (Some w) Hw).
Qed.

Lemma values_dropna_In (s : Series cell) (v : value) :
  In (Some v) (values (dropna s)) <-> In (Some v) (values s).
Proof.
  unfold values, dropna. rewrite !in_map_iff. split.
  - intros [ic [E H]]. apply filter_In in H. exists ic. tauto.
  - intros [ic [E H]]. exists ic. split; [exact E|].
    apply filter_In. split; [exact H|].
    destruct ic as [i c]. simpl in *. subst c. reflexivity.
Qed.

Lemma group_keys_distinct (s : Series cell) :
  pairwise_distinct (group_keys s).
Proof.
  unfold group_keys, sorted, unique. apply present_distinct.
  apply ForallOrdPairs_sort_by; [|apply unique_cells_distinct].
  intros a b H. rewrite cell_eqb_sym. exact H.
Qed.

Lemma group_keys_sound (s : Series cell) (key : value) :
  In key (group_keys s) -> In (Some key) (values s).
Proof.
  unfold group_keys, sorted, unique. intros H.
  apply present_In, In_sort_by, unique_cells_subset in H.
  apply values_dropna_In. exact H.
Qed.

Lemma group_keys_complete (s : Series cell) (v : value) :
  In (Some v) (values s) ->
  exists key, In key (group_keys s) /\ value_eqb v key = true.
Proof.
  intros H. apply values_dropna_In in H.
  pose proof (member_unique_cells (Some v) _ (member_self _ _ H)) as Hm.
  unfold member in Hm. apply existsb_exists in Hm.
  destruct Hm as [[key|] [Hin Heq]]; [|discriminate Heq].
  exists key. split; [|exact Heq].
  unfold group_keys, sorted, unique. apply present_In, In_sort_by.
  exact Hin.
Qed.

Lemma column_values_In (df : DataFrame) (c : string) (k : nat) (x : cell) :
  index_of c (columns df) = Some k ->
  (In x (values (column_of k (records df))) <->
   exists ir, In ir (records df) /\ cell_at df c (snd ir) = x).
Proof.
  intros Hk. unfold values, column_of. rewrite map_map. simpl.
  rewrite in_map_iff. split; intros [ir [E H]]; exists ir.
  - split; [exact H|]. rewrite (cell_at_index _ _ _ _ Hk). exact E.
  - split; [|exact E]. rewrite (cell_at_index _ _ _ _ Hk) in H. exact H.
Qed.

(** ** Column assignment, row by row *)

Lemma field_set_field_same (k : nat) (v : cell) (r : Row) :
  field k (set_field k v r) = v.
Proof.
  unfold field. revert r. induction k as [|k IH]; intros [|c r]; simpl;
    try reflexivity; apply IH.
Qed.

Lemma field_set_field_other (j k : nat) (v : cell) (r : Row) :
  j <> k -> field j (set_field k v r) = field j r.
Proof.
  unfold field. revert j r. induction k as [|k IH]; intros j r Hjk.
  - destruct j as [|j]; [congruence|]. destruct r as [|c r]; simpl;
      [destruct j; reflexivity | reflexivity].
  - destruct j as [|j]; destruct r as [|c r]; simpl; try reflexivity.
    + rewrite IH by congruence. destruct j; reflexivity.
    + apply IH. congruence.
Qed.

Lemma index_of_lt (c : string) (cols : list string) (k : nat) :
  index_of c cols = Some k -> (k < List.length cols)%nat.
Proof.
  revert k. induction cols as [|c' cols IH]; intros k; simpl; [discriminate|].
  destruct (String.eqb c c'); [intros [= <-]; lia|].
  destruct (index_of c cols) as [j|]; [|discriminate].
  intros [= <-]. specialize (IH j eq_refl). lia.
Qed.

Lemma index_of_injective (c c' : string) (cols : list string) (k : nat) :
  index_of c cols = Some k -> index_of c' cols = Some k -> c = c'.
Proof.
  revert k. induction cols as [|x cols IH]; intros k; simpl; [discriminate|].
  destruct (String.eqb c x) eqn:E1, (String.eqb c' x) eqn:E2.
  - apply String.eqb_eq in E1, E2. congruence.
  - intros [= <-]. destruct (index_of c' cols); discriminate.
  - destruct (index_of c cols); [|discriminate]. intros [= <-]. discriminate.
  - destruct (index_of c cols) as [j|]; [|discriminate].
    destruct (index_of c' cols) as [j'|]; [|discriminate].
    intros H1 H2. assert (j = j') by congruence. subst j'.
    apply (IH j); reflexivity.
Qed.

Lemma index_of_app_new (c : string) (cols : list string) :
  index_of c cols = None ->
  index_of c (cols ++ [c]) = Some (List.length cols).
Proof.
  induction cols as [|x cols IH]; simpl.
  - rewrite String.eqb_refl. reflexivity.
  - destruct (String.eqb c x); [discriminate|].
    destruct (index_of c cols); [discriminate|].
    intros _. rewrite IH by reflexivity. reflexivity.
Qed.

Lemma index_of_app_other (c c' : string) (cols : list string) :
  c' <> c -> index_of c' (cols ++ [c]) = index_of c' cols.
Proof.
  intros Hne. induction cols as [|x cols IH]; simpl.
  - destruct (String.eqb c' c) eqn:E; [|reflexivity].
    apply String.eqb_eq in E. contradiction.
  - destruct (String.eqb c' x); [reflexivity|]. rewrite IH. reflexivity.
Qed.

Lemma assign_rows_row_series (k : nat) (f : Row -> cell)
  (rs : list (label * Row)) :
  assign_rows k rs (map (fun ir => (fst ir, f (snd ir))) rs)
  = map (fun ir => (fst ir, set_field k (f (snd ir)) (snd ir))) rs.
Proof.
  induction rs as [|[i r] rs IH]; simpl; [reflexivity|].
  rewrite IH. reflexivity.
Qed.

Lemma setitem_records (df : DataFrame) (c : string) (f : Row -> cell) :
  records (setitem df c (row_series f df))
  = map (fun ir => (fst ir, set_field (slot df c) (f (snd ir)) (snd ir)))
        (records df).
Proof.
  unfold setitem, slot, row_series.
  destruct (index_of c (columns df)); simpl; apply assign_rows_row_series.
Qed.

Lemma setitem_index_same (df : DataFrame) (c : string) (s : Series cell) :
  index_of c (columns (setitem df c s)) = Some (slot df c).
Proof.
  unfold setitem, slot.
  destruct (index_of c (columns df)) as [k|] eqn:E; simpl;
    [exact E | apply index_of_app_new; exact E].
Qed.

Lemma setitem_index_other (df : DataFrame) (c c' : string)
  (s : Series cell) :
  c' <> c ->
  index_of c' (columns (setitem df c s)) = index_of c' (columns df).
Proof.
  intros Hne. unfold setitem.
  destruct (index_of c (columns df)); simpl;
    [reflexivity | apply index_of_app_other; exact Hne].
Qed.

(** What a row-wise column assignment does to each row: the assigned
    column holds the computed value, every other column is untouched. *)
Lemma setitem_rows (df : DataFrame) (c : string) (f : Row -> cell)
  (ir' : label * Row) :
  In ir' (records (setitem df c (row_series f df))) ->
  exists ir, In ir (records df)
    /\ fst ir' = fst ir
    /\ cell_at (setitem df c (row_series f df)) c (snd ir') = f (snd ir)
    /\ forall c', c' <> c ->
         cell_at (setitem df c (row_series f df)) c' (snd ir')
         = cell_at df c' (snd ir).
Proof.
  rewrite setitem_records. intros H. apply in_map_iff in H.
  destruct H as [ir [<- Hin]]. exists ir. simpl.
  split; [exact Hin|]. split; [reflexivity|]. split.
  - unfold cell_at. rewrite setitem_index_same. apply field_set_field_same.
  - intros c' Hne. unfold cell_at. rewrite setitem_index_other by exact Hne.
    destruct (index_of c' (columns df)) as [j|] eqn:Ej; [|reflexivity].
    apply field_set_field_other. unfold slot.
    destruct (index_of c (columns df)) as [k|] eqn:Ek.
    + intros ->. apply Hne. apply (index_of_injective _ _ _ _ Ej Ek).
    + apply index_of_lt in Ej. lia.
Qed.

Lemma getitem_row_series (df : DataFrame) (c : string) (s : Series cell) :
  getitem df c = Ok s -> s = row_series (cell_at df c) df.
Proof.
  intros H. apply getitem_Ok in H. destruct H as [k [Hk ->]].
  unfold column_of, row_series. apply map_ext. intros ir.
  rewrite (cell_at_index _ _ _ _ Hk). reflexivity.
Qed.

Lemma smap_row_series {B : Type} (h : cell -> B) (f : Row -> cell)
  (df : DataFrame) :
  smap h (row_series f df)
  = map (fun ir => (fst ir, h (f (snd ir)))) (records df).
Proof. unfold smap, row_series. rewrite map_map. reflexivity. Qed.

Lemma smap_row_series_cell (h : cell -> cell) (f : Row -> cell)
  (df : DataFrame) :
  smap h (row_series f df) = row_series (fun r => h (f r)) df.
Proof. apply smap_row_series. Qed.

Lemma dt_smap (s : Series cell) (d : Series (option timestamp)) :
  dt s = Ok d -> d = smap timestamp_of s.
Proof.
  revert d. induction s as [|[i c] s IH]; intros d; simpl.
  - intros [= <-]. reflexivity.
  - destruct c as [[x|z|q|t|h m]|]; try discriminate;
      destruct (dt s) as [d'|]; simpl; try discriminate;
      intros [= <-]; rewrite (IH d' eq_refl); reflexivity.
Qed.


Lemma series_mul_row_series (f g : Row -> cell) (df : DataFrame)
  (t : Series cell) :
  series_mul (row_series f df) (row_series g df) = Ok t ->
  t = row_series (fun r => cell_product (f r) (g r)) df.
Proof.
  unfold row_series. revert t.
  induction (records df) as [|[i r] rs IH]; intros t; simpl.
  - intros [= <-]. reflexivity.
  - unfold cell_product. destruct (f r) as [u|], (g r) as [v|]; simpl.
    + destruct (mul_value u v) as [w|]; simpl; [|discriminate].
      destruct (series_mul _ _) as [t'|]; simpl; [|discriminate].
      intros [= <-]. rewrite (IH t' eq_refl). reflexivity.
    + destruct (series_mul _ _) as [t'|]; simpl; [|discriminate].
      intros [= <-]. rewrite (IH t' eq_refl). reflexivity.
    + destruct (series_mul _ _) as [t'|]; simpl; [|discriminate].
      intros [= <-]. rewrite (IH t' eq_refl). reflexivity.
    + destruct (series_mul _ _) as [t'|]; simpl; [|discriminate].
      intros [= <-]. rewrite (IH t' eq_refl). reflexivity.
Qed.





Lemma dt_row_series {B : Type} (h : option timestamp -> B) (f : Row -> cell)
  (df : DataFrame) (d : Series (option timestamp)) :
  dt (row_series f df) = Ok d ->
  smap h d = map (fun ir => (fst ir, h (timestamp_of (f (snd ir)))))
                 (records df).
Proof.
  intros H. apply dt_smap in H. subst d. unfold smap, row_series.
  rewrite !map_map. reflexivity.
Qed.

Lemma dt_row_series_cell (h : option timestamp -> cell) (f : Row -> cell)
  (df : DataFrame) (d : Series (option timestamp)) :
  dt (row_series f df) = Ok d ->
  smap h d = row_series (fun r => h (timestamp_of (f r))) df.
Proof. apply dt_row_series. Qed.


(** One step back along a chain of column assignments. *)
Ltac step_back Hin E :=
  rewrite E in Hin |- *; apply setitem_rows in Hin;
  let ir' := fresh "ir" in
  let Hs := fresh "Hsame" in
  let Ho := fresh "Hother" in
  destruct Hin as [ir' [Hin [_ [Hs Ho]]]];
  rewrite ?Hs; rewrite ?Ho by discriminate.



(** ** Filters keep rows as they are *)

Lemma select_rows_In (rs : list (label * Row)) (mask : Series bool)
  (ir : label * Row) :
  In ir (select_rows rs mask) -> In ir rs.
Proof.
  revert mask. induction rs as [|r rs IH]; intros mask; simpl; [auto|].
  destruct mask as [|[i b] mask]; [intros []|].
  destruct b.
  - intros [<-|H]; [left; reflexivity | right; apply (IH mask H)].
  - intros H. right. apply (IH mask H).
Qed.

Lemma loc_mask_rows (df : DataFrame) (mask : Series bool) :
  columns (loc_mask df mask) = columns df
  /\ forall ir, In ir (records (loc_mask df mask)) -> In ir (records df).
Proof. split; [reflexivity | intros ir; apply select_rows_In]. Qed.

Lemma date_range_filter_rows (df out : DataFrame)
  (ui : Retail.sidebar_state) :
  Retail.date_range_filter df ui = Ok out ->
  columns out = columns df
  /\ forall ir, In ir (records out) -> In ir (records df).
Proof.
  unfold Retail.date_range_filter. destruct (has_column df "Date").
  - intros H. apply bind_Ok in H. destruct H as [range [_ H]].
    destruct range as [|d0 [|d1 [|d2 w]]];
      try (injection H as <-; split; [reflexivity | auto]).
    apply bind_Ok in H. destruct H as [d' [_ H]].
    apply bind_Ok in H. destruct H as [d'' [_ H]].
    injection H as <-. apply loc_mask_rows.
  - intros [= <-]. split; [reflexivity | auto].
Qed.

Lemma multiselect_filter_keeps (c : string) (choice : option (list cell))
  (df out : DataFrame) :
  Retail.multiselect_filter c choice df = Ok out ->
  columns out = columns df
  /\ forall ir, In ir (records out) -> In ir (records df).
Proof.
  unfold Retail.multiselect_filter. destruct (has_column df c).
  - intros H. apply bind_Ok in H. destruct H as [options [_ H]].
    apply bind_Ok in H. destruct H as [selected [_ H]].
    apply bind_Ok in H. destruct H as [s [_ H]].
    injection H as <-. apply loc_mask_rows.
  - intros [= <-]. split; [reflexivity | auto].
Qed.

Lemma main_filters_rows (df out : DataFrame) (ui : Retail.sidebar_state) :
  Retail.main_filters df ui = Ok out ->
  columns out = columns df
  /\ forall ir, In ir (records out) -> In ir (records df).
Proof.
  unfold Retail.main_filters, Retail.product_line_filter,
    Retail.branch_filter. intros H.
  apply bind_Ok in H. destruct H as [df1 [H1 H]].
  apply bind_Ok in H. destruct H as [df2 [H2 H3]].
  apply date_range_filter_rows in H1.
  apply multiselect_filter_keeps in H2, H3.
  destruct H1 as [C1 R1], H2 as [C2 R2], H3 as [C3 R3].
  split; [congruence | auto].
Qed.

Lemma cell_at_same_columns (df df' : DataFrame) (c : string) (r : Row) :
  columns df' = columns df -> cell_at df' c r = cell_at df c r.
Proof. intros H. unfold cell_at. rewrite H. reflexivity. Qed.



(** ** Views of an empty result *)

Lemma getitem_empty (df : DataFrame) (c : string) :
  records df = [] -> has_column df c = true -> getitem df c = Ok [].
Proof.
  intros Hr Hc. apply has_column_index in Hc. destruct Hc as [k Hk].
  rewrite (getitem_column _ _ _ Hk), Hr. reflexivity.
Qed.

(** C9 on the code.  When the filtered table has no rows, the heatmap view
    reports "No data available for heatmap with current filters.", but the
    key metrics row does not report anything: it prints its four cards
    with a count of 0 and three NaN values. *)
Theorem empty_result_views (filtered : DataFrame) :
  records filtered = [] ->
  has_column filtered "Sex" = true ->
  has_column filtered "Pclass" = true ->
  has_column filtered "Survived" = true ->
  has_column filtered "Age" = true ->
  has_column filtered "Fare" = true ->
  Titanic.heatmap filtered
  = Ok [st_warning "No data available for heatmap with current filters."]
  /\ Titanic.key_metrics filtered
     = Ok [st_metric_card "Total Passengers" (int 0);
           st_metric_card "Survival Rate" nan;
           st_metric_card "Average Age" nan;
           st_metric_card "Average Fare" nan]
  /\ forall shown, Titanic.key_metrics filtered = Ok shown ->
                   existsb is_message shown = false.
Proof.
  intros Hr Hsex Hpclass Hsurv Hage Hfare.
  assert (Hm : Titanic.key_metrics filtered
               = Ok [st_metric_card "Total Passengers" (int 0);
                     st_metric_card "Survival Rate" nan;
                     st_metric_card "Average Age" nan;
                     st_metric_card "Average Fare" nan]).
  { unfold Titanic.key_metrics, Titanic.column_mean, len.
    rewrite !getitem_empty by assumption. rewrite Hr. reflexivity. }
  split; [|split; [exact Hm|]].
  - unfold Titanic.heatmap, Titanic.pivot_data.
    rewrite !getitem_empty by assumption. reflexivity.
  - intros shown Hs. rewrite Hm in Hs. injection Hs as <-. reflexivity.
Qed.

Lemma empty_result_views_witness :
  exists filtered,
    Titanic.filtered_df Samples.titanic Samples.titanic_nobody = Ok filtered
    /\ len filtered = 0%nat
    /\ Titanic.heatmap filtered
       = Ok [st_warning "No data available for heatmap with current filters."]
    /\ Titanic.key_metrics filtered
       = Ok [st_metric_card "Total Passengers" (int 0);
             st_metric_card "Survival Rate" nan;
             st_metric_card "Average Age" nan;
             st_metric_card "Average Fare" nan].
Proof.
  exists (mkDF (columns Samples.titanic) []).
  split; [vm_compute; reflexivity|]. split; [reflexivity|].
  destruct (empty_result_views (mkDF (columns Samples.titanic) []))
    as [A [B _]]; try reflexivity.
  split; [exact A | exact B].
Defined.

(** ** The cleaned customer numbers *)

Lemma float_to_int64_cast (q : Q) :
  float_to_int64 q
  = (if ((- 2 ^ 63 <=? truncate q) && (truncate q <? 2 ^ 63))%Z
     then truncate q else (- 2 ^ 63)%Z).
Proof.
  unfold float_to_int64, in_int64, int64_min, int64_max.
  assert (E : (truncate q <=? 2 ^ 63 - 1)%Z = (truncate q <? 2 ^ 63)%Z).
  { destruct (Z.leb_spec (truncate q) (2 ^ 63 - 1)),
      (Z.ltb_spec (truncate q) (2 ^ 63)); try reflexivity; lia. }
  rewrite E. reflexivity.
Qed.

Lemma astype_int_smap {L : Library} (s t : Series cell) :
  astype_int s = Ok t ->
  t = smap int_cast s /\ forall ic, In ic t -> is_int (snd ic) = true.
Proof.
  revert t. induction s as [|[i c] s IH]; intros t; simpl.
  - intros [= <-]. split; [reflexivity | intros ic []].
  - destruct c as [[x|z|q|ts|h m]|]; try discriminate.
    + destruct (int_of_string x) as [z|] eqn:E; [|discriminate].
      destruct (in_int64 z); [|discriminate].
      destruct (astype_int s) as [t'|]; simpl; [|discriminate].
      intros [= <-]. destruct (IH t' eq_refl) as [-> Hint].
      split; [simpl; rewrite E; reflexivity|].
      intros ic [<-|Hin]; [reflexivity | apply Hint; exact Hin].
    + destruct (astype_int s) as [t'|]; simpl; [|discriminate].
      intros [= <-]. destruct (IH t' eq_refl) as [-> Hint].
      split; [reflexivity|].
      intros ic [<-|Hin]; [reflexivity | apply Hint; exact Hin].
    + destruct (astype_int s) as [t'|]; simpl; [|discriminate].
      intros [= <-]. destruct (IH t' eq_refl) as [-> Hint].
      split; [simpl; rewrite float_to_int64_cast; reflexivity|].
      intros ic [<-|Hin]; [reflexivity | apply Hint; exact Hin].
Qed.

Lemma to_datetime_by_smap {L : Library} (fmt : option string)
  (s t : Series cell) :
  to_datetime_by fmt s = Ok t -> t = smap (datetime_cast fmt) s.
Proof.
  revert t. induction s as [|[i c] s IH]; intros t; simpl.
  - intros [= <-]. reflexivity.
  - destruct c as [v|].
    + destruct v as [x|z|q|ts|h m];
        try destruct (nat_string x) eqn:En;
        try (destruct (match fmt with
                       | Some f => strptime f _
                       | None => parse_datetime _
                       end) as [p|] eqn:Ep; [|discriminate]);
        destruct (to_datetime_by fmt s) as [t'|]; simpl; try discriminate;
        intros [= <-]; rewrite (IH t' eq_refl); unfold read_value;
        rewrite ?En, ?Ep; reflexivity.
    + destruct (to_datetime_by fmt s) as [t'|]; simpl; [|discriminate].
      intros [= <-]. rewrite (IH t' eq_refl). reflexivity.
Qed.

Lemma to_datetime_smap {L : Library} (s t : Series cell) :
  to_datetime s = Ok t ->
  t = smap (datetime_cast (guess_format_for_array s)) s.
Proof. apply to_datetime_by_smap. Qed.

Lemma first_non_null_find (f : Row -> cell) (rs : list (label * Row)) :
  first_non_null (map (fun ir => (fst ir, f (snd ir))) rs)
  = match find (fun ir => negb (null_like (f (snd ir)))) rs with
    | Some ir => f (snd ir)
    | None => None
    end.
Proof.
  induction rs as [|[i r] rs IH]; [reflexivity|].
  cbn [map first_non_null find fst snd].
  destruct (f r) as [[x|z|q|ts|h m]|] eqn:E; cbn [null_like negb snd];
    rewrite ?E; try reflexivity; try exact IH.
  destruct (nat_string x); cbn [negb snd]; rewrite ?E;
    [exact IH | reflexivity].
Qed.

Lemma guess_format_row_series {L : Library} (df : DataFrame) (c : string) :
  guess_format_for_array (row_series (cell_at df c) df) = column_format df c.
Proof.
  unfold guess_format_for_array, column_format, row_series.
  rewrite first_non_null_find.
  destruct (find _ (records df)) as [ir|]; reflexivity.
Qed.

(** In the cleaned frame every customer number is an integer, hence
    present. *)
Lemma clean_data_customer_ids {L : Library} (df cleaned : DataFrame)
  (ir : label * Row) :
  Ecommerce.clean_data df = Ok cleaned ->
  In ir (records cleaned) ->
  is_int (cell_at cleaned "CustomerID" (snd ir)) = true.
Proof.
  unfold Ecommerce.clean_data. intros H Hin.
  apply bind_Ok in H. destruct H as [df1 [_ H]].
  apply bind_Ok in H. destruct H as [description [_ H]].
  remember (drop_duplicates _) as df3 eqn:E3. clear E3.
  apply bind_Ok in H. destruct H as [customer [Hc H]].
  apply bind_Ok in H. destruct H as [customer' [Hc' H]].
  apply getitem_row_series in Hc. subst customer.
  apply astype_int_smap in Hc'. destruct Hc' as [Hc' Hint].
  rewrite smap_row_series_cell in Hc'.
  remember (setitem df3 "CustomerID" customer') as df4 eqn:E4.
  apply bind_Ok in H. destruct H as [invoice [Hi H]].
  apply bind_Ok in H. destruct H as [invoice' [Hi' H]].
  apply getitem_row_series in Hi. subst invoice.
  apply to_datetime_smap in Hi'. rewrite smap_row_series_cell in Hi'.
  subst invoice'.
  remember (setitem df4 "InvoiceDate" _) as df5 eqn:E5.
  apply bind_Ok in H. destruct H as [s1 [Hs1 H]].
  apply bind_Ok in H. destruct H as [d1 [Hd1 H]].
  apply getitem_row_series in Hs1. subst s1.
  unfold dt_year in H. rewrite (dt_row_series_cell _ _ _ _ Hd1) in H.
  clear Hd1 d1.
  remember (setitem df5 "Year" _) as df6 eqn:E6.
  apply bind_Ok in H. destruct H as [s2 [Hs2 H]].
  apply bind_Ok in H. destruct H as [d2 [Hd2 H]].
  apply getitem_row_series in Hs2. subst s2.
  unfold dt_month in H. rewrite (dt_row_series_cell _ _ _ _ Hd2) in H.
  clear Hd2 d2.
  remember (setitem df6 "Month" _) as df7 eqn:E7.
  apply bind_Ok in H. destruct H as [quantity [Hq H]].
  apply bind_Ok in H. destruct H as [unit_price [Hu H]].
  apply bind_Ok in H. destruct H as [total [Ht H]].
  apply getitem_row_series in Hq, Hu. subst quantity unit_price.
  apply series_mul_row_series in Ht. subst total.
  injection H as <-.
  apply setitem_rows in Hin. destruct Hin as [ir7 [Hin [_ [_ Ho]]]].
  rewrite Ho by discriminate. clear Ho.
  step_back Hin E7. step_back Hin E6. step_back Hin E5.
  assert (Hin4 := Hin). rewrite E4, Hc' in Hin4 |- *.
  apply setitem_rows in Hin4.
  destruct Hin4 as [ir3 [Hin3 [_ [Hcast _]]]]. rewrite Hcast.
  apply (Hint (fst ir3, int_cast (cell_at df3 "CustomerID" (snd ir3)))).
  rewrite Hc'. unfold row_series. apply in_map_iff. exists ir3.
  split; [reflexivity | exact Hin3].
Qed.

(** C10 on the code.  [clean_data] removes duplicates before it converts
    the customer number and the invoice date, and rows that differed only
    there can come out equal: two order lines whose invoice date is
    written 12/1/2010 8:26 and 12/01/2010 08:26, or whose customer number
    is 17850.2 and 17850.7, both survive [drop_duplicates] and are the
    same row in the cleaned frame, which then counts one duplicate. *)
Theorem clean_data_leaves_duplicates :
  (exists cleaned,
      Ecommerce.clean_data (L := Reference.library) Samples.orders_restamped
      = Ok cleaned
      /\ len cleaned = 2%nat
      /\ row_eqb (snd (nth 0 (records cleaned) (VInt 0, [])))
                 (snd (nth 1 (records cleaned) (VInt 0, []))) = true
      /\ Ecommerce.dups cleaned = 1%nat)
  /\ (exists cleaned,
         Ecommerce.clean_data (L := Reference.library)
           Samples.orders_fractional = Ok cleaned
         /\ len cleaned = 2%nat
         /\ row_eqb (snd (nth 0 (records cleaned) (VInt 0, [])))
                    (snd (nth 1 (records cleaned) (VInt 0, []))) = true
         /\ Ecommerce.dups cleaned = 1%nat)
  /\ Ecommerce.dups Samples.orders_restamped = 0%nat
  /\ Ecommerce.dups Samples.orders_fractional = 0%nat.
Proof.
  split; [|split; [|split; reflexivity]].
  - eexists. split; [vm_compute; reflexivity|].
    repeat split; vm_compute; reflexivity.
  - eexists. split; [vm_compute; reflexivity|].
    repeat split; vm_compute; reflexivity.
Qed.


(** Case analysis over the rows of a sample table. *)
Ltac each_row :=
  let ir := fresh "ir" in
  let Hin := fresh "Hin" in
  intros ir Hin; simpl in Hin;
  repeat (destruct Hin as [<- | Hin]); try contradiction;
  cbv; intros; congruence.

(** ** The retail date range *)

Lemma date_ge_column (k : nat) (rs : list (label * Row)) (d0 : date) :
  date_ge (dt_date (smap timestamp_of (column_of k rs))) d0
  = row_mask (fun r => match timestamp_of (field k r) with
                       | Some t => date_leb d0 (ts_date t)
                       | None => false
                       end) rs.
Proof.
  unfold date_ge, dt_date, smap, column_of, row_mask. rewrite !map_map.
  apply map_ext. intros [i r]. simpl.
  destruct (timestamp_of (field k r)); reflexivity.
Qed.

Lemma date_le_column (k : nat) (rs : list (label * Row)) (d1 : date) :
  date_le (dt_date (smap timestamp_of (column_of k rs))) d1
  = row_mask (fun r => match timestamp_of (field k r) with
                       | Some t => date_leb (ts_date t) d1
                       | None => false
                       end) rs.
Proof.
  unfold date_le, dt_date, smap, column_of, row_mask. rewrite !map_map.
  apply map_ext. intros [i r]. simpl.
  destruct (timestamp_of (field k r)); reflexivity.
Qed.

Lemma date_masks (k : nat) (rs : list (label * Row)) (d0 d1 : date) :
  mask_and
    (date_ge (dt_date (smap timestamp_of (column_of k rs))) d0)
    (date_le (dt_date (smap timestamp_of (column_of k rs))) d1)
  = row_mask (fun r => date_within (field k r) d0 d1) rs.
Proof.
  rewrite date_ge_column, date_le_column. unfold mask_and.
  rewrite szip_row_mask. unfold row_mask. apply map_ext. intros [i r].
  simpl. unfold date_within. destruct (timestamp_of (field k r)); reflexivity.
Qed.

Lemma dt_of_Ok (df : DataFrame) (c : string)
  (d : Series (option timestamp)) :
  Retail.dt_of df c = Ok d ->
  exists k, index_of c (columns df) = Some k
            /\ d = smap timestamp_of (column_of k (records df)).
Proof.
  unfold Retail.dt_of. intros H. apply bind_Ok in H.
  destruct H as [s [Hs H]]. apply getitem_Ok in Hs.
  destruct Hs as [k [Hk ->]]. apply dt_smap in H. exists k. auto.
Qed.

Lemma date_range_filter_applied (df : DataFrame)
  (ui : Retail.sidebar_state) (d0 d1 : date) :
  has_column df "Date" = true ->
  Retail.date_input df ui = Ok [d0; d1] ->
  Retail.date_range_filter df ui
  = Ok (mkDF (columns df)
          (filter (fun ir => date_within (cell_at df "Date" (snd ir)) d0 d1)
                  (records df))).
Proof.
  intros Hc Hin. unfold Retail.date_range_filter. rewrite Hc, Hin.
  cbn [bind]. unfold Retail.date_input in Hin. apply bind_Ok in Hin.
  destruct Hin as [d [Hd _]]. rewrite Hd. cbn [bind].
  apply dt_of_Ok in Hd. destruct Hd as [k [Hk ->]].
  rewrite date_masks. unfold loc_mask. rewrite select_rows_row_mask.
  do 2 f_equal. apply filter_ext. intros ir.
  rewrite (cell_at_index _ _ _ _ Hk). reflexivity.
Qed.

Lemma date_range_filter_identity (df : DataFrame)
  (ui : Retail.sidebar_state) :
  date_range_allows_all df ui -> Retail.date_range_filter df ui = Ok df.
Proof.
  intros [Habsent | [dates [Hin Hall]]].
  - unfold Retail.date_range_filter. rewrite Habsent. reflexivity.
  - destruct (has_column df "Date") eqn:Hc.
    + destruct dates as [|d0 [|d1 [|d2 w]]];
        try (unfold Retail.date_range_filter; rewrite Hc, Hin; reflexivity).
      rewrite (date_range_filter_applied df ui d0 d1 Hc Hin).
      rewrite filter_all; [rewrite frame_eta; reflexivity | exact Hall].
    + unfold Retail.date_range_filter. rewrite Hc. reflexivity.
Qed.

Lemma same_kind_numbers (l : list cell) :
  (forall c, In c l -> kind_of c = 0%nat) -> same_kind l = true.
Proof.
  destruct l as [|c l]; [reflexivity|]. intros H. simpl.
  apply forallb_forall. intros d Hd.
  rewrite (H d (or_intror Hd)), (H c (or_introl eq_refl)). reflexivity.
Qed.

Lemma class_filter_Ok (df : DataFrame) (ui : Titanic.sidebar_state)
  (kp : nat) :
  index_of "Pclass" (columns df) = Some kp ->
  numeric_column df "Pclass" ->
  (forall ir, In ir (records df) ->
              missing (cell_at df "Pclass" (snd ir)) = false) ->
  Titanic.class_filter df ui
  = Ok (widget (sorted (unique (column_of kp (records df))))
               (Titanic.class_choice ui)).
Proof.
  intros Hp Hnum Hfull. unfold Titanic.class_filter.
  rewrite (getitem_column _ _ _ Hp). cbn [bind]. cbv zeta.
  assert (Hcells : forall c, In c (unique (column_of kp (records df))) ->
                             c <> None /\ kind_of c = 0%nat).
  { intros c Hc. apply unique_cells_subset in Hc.
    apply (column_values_In df "Pclass" kp c Hp) in Hc.
    destruct Hc as [ir [Hir <-]].
    specialize (Hnum ir Hir). specialize (Hfull ir Hir).
    destruct (cell_at df "Pclass" (snd ir)) as [[x|z|q|t|h m]|];
      try discriminate Hfull; split; try discriminate; try reflexivity;
      exfalso; apply Hnum; try discriminate; reflexivity. }
  rewrite same_kind_numbers by (intros c Hc; apply (Hcells c Hc)).
  cbn [negb].
  replace (existsb _ (unique (column_of kp (records df)))) with false;
    [reflexivity|].
  symmetry. apply not_true_is_false. intros E.
  apply existsb_exists in E. destruct E as [c [Hc E]].
  destruct c as [v|]; [discriminate E|].
  destruct (Hcells None Hc) as [Hne _]. apply Hne. reflexivity.
Qed.

(** C4, as amended.  A filter whose every predicate allows all the values
    of its column is the identity on tables, provided its selections can
    be built: the Titanic filter with untouched (or all-covering) gender
    and class selections and an age range that covers every known age, on
    a manifest whose classes are numbers without a gap and whose sexes
    are not numbers with a gap, and the retail product line and branch
    filters with untouched (or all-covering) selections over columns that
    are not numbers with a gap, return the table itself, rows with missing
    values in the sex, age, product line and branch columns included.
    The retail date range is different: the whole retail filter is the
    identity when the range is not applied or every row has a date within
    it, and an applied range, however wide, keeps no row whose date is
    missing. *)
Theorem filter_all_allowed_identity {L : Library}
  (titanic retail : DataFrame)
  (ui : Titanic.sidebar_state) (ur : Retail.sidebar_state)
  (ages : Z * Z) :
  has_column titanic "Sex" = true ->
  has_column titanic "Pclass" = true ->
  has_column titanic "Age" = true ->
  numeric_column titanic "Age" ->
  numeric_column titanic "Pclass" ->
  (forall ir, In ir (records titanic) ->
              missing (cell_at titanic "Pclass" (snd ir)) = false) ->
  no_gap_among_numbers titanic "Sex" ->
  no_gap_among_numbers retail "Product line" ->
  no_gap_among_numbers retail "Branch" ->
  allows_all titanic "Sex" (Titanic.gender_choice ui) ->
  allows_all titanic "Pclass" (Titanic.class_choice ui) ->
  Titanic.age_range titanic ui = Ok ages ->
  range_allows_all titanic "Age" ages ->
  allows_all retail "Product line" (Retail.product_choice ur) ->
  allows_all retail "Branch" (Retail.branch_choice ur) ->
  Titanic.filtered_df titanic ui = Ok titanic
  /\ Retail.product_line_filter retail ur = Ok retail
  /\ Retail.branch_filter retail ur = Ok retail
  /\ (date_range_allows_all retail ur ->
      Retail.main_filters retail ur = Ok retail)
  /\ (forall d0 d1 shown ir,
        has_column retail "Date" = true ->
        Retail.date_input retail ur = Ok [d0; d1] ->
        Retail.date_range_filter retail ur = Ok shown ->
        In ir (records shown) ->
        missing (cell_at retail "Date" (snd ir)) = false).
Proof.
  intros Hs Hp Ha Hnum Hclasses Hfull Gs Gp Gb Hg Hc Hrange Hage Hpl Hbr.
  apply has_column_index in Hs, Hp, Ha.
  destruct Hs as [ks Hs], Hp as [kp Hp], Ha as [ka Ha].
  assert (Hproduct : Retail.product_line_filter retail ur = Ok retail)
    by (apply multiselect_filter_identity; assumption).
  assert (Hbranch : Retail.branch_filter retail ur = Ok retail)
    by (apply multiselect_filter_identity; assumption).
  split; [|split; [exact Hproduct|split; [exact Hbranch|split]]].
  - unfold Titanic.filtered_df, Titanic.gender_filter, multiselect_unique.
    rewrite (class_filter_Ok titanic ui kp Hp Hclasses Hfull).
    rewrite (getitem_column _ _ _ Hs). cbn [bind].
    rewrite (numbers_with_gap_column _ _ _ Hs Gs). cbn [bind].
    rewrite Hrange. cbn [bind fst snd].
    rewrite (titanic_filter_rows _ _ _ _ _ ks kp ka Hs Hp Ha Hnum).
    rewrite filter_all; [rewrite frame_eta; reflexivity|].
    intros ir Hin. unfold titanic_keeps.
    rewrite (cell_at_index _ _ _ _ Hs), (cell_at_index _ _ _ _ Hp).
    rewrite (allows_all_widget _ _ _ _ _ Hs Hg Hin). simpl.
    assert (Hclass : member (field kp (snd ir))
                       (widget (sorted (unique (column_of kp (records titanic))))
                               (Titanic.class_choice ui)) = true).
    { destruct (Titanic.class_choice ui) as [chosen|] eqn:Hch; simpl.
      - specialize (Hc ir Hin). rewrite (cell_at_index _ _ _ _ Hp) in Hc.
        exact Hc.
      - rewrite member_sorted. apply member_unique_column. exact Hin. }
    rewrite Hclass. simpl.
    specialize (Hage ir Hin).
    destruct (missing (cell_at titanic "Age" (snd ir))) eqn:Hm.
    + apply orb_true_r.
    + rewrite (Hage eq_refl). reflexivity.
  - intros Hdates. unfold Retail.main_filters.
    rewrite (date_range_filter_identity retail ur Hdates). cbn [bind].
    rewrite Hproduct. cbn [bind]. exact Hbranch.
  - intros d0 d1 shown ir Hdate Hin Hshown Hir.
    rewrite (date_range_filter_applied retail ur d0 d1 Hdate Hin) in Hshown.
    injection Hshown as <-. simpl in Hir. apply filter_In in Hir.
    destruct Hir as [_ Hw]. unfold date_within in Hw.
    destruct (cell_at retail "Date" (snd ir)); [reflexivity|].
    discriminate Hw.
Qed.

Lemma filter_all_allowed_identity_witness :
  Titanic.filtered_df Samples.titanic Samples.titanic_untouched
  = Ok Samples.titanic
  /\ Retail.product_line_filter Samples.sales_loaded Samples.retail_untouched
     = Ok Samples.sales_loaded
  /\ Retail.branch_filter Samples.sales_loaded Samples.retail_untouched
     = Ok Samples.sales_loaded
  /\ Retail.main_filters Samples.sales_loaded Samples.retail_untouched
     = Ok Samples.sales_loaded.
Proof.
  destruct (filter_all_allowed_identity (L := Reference.library)
              Samples.titanic Samples.sales_loaded Samples.titanic_untouched
              Samples.retail_untouched (0, 80)%Z)
    as [A [B [C [D _]]]].
  - reflexivity.
  - reflexivity.
  - reflexivity.
  - each_row.
  - each_row.
  - each_row.
  - right. each_row.
  - right. each_row.
  - right. each_row.
  - exact I.
  - exact I.
  - reflexivity.
  - each_row.
  - exact I.
  - exact I.
  - split; [exact A|]. split; [exact B|]. split; [exact C|].
    apply D. right. exists [(2019, 1, 5)%Z; (2019, 3, 8)%Z].
    split; [vm_compute; reflexivity|]. each_row.
Defined.

(** The claim of C4 fails as stated for the retail date range: with the
    sidebar untouched the range runs from the earliest to the latest day
    and allows every value of the date column, yet the sale without a date
    is dropped and the table does not come back unchanged.  It fails as
    well for a manifest with a gap in its classes: with the sidebar
    untouched the class selection cannot be built and the filter returns
    no table. *)
Lemma default_date_range_drops_undated :
  len Samples.sales_undated_loaded = 3%nat
  /\ Retail.date_input Samples.sales_undated_loaded Samples.retail_untouched
     = Ok [(2019, 1, 5)%Z; (2019, 3, 3)%Z]
  /\ (exists shown,
         Retail.main_filters Samples.sales_undated_loaded
           Samples.retail_untouched = Ok shown
         /\ map fst (records shown) = [VInt 0; VInt 2])
  /\ Retail.main_filters Samples.sales_undated_loaded
       Samples.retail_untouched <> Ok Samples.sales_undated_loaded
  /\ Titanic.class_filter Samples.titanic_class_gap Samples.titanic_untouched
     = Raise StreamlitAPIException
  /\ Titanic.filtered_df Samples.titanic_class_gap Samples.titanic_untouched
     = Raise StreamlitAPIException.
Proof.
  split; [reflexivity|]. split; [vm_compute; reflexivity|].
  split; [|split; [|split; reflexivity]].
  - eexists. split; [vm_compute; reflexivity | reflexivity].
  - intros H. vm_compute in H. discriminate H.
Qed.

(** * Properties of the views *)

(** ** Equality of rows *)

Lemma row_eqb_refl (r : Row) : row_eqb r r = true.
Proof.
  induction r as [|c r IH]; simpl; [reflexivity|].
  rewrite cell_eqb_refl. exact IH.
Qed.

Lemma row_eqb_sym (r s : Row) : row_eqb r s = row_eqb s r.
Proof.
  revert s. induction r as [|c r IH]; intros [|d s]; simpl; try reflexivity.
  rewrite cell_eqb_sym, IH. reflexivity.
Qed.

Lemma row_eqb_trans (r s t : Row) :
  row_eqb r s = true -> row_eqb s t = true -> row_eqb r t = true.
Proof.
  revert s t. induction r as [|a r IH]; intros [|b s] [|c t]; simpl;
    try discriminate; auto.
  rewrite !andb_true_iff. intros [H1 H2] [H3 H4]. split.
  - apply (cell_eqb_trans a b c H1 H3).
  - apply (IH s t H2 H4).
Qed.

(** ** Duplicates *)

Lemma drop_duplicates_unmarked (rs : list (label * Row))
  (seen seen' : list Row) :
  (forall r, existsb (row_eqb r) seen' = true ->
             existsb (row_eqb r) seen = true) ->
  count_true
    (duplicated_from seen'
       (select_rows rs (smap negb (duplicated_from seen rs)))) = 0%nat.
Proof.
  revert seen seen'. induction rs as [|[i r] rs IH]; intros seen seen' Hsub;
    simpl; [reflexivity|].
  destruct (existsb (row_eqb r) seen) eqn:Hr; simpl.
  - apply IH. intros x Hx. simpl. rewrite (Hsub x Hx). apply orb_true_r.
  - destruct (existsb (row_eqb r) seen') eqn:Hr'.
    + rewrite (Hsub r Hr') in Hr. discriminate.
    + unfold count_true. simpl. apply IH. intros x. simpl.
      destruct (row_eqb x r); simpl; [reflexivity | apply Hsub].
Qed.

Lemma drop_duplicates_count (rs : list (label * Row)) (seen : list Row) :
  (List.length (select_rows rs (smap negb (duplicated_from seen rs)))
   + count_true (duplicated_from seen rs) = List.length rs)%nat.
Proof.
  revert seen. induction rs as [|[i r] rs IH]; intros seen; simpl;
    [reflexivity|].
  specialize (IH (r :: seen)). unfold count_true in *. simpl.
  destruct (existsb (row_eqb r) seen); simpl; lia.
Qed.

Lemma drop_duplicates_represents (rs : list (label * Row))
  (seen : list Row) (ir : label * Row) :
  In ir rs ->
  (exists kept,
      In kept (select_rows rs (smap negb (duplicated_from seen rs)))
      /\ row_eqb (snd kept) (snd ir) = true)
  \/ existsb (row_eqb (snd ir)) seen = true.
Proof.
  revert seen. induction rs as [|[i r] rs IH]; intros seen; simpl;
    [intros []|].
  intros [<-|Hin]; simpl.
  - destruct (existsb (row_eqb r) seen) eqn:Hr; simpl; [right; reflexivity|].
    left. exists (i, r). split; [left; reflexivity | apply row_eqb_refl].
  - destruct (IH (r :: seen) Hin) as [[kept [Hk He]]|Hs].
    + left. exists kept. split; [|exact He].
      destruct (existsb (row_eqb r) seen); simpl; [exact Hk | right; exact Hk].
    + simpl in Hs. apply orb_true_iff in Hs. destruct Hs as [Hs|Hs];
        [|right; exact Hs].
      destruct (existsb (row_eqb r) seen) eqn:Hr; simpl.
      * right. apply existsb_exists in Hr. destruct Hr as [s [Hin' Hrs]].
        apply existsb_exists. exists s. split; [exact Hin'|].
        apply (row_eqb_trans _ r _ Hs Hrs).
      * left. exists (i, r). split; [left; reflexivity|].
        simpl. rewrite row_eqb_sym. exact Hs.
Qed.

(** X1. [drop_duplicates] removes exactly the rows that [duplicated]
    marks: the table it returns has no duplicate left, the rows it keeps
    and the rows marked add up to the rows of the table, and every row of
    the table is equal to a row that is kept. *)
Theorem drop_duplicates_removes_marked (df : DataFrame) :
  Ecommerce.dups (drop_duplicates df) = 0%nat
  /\ (len (drop_duplicates df) + Ecommerce.dups df = len df)%nat
  /\ forall ir, In ir (records df) ->
       exists kept, In kept (records (drop_duplicates df))
                    /\ row_eqb (snd kept) (snd ir) = true.
Proof.
  unfold Ecommerce.dups, drop_duplicates, duplicated, loc_mask, len. simpl.
  split; [apply drop_duplicates_unmarked; auto|].
  split; [apply drop_duplicates_count|].
  intros ir Hin.
  destruct (drop_duplicates_represents (records df) [] ir Hin) as [H|H];
    [exact H | discriminate H].
Qed.

(** ** Sorting by insertion *)

Lemma insert_sorted_perm {A : Type} (leb : A -> A -> bool) (x : A)
  (l : list A) :
  Permutation (insert_sorted leb x l) (x :: l).
Proof.
  induction l as [|y l IH]; simpl; [reflexivity|].
  destruct (leb x y); [reflexivity|].
  rewrite IH. apply perm_swap.
Qed.

Lemma sort_by_perm {A : Type} (leb : A -> A -> bool) (l : list A) :
  Permutation (sort_by leb l) l.
Proof.
  induction l as [|x l IH]; simpl; [reflexivity|].
  rewrite insert_sorted_perm. apply perm_skip. exact IH.
Qed.

Lemma sort_by_length {A : Type} (leb : A -> A -> bool) (l : list A) :
  List.length (sort_by leb l) = List.length l.
Proof. apply Permutation_length, sort_by_perm. Qed.

Section Sorted_by.
Variable A : Type.
Variable leb : A -> A -> bool.
Variable P : A -> Prop.
Hypothesis leb_total : forall a b, P a -> P b -> leb a b = false -> leb b a = true.
Hypothesis leb_trans :
  forall a b c, P a -> P b -> P c ->
                leb a b = true -> leb b c = true -> leb a c = true.

Lemma insert_sorted_sorted (x : A) (l : list A) :
  P x -> Forall P l ->
  StronglySorted (fun a b => leb a b = true) l ->
  StronglySorted (fun a b => leb a b = true) (insert_sorted leb x l).
Proof.
  intros Hx HP H. induction H as [|y l H IH Hy]; simpl.
  - constructor; constructor.
  - pose proof (Forall_inv HP) as Py. pose proof (Forall_inv_tail HP) as Pl.
    destruct (leb x y) eqn:Hxy.
    + constructor; [constructor; assumption|].
      constructor; [exact Hxy|].
      rewrite Forall_forall in *. intros z Hz.
      apply (leb_trans x y z Hx Py (Pl z Hz) Hxy (Hy z Hz)).
    + constructor; [apply IH; exact Pl|].
      apply Forall_forall. intros z Hz. apply In_insert_sorted in Hz.
      destruct Hz as [->|Hz].
      * apply leb_total; assumption.
      * rewrite Forall_forall in Hy. apply Hy. exact Hz.
Qed.

Lemma sort_by_sorted (l : list A) :
  Forall P l -> StronglySorted (fun a b => leb a b = true) (sort_by leb l).
Proof.
  induction l as [|x l IH]; intros HP; simpl; [constructor|].
  apply insert_sorted_sorted.
  - apply (Forall_inv HP).
  - apply Forall_forall. intros y Hy. apply In_sort_by in Hy.
    rewrite Forall_forall in HP. apply HP. right. exact Hy.
  - apply IH. apply (Forall_inv_tail HP).
Qed.

End Sorted_by.

Lemma StronglySorted_weaken {A : Type} (R R' : A -> A -> Prop) (l : list A) :
  (forall a b, In a l -> In b l -> R a b -> R' a b) ->
  StronglySorted R l -> StronglySorted R' l.
Proof.
  intros HR H. induction H as [|a l H IH Ha]; constructor.
  - apply IH. intros x y Hx Hy. apply HR; right; assumption.
  - rewrite Forall_forall in *. intros x Hx.
    apply HR; [left; reflexivity | right; exact Hx | apply Ha; exact Hx].
Qed.

Lemma In_firstn {A : Type} (n : nat) (l : list A) (a : A) :
  In a (firstn n l) -> In a l.
Proof.
  revert n. induction l as [|x l IH]; intros [|n]; simpl; try tauto.
  intros [H|H]; [left; exact H | right; apply (IH n H)].
Qed.

Lemma In_skipn {A : Type} (n : nat) (l : list A) (a : A) :
  In a (skipn n l) -> In a l.
Proof.
  revert n. induction l as [|x l IH]; intros [|n]; simpl; try tauto.
  intros H. right. apply (IH n H).
Qed.

(** The first [n] entries of a sorted list come before the others. *)
Lemma firstn_dominates {A : Type} (R : A -> A -> Prop) (n : nat)
  (l : list A) (a b : A) :
  StronglySorted R l -> In a (firstn n l) -> In b (skipn n l) -> R a b.
Proof.
  intros H. revert n. induction H as [|x l H IH Hx]; intros n Ha Hb.
  - destruct n; contradiction.
  - destruct n as [|n]; [contradiction|]. simpl in Ha, Hb.
    destruct Ha as [<-|Ha].
    + rewrite Forall_forall in Hx. apply Hx.
      apply (In_skipn n). exact Hb.
    + apply (IH n Ha Hb).
Qed.

Lemma StronglySorted_firstn {A : Type} (R : A -> A -> Prop) (n : nat)
  (l : list A) :
  StronglySorted R l -> StronglySorted R (firstn n l).
Proof.
  intros H. revert n. induction H as [|x l H IH Hx]; intros [|n]; simpl;
    try constructor.
  - apply IH.
  - apply Forall_forall. intros y Hy. rewrite Forall_forall in Hx.
    apply Hx. apply (In_firstn n). exact Hy.
Qed.

(** ** Sums *)

Lemma fold_left_Qplus (l : list Q) (a : Q) :
  fold_left Qplus l a == a + fold_left Qplus l 0.
Proof.
  revert a. induction l as [|x l IH]; intros a; simpl.
  - ring.
  - rewrite (IH (a + x)), (IH (0 + x)). ring.
Qed.

Lemma Qsum_cons (x : Q) (l : list Q) : Qsum (x :: l) == x + Qsum l.
Proof. unfold Qsum. simpl. rewrite fold_left_Qplus. ring. Qed.

Lemma Qsum_app (l l' : list Q) : Qsum (l ++ l') == Qsum l + Qsum l'.
Proof.
  induction l as [|x l IH]; simpl.
  - unfold Qsum at 2. simpl. ring.
  - rewrite !Qsum_cons, IH. ring.
Qed.

Lemma Qsum_perm (l l' : list Q) : Permutation l l' -> Qsum l == Qsum l'.
Proof.
  induction 1 as [|x l l' H IH|x y l|l l' l'' H1 IH1 H2 IH2].
  - reflexivity.
  - rewrite !Qsum_cons, IH. reflexivity.
  - rewrite !Qsum_cons. ring.
  - rewrite IH1. exact IH2.
Qed.

Lemma present_app {A : Type} (l l' : list (option A)) :
  present (l ++ l') = present l ++ present l'.
Proof.
  induction l as [|[a|] l IH]; simpl; [reflexivity | | exact IH].
  rewrite IH. reflexivity.
Qed.

Lemma present_perm {A : Type} (l l' : list (option A)) :
  Permutation l l' -> Permutation (present l) (present l').
Proof.
  induction 1 as [|x l l' H IH|x y l|l l' l'' H1 IH1 H2 IH2].
  - reflexivity.
  - destruct x; simpl; [apply perm_skip|]; exact IH.
  - destruct x, y; simpl; try reflexivity. apply perm_swap.
  - etransitivity; eassumption.
Qed.

(** ** The groups of a column partition the rows that have a key *)

Lemma no_key_matches {A : Type} (r : A) (c : cell) (keys : list value) :
  (forall key, In key keys -> cell_eqb c (Some key) = false) ->
  flat_map (fun key => if cell_eqb c (Some key) then [r] else []) keys = [].
Proof.
  induction keys as [|a keys IH]; intros H; simpl; [reflexivity|].
  rewrite (H a) by (left; reflexivity). simpl.
  apply IH. intros key Hk. apply H. right. exact Hk.
Qed.

Lemma one_key_matches {A : Type} (r : A) (v : value) (keys : list value) :
  pairwise_distinct keys ->
  (exists key, In key keys /\ value_eqb v key = true) ->
  flat_map (fun key => if cell_eqb (Some v) (Some key) then [r] else [])
           keys = [r].
Proof.
  unfold pairwise_distinct. induction 1 as [|a keys Ha H IH];
    intros [key [Hin Hv]]; [contradiction|]. cbn [flat_map].
  change (cell_eqb (Some v) (Some a)) with (value_eqb v a).
  destruct (value_eqb v a) eqn:Hva; cbn [app].
  - f_equal. apply no_key_matches. intros b Hb. simpl.
    destruct (value_eqb v b) eqn:Hvb; [|reflexivity].
    rewrite Forall_forall in Ha. specialize (Ha b Hb).
    rewrite value_eqb_sym in Hva.
    rewrite (value_eqb_trans a v b Hva Hvb) in Ha. discriminate.
  - apply IH. destruct Hin as [<-|Hin]; [congruence|].
    exists key. split; assumption.
Qed.

Lemma flat_map_split {A B : Type} (f g : A -> list B) (l : list A) :
  Permutation (flat_map (fun a => f a ++ g a) l)
              (flat_map f l ++ flat_map g l).
Proof.
  induction l as [|a l IH]; simpl; [reflexivity|].
  rewrite IH. rewrite <- !app_assoc. apply Permutation_app_head.
  rewrite !app_assoc. apply Permutation_app_tail.
  apply Permutation_app_comm.
Qed.

Lemma groups_partition {A : Type} (key_of : A -> cell) (keys : list value)
  (rs : list A) :
  pairwise_distinct keys ->
  (forall r v, In r rs -> key_of r = Some v ->
               exists key, In key keys /\ value_eqb v key = true) ->
  Permutation
    (flat_map (fun key => filter (fun r => cell_eqb (key_of r) (Some key)) rs)
              keys)
    (filter (fun r => match key_of r with Some _ => true | None => false end)
            rs).
Proof.
  intros Hd. induction rs as [|r rs IH]; intros Hc.
  - simpl. clear Hd Hc.
    induction keys as [|a keys IHk]; simpl; [reflexivity | exact IHk].
  - assert (Hrest : forall r' v, In r' rs -> key_of r' = Some v ->
                      exists key, In key keys /\ value_eqb v key = true)
      by (intros r' v Hr'; apply Hc; right; exact Hr').
    specialize (IH Hrest).
    assert (E : flat_map
                  (fun key => filter (fun r0 => cell_eqb (key_of r0) (Some key))
                                     (r :: rs)) keys
                = flat_map
                    (fun key =>
                       (if cell_eqb (key_of r) (Some key) then [r] else [])
                       ++ filter (fun r0 => cell_eqb (key_of r0) (Some key)) rs)
                    keys).
    { apply flat_map_ext. intros key. simpl.
      destruct (cell_eqb (key_of r) (Some key)); reflexivity. }
    rewrite E, flat_map_split, IH. simpl.
    destruct (key_of r) as [v|] eqn:Hk.
    + rewrite (one_key_matches r v keys Hd); [reflexivity|].
      apply (Hc r v); [left; reflexivity | exact Hk].
    + rewrite no_key_matches; [reflexivity | reflexivity].
Qed.

(** ** One value per group *)

Lemma Forall2_map_function {A B C : Type} (g : A -> B) (R : B -> C -> Prop)
  (h : A -> C) (l : list A) (l' : list C) :
  (forall a c, R (g a) c -> c = h a) ->
  Forall2 R (map g l) l' -> l' = map h l.
Proof.
  intros HR. revert l'. induction l as [|a l IH]; intros l' H; simpl in *.
  - inversion H. reflexivity.
  - inversion H as [|b c m m' Hbc Hm]; subst. f_equal.
    + apply HR. exact Hbc.
    + apply IH. exact Hm.
Qed.

Lemma groupby_reduce_Ok {L : Library} (df : DataFrame) (by_ col : string)
  (r : reduction) (s : Series cell) :
  skips_missing r = true ->
  groupby_reduce df by_ col r = Ok s ->
  exists k,
    index_of by_ (columns df) = Some k
    /\ has_column df col = true
    /\ s = map (fun key =>
                  (key, over_present r
                          (present_numbers (group_of df by_ key) col)))
               (group_keys (column_of k (records df))).
Proof.
  intros Hr H. unfold groupby_reduce in H.
  apply bind_Ok in H. destruct H as [gs [Hgs H]].
  apply bind_Ok in H. destruct H as [checked [Hcol H]].
  apply groupby_Ok in Hgs. destruct Hgs as [k [Hk ->]].
  exists k. split; [exact Hk|]. split.
  { apply getitem_Ok in Hcol. destruct Hcol as [j [Hj _]].
    apply has_column_index. exists j. exact Hj. }
  apply mapM_Ok in H. revert H. apply Forall2_map_function.
  intros key kv. simpl. intros H.
  apply bind_Ok in H. destruct H as [x [Hx H]].
  apply bind_Ok in H. destruct H as [v [Hv H]].
  injection H as <-. f_equal.
  apply (reduce_column _ col r v Hr). rewrite Hx. exact Hv.
Qed.

Lemma column_values_rows (cols : list string) (rs : list (label * Row))
  (c : string) (j : nat) :
  index_of c cols = Some j ->
  column_values (mkDF cols rs) c
  = map (fun ir => cell_num (field j (snd ir))) rs.
Proof.
  intros Hj. unfold column_values, getitem. simpl. rewrite Hj.
  unfold values. rewrite !map_map. reflexivity.
Qed.

Lemma Qsum_flat_map {A B : Type} (g : B -> option Q) (F : A -> list B)
  (keys : list A) :
  Qsum (present (map g (flat_map F keys)))
  == Qsum (map (fun key => Qsum (present (map g (F key)))) keys).
Proof.
  induction keys as [|a keys IH]; simpl; [reflexivity|].
  rewrite map_app, present_app, Qsum_app, Qsum_cons, IH. reflexivity.
Qed.

(** The sums of the groups add up to the sum over the rows that have a
    key. *)
Lemma group_sums_total {L : Library} (df : DataFrame) (by_ col : string)
  (s : Series cell) :
  groupby_reduce df by_ col Rsum = Ok s ->
  series_total s == Qsum (present_numbers (having df by_) col).
Proof.
  intros H. apply groupby_reduce_Ok in H; [|reflexivity].
  destruct H as [k [Hk [Hcol ->]]].
  apply has_column_index in Hcol. destruct Hcol as [j Hj].
  unfold series_total. rewrite map_map. simpl.
  unfold present_numbers, having, group_of.
  rewrite (column_values_rows _ _ _ _ Hj).
  erewrite map_ext;
    [|intros key; rewrite (column_values_rows _ _ _ _ Hj); reflexivity].
  rewrite <- (Qsum_flat_map (fun ir => cell_num (field j (snd ir)))
                (fun key => filter (fun ir => cell_eqb (cell_at df by_ (snd ir))
                                                       (Some key))
                                   (records df))).
  apply Qsum_perm, present_perm, Permutation_map.
  etransitivity.
  - apply (groups_partition (fun ir => cell_at df by_ (snd ir))).
    + apply group_keys_distinct.
    + intros ir v Hin Hv. apply group_keys_complete.
      apply (column_values_In df by_ k (Some v) Hk). exists ir. auto.
  - erewrite filter_ext; [reflexivity|].
    intros ir. simpl. destruct (cell_at df by_ (snd ir)); reflexivity.
Qed.

Lemma number_of_sum {L : Library} (l : list Q) :
  number_of (over_present Rsum l) = Qsum l.
Proof. reflexivity. Qed.

Lemma sums_sortable (ascending : bool) (s : Series cell) :
  Forall (fun kv => exists q, snd kv = Some (VFloat q)) s ->
  StronglySorted
    (fun a b => if ascending then number_of (snd a) <= number_of (snd b)
                else number_of (snd b) <= number_of (snd a))
    (series_sort_values ascending s).
Proof.
  intros HP. unfold series_sort_values.
  apply (StronglySorted_weaken
           (fun a b => sort_leb ascending (snd a) (snd b) = true)).
  - intros a b Ha Hb. apply In_sort_by in Ha, Hb.
    rewrite Forall_forall in HP.
    destruct (HP a Ha) as [p Hp], (HP b Hb) as [q Hq]. cbv beta.
    destruct a as [ka ca], b as [kb cb]. simpl in Hp, Hq |- *. subst ca cb.
    unfold number_of. simpl.
    destruct ascending; intros H; apply Qle_bool_iff; exact H.
  - apply (sort_by_sorted _ _ (fun kv => exists q, snd kv = Some (VFloat q)));
      [| |exact HP].
    + intros [ka ca] [kb cb] [p Hp] [q Hq]. simpl in Hp, Hq |- *.
      subst ca cb. simpl.
      destruct ascending; intros H; apply Qle_bool_iff;
        apply Qlt_le_weak, Qnot_le_lt; intros Hle;
        apply Qle_bool_iff in Hle; congruence.
    + intros [ka ca] [kb cb] [kc cc] [p Hp] [q Hq] [r Hr].
      simpl in Hp, Hq, Hr |- *. subst ca cb cc. simpl.
      destruct ascending; rewrite !Qle_bool_iff; intros H1 H2;
        [apply (Qle_trans _ q) | apply (Qle_trans _ q)]; assumption.
Qed.

Lemma group_sums_are_numbers {L : Library} (df : DataFrame)
  (by_ col : string) (s : Series cell) :
  groupby_reduce df by_ col Rsum = Ok s ->
  Forall (fun kv => exists q, snd kv = Some (VFloat q)) s.
Proof.
  intros H. apply groupby_reduce_Ok in H; [|reflexivity].
  destruct H as [k [_ [_ ->]]]. apply Forall_forall. intros kv Hin.
  apply in_map_iff in Hin. destruct Hin as [key [<- _]]. simpl. eauto.
Qed.

Lemma ForallOrdPairs_map {A B : Type} (f : A -> B) (R : B -> B -> Prop)
  (l : list A) :
  ForallOrdPairs R (map f l)
  <-> ForallOrdPairs (fun a b => R (f a) (f b)) l.
Proof.
  induction l as [|a l IH]; simpl.
  - split; constructor.
  - split; intros H; inversion H as [|x m Hx Hm]; subst; constructor;
      try (apply IH; exact Hm).
    + rewrite Forall_map in Hx. exact Hx.
    + rewrite Forall_map. exact Hx.
Qed.

(** The keys of a grouped reduction stay pairwise different when its
    values are sorted. *)
Lemma sorted_keys_distinct {L : Library} (df : DataFrame) (by_ col : string)
  (ascending : bool) (s : Series cell) :
  groupby_reduce df by_ col Rsum = Ok s ->
  pairwise_distinct (map fst (series_sort_values ascending s)).
Proof.
  intros H. apply groupby_reduce_Ok in H; [|reflexivity].
  destruct H as [k [_ [_ ->]]]. unfold pairwise_distinct, series_sort_values.
  apply ForallOrdPairs_map. apply ForallOrdPairs_sort_by.
  - intros a b Hab. rewrite value_eqb_sym. exact Hab.
  - apply ForallOrdPairs_map. simpl. apply group_keys_distinct.
Qed.

Lemma series_total_perm (s t : Series cell) :
  Permutation s t -> series_total s == series_total t.
Proof. intros H. apply Qsum_perm, Permutation_map. exact H. Qed.

(** X2. The bars of "Top Products by Revenue" are in increasing order of
    revenue, one per distinct product line, and add up to the revenue of
    the rows that have a product line; so they add up to the "Total
    Revenue" metric when no row lacks its product line. *)
Theorem product_revenue_adds_up {L : Library}
  (df : DataFrame) (bars : Series cell) :
  RetailViews.product_revenue df = Ok bars ->
  increasing bars
  /\ pairwise_distinct (map fst bars)
  /\ series_total bars
     == Qsum (present_numbers (having df "Product line") "Total")
  /\ forall total,
       RetailViews.total_revenue df = Ok total ->
       (forall ir, In ir (records df) ->
                   missing (cell_at df "Product line" (snd ir)) = false) ->
       series_total bars == number_of total.
Proof.
  unfold RetailViews.product_revenue. intros H.
  apply bind_Ok in H. destruct H as [revenue [Hrev H]]. injection H as <-.
  assert (Htotal : series_total (series_sort_values true revenue)
                   == Qsum (present_numbers (having df "Product line")
                                            "Total")).
  { rewrite (series_total_perm _ revenue) by apply sort_by_perm.
    apply (group_sums_total _ _ _ _ Hrev). }
  split; [|split; [|split; [exact Htotal|]]].
  - apply (sums_sortable true). apply (group_sums_are_numbers _ _ _ _ Hrev).
  - apply (sorted_keys_distinct _ _ _ _ _ Hrev).
  - intros total Ht Hall. rewrite Htotal.
    unfold RetailViews.total_revenue in Ht.
    apply (reduce_column df "Total" Rsum total eq_refl) in Ht. subst total.
    rewrite number_of_sum. unfold having.
    rewrite filter_all; [rewrite frame_eta; reflexivity|].
    intros ir Hin. rewrite (Hall ir Hin). reflexivity.
Qed.

Lemma product_revenue_adds_up_witness :
  exists bars,
    RetailViews.product_revenue (L := Reference.library) Samples.retail
    = Ok bars
    /\ List.length bars = 2%nat
    /\ increasing bars
    /\ series_total bars
       == Qsum (present_numbers (having Samples.retail "Product line")
                                "Total").
Proof.
  pose (bars :=
          match RetailViews.product_revenue (L := Reference.library)
                  Samples.retail with
          | Ok s => s
          | Raise _ => []
          end).
  assert (H : RetailViews.product_revenue (L := Reference.library)
                Samples.retail = Ok bars)
    by (vm_compute; reflexivity).
  exists bars. split; [exact H|]. split; [vm_compute; reflexivity|].
  destruct (product_revenue_adds_up (L := Reference.library)
              Samples.retail bars H) as [Hinc [_ [Htot _]]].
  split; [exact Hinc | exact Htot].
Defined.

(** ** The first rows of a sorted table *)

Lemma Ok_inj {A : Type} (a b : A) : Ok a = Ok b -> a = b.
Proof. intros [= H]. exact H. Qed.

Lemma ForallOrdPairs_firstn {A : Type} (R : A -> A -> Prop) (n : nat)
  (l : list A) :
  ForallOrdPairs R l -> ForallOrdPairs R (firstn n l).
Proof.
  intros H. revert n. induction H as [|a l Ha H IH]; intros [|n]; simpl;
    try constructor.
  - apply Forall_forall. intros x Hx. rewrite Forall_forall in Ha.
    apply Ha. apply (In_firstn n). exact Hx.
  - apply IH.
Qed.

Lemma left_out_of_firstn {A : Type} (n : nat) (l : list A) (a : A) :
  In a l -> ~ In a (firstn n l) -> In a (skipn n l).
Proof.
  intros Hin Hout. rewrite <- (firstn_skipn n l) in Hin.
  apply in_app_or in Hin. destruct Hin as [H|H]; [contradiction | exact H].
Qed.

(** X3. "Top 10 Countries by Sales" lists at most ten countries, each
    once, by decreasing sales; each is a country of the cleaned table with
    the sum of its total prices, and no country left out sold more than a
    country listed. *)
Theorem country_sales_top_ten {L : Library}
  (df_clean : DataFrame) (top : Series cell) :
  EcommerceViews.country_sales df_clean = Ok top ->
  exists sales,
    groupby_reduce df_clean "Country" "TotalPrice" Rsum = Ok sales
    /\ List.length top = Nat.min 10 (List.length sales)
    /\ decreasing top
    /\ pairwise_distinct (map fst top)
    /\ (forall kv, In kv top -> In kv sales)
    /\ (forall kv kv', In kv sales -> ~ In kv top -> In kv' top ->
          number_of (snd kv) <= number_of (snd kv')).
Proof.
  unfold EcommerceViews.country_sales. intros H.
  apply bind_Ok in H. destruct H as [sales [Hs H]].
  apply Ok_inj in H. subst top.
  exists sales. split; [exact Hs|].
  pose proof (sums_sortable false sales
                (group_sums_are_numbers _ _ _ _ Hs)) as Hsorted.
  simpl in Hsorted.
  split; [|split; [|split; [|split]]].
  - rewrite length_firstn. unfold series_sort_values.
    rewrite sort_by_length. reflexivity.
  - apply StronglySorted_firstn. exact Hsorted.
  - rewrite <- firstn_map. apply ForallOrdPairs_firstn.
    apply (sorted_keys_distinct _ _ _ _ _ Hs).
  - intros kv Hin. apply In_firstn in Hin.
    apply In_sort_by in Hin. exact Hin.
  - intros kv kv' Hin Hout Hin'.
    apply (firstn_dominates _ 10 _ kv' kv Hsorted Hin').
    apply left_out_of_firstn; [|exact Hout].
    apply In_sort_by. exact Hin.
Qed.

Lemma country_sales_top_ten_witness :
  exists cleaned top,
    Ecommerce.clean_data (L := Reference.library) Samples.orders = Ok cleaned
    /\ EcommerceViews.country_sales (L := Reference.library) cleaned = Ok top
    /\ map fst top = [VStr "United Kingdom"]
    /\ decreasing top.
Proof.
  pose (cleaned :=
          match Ecommerce.clean_data (L := Reference.library) Samples.orders
          with
          | Ok c => c
          | Raise _ => Samples.orders
          end).
  pose (top :=
          match EcommerceViews.country_sales (L := Reference.library) cleaned
          with
          | Ok t => t
          | Raise _ => []
          end).
  assert (Hc : Ecommerce.clean_data (L := Reference.library) Samples.orders
               = Ok cleaned) by (vm_compute; reflexivity).
  assert (Ht : EcommerceViews.country_sales (L := Reference.library) cleaned
               = Ok top) by (vm_compute; reflexivity).
  exists cleaned, top.
  split; [exact Hc|]. split; [exact Ht|]. split; [reflexivity|].
  destruct (country_sales_top_ten (L := Reference.library) cleaned top Ht)
    as [sales [_ [_ [D _]]]].
  exact D.
Defined.

(** ** Value counts *)

Lemma value_counts_perm (s : Series cell) :
  Permutation (value_counts s)
    (map (fun v => (v, occurrences v s)) (present (unique (dropna s)))).
Proof. apply sort_by_perm. Qed.

Lemma value_counts_sorted (s : Series cell) :
  StronglySorted (fun a b : value * nat => (snd b <= snd a)%nat)
                 (value_counts s).
Proof.
  unfold value_counts.
  apply (StronglySorted_weaken
           (fun a b : value * nat => Nat.leb (snd b) (snd a) = true)).
  - intros a b _ _ H. apply Nat.leb_le. exact H.
  - apply (sort_by_sorted _ _ (fun _ => True)).
    + intros a b _ _ H. apply Nat.leb_le. apply Nat.leb_gt in H. lia.
    + intros a b c _ _ _ H1 H2. apply Nat.leb_le.
      apply Nat.leb_le in H1, H2. lia.
    + apply Forall_forall. auto.
Qed.

Lemma distinct_values_complete (s : Series cell) (v : value) :
  In (Some v) (values s) ->
  exists key, In key (present (unique (dropna s)))
              /\ value_eqb v key = true.
Proof.
  intros H. apply values_dropna_In in H.
  pose proof (member_unique_cells (Some v) _ (member_self _ _ H)) as Hm.
  unfold member in Hm. apply existsb_exists in Hm.
  destruct Hm as [[key|] [Hin Heq]]; [|discriminate Heq].
  exists key. split; [|exact Heq]. apply present_In. exact Hin.
Qed.

Lemma distinct_values_sound (s : Series cell) (key : value) :
  In key (present (unique (dropna s))) -> In (Some key) (values s).
Proof.
  intros H. apply present_In, unique_cells_subset in H.
  apply values_dropna_In. exact H.
Qed.

Lemma occurrences_positive (s : Series cell) (v : value) :
  In (Some v) (values s) -> (1 <= occurrences v s)%nat.
Proof.
  intros H. unfold values in H. apply in_map_iff in H.
  destruct H as [ic [E Hin]]. unfold occurrences.
  assert (Hf : In ic (filter (fun ic => cell_eqb (snd ic) (Some v)) s)).
  { apply filter_In. split; [exact Hin|]. rewrite E. apply cell_eqb_refl. }
  destruct (filter _ s); [contradiction | simpl; lia].
Qed.

Lemma length_flat_map_sum {A B : Type} (F : A -> list B) (keys : list A) :
  List.length (flat_map F keys)
  = fold_right Nat.add O (map (fun key => List.length (F key)) keys).
Proof.
  induction keys as [|a keys IH]; simpl; [reflexivity|].
  rewrite length_app, IH. reflexivity.
Qed.

Lemma fold_right_add_perm (l l' : list nat) :
  Permutation l l' -> fold_right Nat.add O l = fold_right Nat.add O l'.
Proof.
  induction 1; simpl; lia.
Qed.

(** The counts of [value_counts] add up to the number of present
    entries. *)
Lemma value_counts_total (s : Series cell) :
  fold_right Nat.add O (map snd (value_counts s))
  = List.length (dropna s).
Proof.
  rewrite (fold_right_add_perm _ _
             (Permutation_map snd (value_counts_perm s))).
  rewrite map_map. simpl. unfold occurrences.
  rewrite <- (length_flat_map_sum
                (fun v => filter (fun ic : label * cell =>
                                    cell_eqb (snd ic) (Some v)) s)).
  unfold dropna. apply Permutation_length.
  apply (groups_partition (fun ic : label * cell => snd ic)).
  - apply present_distinct, unique_cells_distinct.
  - intros ic v Hin Hv. apply distinct_values_complete.
    unfold values. apply in_map_iff. exists ic. auto.
Qed.

(** What [value_counts] lists: each distinct present value once, with the
    number of entries equal to it, most frequent first. *)
Lemma value_counts_entries (s : Series cell) :
  pairwise_distinct (map fst (value_counts s))
  /\ (forall v n, In (v, n) (value_counts s) ->
        In (Some v) (values s) /\ n = occurrences v s /\ (1 <= n)%nat)
  /\ (forall v, In (Some v) (values s) ->
        exists key, In key (map fst (value_counts s))
                    /\ value_eqb v key = true).
Proof.
  split; [|split].
  - unfold pairwise_distinct, value_counts.
    apply ForallOrdPairs_map. apply ForallOrdPairs_sort_by.
    + intros a b Hab. rewrite value_eqb_sym. exact Hab.
    + apply ForallOrdPairs_map. simpl.
      apply present_distinct, unique_cells_distinct.
  - intros v n Hin. unfold value_counts in Hin. apply In_sort_by in Hin.
    apply in_map_iff in Hin. destruct Hin as [w [E Hw]].
    injection E as -> <-. apply distinct_values_sound in Hw.
    split; [exact Hw|]. split; [reflexivity|].
    apply occurrences_positive. exact Hw.
  - intros v Hv. destruct (distinct_values_complete s v Hv) as [key [Hk E]].
    exists key. split; [|exact E]. apply in_map_iff.
    exists (key, occurrences key s). split; [reflexivity|].
    unfold value_counts. apply In_sort_by. apply in_map_iff.
    exists key. auto.
Qed.

(** X4. The Netflix charts built on [value_counts().head(10)] (top
    countries, top genres, top ratings) list at most ten values, each
    once, most frequent first; the count of a value is the number of
    entries of the charted Series equal to it and is at least 1; and no
    value left out of the chart is more frequent than a value shown. *)
Theorem most_frequent_first (df filtered : DataFrame) (s : Series cell)
  (top : list (value * nat)) :
  (Netflix.countries_series df filtered = Ok s
   /\ Netflix.top_countries df filtered = Ok top)
  \/ (Netflix.genres df filtered = Ok s
      /\ Netflix.top_genres df filtered = Ok top)
  \/ (getitem filtered "rating" = Ok s
      /\ NetflixViews.rating_counts filtered = Ok top) ->
  top = firstn 10 (value_counts s)
  /\ (List.length top <= 10)%nat
  /\ pairwise_distinct (map fst top)
  /\ StronglySorted (fun a b : value * nat => (snd b <= snd a)%nat) top
  /\ (forall v n, In (v, n) top ->
        In (Some v) (values s) /\ n = occurrences v s /\ (1 <= n)%nat)
  /\ (forall entry shown,
        In entry (value_counts s) -> ~ In entry top -> In shown top ->
        (snd entry <= snd shown)%nat).
Proof.
  intros H.
  assert (Htop : top = firstn 10 (value_counts s)).
  { destruct H as [[Hs Ht]|[[Hs Ht]|[Hs Ht]]].
    - unfold Netflix.top_countries in Ht. rewrite Hs in Ht.
      apply Ok_inj in Ht. symmetry. exact Ht.
    - unfold Netflix.top_genres in Ht. rewrite Hs in Ht.
      apply Ok_inj in Ht. symmetry. exact Ht.
    - unfold NetflixViews.rating_counts in Ht. rewrite Hs in Ht.
      apply Ok_inj in Ht. symmetry. exact Ht. }
  clear H. split; [exact Htop|]. subst top.
  destruct (value_counts_entries s) as [Hd [He _]].
  split; [rewrite length_firstn; apply Nat.le_min_l|].
  split; [rewrite <- firstn_map; apply ForallOrdPairs_firstn; exact Hd|].
  split; [apply StronglySorted_firstn, value_counts_sorted|].
  split.
  - intros v n Hin. apply He. apply (In_firstn 10). exact Hin.
  - intros entry shown Hin Hout Hshown.
    apply (firstn_dominates
             (fun a b : value * nat => (snd b <= snd a)%nat) 10
             (value_counts s) shown entry (value_counts_sorted s) Hshown).
    apply left_out_of_firstn; assumption.
Qed.

Lemma most_frequent_first_witness :
  exists s top,
    Netflix.countries_series Samples.netflix Samples.netflix = Ok s
    /\ Netflix.top_countries Samples.netflix Samples.netflix = Ok top
    /\ top = [(VStr "United States", 2%nat); (VStr "France", 1%nat);
              (VStr "South Africa", 1%nat)]
    /\ StronglySorted (fun a b : value * nat => (snd b <= snd a)%nat) top.
Proof.
  pose (s := match Netflix.countries_series Samples.netflix
                     Samples.netflix with
             | Ok s => s
             | Raise _ => []
             end).
  pose (top := [(VStr "United States", 2%nat); (VStr "France", 1%nat);
                (VStr "South Africa", 1%nat)]).
  assert (Hs : Netflix.countries_series Samples.netflix Samples.netflix
               = Ok s)
    by (vm_compute; reflexivity).
  assert (Ht : Netflix.top_countries Samples.netflix Samples.netflix
               = Ok top)
    by (vm_compute; reflexivity).
  exists s, top. split; [exact Hs|]. split; [exact Ht|].
  split; [reflexivity|].
  destruct (most_frequent_first Samples.netflix Samples.netflix s top
              (or_introl (conj Hs Ht))) as [_ [_ [_ [S _]]]].
  exact S.
Defined.

(** ** Counting rows *)

Lemma filter_three_way {A : Type} (p q : A -> bool) (l : list A) :
  (forall a, In a l -> p a = true -> q a = false) ->
  (List.length (filter p l) + List.length (filter q l)
   + List.length (filter (fun a => negb (p a || q a)) l)
   = List.length l)%nat.
Proof.
  induction l as [|a l IH]; intros H; simpl; [reflexivity|].
  assert (IH' := IH (fun b Hb => H b (or_intror Hb))).
  specialize (H a (or_introl eq_refl)).
  destruct (p a) eqn:Hp; simpl.
  - rewrite (H eq_refl). simpl. lia.
  - destruct (q a); simpl; lia.
Qed.

Lemma filter_nil_iff {A : Type} (p : A -> bool) (l : list A) :
  filter p l = [] <-> forall a, In a l -> p a = false.
Proof.
  induction l as [|a l IH]; simpl.
  - split; [intros _ b [] | reflexivity].
  - destruct (p a) eqn:Hp.
    + split; [discriminate|]. intros H.
      rewrite (H a (or_introl eq_refl)) in Hp. discriminate.
    + rewrite IH. split.
      * intros H b [<-|Hb]; [exact Hp | apply H; exact Hb].
      * intros H b Hb. apply H. right. exact Hb.
Qed.

Lemma eq_mask_rows (df : DataFrame) (c : string) (v : value)
  (s : Series cell) :
  getitem df c = Ok s ->
  records (loc_mask df (eq_mask s v))
  = filter (fun ir => cell_eqb (cell_at df c (snd ir)) (Some v))
           (records df).
Proof.
  intros H. apply getitem_Ok in H. destruct H as [k [Hk ->]].
  unfold eq_mask. rewrite smap_column. simpl.
  change (map (fun ir : label * Row =>
                 (fst ir, cell_eqb (field k (snd ir)) (Some v)))
              (records df))
    with (row_mask (fun r => cell_eqb (field k r) (Some v)) (records df)).
  rewrite select_rows_row_mask. apply filter_ext. intros ir.
  rewrite (cell_at_index _ _ _ _ Hk). reflexivity.
Qed.

Lemma cell_eqb_string (c : cell) (x : string) :
  cell_eqb c (Some (VStr x)) = true <-> c = Some (VStr x).
Proof.
  destruct c as [[y|z|q|t|h m]|]; simpl; split; try discriminate.
  - intros H. apply String.eqb_eq in H. subst. reflexivity.
  - intros [= ->]. apply String.eqb_refl.
Qed.

(** X5. Of the Netflix key metrics, the numbers of movies and of TV shows
    never add up to more than the number of titles, and they add up to it
    exactly when the type of every title is "Movie" or "TV Show": a title
    of another type, or without a type, is counted in "Total Titles"
    only. *)
Theorem titles_split_by_type (filtered : DataFrame) (movies tv_shows : nat) :
  NetflixViews.movies filtered = Ok movies ->
  NetflixViews.tv_shows filtered = Ok tv_shows ->
  (movies + tv_shows <= len filtered)%nat
  /\ ((movies + tv_shows = len filtered)%nat
      <-> forall ir, In ir (records filtered) ->
            cell_at filtered "type" (snd ir) = Some (VStr "Movie")
            \/ cell_at filtered "type" (snd ir) = Some (VStr "TV Show")).
Proof.
  unfold NetflixViews.movies, NetflixViews.tv_shows, NetflixViews.count_type.
  intros Hm Ht.
  apply bind_Ok in Hm. destruct Hm as [ty [Hty Hm]].
  rewrite Hty in Ht. simpl in Ht.
  apply Ok_inj in Hm, Ht. unfold len in *.
  rewrite (eq_mask_rows _ _ _ _ Hty) in Hm.
  rewrite (eq_mask_rows _ _ _ _ Hty) in Ht.
  pose (p := fun ir : label * Row =>
               cell_eqb (cell_at filtered "type" (snd ir))
                        (Some (VStr "Movie"))).
  pose (q := fun ir : label * Row =>
               cell_eqb (cell_at filtered "type" (snd ir))
                        (Some (VStr "TV Show"))).
  assert (Hpq : forall a, In a (records filtered) ->
                          p a = true -> q a = false).
  { intros a _ Hp. unfold p, q in *. apply cell_eqb_string in Hp.
    rewrite Hp. reflexivity. }
  pose proof (filter_three_way p q (records filtered) Hpq) as Hsum.
  fold p in Hm. fold q in Ht. rewrite Hm, Ht in Hsum.
  split; [lia|]. split.
  - intros E ir Hin.
    assert (Hnil : filter (fun a => negb (p a || q a)) (records filtered)
                   = []).
    { destruct (filter (fun a => negb (p a || q a)) (records filtered));
        [reflexivity | simpl in Hsum; lia]. }
    rewrite filter_nil_iff in Hnil. specialize (Hnil ir Hin).
    apply negb_false_iff, orb_true_iff in Hnil. unfold p, q in Hnil.
    rewrite !cell_eqb_string in Hnil. exact Hnil.
  - intros Hall.
    assert (Hnil : filter (fun a => negb (p a || q a)) (records filtered)
                   = []).
    { apply filter_nil_iff. intros ir Hin.
      apply negb_false_iff, orb_true_iff. unfold p, q.
      rewrite !cell_eqb_string. apply Hall. exact Hin. }
    rewrite Hnil in Hsum. simpl in Hsum. lia.
Qed.

Lemma titles_split_by_type_witness :
  NetflixViews.movies Samples.netflix = Ok 3%nat
  /\ NetflixViews.tv_shows Samples.netflix = Ok 1%nat
  /\ (3 + 1 <= len Samples.netflix)%nat.
Proof.
  assert (Hm : NetflixViews.movies Samples.netflix = Ok 3%nat)
    by (vm_compute; reflexivity).
  assert (Ht : NetflixViews.tv_shows Samples.netflix = Ok 1%nat)
    by (vm_compute; reflexivity).
  split; [exact Hm|]. split; [exact Ht|].
  apply (titles_split_by_type Samples.netflix 3 1 Hm Ht).
Defined.

(** ** Sizes of groups *)

Lemma groupby_size_Ok (df : DataFrame) (by_ : string) (sizes : Series cell) :
  groupby_size df by_ = Ok sizes ->
  exists k,
    index_of by_ (columns df) = Some k
    /\ sizes = map (fun key => (key, int_of_nat (len (group_of df by_ key))))
                   (group_keys (column_of k (records df))).
Proof.
  unfold groupby_size. intros H. apply bind_Ok in H.
  destruct H as [gs [Hgs H]]. apply Ok_inj in H. subst sizes.
  apply groupby_Ok in Hgs. destruct Hgs as [k [Hk ->]].
  exists k. split; [exact Hk|]. rewrite map_map. reflexivity.
Qed.

Lemma group_nonempty (df : DataFrame) (by_ : string) (k : nat)
  (key : value) :
  index_of by_ (columns df) = Some k ->
  In key (group_keys (column_of k (records df))) ->
  (1 <= len (group_of df by_ key))%nat.
Proof.
  intros Hk Hin. apply group_keys_sound in Hin.
  apply (column_values_In df by_ k (Some key) Hk) in Hin.
  destruct Hin as [ir [Hir E]]. unfold len, group_of. simpl.
  assert (Hf : In ir (filter (fun ir => cell_eqb (cell_at df by_ (snd ir))
                                                 (Some key))
                             (records df))).
  { apply filter_In. split; [exact Hir|]. rewrite E. apply cell_eqb_refl. }
  destruct (filter _ (records df)); [contradiction | simpl; lia].
Qed.

(** The sizes of the groups add up to the number of rows that have a
    key. *)
Lemma group_sizes_total (df : DataFrame) (by_ : string) (k : nat) :
  index_of by_ (columns df) = Some k ->
  fold_right Nat.add O
    (map (fun key => len (group_of df by_ key))
         (group_keys (column_of k (records df))))
  = len (having df by_).
Proof.
  intros Hk. unfold len, group_of, having. simpl.
  rewrite <- (length_flat_map_sum
                (fun key => filter (fun ir : label * Row =>
                                      cell_eqb (cell_at df by_ (snd ir))
                                               (Some key))
                                   (records df))).
  apply Permutation_length. etransitivity.
  - apply (groups_partition (fun ir : label * Row => cell_at df by_ (snd ir))).
    + apply group_keys_distinct.
    + intros ir v Hin Hv. apply group_keys_complete.
      apply (column_values_In df by_ k (Some v) Hk). exists ir. auto.
  - erewrite filter_ext; [reflexivity|].
    intros ir. simpl. destruct (cell_at df by_ (snd ir)); reflexivity.
Qed.

Lemma frame_records_In (cols : list string) (rows : list Row)
  (ir : label * Row) :
  In ir (records (frame cols rows)) -> In (snd ir) rows.
Proof.
  unfold frame. simpl. destruct ir as [i r]. apply in_combine_r.
Qed.

Lemma map_snd_combine {A B : Type} (l : list A) (l' : list B) :
  List.length l = List.length l' -> map snd (combine l l') = l'.
Proof.
  revert l'. induction l as [|a l IH]; intros [|b l']; simpl;
    try discriminate; [reflexivity|].
  intros [= H]. rewrite (IH l' H). reflexivity.
Qed.

Lemma frame_rows (cols : list string) (rows : list Row) :
  map snd (records (frame cols rows)) = rows.
Proof.
  unfold frame. simpl. apply map_snd_combine.
  rewrite length_map, length_seq. reflexivity.
Qed.

(** X6. In "Content Added to Netflix by Year" the [dropna()] that follows
    the grouping removes nothing: the grouping has already left out the
    titles without a year, every row of the counts holds a year and the
    number of titles added that year, which is at least 1, and the counts
    add up to the number of titles that have a year. *)
Theorem added_counts_complete (filtered counts : DataFrame) :
  NetflixViews.added_counts filtered = Ok counts ->
  NetflixViews.added filtered = Ok counts
  /\ columns counts = ["year_added"; "count"]
  /\ (forall row, In row (map snd (records counts)) ->
        exists year n,
          row = [Some year; int_of_nat n]
          /\ n = len (group_of filtered "year_added" year)
          /\ (1 <= n)%nat)
  /\ exists sizes,
       map snd (records counts)
       = map (fun yn => [Some (fst yn); int_of_nat (snd yn)]) sizes
       /\ fold_right Nat.add O (map snd sizes)
          = len (having filtered "year_added").
Proof.
  unfold NetflixViews.added, NetflixViews.added_counts. intros H.
  apply bind_Ok in H. destruct H as [sizes [Hs H]].
  apply Ok_inj in H. subst counts. rewrite Hs. cbn [bind].
  apply groupby_size_Ok in Hs. destruct Hs as [k [Hk ->]].
  unfold reset_index. rewrite frame_rows, map_map. cbn [fst snd].
  assert (Hrows : forall row,
             In row (map (fun key =>
                            [Some key;
                             int_of_nat
                               (len (group_of filtered "year_added" key))])
                         (group_keys (column_of k (records filtered)))) ->
             exists year n,
               row = [Some year; int_of_nat n]
               /\ n = len (group_of filtered "year_added" year)
               /\ (1 <= n)%nat).
  { intros row Hin. apply in_map_iff in Hin. destruct Hin as [key [<- Hkey]].
    exists key, (len (group_of filtered "year_added" key)).
    split; [reflexivity|]. split; [reflexivity|].
    apply (group_nonempty _ _ k); assumption. }
  split; [|split; [reflexivity|split; [exact Hrows|]]].
  - f_equal. unfold df_dropna.
    rewrite filter_all; [apply frame_eta|].
    intros [i r] Hin. apply frame_records_In in Hin. simpl in Hin |- *.
    destruct (Hrows r Hin) as [year [n [E _]]]. subst r. reflexivity.
  - exists (map (fun key => (key, len (group_of filtered "year_added" key)))
                (group_keys (column_of k (records filtered)))).
    rewrite !map_map. cbn [fst snd]. split; [reflexivity|].
    apply (group_sizes_total _ _ _ Hk).
Qed.

Lemma added_counts_complete_witness :
  exists loaded counts,
    Netflix.load_data (L := Reference.library) Samples.netflix = Ok loaded
    /\ NetflixViews.added_counts loaded = Ok counts
    /\ map snd (records counts) = [[int 2021; int 3]]
    /\ NetflixViews.added loaded = Ok counts.
Proof.
  pose (loaded :=
          match Netflix.load_data (L := Reference.library) Samples.netflix
          with
          | Ok d => d
          | Raise _ => Samples.netflix
          end).
  pose (counts := match NetflixViews.added_counts loaded with
                  | Ok d => d
                  | Raise _ => loaded
                  end).
  assert (Hl : Netflix.load_data (L := Reference.library) Samples.netflix
               = Ok loaded) by (vm_compute; reflexivity).
  assert (Hc : NetflixViews.added_counts loaded = Ok counts)
    by (vm_compute; reflexivity).
  exists loaded, counts. split; [exact Hl|]. split; [exact Hc|].
  split; [vm_compute; reflexivity|].
  apply (added_counts_complete loaded counts Hc).
Defined.

(** ** Column assignment, forward *)

Lemma getitem_present (df : DataFrame) (c : string) :
  has_column df c = true -> getitem df c = Ok (row_series (cell_at df c) df).
Proof.
  intros H. apply has_column_index in H. destruct H as [k Hk].
  rewrite (getitem_column _ _ _ Hk). f_equal.
  unfold column_of, row_series. apply map_ext. intros ir.
  rewrite (cell_at_index _ _ _ _ Hk). reflexivity.
Qed.

Lemma has_column_setitem (df : DataFrame) (c c' : string) (s : Series cell) :
  has_column (setitem df c s) c' = String.eqb c' c || has_column df c'.
Proof.
  unfold has_column. destruct (String.eqb c' c) eqn:E.
  - apply String.eqb_eq in E. subst c'. rewrite setitem_index_same.
    reflexivity.
  - apply String.eqb_neq in E. rewrite (setitem_index_other _ _ _ _ E).
    reflexivity.
Qed.

Lemma Forall2_map_r {A B : Type} (R : A -> B -> Prop) (g : A -> B)
  (l : list A) :
  (forall a, In a l -> R a (g a)) -> Forall2 R l (map g l).
Proof.
  induction l as [|a l IH]; intros H; simpl; constructor.
  - apply H. left. reflexivity.
  - apply IH. intros b Hb. apply H. right. exact Hb.
Qed.

Lemma Forall2_compose {A B C : Type} (R : A -> B -> Prop)
  (R' : B -> C -> Prop) (l : list A) (l' : list B) (l'' : list C) :
  Forall2 R l l' -> Forall2 R' l' l'' ->
  Forall2 (fun a c => exists b, In b l' /\ R a b /\ R' b c) l l''.
Proof.
  intros H. revert l''. induction H as [|a b l l' Hab H IH]; intros l'' H'.
  - inversion H'. constructor.
  - inversion H' as [|b' c m m' Hbc Hm]; subst. constructor.
    + exists b. split; [left; reflexivity | split; assumption].
    + specialize (IH m' Hm). revert IH. apply Forall2_impl.
      intros x z [y [Hy Hxy]]. exists y. split; [right; exact Hy | exact Hxy].
Qed.

Lemma Forall2_In_l {A B : Type} (R : A -> B -> Prop) (l : list A)
  (l' : list B) (a : A) :
  Forall2 R l l' -> In a l -> exists b, In b l' /\ R a b.
Proof.
  induction 1 as [|x y l l' Hxy H IH]; intros Hin; [contradiction|].
  destruct Hin as [<-|Hin].
  - exists y. split; [left; reflexivity | exact Hxy].
  - destruct (IH Hin) as [b [Hb Hr]]. exists b.
    split; [right; exact Hb | exact Hr].
Qed.

(** One column assignment, row by row and in order. *)
Lemma setitem_step (df : DataFrame) (c : string) (f : Row -> cell) :
  Forall2
    (fun ir ir' =>
       fst ir' = fst ir
       /\ cell_at (setitem df c (row_series f df)) c (snd ir') = f (snd ir)
       /\ forall c', c' <> c ->
            cell_at (setitem df c (row_series f df)) c' (snd ir')
            = cell_at df c' (snd ir))
    (records df) (records (setitem df c (row_series f df))).
Proof.
  rewrite setitem_records. apply Forall2_map_r. intros ir Hin. simpl.
  split; [reflexivity|]. split.
  - unfold cell_at. rewrite setitem_index_same. apply field_set_field_same.
  - intros c' Hne. unfold cell_at. rewrite setitem_index_other by exact Hne.
    destruct (index_of c' (columns df)) as [j|] eqn:Ej; [|reflexivity].
    apply field_set_field_other. unfold slot.
    destruct (index_of c (columns df)) as [k|] eqn:Ek.
    + intros ->. apply Hne. apply (index_of_injective _ _ _ _ Ej Ek).
    + apply index_of_lt in Ej. lia.
Qed.

Lemma dt_timestamps (f : Row -> cell) (df : DataFrame) :
  (forall ir, In ir (records df) -> timestamp_cell (f (snd ir)) = true) ->
  dt (row_series f df)
  = Ok (map (fun ir => (fst ir, timestamp_of (f (snd ir)))) (records df)).
Proof.
  unfold row_series. induction (records df) as [|[i r] rs IH]; intros H;
    simpl; [reflexivity|].
  rewrite IH by (intros ir Hir; apply H; right; exact Hir).
  specialize (H (i, r) (or_introl eq_refl)). simpl in H.
  destruct (f r) as [[x|z|q|t|h m]|]; try discriminate H; reflexivity.
Qed.

Lemma dt_Ok_timestamps (f : Row -> cell) (df : DataFrame)
  (d : Series (option timestamp)) :
  dt (row_series f df) = Ok d ->
  forall ir, In ir (records df) -> timestamp_cell (f (snd ir)) = true.
Proof.
  unfold row_series. revert d.
  induction (records df) as [|[i r] rs IH]; intros d H ir Hin;
    [contradiction|].
  simpl in H.
  destruct (f r) as [[x|z|q|t|h m]|] eqn:E; try discriminate H;
    destruct (dt (map _ rs)) as [d'|] eqn:Hd; try discriminate H;
    (destruct Hin as [<-|Hin]; [simpl; rewrite E; reflexivity|];
     apply (IH d' eq_refl ir Hin)).
Qed.

Lemma datetime_cast_timestamp {L : Library} (fmt : option string)
  (c : cell) :
  timestamp_cell (datetime_cast fmt c) = true.
Proof.
  destruct c as [[x|z|q|t|h m]|]; simpl; try reflexivity;
    try destruct (nat_string x); try reflexivity;
    destruct (read_value fmt _); reflexivity.
Qed.

Lemma to_datetime_coerce_row_series {L : Library} (df : DataFrame)
  (c : string) :
  to_datetime_coerce (row_series (cell_at df c) df)
  = row_series (fun r => datetime_cast (column_format df c) (cell_at df c r))
               df.
Proof.
  unfold to_datetime_coerce. cbv zeta. rewrite guess_format_row_series.
  rewrite smap_row_series. unfold row_series. apply map_ext. intros ir.
  destruct (cell_at df c (snd ir)) as [[x|z|q|t|h m]|]; reflexivity.
Qed.

(** X7. The Netflix [load_data] fails only when the file has no
    [date_added] column, with [KeyError]; a date that cannot be read is
    no error.  Otherwise it returns the rows of the file in order, under
    the same labels.  The whole column is read by one format, the one
    guessed from the first date of the file: [date_added] holds the
    timestamp read from the cell by that format, or nothing when the cell
    is missing or does not fit the format, even if it could be read on its
    own; only when no format can be guessed is each date read on its own.
    [year_added] is the year of that timestamp, or nothing, and every
    other column is unchanged. *)
Theorem netflix_load_data_coerces {L : Library} (df : DataFrame) :
  (has_column df "date_added" = false ->
   Netflix.load_data df = Raise (KeyError "date_added"))
  /\ (has_column df "date_added" = true ->
      exists loaded,
        Netflix.load_data df = Ok loaded
        /\ has_column loaded "year_added" = true
        /\ Forall2
             (fun ir ir' =>
                cell_at loaded "date_added" (snd ir')
                = datetime_cast (column_format df "date_added")
                                (cell_at df "date_added" (snd ir))
                /\ cell_at loaded "year_added" (snd ir')
                   = calendar_part ts_year
                       (cell_at loaded "date_added" (snd ir'))
                /\ same_row_outside ["date_added"; "year_added"] df loaded
                                    ir ir')
             (records df) (records loaded)).
Proof.
  split.
  - intros H. unfold Netflix.load_data.
    rewrite (getitem_absent df "date_added"); [reflexivity|].
    apply has_column_false. exact H.
  - intros H. unfold Netflix.load_data.
    rewrite (getitem_present _ _ H). cbn [bind].
    rewrite to_datetime_coerce_row_series.
    set (df1 := setitem df "date_added" _).
    assert (H1 : has_column df1 "date_added" = true)
      by (unfold df1; rewrite has_column_setitem; reflexivity).
    rewrite (getitem_present _ _ H1). cbn [bind].
    pose proof (setitem_step df "date_added"
                  (fun r => datetime_cast (column_format df "date_added")
                                          (cell_at df "date_added" r)))
      as S1. fold df1 in S1.
    assert (Hts : forall ir, In ir (records df1) ->
                    timestamp_cell (cell_at df1 "date_added" (snd ir)) = true).
    { intros ir' Hin'.
      destruct (Forall2_In_r _ _ _ _ S1 Hin') as [ir [_ [_ [E _]]]].
      rewrite E. apply datetime_cast_timestamp. }
    rewrite (dt_timestamps _ _ Hts). cbn [bind].
    unfold dt_year, smap. rewrite map_map. cbn [fst snd].
    change (map (fun x : label * Row =>
                   (fst x, int_cell ts_year
                             (timestamp_of (cell_at df1 "date_added" (snd x)))))
                (records df1))
      with (row_series
              (fun r => calendar_part ts_year (cell_at df1 "date_added" r))
              df1).
    eexists. split; [reflexivity|].
    split; [rewrite has_column_setitem; reflexivity|].
    pose proof (setitem_step df1 "year_added"
                  (fun r => calendar_part ts_year
                              (cell_at df1 "date_added" r))) as S2.
    pose proof (Forall2_compose _ _ _ _ _ S1 S2) as S.
    revert S. apply Forall2_impl.
    intros ir ir'' [ir' [_ [[L1 [E1 O1]] [L2 [E2 O2]]]]].
    split; [|split; [|split]].
    + rewrite O2 by discriminate. exact E1.
    + rewrite E2. rewrite (O2 "date_added") by discriminate. reflexivity.
    + congruence.
    + intros c Hc. rewrite O2, O1; [reflexivity| |];
        intros ->; apply Hc; simpl; auto.
Qed.

Lemma netflix_load_data_coerces_witness :
  exists loaded alone,
    Netflix.load_data (L := Reference.library) Samples.titles_mixed_dates
    = Ok loaded
    /\ Netflix.load_data (L := Reference.library) Samples.titles_second
       = Ok alone
    /\ map (fun ir => cell_at loaded "date_added" (snd ir)) (records loaded)
       = [Some (VTs (mkTs 2021 9 25 0 0 0)); None]
    /\ map (fun ir => cell_at alone "date_added" (snd ir)) (records alone)
       = [Some (VTs (mkTs 2021 9 24 0 0 0))].
Proof.
  destruct (netflix_load_data_coerces (L := Reference.library)
              Samples.titles_mixed_dates) as [_ B].
  destruct (B eq_refl) as [loaded [H _]].
  destruct (netflix_load_data_coerces (L := Reference.library)
              Samples.titles_second) as [_ B'].
  destruct (B' eq_refl) as [alone [H' _]].
  exists loaded, alone. split; [exact H|]. split; [exact H'|].
  vm_compute in H. injection H as <-.
  vm_compute in H'. injection H' as <-.
  split; reflexivity.
Defined.

(** ** The retail [load_data], forward *)

Lemma to_datetime_by_row_series {L : Library} (fmt : option string)
  (f : Row -> cell) (df : DataFrame) :
  (forall ir, In ir (records df) ->
              parses_as_datetime fmt (f (snd ir)) = true) ->
  to_datetime_by fmt (row_series f df)
  = Ok (row_series (fun r => datetime_cast fmt (f r)) df).
Proof.
  unfold row_series. induction (records df) as [|[i r] rs IH]; intros H;
    [reflexivity|].
  cbn [map fst snd to_datetime_by].
  rewrite IH by (intros ir Hir; apply H; right; exact Hir).
  specialize (H (i, r) (or_introl eq_refl)). cbn [snd] in H.
  unfold parses_as_datetime, datetime_cast, read_value in *.
  destruct (f r) as [[x|z|q|t|h m]|]; cbn [null_like] in *;
    try reflexivity;
    try (destruct (nat_string x); [reflexivity|]);
    cbn [orb] in H;
    destruct (match fmt with
              | Some f0 => strptime f0 _
              | None => parse_datetime _
              end); try discriminate H; reflexivity.
Qed.

Lemma to_datetime_by_parses {L : Library} (fmt : option string)
  (f : Row -> cell) (df : DataFrame) (t : Series cell) :
  to_datetime_by fmt (row_series f df) = Ok t ->
  forall ir, In ir (records df) ->
             parses_as_datetime fmt (f (snd ir)) = true.
Proof.
  unfold row_series. revert t.
  induction (records df) as [|[i r] rs IH]; intros t H ir Hin;
    [contradiction|].
  cbn [map fst snd to_datetime_by] in H.
  assert (Hrest : exists t', to_datetime_by fmt
                    (map (fun ir => (fst ir, f (snd ir))) rs) = Ok t').
  { destruct (f r) as [[x|z|q|ts|h m]|];
      try destruct (nat_string x);
      try (destruct (match fmt with
                     | Some f0 => strptime f0 _
                     | None => parse_datetime _
                     end); [|discriminate H]);
      destruct (to_datetime_by fmt (map _ rs)) as [t'|]; try discriminate H;
      exists t'; reflexivity. }
  destruct Hrest as [t' Ht']. destruct Hin as [<-|Hin];
    [|apply (IH t' Ht' ir Hin)].
  cbn [snd]. unfold parses_as_datetime, read_value.
  destruct (f r) as [[x|z|q|ts|h m]|]; cbn [null_like]; try reflexivity;
    try (destruct (nat_string x); [reflexivity|]); cbn [orb];
    destruct (match fmt with
              | Some f0 => strptime f0 _
              | None => parse_datetime _
              end); try discriminate H; reflexivity.
Qed.

Lemma to_datetime_row_series {L : Library} (df : DataFrame) (c : string) :
  (forall ir, In ir (records df) ->
              parses_as_datetime (column_format df c)
                                 (cell_at df c (snd ir)) = true) ->
  to_datetime (row_series (cell_at df c) df)
  = Ok (row_series (fun r => datetime_cast (column_format df c)
                                           (cell_at df c r)) df).
Proof.
  unfold to_datetime. rewrite guess_format_row_series.
  apply to_datetime_by_row_series.
Qed.

Lemma to_datetime_parses {L : Library} (df : DataFrame) (c : string)
  (t : Series cell) :
  to_datetime (row_series (cell_at df c) df) = Ok t ->
  forall ir, In ir (records df) ->
             parses_as_datetime (column_format df c)
                                (cell_at df c (snd ir)) = true.
Proof.
  unfold to_datetime. rewrite guess_format_row_series.
  apply to_datetime_by_parses.
Qed.

Lemma to_clock_row_series {L : Library} (f : Row -> cell) (df : DataFrame) :
  (forall ir, In ir (records df) -> parses_as_clock (f (snd ir)) = true) ->
  to_clock (row_series f df) = Ok (row_series (fun r => clock_cast (f r)) df).
Proof.
  unfold row_series. induction (records df) as [|[i r] rs IH]; intros H;
    simpl; [reflexivity|].
  rewrite IH by (intros ir Hir; apply H; right; exact Hir).
  specialize (H (i, r) (or_introl eq_refl)). simpl in H.
  destruct (f r) as [v|]; simpl in *; [|reflexivity].
  destruct (parse_clock v) as [[h m]|]; [reflexivity | discriminate H].
Qed.

Lemma to_clock_parses {L : Library} (f : Row -> cell) (df : DataFrame)
  (t : Series cell) :
  to_clock (row_series f df) = Ok t ->
  forall ir, In ir (records df) -> parses_as_clock (f (snd ir)) = true.
Proof.
  unfold row_series. revert t.
  induction (records df) as [|[i r] rs IH]; intros t H ir Hin;
    [contradiction|].
  simpl in H.
  assert (Hrest : exists t', to_clock
                    (map (fun ir => (fst ir, f (snd ir))) rs) = Ok t').
  { destruct (f r) as [v|];
      try (destruct (parse_clock v) as [[h m]|]; [|discriminate H]);
      destruct (to_clock (map _ rs)) as [t'|]; try discriminate H;
      exists t'; reflexivity. }
  destruct Hrest as [t' Ht']. destruct Hin as [<-|Hin];
    [|apply (IH t' Ht' ir Hin)].
  simpl. destruct (f r) as [v|]; simpl in *; [|reflexivity].
  destruct (parse_clock v) as [[h m]|]; [reflexivity | discriminate H].
Qed.

Lemma dt_of_dated (df : DataFrame) :
  dated df ->
  Retail.dt_of df "Date"
  = Ok (map (fun ir => (fst ir, timestamp_of (cell_at df "Date" (snd ir))))
            (records df)).
Proof.
  intros [Hc Hts]. unfold Retail.dt_of.
  rewrite (getitem_present _ _ Hc). cbn [bind].
  apply (dt_timestamps _ _ Hts).
Qed.

Lemma smap_dates (h : option timestamp -> cell) (df : DataFrame) :
  smap h (map (fun ir => (fst ir, timestamp_of (cell_at df "Date" (snd ir))))
              (records df))
  = row_series (fun r => h (timestamp_of (cell_at df "Date" r))) df.
Proof. unfold smap, row_series. rewrite map_map. reflexivity. Qed.

Lemma dated_setitem (df : DataFrame) (c : string) (f : Row -> cell) :
  c <> "Date" -> dated df -> dated (setitem df c (row_series f df)).
Proof.
  intros Hne [Hc Hts]. split.
  - rewrite has_column_setitem, Hc. apply orb_true_r.
  - intros ir' Hin'.
    destruct (Forall2_In_r _ _ _ _ (setitem_step df c f) Hin')
      as [ir [Hin [_ [_ O]]]].
    rewrite O by (intros E; apply Hne; symmetry; exact E).
    apply Hts. exact Hin.
Qed.

Lemma dated_parsed {L : Library} (df : DataFrame) :
  has_column df "Date" = true -> dated (with_parsed_dates df).
Proof.
  intros Hc. unfold with_parsed_dates. split.
  - rewrite has_column_setitem. reflexivity.
  - intros ir' Hin'.
    destruct (Forall2_In_r _ _ _ _
                (setitem_step df "Date"
                   (fun r => datetime_cast (column_format df "Date")
                                           (cell_at df "Date" r)))
                Hin') as [ir [_ [_ [E _]]]].
    rewrite E. apply datetime_cast_timestamp.
Qed.

Lemma dated_with_calendar (c : string) (h : cell -> cell) (df : DataFrame) :
  c <> "Date" -> dated df -> dated (with_calendar c h df).
Proof. apply dated_setitem. Qed.

(** One calendar column of [load_data]. *)
Ltac calendar_step Hc :=
  rewrite dt_of_dated
    by (repeat (apply dated_setitem; [discriminate|]);
        apply dated_parsed; exact Hc);
  cbn [bind];
  unfold dt_year, dt_month, dt_day, dt_month_name, dt_day_name;
  rewrite smap_dates.

(** [load_data], up to the block on the time column. *)
Lemma load_data_steps_dates {L : Library} (df : DataFrame) :
  has_column df "Date" = true ->
  (forall ir, In ir (records df) ->
              parses_as_datetime (column_format df "Date")
                                 (cell_at df "Date" (snd ir)) = true) ->
  Retail.load_data_steps df
  = clock_steps (with_calendar_columns (with_parsed_dates df)).
Proof.
  intros Hc Hp. unfold Retail.load_data_steps.
  rewrite (getitem_present _ _ Hc). cbn [bind].
  rewrite (to_datetime_row_series _ _ Hp). cbn [bind]. cbv zeta.
  calendar_step Hc. calendar_step Hc. calendar_step Hc.
  calendar_step Hc. calendar_step Hc.
  reflexivity.
Qed.

(** ** The rows of the loaded retail frame *)

Ltac split_all :=
  repeat match goal with
         | H : exists _, _ |- _ => destruct H
         | H : _ /\ _ |- _ => destruct H
         end.

(** The rows after the calendar columns, against the rows of the file. *)
Lemma calendar_rows {L : Library} (df : DataFrame) :
  let dff := with_calendar_columns (with_parsed_dates df) in
  Forall2
    (fun ir ir' =>
       fst ir' = fst ir
       /\ cell_at dff "Date" (snd ir')
          = datetime_cast (column_format df "Date")
                          (cell_at df "Date" (snd ir))
       /\ cell_at dff "Month_Name" (snd ir')
          = month_name_of (cell_at dff "Date" (snd ir'))
       /\ cell_at dff "DayOfWeek" (snd ir')
          = day_name_of (cell_at dff "Date" (snd ir'))
       /\ forall c, ~ In c calendar_names ->
                    cell_at dff c (snd ir') = cell_at df c (snd ir))
    (records df) (records dff).
Proof.
  intros dff. unfold dff, with_calendar_columns.
  set (df1 := with_parsed_dates df).
  set (df2 := with_calendar "Year" (calendar_part ts_year) df1).
  set (df3 := with_calendar "Month" (calendar_part ts_month) df2).
  set (df4 := with_calendar "Month_Name" month_name_of df3).
  set (df5 := with_calendar "Day" (calendar_part ts_day) df4).
  set (df6 := with_calendar "DayOfWeek" day_name_of df5).
  pose proof (setitem_step df "Date"
                (fun r => datetime_cast (column_format df "Date")
                                        (cell_at df "Date" r))) as S1.
  pose proof (setitem_step df1 "Year"
                (fun r => calendar_part ts_year (cell_at df1 "Date" r)))
    as S2.
  pose proof (setitem_step df2 "Month"
                (fun r => calendar_part ts_month (cell_at df2 "Date" r)))
    as S3.
  pose proof (setitem_step df3 "Month_Name"
                (fun r => month_name_of (cell_at df3 "Date" r))) as S4.
  pose proof (setitem_step df4 "Day"
                (fun r => calendar_part ts_day (cell_at df4 "Date" r)))
    as S5.
  pose proof (setitem_step df5 "DayOfWeek"
                (fun r => day_name_of (cell_at df5 "Date" r))) as S6.
  fold (with_parsed_dates df) in S1. fold df1 in S1.
  fold (with_calendar "Year" (calendar_part ts_year) df1) in S2.
  fold df2 in S2.
  fold (with_calendar "Month" (calendar_part ts_month) df2) in S3.
  fold df3 in S3.
  fold (with_calendar "Month_Name" month_name_of df3) in S4. fold df4 in S4.
  fold (with_calendar "Day" (calendar_part ts_day) df4) in S5. fold df5 in S5.
  fold (with_calendar "DayOfWeek" day_name_of df5) in S6. fold df6 in S6.
  pose proof (Forall2_compose _ _ _ _ _
                (Forall2_compose _ _ _ _ _
                   (Forall2_compose _ _ _ _ _
                      (Forall2_compose _ _ _ _ _
                         (Forall2_compose _ _ _ _ _ S1 S2) S3) S4) S5) S6)
    as S.
  revert S. apply Forall2_impl. intros ir ir6 H. split_all.
  repeat match goal with
         | H : In _ _ |- _ => clear H
         end.
  match goal with
  | L1 : fst ?i1 = fst ir, E1 : cell_at df1 "Date" (snd ?i1) = _,
    O1 : forall c', c' <> "Date" -> cell_at df1 c' (snd ?i1) = _,
    L2 : fst ?i2 = fst ?i1,
    O2 : forall c', c' <> "Year" -> cell_at df2 c' (snd ?i2) = _,
    L3 : fst ?i3 = fst ?i2,
    O3 : forall c', c' <> "Month" -> cell_at df3 c' (snd ?i3) = _,
    L4 : fst ?i4 = fst ?i3,
    E4 : cell_at df4 "Month_Name" (snd ?i4) = _,
    O4 : forall c', c' <> "Month_Name" -> cell_at df4 c' (snd ?i4) = _,
    L5 : fst ?i5 = fst ?i4,
    O5 : forall c', c' <> "Day" -> cell_at df5 c' (snd ?i5) = _,
    L6 : fst ir6 = fst ?i5,
    E6 : cell_at df6 "DayOfWeek" (snd ir6) = _,
    O6 : forall c', c' <> "DayOfWeek" -> cell_at df6 c' (snd ir6) = _ |- _ =>
      assert (Hdate : cell_at df6 "Date" (snd ir6)
                      = cell_at df1 "Date" (snd i1))
        by (rewrite (O6 "Date"), (O5 "Date"), (O4 "Date"), (O3 "Date"),
              (O2 "Date") by discriminate; reflexivity);
      split; [congruence|];
      split; [rewrite Hdate; exact E1|];
      split; [rewrite (O6 "Month_Name"), (O5 "Month_Name") by discriminate;
              rewrite E4, Hdate, (O3 "Date"), (O2 "Date") by discriminate;
              reflexivity|];
      split; [rewrite E6, Hdate, (O5 "Date"), (O4 "Date"), (O3 "Date"),
                (O2 "Date") by discriminate; reflexivity|];
      intros c Hc;
      rewrite (O6 c), (O5 c), (O4 c), (O3 c), (O2 c), (O1 c);
      [reflexivity| | | | | |];
      intros ->; apply Hc; unfold calendar_names; simpl; tauto
  end.
Qed.

Lemma has_column_calendar {L : Library} (df : DataFrame) (c : string) :
  has_column (with_calendar_columns (with_parsed_dates df)) c
  = existsb (String.eqb c) calendar_names || has_column df c.
Proof.
  unfold with_calendar_columns, with_calendar, with_parsed_dates.
  rewrite !has_column_setitem. unfold calendar_names, existsb.
  destruct (String.eqb c "Date"), (String.eqb c "Year"),
    (String.eqb c "Month"), (String.eqb c "Month_Name"),
    (String.eqb c "Day"), (String.eqb c "DayOfWeek"); reflexivity.
Qed.

Lemma clock_hour_row_series (f : Row -> cell) (df : DataFrame) :
  clock_hour (row_series f df) = row_series (fun r => clock_hour_of (f r)) df.
Proof. unfold clock_hour. rewrite smap_row_series. reflexivity. Qed.

(** The block on the time column, forward. *)
Lemma clock_steps_run {L : Library} (df : DataFrame) :
  has_column df "Time" = true ->
  (forall ir, In ir (records df) ->
              parses_as_clock (cell_at df "Time" (snd ir)) = true) ->
  clock_steps df = Ok (with_hours (with_clock df)).
Proof.
  intros Hc Hp. unfold clock_steps. rewrite Hc.
  rewrite (getitem_present _ _ Hc). cbn [bind].
  rewrite (to_clock_row_series _ _ Hp). cbn [bind]. cbv zeta.
  fold (with_clock df).
  rewrite getitem_present
    by (unfold with_clock; rewrite has_column_setitem; reflexivity).
  cbn [bind]. rewrite clock_hour_row_series. reflexivity.
Qed.

Lemma clock_steps_parses {L : Library} (df loaded : DataFrame) :
  has_column df "Time" = true ->
  clock_steps df = Ok loaded ->
  forall ir, In ir (records df) ->
             parses_as_clock (cell_at df "Time" (snd ir)) = true.
Proof.
  intros Hc H. unfold clock_steps in H. rewrite Hc in H.
  rewrite (getitem_present _ _ Hc) in H. cbn [bind] in H.
  apply bind_Ok in H. destruct H as [clock [Hclock _]].
  apply (to_clock_parses _ _ _ Hclock).
Qed.

Lemma clock_rows {L : Library} (df : DataFrame) :
  let loaded := with_hours (with_clock df) in
  Forall2
    (fun ir ir' =>
       fst ir' = fst ir
       /\ cell_at loaded "Time" (snd ir')
          = clock_cast (cell_at df "Time" (snd ir))
       /\ forall c, c <> "Time" -> c <> "Hour" ->
                    cell_at loaded c (snd ir') = cell_at df c (snd ir))
    (records df) (records loaded).
Proof.
  intros loaded. unfold loaded.
  set (df1 := with_clock df). set (df2 := with_hours df1).
  pose proof (setitem_step df "Time"
                (fun r => clock_cast (cell_at df "Time" r))) as S1.
  pose proof (setitem_step df1 "Hour"
                (fun r => clock_hour_of (cell_at df1 "Time" r))) as S2.
  fold (with_clock df) in S1. fold df1 in S1.
  fold (with_hours df1) in S2. fold df2 in S2.
  pose proof (Forall2_compose _ _ _ _ _ S1 S2) as S.
  revert S. apply Forall2_impl.
  intros ir ir2 [ir1 [_ [[L1 [E1 O1]] [L2 [E2 O2]]]]].
  split; [congruence|]. split.
  - rewrite (O2 "Time") by discriminate. exact E1.
  - intros c Ht Hh. rewrite (O2 c), (O1 c) by assumption. reflexivity.
Qed.

(** A successful run of [load_data], taken apart. *)
Lemma load_data_steps_Ok {L : Library} (df loaded : DataFrame) :
  Retail.load_data_steps df = Ok loaded ->
  has_column df "Date" = true
  /\ (forall ir, In ir (records df) ->
        parses_as_datetime (column_format df "Date")
                                 (cell_at df "Date" (snd ir)) = true)
  /\ clock_steps (with_calendar_columns (with_parsed_dates df)) = Ok loaded.
Proof.
  intros H. pose proof H as H0. unfold Retail.load_data_steps in H.
  apply bind_Ok in H. destruct H as [raw [Hraw H]].
  apply bind_Ok in H. destruct H as [parsed [Hparsed _]].
  assert (Hc : has_column df "Date" = true).
  { apply getitem_Ok in Hraw. destruct Hraw as [k [Hk _]].
    apply has_column_index. exists k. exact Hk. }
  apply getitem_row_series in Hraw. subst raw.
  pose proof (to_datetime_parses _ _ _ Hparsed) as Hp.
  split; [exact Hc|]. split; [exact Hp|].
  rewrite <- (load_data_steps_dates df Hc Hp). exact H0.
Qed.

Lemma time_cells_kept {L : Library} (df : DataFrame) :
  Forall2
    (fun ir ir' =>
       cell_at (with_calendar_columns (with_parsed_dates df)) "Time" (snd ir')
       = cell_at df "Time" (snd ir))
    (records df) (records (with_calendar_columns (with_parsed_dates df))).
Proof.
  generalize (calendar_rows df). cbv zeta. apply Forall2_impl.
  intros ir ir' [_ [_ [_ [_ O]]]]. apply O.
  unfold calendar_names. simpl. intros H.
  repeat (destruct H as [H|H]; [discriminate H|]). exact H.
Qed.

(** X8. The retail [load_data] returns a table exactly when the file has
    a [Date] column, every date in it can be read by the format of the
    column, which is the one guessed from the first date of the file (each
    date is read on its own only when no format can be guessed), and, if
    the file has a [Time] column, every time in it can be read; in every
    other case it reports the error and returns nothing.  So a file whose
    dates are written in two ways is refused although each of them could
    be read alone. *)
Theorem load_data_outcome {L : Library} (df : DataFrame) :
  (exists loaded, Retail.load_data df = Some loaded)
  <-> has_column df "Date" = true
      /\ (forall ir, In ir (records df) ->
            parses_as_datetime (column_format df "Date")
                                 (cell_at df "Date" (snd ir)) = true)
      /\ (has_column df "Time" = true ->
          forall ir, In ir (records df) ->
            parses_as_clock (cell_at df "Time" (snd ir)) = true).
Proof.
  assert (Htime : has_column (with_calendar_columns (with_parsed_dates df))
                             "Time" = has_column df "Time")
    by (rewrite has_column_calendar; reflexivity).
  split.
  - intros [loaded H]. unfold Retail.load_data in H.
    destruct (Retail.load_data_steps df) as [out|] eqn:Hsteps;
      [|discriminate H].
    apply load_data_steps_Ok in Hsteps. destruct Hsteps as [Hc [Hp Hclock]].
    split; [exact Hc|]. split; [exact Hp|].
    intros Ht ir Hin. rewrite <- Htime in Ht.
    destruct (Forall2_In_l _ _ _ _ (time_cells_kept df) Hin)
      as [ir' [Hin' E]].
    rewrite <- E. apply (clock_steps_parses _ _ Ht Hclock). exact Hin'.
  - intros [Hc [Hp Ht]]. unfold Retail.load_data.
    rewrite (load_data_steps_dates df Hc Hp).
    destruct (has_column df "Time") eqn:Htm.
    + rewrite clock_steps_run; [eexists; reflexivity | exact Htime|].
      intros ir' Hin'.
      destruct (Forall2_In_r _ _ _ _ (time_cells_kept df) Hin')
        as [ir [Hin E]].
      rewrite E. apply (Ht eq_refl). exact Hin.
    + unfold clock_steps. rewrite Htime. eexists. reflexivity.
Qed.

Lemma load_data_outcome_witness :
  (exists loaded,
      Retail.load_data (L := Reference.library) Samples.sales = Some loaded)
  /\ Retail.load_data (L := Reference.library) Samples.sales_mixed_dates
     = None
  /\ column_format (L := Reference.library) Samples.sales_mixed_dates "Date"
     = Some "%m/%d/%Y"
  /\ (exists loaded,
        Retail.load_data (L := Reference.library) Samples.sales_iso_date
        = Some loaded).
Proof.
  split.
  { apply (load_data_outcome (L := Reference.library) Samples.sales).
    split; [reflexivity|]. split; [each_row|]. intros _. each_row. }
  split.
  { destruct (Retail.load_data (L := Reference.library)
                Samples.sales_mixed_dates) as [loaded|] eqn:E;
      [|reflexivity].
    assert (H : exists loaded,
               Retail.load_data (L := Reference.library)
                 Samples.sales_mixed_dates = Some loaded)
      by (exists loaded; exact E).
    apply (load_data_outcome (L := Reference.library)
             Samples.sales_mixed_dates) in H.
    destruct H as [_ [H _]].
    specialize (H (VInt 1,
                   [str "226-31-3081"; float 20;
                    str "2019-03-08"])
                  (or_intror (or_introl eq_refl))).
    vm_compute in H. discriminate H. }
  split; [vm_compute; reflexivity|].
  apply (load_data_outcome (L := Reference.library) Samples.sales_iso_date).
  split; [reflexivity|]. split; [each_row|]. intros H. discriminate H.
Defined.

(** A successful [load_data], row by row and column by column. *)
Lemma load_data_rows {L : Library} (df loaded : DataFrame) :
  Retail.load_data df = Some loaded ->
  Forall2 (loaded_row df loaded) (records df) (records loaded)
  /\ forall c,
       has_column loaded c
       = existsb (String.eqb c)
           (calendar_names
            ++ (if has_column df "Time" then ["Hour"] else []))
         || has_column df c.
Proof.
  intros H. unfold Retail.load_data in H.
  destruct (Retail.load_data_steps df) as [out|] eqn:Hsteps;
    [|discriminate H].
  assert (E : out = loaded) by congruence. subst out. clear H.
  pose proof (load_data_steps_Ok _ _ Hsteps) as [Hc [Hp Hclock]].
  set (dff := with_calendar_columns (with_parsed_dates df)) in *.
  assert (Htime : has_column dff "Time" = has_column df "Time")
    by (unfold dff; rewrite has_column_calendar; reflexivity).
  pose proof (calendar_rows df) as Rows. cbv zeta in Rows. fold dff in Rows.
  destruct (has_column df "Time") eqn:Htm.
  - assert (Hparse : forall ir, In ir (records dff) ->
              parses_as_clock (cell_at dff "Time" (snd ir)) = true)
      by (apply (clock_steps_parses _ _ Htime Hclock)).
    rewrite (clock_steps_run dff Htime Hparse) in Hclock.
    apply Ok_inj in Hclock. subst loaded. split.
    + pose proof (clock_rows dff) as Clock. cbv zeta in Clock.
      pose proof (Forall2_compose _ _ _ _ _ Rows Clock) as S.
      revert S. apply Forall2_impl.
      intros ir ir2 [ir1 [_ [[L1 [D1 [M1 [W1 O1]]]] [L2 [T2 O2]]]]].
      unfold loaded_row. cbv zeta.
      rewrite !(O2 "Date"), (O2 "Month_Name"), (O2 "DayOfWeek")
        by discriminate.
      split; [congruence|]. split; [exact D1|]. split; [exact M1|].
      split; [exact W1|]. split.
      * intros _. rewrite T2. f_equal. apply O1.
        unfold calendar_names. simpl. intros H.
        repeat (destruct H as [H|H]; [discriminate H|]). exact H.
      * split; [intros Hf; congruence|]. intros c Hc'.
        rewrite O2, O1; [reflexivity| | |].
        -- intros Hin. apply Hc'. apply in_or_app. left. exact Hin.
        -- intros ->. apply Hc'. apply in_or_app. right. simpl. tauto.
        -- intros ->. apply Hc'. apply in_or_app. right. simpl. tauto.
    + intros c. unfold with_hours, with_clock.
      rewrite !has_column_setitem. fold dff. unfold dff.
      rewrite has_column_calendar. rewrite existsb_app.
      cbn [existsb].
      destruct (String.eqb c "Time") eqn:Ec.
      * apply String.eqb_eq in Ec. subst c. rewrite Htm.
        rewrite !orb_true_r. reflexivity.
      * destruct (String.eqb c "Hour"),
          (existsb (String.eqb c) calendar_names), (has_column df c);
          reflexivity.
  - unfold clock_steps in Hclock. rewrite Htime in Hclock.
    apply Ok_inj in Hclock. subst loaded. split.
    + revert Rows. apply Forall2_impl.
      intros ir ir1 [L1 [D1 [M1 [W1 O1]]]]. unfold loaded_row. cbv zeta.
      split; [exact L1|]. split; [exact D1|]. split; [exact M1|].
      split; [exact W1|]. split; [intros Hf; congruence|]. split.
      * intros _. apply O1. unfold calendar_names. simpl. intros H.
        repeat (destruct H as [H|H]; [discriminate H|]). exact H.
      * intros c Hc'. apply O1. intros Hin. apply Hc'.
        apply in_or_app. left. exact Hin.
    + intros c. unfold dff. rewrite has_column_calendar.
      rewrite app_nil_r. reflexivity.
Qed.


(** X9. When the retail [load_data] succeeds, the loaded table has the
    rows of the file, in order and under the same labels; in each row the
    date is the timestamp read from the file's cell by the format of the
    column, which is the one guessed from the first date of the file (so
    3/4/2019 is the fourth of March after 1/5/2019 and the third of April
    after 13/1/2019), [Month_Name] and [DayOfWeek] are the names of its
    month and day, the time is the clock time read from the file's cell,
    and every column that [load_data] does not assign holds the file's
    cell.  The columns of the loaded table are those of the file and the
    calendar columns, with [Hour] when the file has a [Time] column. *)
Theorem load_data_keeps_rows {L : Library} (df loaded : DataFrame) :
  Retail.load_data df = Some loaded ->
  Forall2 (loaded_row df loaded) (records df) (records loaded)
  /\ forall c,
       has_column loaded c
       = existsb (String.eqb c)
           (calendar_names
            ++ (if has_column df "Time" then ["Hour"] else []))
         || has_column df c.
Proof. apply load_data_rows. Qed.

Lemma load_data_keeps_rows_witness :
  Retail.load_data (L := Reference.library) Samples.sales
  = Some Samples.sales_loaded
  /\ Forall2 (loaded_row (L := Reference.library) Samples.sales
                         Samples.sales_loaded)
             (records Samples.sales) (records Samples.sales_loaded)
  /\ has_column Samples.sales_loaded "Hour" = true
  /\ map (fun ir => cell_at Samples.sales_loaded "Date" (snd ir))
         (records Samples.sales_loaded)
     = [Some (VTs (mkTs 2019 1 5 0 0 0)); Some (VTs (mkTs 2019 3 8 0 0 0));
        Some (VTs (mkTs 2019 3 3 0 0 0))]
  /\ exists loaded,
       Retail.load_data (L := Reference.library) Samples.sales_day_first
       = Some loaded
       /\ Forall2 (loaded_row (L := Reference.library)
                      Samples.sales_day_first loaded)
                  (records Samples.sales_day_first) (records loaded)
       /\ map (fun ir => cell_at loaded "Date" (snd ir)) (records loaded)
          = [Some (VTs (mkTs 2019 1 13 0 0 0));
             Some (VTs (mkTs 2019 4 3 0 0 0))].
Proof.
  assert (H : Retail.load_data (L := Reference.library) Samples.sales
              = Some Samples.sales_loaded) by (vm_compute; reflexivity).
  split; [exact H|].
  destruct (load_data_keeps_rows (L := Reference.library) Samples.sales
              Samples.sales_loaded H) as [Rows Cols].
  split; [exact Rows|]. split; [vm_compute; reflexivity|].
  split; [vm_compute; reflexivity|].
  pose (loaded := match Retail.load_data (L := Reference.library)
                          Samples.sales_day_first with
                  | Some loaded => loaded
                  | None => Samples.sales_day_first
                  end).
  assert (H' : Retail.load_data (L := Reference.library)
                 Samples.sales_day_first = Some loaded)
    by (vm_compute; reflexivity).
  exists loaded. split; [exact H'|].
  destruct (load_data_keeps_rows (L := Reference.library)
              Samples.sales_day_first loaded H') as [Rows' _].
  split; [exact Rows' | vm_compute; reflexivity].
Defined.

(** ** Reindexing by the days of the week *)

Lemma value_eqb_string (k : value) (x : string) :
  value_eqb k (VStr x) = true -> k = VStr x.
Proof.
  destruct k as [y|z|q|t|h m]; simpl; try discriminate.
  intros H. apply String.eqb_eq in H. subst. reflexivity.
Qed.

Lemma lookup_map (F : value -> cell) (k : value) (keys : list value) :
  lookup k (map (fun key => (key, F key)) keys)
  = match find (fun key => value_eqb key k) keys with
    | Some key => F key
    | None => None
    end.
Proof.
  unfold lookup. induction keys as [|a keys IH]; simpl; [reflexivity|].
  destruct (value_eqb a k); [reflexivity | exact IH].
Qed.

Lemma find_day (df : DataFrame) (k : nat) (day : string) :
  index_of "DayOfWeek" (columns df) = Some k ->
  find (fun key => value_eqb key (VStr day))
       (group_keys (column_of k (records df)))
  = if sold_on df day then Some (VStr day) else None.
Proof.
  intros Hk.
  destruct (find _ (group_keys (column_of k (records df)))) as [key|] eqn:Hf.
  - apply find_some in Hf. destruct Hf as [Hin He].
    apply value_eqb_string in He. subst key.
    apply group_keys_sound in Hin.
    apply (column_values_In df "DayOfWeek" k _ Hk) in Hin.
    destruct Hin as [ir [Hir E]].
    assert (Hs : sold_on df day = true).
    { unfold sold_on. apply existsb_exists. exists ir.
      split; [exact Hir|]. rewrite E. apply cell_eqb_refl. }
    rewrite Hs. reflexivity.
  - destruct (sold_on df day) eqn:Hs; [|reflexivity].
    unfold sold_on in Hs. apply existsb_exists in Hs.
    destruct Hs as [ir [Hir E]]. apply cell_eqb_string in E.
    assert (Hv : In (Some (VStr day)) (values (column_of k (records df))))
      by (apply (column_values_In df "DayOfWeek" k _ Hk); exists ir; auto).
    apply group_keys_complete in Hv. destruct Hv as [key [Hin He]].
    rewrite value_eqb_sym in He.
    rewrite (find_none _ _ Hf key Hin) in He. discriminate He.
Qed.

Lemma weekday_range (t : timestamp) : (0 <= weekday t < 7)%Z.
Proof. unfold weekday. apply Z.mod_pos_bound. lia. Qed.

Lemma day_name_of_timestamp (t : timestamp) :
  exists day, In day day_names
              /\ day_name_of (Some (VTs t)) = Some (VStr day).
Proof.
  unfold day_name_of, name_cell. simpl.
  pose proof (weekday_range t) as [Hlo Hhi].
  assert (Hn : (Z.to_nat (weekday t) < 7)%nat) by lia.
  assert (Hpos : (0 <=? weekday t)%Z = true) by (apply Z.leb_le; exact Hlo).
  rewrite Hpos.
  destruct (Z.to_nat (weekday t)) as [|[|[|[|[|[|[|n]]]]]]]; simpl;
    try (eexists; split; [|reflexivity]; simpl; tauto).
  lia.
Qed.

(** X10. "Sales by Day of Week" always has seven bars, Monday to Sunday
    in this order, whatever days occur in the table: the bar of a day on
    which some row falls is the sum of the totals of the rows of that day,
    and the bar of a day without rows is a missing value, not 0.  In a
    table that comes from [load_data] and the sidebar filters, the day of
    every row that has a date is one of the seven, so the reindexing
    leaves no group out. *)
Theorem dow_data_seven_days {L : Library}
  (df : DataFrame) (bars : Series cell) :
  RetailViews.dow_data df = Ok bars ->
  bars
  = map (fun day =>
           (VStr day,
            if sold_on df day
            then over_present Rsum
                   (present_numbers (group_of df "DayOfWeek" (VStr day))
                                    "Total")
            else None))
        day_names
  /\ forall file loaded ui ir,
       Retail.load_data file = Some loaded ->
       Retail.main_filters loaded ui = Ok df ->
       In ir (records df) ->
       cell_at df "Date" (snd ir) <> None ->
       exists day, In day day_names
                   /\ cell_at df "DayOfWeek" (snd ir) = Some (VStr day).
Proof.
  unfold RetailViews.dow_data. intros H.
  apply bind_Ok in H. destruct H as [revenue [Hrev H]].
  apply Ok_inj in H. subst bars.
  apply groupby_reduce_Ok in Hrev; [|reflexivity].
  destruct Hrev as [k [Hk [_ ->]]]. split.
  - change [VStr "Monday"; VStr "Tuesday"; VStr "Wednesday";
            VStr "Thursday"; VStr "Friday"; VStr "Saturday"; VStr "Sunday"]
      with (map VStr day_names).
    unfold reindex. rewrite map_map. apply map_ext. intros day.
    rewrite lookup_map, (find_day df k day Hk).
    destruct (sold_on df day); reflexivity.
  - intros file loaded ui ir Hload Hshown Hin Hdate.
    destruct (main_filters_rows _ _ _ Hshown) as [Hcols Hrows].
    rewrite !(cell_at_same_columns loaded df) in * by exact Hcols.
    destruct (load_data_rows _ _ Hload) as [Rows _].
    destruct (Forall2_In_r _ _ _ _ Rows (Hrows ir Hin))
      as [ir0 [_ [_ [D [_ [W _]]]]]].
    cbv zeta in D, W. rewrite W.
    destruct (cell_at loaded "Date" (snd ir)) as [[x|z|q|t|h m]|] eqn:E;
      try contradiction;
      try (pose proof (datetime_cast_timestamp
                         (column_format file "Date")
                         (cell_at file "Date" (snd ir0))) as Hts;
           rewrite <- D in Hts; discriminate Hts).
    apply day_name_of_timestamp.
Qed.

Lemma dow_data_seven_days_witness :
  exists bars,
    RetailViews.dow_data (L := Reference.library) Samples.sales_loaded
    = Ok bars
    /\ map fst bars = map VStr day_names
    /\ lookup (VStr "Monday") bars = None
    /\ number_of (lookup (VStr "Saturday") bars) == 10.
Proof.
  pose (bars := match RetailViews.dow_data (L := Reference.library)
                        Samples.sales_loaded with
                | Ok b => b
                | Raise _ => []
                end).
  assert (Hb : RetailViews.dow_data (L := Reference.library)
                 Samples.sales_loaded = Ok bars)
    by (vm_compute; reflexivity).
  exists bars. split; [exact Hb|].
  destruct (dow_data_seven_days (L := Reference.library)
              Samples.sales_loaded bars Hb) as [E _].
  split; [rewrite E; rewrite map_map; reflexivity|].
  split; vm_compute; reflexivity.
Defined.

(** ** Filters select rows in order *)

Lemma subsequence_refl {A : Type} (l : list A) : subsequence l l.
Proof. induction l; constructor; assumption. Qed.

Lemma subsequence_trans {A : Type} (l1 l2 l3 : list A) :
  subsequence l1 l2 -> subsequence l2 l3 -> subsequence l1 l3.
Proof.
  intros H12 H23. revert l1 H12.
  induction H23 as [l|a l2 l3 H IH|a l2 l3 H IH]; intros l1 H12.
  - inversion H12. constructor.
  - inversion H12; subst.
    + constructor.
    + constructor. apply IH. assumption.
    + apply subsequence_skip. apply IH. assumption.
  - apply subsequence_skip. apply IH. exact H12.
Qed.

Lemma subsequence_filter {A : Type} (p : A -> bool) (l : list A) :
  subsequence (filter p l) l.
Proof.
  induction l as [|a l IH]; simpl; [constructor|].
  destruct (p a); constructor; exact IH.
Qed.

Lemma subsequence_select_rows (rs : list (label * Row)) (mask : Series bool) :
  subsequence (select_rows rs mask) rs.
Proof.
  revert mask. induction rs as [|r rs IH]; intros mask; simpl;
    [constructor|].
  destruct mask as [|[i b] mask]; [constructor|].
  destruct b; constructor; apply IH.
Qed.

Lemma subsequence_length {A : Type} (l l' : list A) :
  subsequence l l' -> (List.length l <= List.length l')%nat.
Proof. induction 1; simpl; lia. Qed.

Lemma subsequence_In {A : Type} (l l' : list A) (a : A) :
  subsequence l l' -> In a l -> In a l'.
Proof.
  induction 1 as [l|b l l' H IH|b l l' H IH]; simpl; [tauto | |].
  - intros [E|Hin]; [left; exact E | right; apply IH; exact Hin].
  - intros Hin. right. apply IH. exact Hin.
Qed.

Lemma subsequence_NoDup {A : Type} (l l' : list A) :
  subsequence l l' -> NoDup l' -> NoDup l.
Proof.
  induction 1 as [l|a l l' H IH|a l l' H IH]; intros Hnd.
  - constructor.
  - inversion Hnd as [|x m Hx Hm]; subst. constructor; [|apply IH; exact Hm].
    intros Hin. apply Hx. apply (subsequence_In _ _ _ H Hin).
  - inversion Hnd; subst. apply IH. assumption.
Qed.

Lemma subsequence_map {A B : Type} (f : A -> B) (l l' : list A) :
  subsequence l l' -> subsequence (map f l) (map f l').
Proof. induction 1; simpl; constructor; assumption. Qed.

Lemma date_range_filter_subsequence (df out : DataFrame)
  (ui : Retail.sidebar_state) :
  Retail.date_range_filter df ui = Ok out ->
  subsequence (records out) (records df).
Proof.
  unfold Retail.date_range_filter. destruct (has_column df "Date").
  - intros H. apply bind_Ok in H. destruct H as [range [_ H]].
    destruct range as [|d0 [|d1 [|d2 w]]];
      try (apply Ok_inj in H; subst out; apply subsequence_refl).
    apply bind_Ok in H. destruct H as [d' [_ H]].
    apply bind_Ok in H. destruct H as [d'' [_ H]].
    apply Ok_inj in H. subst out. apply subsequence_select_rows.
  - intros H. apply Ok_inj in H. subst out. apply subsequence_refl.
Qed.

Lemma multiselect_filter_subsequence (c : string)
  (choice : option (list cell)) (df out : DataFrame) :
  Retail.multiselect_filter c choice df = Ok out ->
  subsequence (records out) (records df).
Proof.
  unfold Retail.multiselect_filter. destruct (has_column df c).
  - intros H. apply bind_Ok in H. destruct H as [options [_ H]].
    apply bind_Ok in H. destruct H as [selected [_ H]].
    apply bind_Ok in H. destruct H as [s [_ H]].
    apply Ok_inj in H. subst out. apply subsequence_select_rows.
  - intros H. apply Ok_inj in H. subst out. apply subsequence_refl.
Qed.

Lemma filter_idempotent {A : Type} (p : A -> bool) (l : list A) :
  filter p (filter p l) = filter p l.
Proof.
  induction l as [|a l IH]; simpl; [reflexivity|].
  destruct (p a) eqn:E; simpl; [rewrite E, IH; reflexivity | exact IH].
Qed.

Lemma as_numeric_numbers (s : Series cell) (t : Series (option Q)) :
  as_numeric s = Ok t ->
  forall ic, In ic s -> snd ic <> None -> cell_num (snd ic) <> None.
Proof.
  revert t. induction s as [|[i c] s IH]; intros t H ic Hin;
    [contradiction|].
  simpl in H. destruct c as [v|].
  - destruct (value_num v) as [q|] eqn:Hv; [|discriminate H].
    destruct (as_numeric s) as [t'|] eqn:Hs; [|discriminate H].
    destruct Hin as [<-|Hin]; [|apply (IH t' eq_refl ic Hin)].
    simpl. rewrite Hv. discriminate.
  - destruct (as_numeric s) as [t'|] eqn:Hs; [|discriminate H].
    destruct Hin as [<-|Hin]; [|apply (IH t' eq_refl ic Hin)].
    simpl. intros Hc. contradiction.
Qed.

(** Filtering the filtered table again with the same selections changes
    nothing. *)
Lemma titanic_refilter (df : DataFrame) (gender class : list cell)
  (lo hi : Z) (out : DataFrame) :
  Titanic.apply_filters df gender class lo hi = Ok out ->
  Titanic.apply_filters out gender class lo hi = Ok out.
Proof.
  intros H. pose proof H as H0. unfold Titanic.apply_filters in H0.
  apply bind_Ok in H0. destruct H0 as [sex [Hsex H0]].
  apply bind_Ok in H0. destruct H0 as [pclass [Hpclass H0]].
  apply bind_Ok in H0. destruct H0 as [age [Hage H0]].
  apply bind_Ok in H0. destruct H0 as [num [Hnum _]].
  apply getitem_Ok in Hsex, Hpclass, Hage.
  destruct Hsex as [ks [Hs _]], Hpclass as [kp [Hp _]],
    Hage as [ka [Ha ->]].
  apply titanic_filter_Ok in H.
  assert (Hcols : columns out = columns df) by (subst out; reflexivity).
  rewrite <- Hcols in Hs, Hp, Ha.
  rewrite (titanic_filter_rows out gender class lo hi ks kp ka Hs Hp Ha).
  - rewrite H at 3. f_equal. rewrite Hcols. f_equal.
    rewrite H. simpl.
    erewrite filter_ext; [apply filter_idempotent|].
    intros ir. unfold titanic_keeps, cell_at. reflexivity.
  - intros ir Hin Hc. rewrite H in Hin. simpl in Hin.
    apply filter_In in Hin. destruct Hin as [Hin _].
    unfold cell_at in *. rewrite Ha in *.
    apply (as_numeric_numbers _ _ Hnum (fst ir, field ka (snd ir)));
      [|exact Hc].
    unfold column_of. apply in_map_iff. exists ir. split; [reflexivity|].
    exact Hin.
Qed.

(** X11. The sidebar filters of the three dashboards only select: the
    rows they return are rows of the table, in the order of the table,
    each at most once, under the same columns; so a filter never returns
    more rows than it was given.  Applying the Titanic filter again to
    its own result, with the same selections, returns that result. *)
Theorem filters_select_in_order
  (titanic netflix retail t_out n_out r_out : DataFrame)
  (gender class types ratings : list cell) (lo hi ylo yhi : Z)
  (ur : Retail.sidebar_state) :
  Titanic.apply_filters titanic gender class lo hi = Ok t_out ->
  Netflix.apply_filters netflix types ylo yhi ratings = Ok n_out ->
  Retail.main_filters retail ur = Ok r_out ->
  (subsequence (records t_out) (records titanic)
   /\ columns t_out = columns titanic
   /\ (len t_out <= len titanic)%nat
   /\ Titanic.apply_filters t_out gender class lo hi = Ok t_out)
  /\ (subsequence (records n_out) (records netflix)
      /\ columns n_out = columns netflix
      /\ (len n_out <= len netflix)%nat)
  /\ (subsequence (records r_out) (records retail)
      /\ columns r_out = columns retail
      /\ (len r_out <= len retail)%nat).
Proof.
  intros Ht Hn Hr.
  assert (St : subsequence (records t_out) (records titanic)).
  { apply titanic_filter_Ok in Ht. subst t_out. apply subsequence_filter. }
  assert (Sn : subsequence (records n_out) (records netflix)).
  { apply netflix_filter_Ok in Hn. subst n_out. apply subsequence_filter. }
  assert (Sr : subsequence (records r_out) (records retail)).
  { unfold Retail.main_filters, Retail.product_line_filter,
      Retail.branch_filter in Hr.
    apply bind_Ok in Hr. destruct Hr as [df1 [H1 Hr]].
    apply bind_Ok in Hr. destruct Hr as [df2 [H2 H3]].
    apply date_range_filter_subsequence in H1.
    apply multiselect_filter_subsequence in H2, H3.
    apply (subsequence_trans _ _ _ H3).
    apply (subsequence_trans _ _ _ H2). exact H1. }
  split; [|split].
  - split; [exact St|]. split.
    + apply titanic_filter_Ok in Ht. subst t_out. reflexivity.
    + split; [apply subsequence_length; exact St|].
      apply (titanic_refilter titanic). exact Ht.
  - split; [exact Sn|]. split.
    + apply netflix_filter_Ok in Hn. subst n_out. reflexivity.
    + apply subsequence_length. exact Sn.
  - split; [exact Sr|]. split.
    + apply (main_filters_rows _ _ _ Hr).
    + apply subsequence_length. exact Sr.
Qed.

Lemma filters_select_in_order_witness :
  exists t_out n_out r_out,
    Titanic.apply_filters Samples.titanic [str "male"] [int 2; int 3] 0 80
    = Ok t_out
    /\ Netflix.apply_filters Samples.netflix [str "Movie"] 2000 2021
         [str "PG-13"] = Ok n_out
    /\ Retail.main_filters Samples.sales_loaded Samples.retail_health_only
       = Ok r_out
    /\ map fst (records t_out) = [VInt 0; VInt 3]
    /\ map fst (records n_out) = [VInt 0; VInt 3]
    /\ map fst (records r_out) = [VInt 0]
    /\ subsequence (records t_out) (records Samples.titanic)
    /\ subsequence (records n_out) (records Samples.netflix)
    /\ subsequence (records r_out) (records Samples.sales_loaded).
Proof.
  pose (t_out :=
          match Titanic.apply_filters Samples.titanic [str "male"]
                  [int 2; int 3] 0 80 with
          | Ok d => d
          | Raise _ => Samples.titanic
          end).
  pose (n_out :=
          match Netflix.apply_filters Samples.netflix [str "Movie"] 2000 2021
                  [str "PG-13"] with
          | Ok d => d
          | Raise _ => Samples.netflix
          end).
  pose (r_out :=
          match Retail.main_filters Samples.sales_loaded
                  Samples.retail_health_only with
          | Ok d => d
          | Raise _ => Samples.sales_loaded
          end).
  assert (Ht : Titanic.apply_filters Samples.titanic [str "male"]
                 [int 2; int 3] 0 80 = Ok t_out)
    by (vm_compute; reflexivity).
  assert (Hn : Netflix.apply_filters Samples.netflix [str "Movie"] 2000 2021
                 [str "PG-13"] = Ok n_out)
    by (vm_compute; reflexivity).
  assert (Hr : Retail.main_filters Samples.sales_loaded
                 Samples.retail_health_only = Ok r_out)
    by (vm_compute; reflexivity).
  exists t_out, n_out, r_out.
  split; [exact Ht|]. split; [exact Hn|]. split; [exact Hr|].
  split; [vm_compute; reflexivity|].
  split; [vm_compute; reflexivity|].
  split; [vm_compute; reflexivity|].
  destruct (filters_select_in_order _ _ _ _ _ _ _ _ _ _ _ _ _ _ _
              Ht Hn Hr) as [[St _] [[Sn _] [Sr _]]].
  split; [exact St|]. split; [exact Sn | exact Sr].
Defined.

(** ** The retail sidebar as one predicate *)

Lemma filter_filter {A : Type} (p q : A -> bool) (l : list A) :
  filter p (filter q l) = filter (fun a => q a && p a) l.
Proof.
  induction l as [|a l IH]; simpl; [reflexivity|].
  destruct (q a); simpl; [destruct (p a); rewrite IH; reflexivity | exact IH].
Qed.

Lemma no_gap_among_numbers_rows (df df' : DataFrame) (c : string) :
  columns df' = columns df ->
  (forall ir, In ir (records df') -> In ir (records df)) ->
  no_gap_among_numbers df c ->
  no_gap_among_numbers df' c.
Proof.
  intros Hcols Hsub [H|H]; [left | right]; intros ir Hin;
    rewrite (cell_at_same_columns df df' c _ Hcols);
    apply (H ir (Hsub ir Hin)).
Qed.

Lemma multiselect_filter_allowed {L : Library} (df : DataFrame) (c : string)
  (choice : option (list cell)) :
  has_column df c = true ->
  no_gap_among_numbers df c ->
  Retail.multiselect_filter c choice df
  = Ok (mkDF (columns df)
          (filter (fun ir => allowed choice (cell_at df c (snd ir)))
                  (records df))).
Proof.
  intros Hc Hgap. apply has_column_index in Hc. destruct Hc as [k Hk].
  rewrite (multiselect_filter_rows _ _ _ _ Hk
             (numbers_with_gap_column _ _ _ Hk Hgap)). do 2 f_equal.
  apply filter_ext_in. intros ir Hin.
  rewrite (cell_at_index _ _ _ _ Hk). destruct choice as [chosen|]; simpl;
    [reflexivity|].
  apply member_unique_column. exact Hin.
Qed.

(** A multiselect over numbers with a gap cannot be built: the sales of
    the sample with branches numbered 1 and 2, one of them without a
    branch, stop the page. *)
Lemma multiselect_refuses_numbers_with_gap :
  let numbered :=
    frame ["Invoice ID"; "Branch"]
      [[str "750-67-8428"; float 1]; [str "226-31-3081"; nan];
       [str "631-41-3108"; float 2]] in
  Retail.branch_filter numbered Samples.retail_untouched
  = Raise StreamlitAPIException
  /\ Retail.main_filters numbered Samples.retail_untouched
     = Raise StreamlitAPIException
  /\ Retail.branch_filter Samples.retail Samples.retail_untouched
     = Ok Samples.retail.
Proof. repeat split; reflexivity. Qed.

(** X12. With its three columns present and a complete date range, and
    with product lines and branches that are not numbers with a gap (over
    such a column the multiselect cannot be built), the retail sidebar is
    one conjunction: the table it passes on holds, in order, the rows
    whose date lies in the range and whose product line and branch are
    among the selected ones, where a multiselect that was not touched lets
    every row through. *)
Theorem main_filters_conjunction {L : Library}
  (df : DataFrame) (ui : Retail.sidebar_state) (d0 d1 : date) :
  has_column df "Date" = true ->
  has_column df "Product line" = true ->
  has_column df "Branch" = true ->
  no_gap_among_numbers df "Product line" ->
  no_gap_among_numbers df "Branch" ->
  Retail.date_input df ui = Ok [d0; d1] ->
  Retail.main_filters df ui
  = Ok (mkDF (columns df)
          (filter (fun ir => retail_keeps df d0 d1 ui (snd ir))
                  (records df))).
Proof.
  intros Hd Hp Hb Gp Gb Hin. unfold Retail.main_filters.
  rewrite (date_range_filter_applied df ui d0 d1 Hd Hin). cbn [bind].
  unfold Retail.product_line_filter, Retail.branch_filter.
  rewrite multiselect_filter_allowed;
    [|exact Hp
     |apply (no_gap_among_numbers_rows df);
      [reflexivity
      |intros ir Hir; apply filter_In in Hir; apply Hir | exact Gp]].
  cbn [bind].
  rewrite multiselect_filter_allowed;
    [|exact Hb
     |apply (no_gap_among_numbers_rows df);
      [reflexivity
      |intros ir Hir; cbn [records] in Hir;
       apply filter_In in Hir; destruct Hir as [Hir _];
       apply filter_In in Hir; apply Hir
      |exact Gb]].
  cbn [columns records]. rewrite !filter_filter. do 2 f_equal.
  apply filter_ext. intros ir. unfold retail_keeps, cell_at.
  cbn [columns]. rewrite andb_assoc. reflexivity.
Qed.

Lemma main_filters_conjunction_witness :
  Retail.main_filters Samples.sales_loaded Samples.retail_health_only
  = Ok (mkDF (columns Samples.sales_loaded)
          (filter (fun ir =>
                     retail_keeps Samples.sales_loaded (2019, 1, 5)%Z
                                  (2019, 3, 8)%Z Samples.retail_health_only
                                  (snd ir))
                  (records Samples.sales_loaded))).
Proof.
  apply (main_filters_conjunction (L := Reference.library));
    try (vm_compute; reflexivity); right; each_row.
Defined.

(** ** The bounds of the sliders *)

Lemma truncate_le (q : Q) (a : Z) :
  (0 <= a)%Z -> ((truncate q <= a)%Z <-> q < inject_Z (a + 1)).
Proof.
  intros Ha. unfold truncate, Qlt. destruct q as [n d]. simpl.
  assert (Hd : (0 < Z.pos d)%Z) by lia.
  destruct (Z_lt_le_dec n 0) as [Hn|Hn].
  - split; [intros _; nia|]. intros _.
    apply (Z.le_trans _ 0); [|exact Ha].
    apply Z.quot_le_upper_bound; lia.
  - split.
    + intros H. pose proof (Z.mul_succ_quot_gt n (Z.pos d) Hn Hd). nia.
    + intros H. apply Z.lt_succ_r. apply Z.quot_lt_upper_bound; lia.
Qed.

Lemma truncate_ge (q : Q) (b : Z) :
  (0 < b)%Z -> ((b <= truncate q)%Z <-> inject_Z b <= q).
Proof.
  intros Hb. unfold truncate, Qle. destruct q as [n d]. simpl.
  assert (Hd : (0 < Z.pos d)%Z) by lia.
  split.
  - intros H. destruct (Z_lt_le_dec n 0) as [Hn|Hn].
    + assert (Hq : (n ÷ Z.pos d <= 0)%Z)
        by (apply Z.quot_le_upper_bound; lia).
      lia.
    + assert (Hne : Z.pos d <> 0%Z) by lia.
      pose proof (Z.mul_quot_le n (Z.pos d) Hn Hne). nia.
  - intros H. apply Z.quot_le_lower_bound; lia.
Qed.

Lemma min_of_nonempty (l : list Q) : l <> [] -> exists m, min_of l = Some m.
Proof.
  destruct l as [|q l]; [congruence|]. intros _. simpl.
  destruct (min_of l); eexists; reflexivity.
Qed.

Lemma max_of_nonempty (l : list Q) : l <> [] -> exists m, max_of l = Some m.
Proof.
  destruct l as [|q l]; [congruence|]. intros _. simpl.
  destruct (max_of l); eexists; reflexivity.
Qed.

Lemma present_numbers_In (df : DataFrame) (c : string) (v : Q) :
  has_column df c = true ->
  (In v (present_numbers df c)
   <-> exists ir, In ir (records df)
                  /\ cell_num (cell_at df c (snd ir)) = Some v).
Proof.
  intros Hc. apply has_column_index in Hc. destruct Hc as [k Hk].
  unfold present_numbers. rewrite present_In.
  unfold column_values. rewrite (getitem_column _ _ _ Hk).
  unfold values, column_of. rewrite !map_map. cbn [snd].
  rewrite in_map_iff. split; intros [ir H]; exists ir;
    rewrite (cell_at_index _ _ _ _ Hk) in *; tauto.
Qed.

Lemma int_bounds_Ok (df : DataFrame) (c : string) (lo hi : Z) :
  int_bounds df c = Ok (lo, hi) ->
  has_column df c = true
  /\ numeric_column df c
  /\ exists mn mx,
       min_of (present_numbers df c) = Some mn
       /\ max_of (present_numbers df c) = Some mx
       /\ lo = truncate mn /\ hi = truncate mx.
Proof.
  unfold int_bounds. intros H.
  apply bind_Ok in H. destruct H as [s [Hs H]].
  apply bind_Ok in H. destruct H as [num [Hnum H]].
  assert (Hv : values num = column_values df c).
  { apply numeric_series. rewrite Hs. exact Hnum. }
  rewrite nanmin_present, nanmax_present, Hv in H.
  fold (present_numbers df c) in H.
  pose proof (as_numeric_numbers _ _ Hnum) as Hall.
  apply getitem_Ok in Hs. destruct Hs as [k [Hk ->]].
  split; [apply has_column_index; exists k; exact Hk|]. split.
  - intros ir Hin Hc. rewrite (cell_at_index _ _ _ _ Hk) in *.
    apply (Hall (fst ir, field k (snd ir))); [|exact Hc].
    unfold column_of. apply in_map_iff. exists ir. auto.
  - destruct (min_of (present_numbers df c)) as [mn|]; [|discriminate H].
    destruct (max_of (present_numbers df c)) as [mx|]; [|discriminate H].
    exists mn, mx. injection H as <- <-. auto.
Qed.

Lemma int_bounds_run (df : DataFrame) (c : string) (mn mx : Q) :
  has_column df c = true ->
  numeric_column df c ->
  min_of (present_numbers df c) = Some mn ->
  max_of (present_numbers df c) = Some mx ->
  int_bounds df c = Ok (truncate mn, truncate mx).
Proof.
  intros Hc Hnum Hmin Hmax. unfold int_bounds.
  apply has_column_index in Hc. destruct Hc as [k Hk].
  rewrite (getitem_column _ _ _ Hk). cbn [bind].
  rewrite (as_numeric_column _ _ _ Hk Hnum). cbn [bind].
  rewrite nanmin_present, nanmax_present.
  assert (Hv : values (smap cell_num (column_of k (records df)))
               = column_values df c).
  { apply numeric_series. rewrite (getitem_column _ _ _ Hk). cbn [bind].
    apply (as_numeric_column _ _ _ Hk Hnum). }
  rewrite Hv. fold (present_numbers df c). rewrite Hmin, Hmax. reflexivity.
Qed.

Lemma truncate_safe (q : Q) :
  - inject_Z max_safe_integer <= q <= inject_Z max_safe_integer ->
  js_safe (truncate q) = true.
Proof.
  assert (HM : (0 <= max_safe_integer)%Z) by (vm_compute; discriminate).
  unfold js_safe. generalize dependent max_safe_integer. intros M HM.
  unfold truncate, Qle, Qopp, inject_Z. destruct q as [n d].
  cbn [Qnum Qden]. rewrite !Z.mul_1_r. intros [Hlo Hhi].
  assert (Hd : (0 < Z.pos d)%Z) by lia.
  apply andb_true_iff. rewrite !Z.leb_le.
  destruct (Z_lt_le_dec n 0) as [Hn|Hn].
  - assert (Hq : (n ÷ Z.pos d <= 0)%Z)
      by (apply Z.quot_le_upper_bound; lia).
    split; [|lia].
    rewrite <- (Z.opp_involutive n), Z.quot_opp_l by lia.
    assert (H : ((- n) ÷ Z.pos d <= M)%Z)
      by (apply Z.quot_le_upper_bound; lia).
    lia.
  - assert (Hq : (0 <= n ÷ Z.pos d)%Z) by (apply Z.quot_pos; lia).
    split; [lia|]. apply Z.quot_le_upper_bound; lia.
Qed.

Lemma js_safe_min (x y : Z) :
  js_safe x = true -> js_safe y = true -> js_safe (Z.min x y) = true.
Proof.
  unfold js_safe. rewrite !andb_true_iff, !Z.leb_le. lia.
Qed.

Lemma js_safe_max (x y : Z) :
  js_safe x = true -> js_safe y = true -> js_safe (Z.max x y) = true.
Proof.
  unfold js_safe. rewrite !andb_true_iff, !Z.leb_le. lia.
Qed.

Lemma int_bounds_absent (df : DataFrame) (c : string) :
  has_column df c = false -> int_bounds df c = Raise (KeyError c).
Proof.
  intros H. unfold int_bounds.
  rewrite (getitem_absent df c); [reflexivity|].
  apply has_column_false. exact H.
Qed.

Lemma as_numeric_missing (s : Series cell) :
  (forall ic, In ic s -> snd ic = None) ->
  as_numeric s = Ok (smap (fun _ => None) s).
Proof.
  induction s as [|[i c] s IH]; intros H; [reflexivity|].
  assert (Hc : c = None) by (apply (H (i, c)); left; reflexivity).
  subst c. simpl. rewrite IH by (intros ic Hic; apply H; right; exact Hic).
  reflexivity.
Qed.

Lemma nanmin_missing {A : Type} (s : Series A) :
  nanmin (values (smap (fun _ => @None Q) s)) = None.
Proof. induction s as [|[i a] s IH]; [reflexivity|]. simpl. exact IH. Qed.

(** A range slider over a numeric column: the column must be there and
    hold a number; the slider then returns the user's range, or the
    default, wherever the numbers of the column lie. *)
Lemma slider_span (df : DataFrame) (c : string) (a b : Z)
  (choice : option (Z * Z)) :
  (a <= b)%Z -> js_safe a = true -> js_safe b = true ->
  let built := bounds <- int_bounds df c ;;
               slider (fst bounds) (snd bounds) (a, b) choice in
  (has_column df c = false -> built = Raise (KeyError c))
  /\ (has_column df c = true ->
      (forall ir, In ir (records df) ->
                  missing (cell_at df c (snd ir)) = true) ->
      built = Raise ValueError)
  /\ (has_column df c = true ->
      numeric_column df c ->
      (exists ir, In ir (records df)
                  /\ missing (cell_at df c (snd ir)) = false) ->
      (forall ir v, In ir (records df) ->
                    cell_num (cell_at df c (snd ir)) = Some v ->
                    - inject_Z max_safe_integer <= v
                                                <= inject_Z max_safe_integer) ->
      built = Ok (widget (a, b) choice)).
Proof.
  intros Hab Ha Hb built. unfold built. split; [|split].
  - intros Hc. rewrite (int_bounds_absent _ _ Hc). reflexivity.
  - intros Hc Hall. unfold int_bounds.
    apply has_column_index in Hc. destruct Hc as [k Hk].
    rewrite (getitem_column _ _ _ Hk). cbn [bind].
    rewrite as_numeric_missing.
    + cbn [bind]. rewrite nanmin_missing. reflexivity.
    + intros ic Hic. unfold column_of in Hic. apply in_map_iff in Hic.
      destruct Hic as [ir [<- Hir]]. cbn [snd].
      specialize (Hall ir Hir). rewrite (cell_at_index _ _ _ _ Hk) in Hall.
      destruct (field k (snd ir)); [discriminate Hall | reflexivity].
  - intros Hc Hnum [ir [Hir Hm]] Hsafe.
    assert (Hv : exists v, cell_num (cell_at df c (snd ir)) = Some v).
    { specialize (Hnum ir Hir).
      destruct (cell_at df c (snd ir)) as [w|]; [|discriminate Hm].
      destruct (cell_num (Some w)) as [v|] eqn:E; [exists v; reflexivity|].
      exfalso. apply Hnum; [discriminate | reflexivity]. }
    destruct Hv as [v Ev].
    assert (Hin : In v (present_numbers df c))
      by (apply (present_numbers_In df c v Hc); exists ir; auto).
    assert (Hne : present_numbers df c <> [])
      by (intros E; rewrite E in Hin; contradiction).
    destruct (min_of_nonempty _ Hne) as [mn Hmin].
    destruct (max_of_nonempty _ Hne) as [mx Hmax].
    rewrite (int_bounds_run df c mn mx Hc Hnum Hmin Hmax). cbn [bind fst snd].
    apply min_of_least in Hmin. destruct Hmin as [Hmn _].
    apply max_of_greatest in Hmax. destruct Hmax as [Hmx _].
    apply (present_numbers_In df c _ Hc) in Hmn, Hmx.
    destruct Hmn as [i1 [Hi1 E1]], Hmx as [i2 [Hi2 E2]].
    pose proof (truncate_safe mn (Hsafe i1 mn Hi1 E1)) as Slo.
    pose proof (truncate_safe mx (Hsafe i2 mx Hi2 E2)) as Shi.
    unfold slider. cbn [fst snd].
    assert (Eab : (b <? a)%Z = false) by (apply Z.ltb_ge; exact Hab).
    rewrite Eab. cbn [fst snd].
    rewrite js_safe_min, js_safe_max; try reflexivity;
      repeat first [apply js_safe_min | apply js_safe_max | assumption].
Qed.

(** X13. The age slider of the Titanic sidebar never refuses its default:
    the framework widens the bounds [int(min)] and [int(max)] until they
    hold 0 and 80, so the range is the user's choice or (0, 80) wherever
    the ages of the manifest lie, also when no passenger is younger than
    1 or as old as 80.  The page stops there only when the manifest has
    no [Age] column ([KeyError]) or not a single age ([int] of NaN raises
    [ValueError]). *)
Theorem age_slider_span (df : DataFrame) (ui : Titanic.sidebar_state) :
  (has_column df "Age" = false ->
   Titanic.age_range df ui = Raise (KeyError "Age"))
  /\ (has_column df "Age" = true ->
      (forall ir, In ir (records df) ->
                  missing (cell_at df "Age" (snd ir)) = true) ->
      Titanic.age_range df ui = Raise ValueError)
  /\ (has_column df "Age" = true ->
      numeric_column df "Age" ->
      (exists ir, In ir (records df)
                  /\ missing (cell_at df "Age" (snd ir)) = false) ->
      (forall ir age, In ir (records df) ->
                      cell_num (cell_at df "Age" (snd ir)) = Some age ->
                      - inject_Z max_safe_integer <= age
                                                  <= inject_Z max_safe_integer) ->
      Titanic.age_range df ui = Ok (widget (0, 80)%Z (Titanic.age_choice ui))).
Proof.
  apply (slider_span df "Age" 0 80 (Titanic.age_choice ui));
    [lia | reflexivity | reflexivity].
Qed.

(** The numbers of a sample column lie within the integers that the page
    represents. *)
Ltac safe_numbers :=
  let ir := fresh "ir" in
  let v := fresh "v" in
  let Hin := fresh "Hin" in
  let Hv := fresh "Hv" in
  intros ir v Hin Hv; simpl in Hin;
  repeat (destruct Hin as [<- | Hin]); try contradiction;
  cbv in Hv; try discriminate Hv; injection Hv as <-;
  split; apply Qle_bool_imp_le; vm_compute; reflexivity.

Lemma age_slider_span_witness :
  Titanic.age_range Samples.titanic_without_sex Samples.titanic_untouched
  = Ok (0, 80)%Z
  /\ present_numbers Samples.titanic_without_sex "Age" = [22; 38].
Proof.
  split; [|reflexivity].
  destruct (age_slider_span Samples.titanic_without_sex
              Samples.titanic_untouched) as [_ [_ H]].
  apply H.
  - reflexivity.
  - each_row.
  - eexists. split; [left; reflexivity | reflexivity].
  - safe_numbers.
Defined.

(** X14. The release-year slider of the Netflix sidebar behaves the same
    way: the range is the user's choice or (2000, 2021) wherever the
    release years of the catalog lie, and the page stops there only when
    the catalog has no [release_year] column or not a single release
    year. *)
Theorem year_slider_span (df : DataFrame) (ui : Netflix.sidebar_state) :
  (has_column df "release_year" = false ->
   Netflix.year_range df ui = Raise (KeyError "release_year"))
  /\ (has_column df "release_year" = true ->
      (forall ir, In ir (records df) ->
                  missing (cell_at df "release_year" (snd ir)) = true) ->
      Netflix.year_range df ui = Raise ValueError)
  /\ (has_column df "release_year" = true ->
      numeric_column df "release_year" ->
      (exists ir, In ir (records df)
                  /\ missing (cell_at df "release_year" (snd ir)) = false) ->
      (forall ir year,
          In ir (records df) ->
          cell_num (cell_at df "release_year" (snd ir)) = Some year ->
          - inject_Z max_safe_integer <= year <= inject_Z max_safe_integer) ->
      Netflix.year_range df ui
      = Ok (widget (2000, 2021)%Z (Netflix.year_choice ui))).
Proof.
  apply (slider_span df "release_year" 2000 2021 (Netflix.year_choice ui));
    [lia | reflexivity | reflexivity].
Qed.

Lemma year_slider_span_witness :
  Netflix.year_range (frame ["release_year"] [[int 2005]; [int 2015]])
    Samples.netflix_untouched
  = Ok (2000, 2021)%Z.
Proof.
  destruct (year_slider_span
              (frame ["release_year"] [[int 2005]; [int 2015]])
              Samples.netflix_untouched) as [_ [_ H]].
  apply H.
  - reflexivity.
  - each_row.
  - eexists. split; [left; reflexivity | reflexivity].
  - safe_numbers.
Defined.

(** ** The Titanic charts *)

Lemma dropna_subset_rows (df : DataFrame) (c : string) (out : DataFrame) :
  dropna_subset df c = Ok out ->
  out = mkDF (columns df)
          (filter (fun ir => negb (missing (cell_at df c (snd ir))))
                  (records df)).
Proof.
  unfold dropna_subset. intros H. apply bind_Ok in H.
  destruct H as [s [Hs H]]. apply Ok_inj in H. subst out.
  apply getitem_Ok in Hs. destruct Hs as [k [Hk ->]].
  rewrite isna_column. unfold loc_mask, row_mask, smap. rewrite map_map.
  cbn [fst snd].
  change (map (fun x : label * Row => (fst x, negb (missing (field k (snd x)))))
              (records df))
    with (row_mask (fun r => negb (missing (field k r))) (records df)).
  rewrite select_rows_row_mask. f_equal. apply filter_ext. intros ir.
  rewrite (cell_at_index _ _ _ _ Hk). reflexivity.
Qed.

(** X15. The age histogram is drawn from the filtered passengers whose
    age is known: they are, in the order of the manifest, the passengers
    of a selected sex and class whose age lies within the slider's range.
    The passengers of unknown age, which the filter lets through, are
    left out again. *)
Theorem age_histogram_within_range
  (df filtered plotted : DataFrame) (gender class : list cell) (lo hi : Z) :
  Titanic.apply_filters df gender class lo hi = Ok filtered ->
  TitanicViews.age_distribution filtered = Ok plotted ->
  plotted
  = mkDF (columns df)
      (filter (fun ir =>
                 member (cell_at df "Sex" (snd ir)) gender
                 && member (cell_at df "Pclass" (snd ir)) class
                 && within (cell_at df "Age" (snd ir)) lo hi)
              (records df)).
Proof.
  intros Hf Hp. apply titanic_filter_Ok in Hf. subst filtered.
  unfold TitanicViews.age_distribution in Hp.
  apply dropna_subset_rows in Hp. subst plotted. cbn [columns records].
  f_equal. rewrite filter_filter. apply filter_ext. intros ir.
  unfold titanic_keeps, cell_at. cbn [columns].
  destruct (index_of "Age" (columns df)) as [k|]; cbn.
  - destruct (field k (snd ir)) as [v|]; cbn.
    + rewrite orb_false_r, andb_true_r. reflexivity.
    + rewrite !andb_false_r. reflexivity.
  - rewrite !andb_false_r. reflexivity.
Qed.

Lemma age_histogram_within_range_witness :
  exists filtered plotted,
    Titanic.apply_filters Samples.titanic [str "male"] [int 2; int 3] 0 80
    = Ok filtered
    /\ TitanicViews.age_distribution filtered = Ok plotted
    /\ map fst (records filtered) = [VInt 0; VInt 3]
    /\ map fst (records plotted) = [VInt 0].
Proof.
  pose (filtered :=
          match Titanic.apply_filters Samples.titanic [str "male"]
                  [int 2; int 3] 0 80 with
          | Ok d => d
          | Raise _ => Samples.titanic
          end).
  assert (Hf : Titanic.apply_filters Samples.titanic [str "male"]
                 [int 2; int 3] 0 80 = Ok filtered)
    by (vm_compute; reflexivity).
  pose (plotted := match TitanicViews.age_distribution filtered with
                   | Ok d => d
                   | Raise _ => filtered
                   end).
  assert (Hp : TitanicViews.age_distribution filtered = Ok plotted)
    by (vm_compute; reflexivity).
  exists filtered, plotted. split; [exact Hf|]. split; [exact Hp|].
  split; [vm_compute; reflexivity|].
  rewrite (age_histogram_within_range _ _ _ _ _ _ _ Hf Hp).
  vm_compute. reflexivity.
Defined.

Lemma present_all {A : Type} (l : list (option A)) :
  (forall c, In c l -> c <> None) -> map Some (present l) = l.
Proof.
  induction l as [|c l IH]; intros H; [reflexivity|].
  destruct c as [v|].
  - simpl. f_equal. apply IH. intros c Hc. apply H. right. exact Hc.
  - exfalso. apply (H None); [left|]; reflexivity.
Qed.

Lemma unique_dropna_present (s : Series cell) :
  map Some (present (unique (dropna s))) = unique (dropna s).
Proof.
  apply present_all. intros c Hc. unfold unique in Hc.
  apply unique_cells_subset in Hc. unfold values, dropna in Hc.
  apply in_map_iff in Hc. destruct Hc as [ic [<- Hic]].
  apply filter_In in Hic. destruct Hic as [_ Hic].
  destruct ic as [i [v|]]; simpl in *; [discriminate | discriminate Hic].
Qed.

Lemma value_counts_length (s : Series cell) :
  List.length (value_counts s) = nunique s.
Proof.
  unfold value_counts, nunique. rewrite sort_by_length, length_map.
  rewrite <- (unique_dropna_present s) at 2. rewrite length_map.
  reflexivity.
Qed.

(** X16. The survival pie pairs the fixed names "Did Not Survive" and
    "Survived", in this order, with the counts of [value_counts], which
    come most frequent first.  So the chart can be drawn only when the
    filtered passengers show exactly two outcomes; with one outcome, or
    with no passenger left, the plotting call is refused.  And when it is
    drawn, "Did Not Survive" labels the count of the more frequent
    outcome, whichever it is. *)
Theorem survival_pie_labels (filtered : DataFrame) (survived : Series cell) :
  getitem filtered "Survived" = Ok survived ->
  (nunique survived <> 2%nat ->
   TitanicViews.survival_pie filtered = Raise ValueError)
  /\ (records filtered = [] ->
      TitanicViews.survival_pie filtered = Raise ValueError)
  /\ (nunique survived = 2%nat ->
      exists most least,
        value_counts survived = [most; least]
        /\ TitanicViews.survival_pie filtered
           = Ok [("Did Not Survive", snd most); ("Survived", snd least)]
        /\ (snd least <= snd most)%nat
        /\ snd most = occurrences (fst most) survived
        /\ snd least = occurrences (fst least) survived).
Proof.
  intros Hs. unfold TitanicViews.survival_pie, TitanicViews.survival_counts.
  rewrite Hs. cbn [bind].
  assert (Hraise : nunique survived <> 2%nat ->
                   px_pie (map snd (value_counts survived))
                          ["Did Not Survive"; "Survived"]
                   = Raise (A := list (string * nat)) ValueError).
  { intros Hn. unfold px_pie. rewrite length_map, value_counts_length.
    cbn [List.length].
    destruct (Nat.eqb 2 (nunique survived)) eqn:E; [|reflexivity].
    apply Nat.eqb_eq in E. congruence. }
  split; [exact Hraise|]. split.
  - intros Hempty. apply Hraise.
    apply getitem_Ok in Hs. destruct Hs as [k [_ ->]].
    rewrite Hempty. discriminate.
  - intros Hn. pose proof (value_counts_length survived) as Hlen.
    rewrite Hn in Hlen.
    destruct (value_counts survived) as [|most [|least [|x l]]] eqn:E;
      try discriminate Hlen.
    exists most, least. split; [reflexivity|]. split; [reflexivity|].
    pose proof (value_counts_sorted survived) as Hsorted.
    rewrite E in Hsorted. inversion Hsorted as [|a l Hl Ha]; subst.
    split; [apply (Forall_inv Ha)|].
    destruct (value_counts_entries survived) as [_ [He _]].
    rewrite E in He.
    destruct most as [v n], least as [w m]. cbn [fst snd]. split.
    + apply (He v n). left. reflexivity.
    + apply (He w m). right. left. reflexivity.
Qed.

Lemma survival_pie_labels_witness :
  exists filtered survived,
    Titanic.apply_filters Samples.titanic [str "male"; str "female"; nan]
      [int 1; int 3] 0 80 = Ok filtered
    /\ getitem filtered "Survived" = Ok survived
    /\ value_counts survived = [(VInt 1, 2%nat); (VInt 0, 1%nat)]
    /\ TitanicViews.survival_pie filtered
       = Ok [("Did Not Survive", 2%nat); ("Survived", 1%nat)].
Proof.
  pose (filtered :=
          match Titanic.apply_filters Samples.titanic
                  [str "male"; str "female"; nan] [int 1; int 3] 0 80 with
          | Ok d => d
          | Raise _ => Samples.titanic
          end).
  pose (survived := match getitem filtered "Survived" with
                    | Ok s => s
                    | Raise _ => []
                    end).
  assert (Hf : Titanic.apply_filters Samples.titanic
                 [str "male"; str "female"; nan] [int 1; int 3] 0 80
               = Ok filtered) by (vm_compute; reflexivity).
  assert (Hs : getitem filtered "Survived" = Ok survived)
    by (vm_compute; reflexivity).
  exists filtered, survived. split; [exact Hf|]. split; [exact Hs|].
  assert (Hc : value_counts survived = [(VInt 1, 2%nat); (VInt 0, 1%nat)])
    by (vm_compute; reflexivity).
  split; [exact Hc|].
  destruct (survival_pie_labels filtered survived Hs) as [_ [_ H]].
  destruct (H ltac:(vm_compute; reflexivity)) as [most [least [E [P _]]]].
  rewrite Hc in E. injection E as <- <-. exact P.
Defined.

(** ** Survival rates *)

Lemma Qsum_bounds (l : list Q) :
  (forall x, In x l -> 0 <= x <= 1) ->
  0 <= Qsum l <= inject_Z (Z.of_nat (List.length l)).
Proof.
  induction l as [|x l IH]; intros H.
  - unfold Qsum. simpl. split; apply Qle_refl.
  - rewrite Qsum_cons.
    destruct (IH (fun y Hy => H y (or_intror Hy))) as [I1 I2].
    destruct (H x (or_introl eq_refl)) as [X1 X2].
    assert (E : inject_Z (Z.of_nat (List.length (x :: l)))
                == 1 + inject_Z (Z.of_nat (List.length l))).
    { cbn [List.length]. rewrite Nat2Z.inj_succ. unfold Z.succ.
      rewrite inject_Z_plus. ring. }
    rewrite E. split.
    + rewrite <- (Qplus_0_l 0). apply Qplus_le_compat; assumption.
    + apply Qplus_le_compat; assumption.
Qed.

Lemma mean_of_bounds (l : list Q) (m : Q) :
  (forall x, In x l -> 0 <= x <= 1) -> mean_of l = Some m -> 0 <= m <= 1.
Proof.
  intros H Hm. destruct l as [|x l]; [discriminate Hm|].
  unfold mean_of in Hm. injection Hm as <-.
  destruct (Qsum_bounds (x :: l) H) as [S1 S2].
  assert (Hn : 0 < inject_Z (Z.of_nat (List.length (x :: l)))).
  { unfold Qlt. simpl. lia. }
  split.
  - apply Qle_shift_div_l; [exact Hn|]. rewrite Qmult_0_l. exact S1.
  - apply Qle_shift_div_r; [exact Hn|]. rewrite Qmult_1_l. exact S2.
Qed.

Lemma series_mul_scalar_percent (f : Row -> cell) (df : DataFrame) :
  (forall ir, In ir (records df) ->
              f (snd ir) = None \/ exists q, f (snd ir) = Some (VFloat q)) ->
  series_mul_scalar (row_series f df) (VInt 100)
  = Ok (row_series
          (fun r => option_map (fun m => VFloat (m * inject_Z 100))
                               (cell_num (f r))) df).
Proof.
  unfold row_series. induction (records df) as [|[i r] rs IH]; intros H;
    simpl; [reflexivity|].
  rewrite IH by (intros ir Hir; apply H; right; exact Hir).
  destruct (H (i, r) (or_introl eq_refl)) as [E|[q E]]; simpl in E;
    rewrite E; reflexivity.
Qed.

Lemma group_keys_of_index (df : DataFrame) (c : string) (k : nat) :
  index_of c (columns df) = Some k ->
  group_keys_of df c = group_keys (column_of k (records df)).
Proof.
  intros Hk. unfold group_keys_of. rewrite (getitem_column _ _ _ Hk).
  reflexivity.
Qed.

Lemma Forall2_map_l {A B C : Type} (R : B -> C -> Prop) (g : A -> B)
  (l : list A) (l' : list C) :
  Forall2 (fun a c => R (g a) c) l l' -> Forall2 R (map g l) l'.
Proof. induction 1; simpl; constructor; assumption. Qed.

Lemma Forall2_combine_snd {A B : Type} (labels : list A) (rows : list B) :
  List.length labels = List.length rows ->
  Forall2 (fun row ir => snd ir = row) rows (combine labels rows).
Proof.
  revert labels. induction rows as [|r rows IH]; intros [|i labels] H;
    simpl in *; try discriminate; constructor; [reflexivity|].
  apply IH. lia.
Qed.

Lemma Forall2_frame (cols : list string) (rows : list Row) :
  Forall2 (fun row ir => snd ir = row) rows (records (frame cols rows)).
Proof.
  unfold frame. simpl. apply Forall2_combine_snd.
  rewrite length_map, length_seq. reflexivity.
Qed.

Lemma cell_num_float_cell (q : option Q) : cell_num (float_cell q) = q.
Proof. destruct q; reflexivity. Qed.

(** The survival table of a grouping column, row by row. *)
Lemma survival_by_rows {L : Library} (by_ : string)
  (filtered out : DataFrame) :
  by_ <> "Survived" ->
  survival_by by_ filtered = Ok out ->
  columns out = [by_; "Survived"]
  /\ Forall2
       (fun key ir =>
          cell_at out by_ (snd ir) = Some key
          /\ cell_at out "Survived" (snd ir)
             = survival_percent filtered by_ key)
       (group_keys_of filtered by_) (records out).
Proof.
  intros Hne H. unfold survival_by in H.
  apply bind_Ok in H. destruct H as [rate [Hrate H]].
  apply groupby_reduce_Ok in Hrate; [|reflexivity].
  destruct Hrate as [k [Hk [_ ->]]].
  rewrite (group_keys_of_index _ _ _ Hk).
  set (keys := group_keys (column_of k (records filtered))) in *.
  cbv zeta in H.
  unfold reset_index in H. rewrite map_map in H. cbn [fst snd] in H.
  set (rows := map (fun key =>
                      [Some key;
                       over_present Rmean
                         (present_numbers (group_of filtered by_ key)
                                          "Survived")]) keys) in *.
  set (survival := frame [by_; "Survived"] rows) in *.
  assert (Eb : String.eqb "Survived" by_ = false).
  { apply String.eqb_neq. intros E. apply Hne. symmetry. exact E. }
  assert (Is : index_of "Survived" (columns survival) = Some 1%nat).
  { unfold survival, frame. cbn [columns index_of]. rewrite Eb.
    rewrite String.eqb_refl. reflexivity. }
  assert (Ib : index_of by_ (columns survival) = Some 0%nat).
  { unfold survival, frame. cbn [columns index_of].
    rewrite String.eqb_refl. reflexivity. }
  assert (Hs : has_column survival "Survived" = true)
    by (apply has_column_index; exists 1%nat; exact Is).
  change (frame [by_; "Survived"] _) with survival in H.
  rewrite (getitem_present _ _ Hs) in H. cbn [bind] in H.
  pose proof (Forall2_frame [by_; "Survived"] rows) as Frows.
  fold survival in Frows.
  assert (Hcells : forall ir, In ir (records survival) ->
            exists key,
              In key keys
              /\ snd ir = [Some key;
                           over_present Rmean
                             (present_numbers (group_of filtered by_ key)
                                              "Survived")]).
  { intros ir Hin.
    destruct (Forall2_In_r _ _ _ _ Frows Hin) as [row [Hrow E]].
    unfold rows in Hrow. apply in_map_iff in Hrow.
    destruct Hrow as [key [<- Hkey]]. exists key. auto. }
  rewrite series_mul_scalar_percent in H.
  2:{ intros [i r] Hin. destruct (Hcells (i, r) Hin) as [key [_ E]].
      cbn [snd] in E |- *. subst r.
      rewrite (cell_at_index _ _ _ _ Is). unfold field. simpl.
      destruct (mean_of _); [right; eexists; reflexivity | left; reflexivity]. }
  cbn [bind] in H. apply Ok_inj in H. subst out.
  split.
  { unfold setitem. rewrite Is. reflexivity. }
  pose proof (setitem_step survival "Survived"
                (fun r => option_map (fun m => VFloat (m * inject_Z 100))
                            (cell_num (cell_at survival "Survived" r))))
    as Step.
  assert (Fkeys : Forall2
            (fun key ir =>
               snd ir = [Some key;
                         over_present Rmean
                           (present_numbers (group_of filtered by_ key)
                                            "Survived")])
            keys (records survival)).
  { clear - Frows. unfold rows in Frows. revert Frows.
    generalize (records survival). induction keys as [|key keys IH];
      intros l H; simpl in H; inversion H; subst; constructor; auto. }
  pose proof (Forall2_compose _ _ _ _ _ Fkeys Step) as S.
  revert S. apply Forall2_impl.
  intros key ir' [[i r] [_ [E [_ [Ev Eo]]]]].
  cbn [snd] in E, Ev, Eo. subst r. split.
  - rewrite (Eo by_ Hne), (cell_at_index _ _ _ _ Ib). reflexivity.
  - rewrite Ev, (cell_at_index _ _ _ _ Is). unfold field. cbn [nth].
    unfold survival_percent. cbn [over_present].
    rewrite (cell_num_float_cell (mean_of _)). reflexivity.
Qed.

Lemma survival_percent_range (filtered : DataFrame) (by_ : string)
  (key : value) (p : Q) :
  has_column filtered "Survived" = true ->
  outcome_column filtered "Survived" ->
  survival_percent filtered by_ key = Some (VFloat p) ->
  0 <= p <= 100.
Proof.
  intros Hc Hout H. unfold survival_percent in H.
  destruct (mean_of _) as [m|] eqn:Hm; [|discriminate H].
  simpl in H. injection H as <-.
  apply mean_of_bounds in Hm.
  - destruct Hm as [M1 M2]. split.
    + rewrite <- (Qmult_0_l (inject_Z 100)).
      apply Qmult_le_compat_r; [exact M1 | discriminate].
    + setoid_replace (100 : Q) with (1 * inject_Z 100) by reflexivity.
      apply Qmult_le_compat_r; [exact M2 | discriminate].
  - intros x Hx.
    apply (present_numbers_In (group_of filtered by_ key) "Survived" x Hc)
      in Hx.
    destruct Hx as [ir [Hin Ev]]. unfold group_of in Hin. simpl in Hin.
    apply filter_In in Hin. destruct Hin as [Hin _].
    apply (Hout ir x Hin). exact Ev.
Qed.

Lemma class_survival_split {L : Library} (filtered : DataFrame) :
  TitanicViews.class_survival filtered
  = (t <- survival_by "Pclass" filtered ;;
     pclass <- getitem t "Pclass" ;;
     Ok (setitem t "Class"
           (map_dict [(VInt 1, VStr "1st Class"); (VInt 2, VStr "2nd Class");
                      (VInt 3, VStr "3rd Class")] pclass))).
Proof.
  unfold TitanicViews.class_survival, survival_by.
  destruct (groupby_reduce filtered "Pclass" "Survived" Rmean) as [rate|];
    [|reflexivity].
  cbn [bind]. cbv zeta.
  destruct (getitem (reset_index "Pclass" "Survived" rate) "Survived")
    as [survived|]; [|reflexivity].
  cbn [bind].
  destruct (series_mul_scalar survived (VInt 100)) as [scaled|];
    reflexivity.
Qed.

Lemma survival_by_has_outcomes {L : Library} (by_ : string)
  (filtered out : DataFrame) :
  survival_by by_ filtered = Ok out ->
  has_column filtered "Survived" = true.
Proof.
  unfold survival_by. intros H. apply bind_Ok in H.
  destruct H as [rate [Hrate _]].
  apply groupby_reduce_Ok in Hrate; [|reflexivity].
  destruct Hrate as [k [_ [Hc _]]]. exact Hc.
Qed.

(** X17. The survival charts by gender and by class have one bar per
    distinct sex, or class, of the filtered passengers, in sorted order;
    the bar of a group is 100 times the mean of the recorded outcomes of
    its passengers, and is missing when none of them has a recorded
    outcome.  The class chart names classes 1, 2 and 3 "1st Class",
    "2nd Class" and "3rd Class" and gives any other class no name.  When
    every recorded outcome lies between 0 and 1, every bar lies between 0
    and 100. *)
Theorem survival_rates_by_group {L : Library}
  (filtered by_gender by_class : DataFrame) :
  TitanicViews.gender_survival filtered = Ok by_gender ->
  TitanicViews.class_survival filtered = Ok by_class ->
  Forall2
    (fun sex ir =>
       cell_at by_gender "Sex" (snd ir) = Some sex
       /\ cell_at by_gender "Survived" (snd ir)
          = survival_percent filtered "Sex" sex)
    (group_keys_of filtered "Sex") (records by_gender)
  /\ Forall2
       (fun class ir =>
          cell_at by_class "Pclass" (snd ir) = Some class
          /\ cell_at by_class "Survived" (snd ir)
             = survival_percent filtered "Pclass" class
          /\ cell_at by_class "Class" (snd ir) = class_name (Some class))
       (group_keys_of filtered "Pclass") (records by_class)
  /\ (outcome_column filtered "Survived" ->
      forall by_ key p,
        survival_percent filtered by_ key = Some (VFloat p) ->
        0 <= p <= 100).
Proof.
  intros Hg Hc.
  change (TitanicViews.gender_survival filtered)
    with (survival_by "Sex" filtered) in Hg.
  pose proof (survival_by_has_outcomes _ _ _ Hg) as Hs.
  split; [|split].
  - apply (survival_by_rows "Sex" filtered by_gender); [discriminate|].
    exact Hg.
  - rewrite class_survival_split in Hc.
    apply bind_Ok in Hc. destruct Hc as [t [Ht Hc]].
    apply survival_by_rows in Ht; [|discriminate].
    destruct Ht as [Hcols Rows].
    assert (Hp : has_column t "Pclass" = true)
      by (unfold has_column; rewrite Hcols; reflexivity).
    rewrite (getitem_present _ _ Hp) in Hc. cbn [bind] in Hc.
    apply Ok_inj in Hc. subst by_class.
    unfold map_dict. rewrite smap_row_series.
    change (map (fun ir : label * Row =>
                   (fst ir,
                    match cell_at t "Pclass" (snd ir) with
                    | Some v =>
                        option_map snd
                          (find (fun kv => value_eqb v (fst kv))
                                [(VInt 1, VStr "1st Class");
                                 (VInt 2, VStr "2nd Class");
                                 (VInt 3, VStr "3rd Class")])
                    | None => None
                    end)) (records t))
      with (row_series (fun r => class_name (cell_at t "Pclass" r)) t).
    pose proof (setitem_step t "Class"
                  (fun r => class_name (cell_at t "Pclass" r))) as Step.
    pose proof (Forall2_compose _ _ _ _ _ Rows Step) as S.
    revert S. apply Forall2_impl.
    intros key ir' [ir [_ [[E1 E2] [_ [Ev Eo]]]]].
    rewrite !Eo by discriminate. rewrite Ev, E1. auto.
  - intros Hout by_ key p Hp.
    apply (survival_percent_range filtered by_ key p Hs Hout Hp).
Qed.

Lemma survival_rates_by_group_witness :
  exists by_gender by_class,
    TitanicViews.gender_survival (L := Reference.library) Samples.titanic
    = Ok by_gender
    /\ TitanicViews.class_survival (L := Reference.library) Samples.titanic
       = Ok by_class
    /\ map (fun ir => cell_at by_gender "Sex" (snd ir)) (records by_gender)
       = [str "female"; str "male"]
    /\ Forall2
         (fun sex ir =>
            cell_at by_gender "Sex" (snd ir) = Some sex
            /\ cell_at by_gender "Survived" (snd ir)
               = survival_percent Samples.titanic "Sex" sex)
         (group_keys_of Samples.titanic "Sex") (records by_gender).
Proof.
  pose (by_gender :=
          match TitanicViews.gender_survival (L := Reference.library)
                  Samples.titanic with
          | Ok d => d
          | Raise _ => Samples.titanic
          end).
  pose (by_class :=
          match TitanicViews.class_survival (L := Reference.library)
                  Samples.titanic with
          | Ok d => d
          | Raise _ => Samples.titanic
          end).
  assert (Hg : TitanicViews.gender_survival (L := Reference.library)
                 Samples.titanic = Ok by_gender)
    by (vm_compute; reflexivity).
  assert (Hc : TitanicViews.class_survival (L := Reference.library)
                 Samples.titanic = Ok by_class)
    by (vm_compute; reflexivity).
  exists by_gender, by_class. split; [exact Hg|]. split; [exact Hc|].
  split; [vm_compute; reflexivity|].
  destruct (survival_rates_by_group (L := Reference.library)
              Samples.titanic by_gender by_class Hg Hc) as [G _].
  exact G.
Defined.

(** ** The cleaned e-commerce table *)

Lemma setitem_len (df : DataFrame) (c : string) (f : Row -> cell) :
  len (setitem df c (row_series f df)) = len df.
Proof. unfold len. rewrite setitem_records. apply length_map. Qed.

Lemma drop_duplicates_subsequence (df : DataFrame) :
  subsequence (records (drop_duplicates df)) (records df).
Proof. apply subsequence_select_rows. Qed.

Lemma Forall2_subsequence {A B : Type} (R : A -> B -> Prop)
  (l : list A) (l' s' : list B) :
  Forall2 R l l' -> subsequence s' l' ->
  exists s, subsequence s l /\ Forall2 R s s'.
Proof.
  intros H Hs. revert l H.
  induction Hs as [l'|b s' l' Hs IH|b s' l' Hs IH]; intros l H.
  - exists []. split; constructor.
  - inversion H as [|a b' m m' Hab Hm]; subst.
    destruct (IH m Hm) as [s [Hsub HF]].
    exists (a :: s). split; constructor; assumption.
  - inversion H as [|a b' m m' Hab Hm]; subst.
    destruct (IH m Hm) as [s [Hsub HF]].
    exists s. split; [constructor|]; assumption.
Qed.

Lemma Forall2_same_map {A B C : Type} (f : A -> C) (g : B -> C)
  (l : list A) (l' : list B) :
  Forall2 (fun a b => g b = f a) l l' -> map g l' = map f l.
Proof. induction 1 as [|a b l l' Hab H IH]; simpl; congruence. Qed.

(** The format of a column depends on its cells only. *)
Lemma column_format_cells {L : Library} (df df' : DataFrame) (c : string) :
  map (fun ir => cell_at df' c (snd ir)) (records df')
  = map (fun ir => cell_at df c (snd ir)) (records df) ->
  column_format df' c = column_format df c.
Proof.
  unfold column_format. generalize (records df), (records df').
  intros rs rs'. revert rs.
  induction rs' as [|ir' rs' IH]; intros [|ir rs] E; try discriminate E;
    [reflexivity|].
  cbn [map] in E. injection E as Ec E. cbn [find]. rewrite Ec.
  destruct (negb (null_like (cell_at df c (snd ir))));
    [rewrite Ec; reflexivity|].
  apply IH. exact E.
Qed.

Lemma Forall2_with_In {A B : Type} (R : A -> B -> Prop)
  (l : list A) (l' : list B) :
  Forall2 R l l' -> Forall2 (fun a b => In a l /\ R a b) l l'.
Proof.
  induction 1 as [|a b l l' Hab H IH]; constructor.
  - split; [left; reflexivity | exact Hab].
  - revert IH. apply Forall2_impl. intros x y [Hx Hxy].
    split; [right; exact Hx | exact Hxy].
Qed.

(** The row-by-row account of the column assignment found in [H]. *)
Ltac assignment_in H df c S :=
  match type of H with
  | context [setitem df c (row_series ?f df)] =>
      pose proof (setitem_step df c f) as S
  end.

(** A successful cleaning, row by row: the rows of the cleaned table come
    in order from rows of the file. *)
Lemma clean_data_origin {L : Library} (df cleaned : DataFrame) :
  Ecommerce.clean_data df = Ok cleaned ->
  exists origin,
    subsequence origin (records df)
    /\ Forall2
         (cleaned_row (column_format (mkDF (columns df) origin) "InvoiceDate")
                      df cleaned)
         origin (records cleaned).
Proof.
  unfold Ecommerce.clean_data. intros H.
  apply bind_Ok in H. destruct H as [df1 [H1 H]].
  apply dropna_subset_rows in H1.
  apply bind_Ok in H. destruct H as [description [Hd H]].
  apply getitem_row_series in Hd. subst description.
  unfold fillna in H. rewrite smap_row_series_cell in H.
  assignment_in H df1 "Description" S2.
  remember (setitem df1 "Description" _) as df2 eqn:E2.
  remember (drop_duplicates df2) as df3 eqn:E3.
  apply bind_Ok in H. destruct H as [customer [Hc H]].
  apply bind_Ok in H. destruct H as [customer' [Hc' H]].
  apply getitem_row_series in Hc. subst customer.
  apply astype_int_smap in Hc'. destruct Hc' as [Hc' _].
  rewrite smap_row_series_cell in Hc'. subst customer'.
  assignment_in H df3 "CustomerID" S4.
  remember (setitem df3 "CustomerID" _) as df4 eqn:E4.
  apply bind_Ok in H. destruct H as [invoice [Hi H]].
  apply bind_Ok in H. destruct H as [invoice' [Hi' H]].
  apply getitem_row_series in Hi. subst invoice.
  apply to_datetime_smap in Hi'.
  rewrite guess_format_row_series in Hi'.
  rewrite smap_row_series_cell in Hi'. subst invoice'.
  assignment_in H df4 "InvoiceDate" S5.
  remember (setitem df4 "InvoiceDate" _) as df5 eqn:E5.
  apply bind_Ok in H. destruct H as [s1 [Hs1 H]].
  apply bind_Ok in H. destruct H as [d1 [Hd1 H]].
  apply getitem_row_series in Hs1. subst s1.
  unfold dt_year in H. rewrite (dt_row_series_cell _ _ _ _ Hd1) in H.
  clear Hd1 d1.
  assignment_in H df5 "Year" S6.
  remember (setitem df5 "Year" _) as df6 eqn:E6.
  apply bind_Ok in H. destruct H as [s2 [Hs2 H]].
  apply bind_Ok in H. destruct H as [d2 [Hd2 H]].
  apply getitem_row_series in Hs2. subst s2.
  unfold dt_month in H. rewrite (dt_row_series_cell _ _ _ _ Hd2) in H.
  clear Hd2 d2.
  assignment_in H df6 "Month" S7.
  remember (setitem df6 "Month" _) as df7 eqn:E7.
  apply bind_Ok in H. destruct H as [quantity [Hq H]].
  apply bind_Ok in H. destruct H as [unit_price [Hu H]].
  apply bind_Ok in H. destruct H as [total [Ht H]].
  apply getitem_row_series in Hq, Hu. subst quantity unit_price.
  apply series_mul_row_series in Ht. subst total.
  assignment_in H df7 "TotalPrice" S8.
  remember (setitem df7 "TotalPrice" _) as df8 eqn:E8.
  assert (E : cleaned = df8) by congruence. subst cleaned. clear H.
  assert (C1 : forall c r, cell_at df1 c r = cell_at df c r)
    by (intros c r; rewrite H1; reflexivity).
  assert (C3 : forall c r, cell_at df3 c r = cell_at df2 c r)
    by (intros c r; rewrite E3; reflexivity).
  (* the rows that remain after the duplicates are dropped, and the rows
     of the file they come from *)
  assert (Hsub : subsequence (records df3) (records df2))
    by (rewrite E3; apply drop_duplicates_subsequence).
  destruct (Forall2_subsequence _ _ _ _ (Forall2_with_In _ _ _ S2) Hsub)
    as [origin [Horigin F3]].
  exists origin. split.
  { apply (subsequence_trans _ _ _ Horigin). rewrite H1. cbn [records].
    apply subsequence_filter. }
  (* the format is guessed from the dates of these rows *)
  assert (Hfmt : column_format df4 "InvoiceDate"
                 = column_format (mkDF (columns df) origin) "InvoiceDate").
  { apply column_format_cells. cbn [records].
    apply Forall2_same_map.
    generalize (Forall2_compose _ _ _ _ _ F3 S4). apply Forall2_impl.
    intros ir1 ir4 [ir3 [_ [[_ [_ [_ O2]]] [_ [_ O4]]]]].
    rewrite (O4 "InvoiceDate"), C3, (O2 "InvoiceDate"), C1 by discriminate.
    unfold cell_at. reflexivity. }
  rewrite <- Hfmt.
  pose proof (Forall2_compose _ _ _ _ _ F3 S4) as T4.
  pose proof (Forall2_compose _ _ _ _ _ T4 S5) as T5.
  pose proof (Forall2_compose _ _ _ _ _ T5 S6) as T6.
  pose proof (Forall2_compose _ _ _ _ _ T6 S7) as T7.
  pose proof (Forall2_compose _ _ _ _ _ T7 S8) as T8.
  revert T8. apply Forall2_impl.
  intros ir1 ir8
    [ir7 [_ [[ir6 [_ [[ir5 [_ [[ir4 [_ [[ir3 [_ [[Hin [L2 [D2 O2]]]
                                                   [L4 [D4 O4]]]]]
                                         [L5 [D5 O5]]]]]
                               [L6 [D6 O6]]]]]
                     [L7 [D7 O7]]]]]
           [L8 [D8 O8]]]]].
  rewrite H1 in Hin. cbn [records] in Hin. apply filter_In in Hin.
  destruct Hin as [_ Hpresent]. apply negb_true_iff in Hpresent.
  unfold cleaned_row. split; [exact Hpresent|].
  split; [|split; [|split; [|split]]].
  - rewrite O8, O7, O6, O5, D4, C3, O2, C1 by discriminate. reflexivity.
  - rewrite O8, O7, O6, O5, O4, C3, D2, C1 by discriminate. reflexivity.
  - rewrite O8, O7, O6, D5, O4, C3, O2, C1 by discriminate. reflexivity.
  - congruence.
  - intros c Hc.
    rewrite O8, O7, O6, O5, O4, C3, O2, C1
      by (intros ->; apply Hc; simpl; tauto).
    reflexivity.
Qed.

(** X18. Cleaning never adds a row, so "Rows Removed" is never negative.
    The rows of the cleaned table come, in order and one for one, from
    rows of the file that have a customer number, under the same labels.
    In each the customer number is that of the file as a 64-bit integer
    (a float loses its fraction, and a float beyond the 64-bit range
    becomes the smallest 64-bit integer), the description is the file's,
    or "No Description" where the file has none, and every column other
    than these two, the invoice date and the three derived ones is as in
    the file.  The invoice dates are read by one format, the one guessed
    from the first date among the rows that are kept, or each on its own
    when no format can be guessed: every invoice date is what that
    reading makes of the file's cell.  So no customer number and no
    description is missing in the cleaned table. *)
Theorem clean_data_keeps_identified_rows {L : Library}
  (df cleaned : DataFrame) :
  Ecommerce.clean_data df = Ok cleaned ->
  (0 <= EcommerceViews.rows_removed df cleaned)%Z
  /\ (forall ir, In ir (records cleaned) ->
        is_int (cell_at cleaned "CustomerID" (snd ir)) = true
        /\ missing (cell_at cleaned "Description" (snd ir)) = false)
  /\ exists origin,
       subsequence origin (records df)
       /\ Forall2
            (cleaned_row
               (column_format (mkDF (columns df) origin) "InvoiceDate")
               df cleaned)
            origin (records cleaned).
Proof.
  intros H. destruct (clean_data_origin df cleaned H) as [origin [Hsub Rows]].
  split.
  { unfold EcommerceViews.rows_removed, len.
    rewrite <- (Forall2_length_eq _ _ _ Rows).
    apply subsequence_length in Hsub. lia. }
  split; [|exists origin; split; assumption].
  intros ir Hin. split; [apply (clean_data_customer_ids df cleaned ir H Hin)|].
  destruct (Forall2_In_r _ _ _ _ Rows Hin) as [ir0 [_ [_ [_ [Hd _]]]]].
  rewrite Hd. destruct (cell_at df "Description" (snd ir0)); reflexivity.
Qed.

Lemma clean_data_keeps_identified_rows_witness :
  exists cleaned origin,
    Ecommerce.clean_data (L := Reference.library) Samples.orders = Ok cleaned
    /\ (len cleaned < len Samples.orders)%nat
    /\ (0 <= EcommerceViews.rows_removed Samples.orders cleaned)%Z
    /\ subsequence origin (records Samples.orders)
    /\ Forall2
         (cleaned_row (L := Reference.library)
            (column_format (L := Reference.library)
               (mkDF (columns Samples.orders) origin) "InvoiceDate")
            Samples.orders cleaned)
         origin (records cleaned).
Proof.
  pose (cleaned :=
          match Ecommerce.clean_data (L := Reference.library)
                  Samples.orders with
          | Ok d => d
          | Raise _ => Samples.orders
          end).
  assert (H : Ecommerce.clean_data (L := Reference.library) Samples.orders
              = Ok cleaned)
    by (vm_compute; reflexivity).
  destruct (clean_data_keeps_identified_rows (L := Reference.library)
              Samples.orders cleaned H)
    as [Hremoved [_ [origin [Hsub Rows]]]].
  exists cleaned, origin. split; [exact H|]. split; [vm_compute; lia|].
  split; [exact Hremoved|]. split; [exact Hsub | exact Rows].
Defined.

(** ** The table of missing values *)







(** ** Sums by group *)

Lemma groupby_reduce_sums_by {L : Library} (df : DataFrame)
  (by_ col : string) (bars : Series cell) :
  groupby_reduce df by_ col Rsum = Ok bars -> sums_by df by_ col bars.
Proof.
  intros H. split; [|apply (group_sums_total _ _ _ _ H)].
  apply groupby_reduce_Ok in H; [|reflexivity].
  destruct H as [k [Hk [_ ->]]]. rewrite map_map. simpl. rewrite map_id.
  symmetry. apply group_keys_of_index. exact Hk.
Qed.

(** X20. "Revenue by Branch", "Sales by Hour" and the e-commerce "Monthly
    Sales" show one sum per distinct branch, hour or month, in the sorted
    order of these keys; the sums add up to the total of the rows that
    have a key, so a row without a branch, an hour or a month is in no
    bar.  "Quantity Sold by Product Line" shows its sums in increasing
    order; they add up to the quantity of the rows that have a product
    line. *)
Theorem sums_by_group_add_up {L : Library} (df : DataFrame) :
  (forall bars, RetailViews.branch_revenue df = Ok bars ->
                sums_by df "Branch" "Total" bars)
  /\ (forall bars, RetailViews.hourly_data df = Ok bars ->
                   sums_by df "Hour" "Total" bars)
  /\ (forall bars, EcommerceViews.monthly_sales df = Ok bars ->
                   sums_by df "Month" "TotalPrice" bars)
  /\ (forall bars, RetailViews.qty_data df = Ok bars ->
                   increasing bars
                   /\ Permutation (map fst bars)
                                  (group_keys_of df "Product line")
                   /\ series_total bars
                      == Qsum (present_numbers (having df "Product line")
                                               "Quantity")).
Proof.
  split; [|split; [|split]]; intros bars H.
  - apply groupby_reduce_sums_by. exact H.
  - apply groupby_reduce_sums_by. exact H.
  - apply groupby_reduce_sums_by. exact H.
  - unfold RetailViews.qty_data in H. apply bind_Ok in H.
    destruct H as [qty [Hqty H]]. apply Ok_inj in H. subst bars.
    destruct (groupby_reduce_sums_by _ _ _ _ Hqty) as [Hkeys Htotal].
    split; [|split].
    + apply (sums_sortable true).
      apply (group_sums_are_numbers _ _ _ _ Hqty).
    + rewrite <- Hkeys. apply Permutation_map. apply sort_by_perm.
    + rewrite (series_total_perm _ qty) by apply sort_by_perm.
      exact Htotal.
Qed.

(** ** One row per group key *)

Section Distinct.
Variable K : Type.
Variable eqb : K -> K -> bool.
Variable U : list K -> list K.
Hypothesis eqb_sym : forall a b, eqb a b = eqb b a.
Hypothesis eqb_trans :
  forall a b c, eqb a b = true -> eqb b c = true -> eqb a c = true.
Hypothesis U_nil : U [] = [].
Hypothesis U_cons :
  forall k l, U (k :: l) = k :: filter (fun d => negb (eqb k d)) (U l).

Lemma filter_same_key (k c : K) (l : list K) :
  eqb k c = true ->
  filter (eqb k) (filter (fun d => negb (eqb c d)) l) = [].
Proof.
  intros Hkc. induction l as [|d l IH]; simpl; [reflexivity|].
  destruct (eqb c d) eqn:Hcd; simpl; [exact IH|].
  destruct (eqb k d) eqn:Hkd; [|exact IH].
  rewrite eqb_sym in Hkc. rewrite (eqb_trans c k d Hkc Hkd) in Hcd.
  discriminate Hcd.
Qed.

Lemma filter_other_key (k c : K) (l : list K) :
  eqb k c = false ->
  filter (eqb k) (filter (fun d => negb (eqb c d)) l) = filter (eqb k) l.
Proof.
  intros Hkc. induction l as [|d l IH]; simpl; [reflexivity|].
  destruct (eqb c d) eqn:Hcd; simpl.
  - destruct (eqb k d) eqn:Hkd; [|exact IH].
    rewrite eqb_sym in Hcd. rewrite (eqb_trans k d c Hkd Hcd) in Hkc.
    discriminate Hkc.
  - destruct (eqb k d); [f_equal|]; exact IH.
Qed.

Lemma one_representative (k : K) (l : list K) :
  List.length (filter (eqb k) (U l))
  = if existsb (eqb k) l then 1%nat else 0%nat.
Proof.
  induction l as [|c l IH]; [rewrite U_nil; reflexivity|].
  rewrite U_cons. simpl. destruct (eqb k c) eqn:Hkc; simpl.
  - rewrite (filter_same_key k c _ Hkc). reflexivity.
  - rewrite (filter_other_key k c _ Hkc). exact IH.
Qed.

Lemma filter_split_length (p : K -> bool) (l : list K) :
  (List.length (filter p l) + List.length (filter (fun d => negb (p d)) l)
   = List.length l)%nat.
Proof.
  induction l as [|d l IH]; simpl; [reflexivity|].
  destruct (p d); simpl; lia.
Qed.

Lemma length_distinct (l : list K) :
  List.length (U l) = count_distinct eqb l.
Proof.
  induction l as [|k l IH]; [rewrite U_nil; reflexivity|].
  rewrite U_cons. simpl.
  pose proof (filter_split_length (eqb k) (U l)) as Hs.
  rewrite (one_representative k l) in Hs. rewrite <- IH.
  destruct (existsb (eqb k) l); lia.
Qed.

Lemma distinct_entries (l : list K) :
  ForallOrdPairs (fun a b => eqb a b = false) (U l).
Proof.
  induction l as [|c l IH]; [rewrite U_nil; constructor|].
  rewrite U_cons. constructor.
  - apply Forall_forall. intros d Hd. apply filter_In in Hd.
    destruct Hd as [_ Hd]. apply negb_true_iff in Hd. exact Hd.
  - apply ForallOrdPairs_filter. exact IH.
Qed.

Lemma distinct_subset (l : list K) (c : K) : In c (U l) -> In c l.
Proof.
  induction l as [|d l IH]; [rewrite U_nil; auto|].
  rewrite U_cons. simpl.
  intros [->|H]; [left; reflexivity|].
  apply filter_In in H. right. apply IH. apply H.
Qed.

Lemma distinct_cover (l : list K) (c : K) :
  eqb c c = true -> In c l -> exists d, In d (U l) /\ eqb c d = true.
Proof.
  intros Hrefl. induction l as [|d l IH]; [intros []|].
  rewrite U_cons. intros [->|H].
  - exists c. split; [left; reflexivity | exact Hrefl].
  - destruct (eqb c d) eqn:Hcd.
    + exists d. split; [left; reflexivity | exact Hcd].
    + destruct (IH H) as [e [He Hce]]. exists e. split; [|exact Hce].
      right. apply filter_In. split; [exact He|].
      destruct (eqb d e) eqn:Hde; [|reflexivity].
      rewrite eqb_sym in Hde. rewrite (eqb_trans c e d Hce Hde) in Hcd.
      discriminate Hcd.
Qed.

End Distinct.

Lemma count_distinct_map {A B : Type} (eqa : A -> A -> bool)
  (eqb : B -> B -> bool) (f : A -> B) (l : list A) :
  (forall a a', eqb (f a) (f a') = eqa a a') ->
  count_distinct eqb (map f l) = count_distinct eqa l.
Proof.
  intros Hf. induction l as [|a l IH]; simpl; [reflexivity|].
  rewrite IH. f_equal.
  replace (existsb (eqb (f a)) (map f l)) with (existsb (eqa a) l);
    [reflexivity|].
  clear IH. induction l as [|a' l IH]; simpl; [reflexivity|].
  rewrite Hf, IH. reflexivity.
Qed.

Lemma key_eqb_refl (a : list value) : key_eqb a a = true.
Proof.
  induction a as [|x a IH]; simpl; [reflexivity|].
  rewrite value_eqb_refl. exact IH.
Qed.

Lemma key_eqb_sym (a b : list value) : key_eqb a b = key_eqb b a.
Proof.
  revert b. induction a as [|x a IH]; intros [|y b]; simpl;
    try reflexivity.
  rewrite value_eqb_sym, IH. reflexivity.
Qed.

Lemma key_eqb_trans (a b c : list value) :
  key_eqb a b = true -> key_eqb b c = true -> key_eqb a c = true.
Proof.
  revert b c. induction a as [|x a IH]; intros [|y b] [|z c]; simpl;
    try discriminate; auto.
  rewrite !andb_true_iff. intros [H1 H2] [H3 H4]. split.
  - apply (value_eqb_trans x y z); assumption.
  - apply (IH b c); assumption.
Qed.

Lemma cells_eqb_present (a b : list value) :
  cells_eqb (map Some a) (map Some b) = key_eqb a b.
Proof.
  revert b. induction a as [|x a IH]; intros [|y b]; simpl;
    try reflexivity.
  rewrite IH. reflexivity.
Qed.

Lemma cells_eqb_single (a b : cell) :
  cells_eqb [a] [b] = cell_eqb a b.
Proof. simpl. apply andb_true_r. Qed.

Lemma complete_key_present (key : list value) :
  complete_key (map Some key) = true.
Proof. induction key as [|v key IH]; simpl; [reflexivity | exact IH]. Qed.

Lemma length_present_all {A : Type} (l : list (option A)) :
  (forall c, In c l -> c <> None) ->
  List.length (present l) = List.length l.
Proof.
  induction l as [|[a|] l IH]; simpl; intros H; [reflexivity | |].
  - f_equal. apply IH. intros c Hc. apply H. right. exact Hc.
  - exfalso. apply (H None); [left|]; reflexivity.
Qed.

(** *** Grouping by one column *)

Lemma length_group_keys (s : Series cell) :
  List.length (group_keys s) = count_distinct cell_eqb (values (dropna s)).
Proof.
  unfold group_keys, sorted, unique.
  rewrite length_present_all.
  - rewrite sort_by_length.
    apply (length_distinct cell cell_eqb unique_cells cell_eqb_sym
             cell_eqb_trans eq_refl (fun _ _ => eq_refl)).
  - intros c Hc. apply In_sort_by, unique_cells_subset in Hc.
    unfold values, dropna in Hc. apply in_map_iff in Hc.
    destruct Hc as [ic [<- Hic]]. apply filter_In in Hic.
    destruct Hic as [_ Hic]. destruct ic as [i [v|]]; simpl in *;
      [discriminate | discriminate Hic].
Qed.

Lemma complete_single_keys (df : DataFrame) (by_ : string) (k : nat) :
  index_of by_ (columns df) = Some k ->
  filter complete_key (row_keys df [by_])
  = map (fun c => [c]) (values (dropna (column_of k (records df)))).
Proof.
  intros Hk. unfold row_keys, key_at, values, dropna, column_of.
  induction (records df) as [|ir rs IH]; simpl; [reflexivity|].
  rewrite (cell_at_index _ _ _ _ Hk).
  destruct (field k (snd ir)); simpl; [f_equal|]; exact IH.
Qed.

Lemma groupby_agg_row_count {L : Library} (df out : DataFrame)
  (by_ : string) (spec : list aggregation) :
  groupby_agg df by_ spec = Ok out ->
  len out = distinct_complete_keys df [by_].
Proof.
  intros Hout. apply groupby_agg_Ok in Hout.
  destruct Hout as [k [Hk [_ [Hkeys _]]]].
  unfold len. rewrite <- (length_map fst), Hkeys, length_group_keys.
  unfold distinct_complete_keys. rewrite (complete_single_keys _ _ _ Hk).
  symmetry. apply count_distinct_map. intros a b. apply cells_eqb_single.
Qed.

(** *** Grouping by several columns *)

Lemma row_key_key_at (df : DataFrame) (by_ : list string) (ks : list nat)
  (r : Row) :
  indices_of by_ (columns df) = Ok ks ->
  match row_key ks r with
  | Some key => key_at df by_ r = map Some key
  | None => complete_key (key_at df by_ r) = false
  end.
Proof.
  unfold indices_of, key_at. revert ks.
  induction by_ as [|c by_ IH]; intros ks; simpl.
  - intros [= <-]. reflexivity.
  - intros H. apply bind_Ok in H. destruct H as [k [Hk H]].
    apply bind_Ok in H. destruct H as [ks' [Hks H]]. injection H as <-.
    destruct (index_of c (columns df)) as [k'|] eqn:Hc; [|discriminate Hk].
    injection Hk as ->. specialize (IH ks' Hks).
    simpl. rewrite (cell_at_index _ _ _ _ Hc).
    destruct (field k r) as [v|]; simpl; [|reflexivity].
    destruct (row_key ks' r) as [key|]; simpl.
    + rewrite IH. reflexivity.
    + exact IH.
Qed.

Lemma complete_row_keys (df : DataFrame) (by_ : list string)
  (ks : list nat) :
  indices_of by_ (columns df) = Ok ks ->
  filter complete_key (row_keys df by_)
  = map (map Some)
        (present (map (fun ir => row_key ks (snd ir)) (records df))).
Proof.
  intros Hks. unfold row_keys.
  induction (records df) as [|ir rs IH]; simpl; [reflexivity|].
  pose proof (row_key_key_at df by_ ks (snd ir) Hks) as H.
  destruct (row_key ks (snd ir)) as [key|]; simpl.
  - rewrite H, complete_key_present. simpl. f_equal. exact IH.
  - rewrite H. exact IH.
Qed.

Lemma groupby_columns_size_Ok (df : DataFrame) (by_ : list string)
  (sizes : list (list value * nat)) :
  groupby_columns_size df by_ = Ok sizes ->
  exists ks,
    indices_of by_ (columns df) = Ok ks
    /\ sizes
       = map (fun key =>
                (key,
                 List.length
                   (filter (fun ir => match row_key ks (snd ir) with
                                      | Some k => key_eqb k key
                                      | None => false
                                      end) (records df))))
             (sort_by key_leb
                (unique_keys
                   (present (map (fun ir => row_key ks (snd ir))
                                 (records df))))).
Proof.
  unfold groupby_columns_size, groupby_columns. intros H.
  apply bind_Ok in H. destruct H as [gs [Hgs H]]. injection H as <-.
  destruct by_ as [|c by_]; [discriminate Hgs|].
  apply bind_Ok in Hgs. destruct Hgs as [ks [Hks Hgs]].
  injection Hgs as <-. exists ks. split; [exact Hks|].
  rewrite map_map. reflexivity.
Qed.

Lemma length_unique_keys (l : list (list value)) :
  List.length (unique_keys l) = count_distinct key_eqb l.
Proof.
  apply (length_distinct _ key_eqb unique_keys key_eqb_sym key_eqb_trans
           eq_refl (fun _ _ => eq_refl)).
Qed.

Lemma groupby_columns_size_keys (df : DataFrame) (by_ : list string)
  (sizes : list (list value * nat)) :
  groupby_columns_size df by_ = Ok sizes ->
  List.length sizes = distinct_complete_keys df by_
  /\ ForallOrdPairs (fun a b => key_eqb a b = false) (map fst sizes)
  /\ (forall ir, In ir (records df) ->
        complete_key (key_at df by_ (snd ir)) = true ->
        exists key, In key (map fst sizes)
                    /\ cells_eqb (key_at df by_ (snd ir)) (map Some key)
                       = true)
  /\ (forall key, In key (map fst sizes) ->
        exists ir, In ir (records df)
                   /\ key_at df by_ (snd ir) = map Some key)
  /\ (forall key n, In (key, n) sizes ->
        n = List.length
              (filter (fun ir => cells_eqb (key_at df by_ (snd ir))
                                           (map Some key))
                      (records df))
        /\ (1 <= n)%nat).
Proof.
  intros H. apply groupby_columns_size_Ok in H.
  destruct H as [ks [Hks ->]]. rewrite map_map. simpl. rewrite map_id.
  set (keys := present (map (fun ir => row_key ks (snd ir)) (records df))).
  assert (Hcount : forall key,
             filter (fun ir => match row_key ks (snd ir) with
                               | Some k => key_eqb k key
                               | None => false
                               end) (records df)
             = filter (fun ir => cells_eqb (key_at df by_ (snd ir))
                                           (map Some key)) (records df)).
  { intros key. apply filter_ext. intros ir.
    pose proof (row_key_key_at df by_ ks (snd ir) Hks) as H.
    destruct (row_key ks (snd ir)) as [k|].
    - rewrite H, cells_eqb_present. reflexivity.
    - destruct (cells_eqb (key_at df by_ (snd ir)) (map Some key)) eqn:E;
        [|reflexivity].
      exfalso. revert H E. generalize (key_at df by_ (snd ir)).
      clear. induction key as [|v key IH]; intros [|c l]; simpl;
        try discriminate.
      destruct c as [w|]; simpl; [|discriminate].
      intros Hc He. apply andb_true_iff in He. apply (IH l Hc), He. }
  split.
  { rewrite length_map, sort_by_length, length_unique_keys.
    unfold distinct_complete_keys.
    rewrite (complete_row_keys _ _ _ Hks). symmetry.
    apply count_distinct_map. apply cells_eqb_present. }
  split.
  { apply ForallOrdPairs_sort_by.
    - intros a b Hab. rewrite key_eqb_sym. exact Hab.
    - apply (distinct_entries _ key_eqb unique_keys eq_refl
               (fun _ _ => eq_refl)). }
  split.
  { intros ir Hir Hc.
    pose proof (row_key_key_at df by_ ks (snd ir) Hks) as H.
    destruct (row_key ks (snd ir)) as [k|] eqn:Hk;
      [|rewrite H in Hc; discriminate Hc].
    assert (Hin : In k keys).
    { unfold keys. apply present_In. rewrite <- Hk.
      apply (in_map (fun ir => row_key ks (snd ir))). exact Hir. }
    destruct (distinct_cover _ key_eqb unique_keys key_eqb_sym
                key_eqb_trans (fun _ _ => eq_refl) keys k
                (key_eqb_refl k) Hin) as [d [Hd Hkd]].
    exists d. split; [apply In_sort_by; exact Hd|].
    rewrite H, cells_eqb_present. exact Hkd. }
  assert (Hsound : forall key,
             In key (sort_by key_leb (unique_keys keys)) ->
             exists ir, In ir (records df)
                        /\ key_at df by_ (snd ir) = map Some key).
  { intros key Hkey. apply In_sort_by in Hkey.
    apply (distinct_subset _ key_eqb unique_keys eq_refl
             (fun _ _ => eq_refl)) in Hkey.
    unfold keys in Hkey. apply present_In, in_map_iff in Hkey.
    destruct Hkey as [ir [Hk Hir]]. exists ir. split; [exact Hir|].
    pose proof (row_key_key_at df by_ ks (snd ir) Hks) as H.
    rewrite Hk in H. exact H. }
  split; [exact Hsound|].
  intros key n Hin. apply in_map_iff in Hin.
  destruct Hin as [key' [E Hkey]]. injection E as -> <-.
  rewrite Hcount. split; [reflexivity|].
  destruct (Hsound key Hkey) as [ir [Hir Hk]].
  assert (Hf : In ir (filter (fun ir => cells_eqb (key_at df by_ (snd ir))
                                                  (map Some key))
                             (records df))).
  { apply filter_In. split; [exact Hir|]. rewrite Hk, cells_eqb_present.
    apply key_eqb_refl. }
  destruct (filter _ (records df)); [destruct Hf | simpl; lia].
Qed.

Lemma groupby_columns_size_total (df : DataFrame) (by_ : list string) :
  by_ <> [] ->
  (forall c, In c by_ -> has_column df c = true) ->
  exists sizes, groupby_columns_size df by_ = Ok sizes.
Proof.
  intros Hne Hcols.
  assert (Hks : exists ks, indices_of by_ (columns df) = Ok ks).
  { unfold indices_of. clear Hne.
    induction by_ as [|c by_ IH]; simpl; [exists []; reflexivity|].
    pose proof (Hcols c (or_introl eq_refl)) as Hc.
    unfold has_column in Hc.
    destruct (index_of c (columns df)) as [k|]; [|discriminate Hc].
    destruct IH as [ks Hks];
      [intros c' Hc'; apply Hcols; right; exact Hc'|].
    simpl. rewrite Hks. simpl. exists (k :: ks). reflexivity. }
  destruct Hks as [ks Hks]. unfold groupby_columns_size, groupby_columns.
  destruct by_ as [|c by_]; [congruence|].
  rewrite Hks. simpl. eexists. reflexivity.
Qed.

(** *** The heat map: groups by sex and class, unstacked *)

Lemma length_distinct_sorted (l : list value) :
  List.length (Titanic.distinct_sorted l) = count_distinct value_eqb l.
Proof.
  unfold Titanic.distinct_sorted, sorted.
  rewrite length_present_all.
  - rewrite sort_by_length.
    rewrite (length_distinct cell cell_eqb unique_cells cell_eqb_sym
               cell_eqb_trans eq_refl (fun _ _ => eq_refl)).
    apply count_distinct_map. reflexivity.
  - intros c Hc. apply In_sort_by, unique_cells_subset in Hc.
    apply in_map_iff in Hc. destruct Hc as [v [<- _]]. discriminate.
Qed.

Lemma complete_keys_row_keys (df : DataFrame) (ks kp : nat) :
  index_of "Sex" (columns df) = Some ks ->
  index_of "Pclass" (columns df) = Some kp ->
  map (fun xy => [Some (fst xy); Some (snd xy)])
      (Titanic.complete_keys (values (column_of ks (records df)))
                             (values (column_of kp (records df))))
  = filter complete_key (row_keys df ["Sex"; "Pclass"]).
Proof.
  intros Hs Hp. unfold row_keys, key_at, Titanic.complete_keys, values,
    column_of.
  induction (records df) as [|ir rs IH]; [reflexivity|].
  cbn [map combine flat_map fst snd filter].
  rewrite (cell_at_index _ _ _ _ Hs), (cell_at_index _ _ _ _ Hp).
  rewrite map_app, IH.
  destruct (field ks (snd ir)) as [x|], (field kp (snd ir)) as [y|];
    reflexivity.
Qed.

Lemma pivot_data_axes {L : Library} (df : DataFrame) (p : Titanic.pivot) :
  Titanic.pivot_data df = Ok p ->
  let keys := filter complete_key (row_keys df ["Sex"; "Pclass"]) in
  List.length (Titanic.pivot_index p)
  = count_distinct cells_eqb (map (firstn 1) keys)
  /\ List.length (Titanic.pivot_columns p)
     = count_distinct cells_eqb (map (skipn 1) keys)
  /\ List.length (Titanic.pivot_values p)
     = List.length (Titanic.pivot_index p)
  /\ (forall row, In row (Titanic.pivot_values p) ->
        List.length row = List.length (Titanic.pivot_columns p)).
Proof.
  unfold Titanic.pivot_data. intros H.
  apply bind_Ok in H. destruct H as [sex [Hsex H]].
  apply bind_Ok in H. destruct H as [pclass [Hpclass H]].
  apply bind_Ok in H. destruct H as [survived [_ H]].
  apply bind_Ok in H. destruct H as [m [_ H]].
  apply getitem_Ok in Hsex, Hpclass.
  destruct Hsex as [ks [Hs ->]], Hpclass as [kp [Hp ->]].
  injection H as <-. cbv zeta. cbn [Titanic.pivot_index Titanic.pivot_columns
                                    Titanic.pivot_values].
  rewrite <- (complete_keys_row_keys df ks kp Hs Hp).
  rewrite !length_distinct_sorted, !map_map. cbn [firstn skipn].
  split; [|split; [|split]].
  - rewrite (count_distinct_map (fun a b => value_eqb (fst a) (fst b))
               value_eqb fst) by reflexivity.
    symmetry. apply count_distinct_map. intros a b. apply cells_eqb_single.
  - rewrite (count_distinct_map (fun a b => value_eqb (snd a) (snd b))
               value_eqb snd) by reflexivity.
    symmetry. apply count_distinct_map. intros a b. apply cells_eqb_single.
  - rewrite length_map. apply length_distinct_sorted.
  - intros row Hrow. apply in_map_iff in Hrow. destruct Hrow as [x [<- _]].
    rewrite length_map. apply length_distinct_sorted.
Qed.

Lemma yearly_row_count {L : Library} (filtered yearly : DataFrame) :
  NetflixViews.yearly filtered = Ok yearly ->
  exists sizes,
    groupby_columns_size filtered ["release_year"; "type"] = Ok sizes
    /\ map snd (records yearly)
       = map (fun kn => map Some (fst kn) ++ [int_of_nat (snd kn)]) sizes.
Proof.
  unfold NetflixViews.yearly. intros H.
  apply bind_Ok in H. destruct H as [sizes [Hs H]]. injection H as <-.
  exists sizes. split; [exact Hs | apply frame_rows].
Qed.

(** The claim of C7 fails as stated, a missing value being a key like any
    other: the six sales of the sample carry three distinct values of
    [Product line], the missing one included, and their aggregation has
    two rows. *)
Lemma missing_key_has_no_row :
  exists out,
    groupby_agg (L := Reference.library) Samples.retail "Product line"
      [("Transactions", "Total", Rcount)] = Ok out
    /\ distinct_keys Samples.retail ["Product line"] = 3%nat
    /\ len out = 2%nat
    /\ groupby_size Samples.retail "Product line"
       = Ok [(VStr "Health and beauty", int 4);
             (VStr "Sports and travel", int 1)].
Proof.
  eexists. split; [vm_compute; reflexivity|].
  split; [vm_compute; reflexivity|]. split; reflexivity.
Qed.

(** C7. The result of a grouped aggregation has exactly one row per
    distinct group key of the table none of whose components is missing
    (a row with a missing value in a group-by column belongs to no group).
    For the aggregation by one column, as in the statistics by type: the
    number of rows of the result is the number of such keys, the keys of
    its rows are pairwise different, every non-missing value of the column
    is the key of a row, every key is a value of the column, and the sizes
    of the groups are keyed the same way.  For the sizes of the groups by
    several columns, as in the titles by release year and type: they exist
    whenever the columns do, there is one size per distinct complete key,
    the keys are pairwise different, every complete key of a row of the
    table is among them, each key is the key of a row of the table, and
    each size is the number of rows that carry the key, at least one.
    The heat map unstacks the groups by sex and class: it has one row per
    distinct sex and one column per distinct class among the complete
    keys.  Grouping the three titles Movie 2000, Movie 2010, TV Show 2005 by type
    and counting rows gives Movie 2 and TV Show 1. *)
Theorem one_row_per_group_key {L : Library} (df : DataFrame) :
  (forall by_ spec out,
      groupby_agg df by_ spec = Ok out ->
      let keys := map fst (records out) in
      len out = distinct_complete_keys df [by_]
      /\ pairwise_distinct keys
      /\ (forall ir v,
            In ir (records df) -> cell_at df by_ (snd ir) = Some v ->
            exists key, In key keys /\ value_eqb v key = true)
      /\ (forall key, In key keys ->
            exists ir, In ir (records df)
                       /\ cell_at df by_ (snd ir) = Some key)
      /\ (forall sizes, groupby_size df by_ = Ok sizes ->
            sizes
            = map (fun key =>
                     (key, int_of_nat (len (group_of df by_ key)))) keys))
  /\ (forall stats, Netflix.stats df = Ok stats ->
        len stats = distinct_complete_keys df ["type"])
  /\ (forall by_,
        by_ <> [] -> (forall c, In c by_ -> has_column df c = true) ->
        exists sizes, groupby_columns_size df by_ = Ok sizes)
  /\ (forall by_ sizes,
        groupby_columns_size df by_ = Ok sizes ->
        List.length sizes = distinct_complete_keys df by_
        /\ ForallOrdPairs (fun a b => key_eqb a b = false) (map fst sizes)
        /\ (forall ir,
              In ir (records df) ->
              complete_key (key_at df by_ (snd ir)) = true ->
              exists key,
                In key (map fst sizes)
                /\ cells_eqb (key_at df by_ (snd ir)) (map Some key)
                   = true)
        /\ (forall key, In key (map fst sizes) ->
              exists ir, In ir (records df)
                         /\ key_at df by_ (snd ir) = map Some key)
        /\ (forall key n, In (key, n) sizes ->
              n = List.length
                    (filter (fun ir =>
                               cells_eqb (key_at df by_ (snd ir))
                                         (map Some key))
                            (records df))
              /\ (1 <= n)%nat))
  /\ (forall yearly, NetflixViews.yearly df = Ok yearly ->
        len yearly = distinct_complete_keys df ["release_year"; "type"])
  /\ (forall p, Titanic.pivot_data df = Ok p ->
        let keys := filter complete_key (row_keys df ["Sex"; "Pclass"]) in
        List.length (Titanic.pivot_index p)
        = count_distinct cells_eqb (map (firstn 1) keys)
        /\ List.length (Titanic.pivot_columns p)
           = count_distinct cells_eqb (map (skipn 1) keys)
        /\ List.length (Titanic.pivot_values p)
           = List.length (Titanic.pivot_index p)
        /\ (forall row, In row (Titanic.pivot_values p) ->
              List.length row = List.length (Titanic.pivot_columns p)))
  /\ groupby_agg Samples.catalog "type" [("Total", "year", Rcount)]
     = Ok (mkDF ["Total"]
             [(VStr "Movie", [int 2]); (VStr "TV Show", [int 1])])
  /\ groupby_size Samples.catalog "type"
     = Ok [(VStr "Movie", int 2); (VStr "TV Show", int 1)]
  /\ groupby_columns_size Samples.catalog ["type"]
     = Ok [([VStr "Movie"], 2%nat); ([VStr "TV Show"], 1%nat)]
  /\ Netflix.type_counts Samples.catalog
     = Ok [(VStr "Movie", 2%nat); (VStr "TV Show", 1%nat)].
Proof.
  split.
  { intros by_ spec out Hout keys.
    split; [apply (groupby_agg_row_count _ _ _ _ Hout)|].
    apply groupby_agg_Ok in Hout.
    destruct Hout as [k [Hk [_ [Hkeys _]]]]. subst keys. rewrite Hkeys.
    split; [apply group_keys_distinct|].
    split.
    { intros ir v Hir Hv. apply group_keys_complete.
      apply (column_values_In df by_ k (Some v) Hk). exists ir. auto. }
    split.
    { intros key Hkey. apply group_keys_sound in Hkey.
      apply (column_values_In df by_ k (Some key) Hk) in Hkey. exact Hkey. }
    intros sizes Hs. unfold groupby_size in Hs.
    apply bind_Ok in Hs. destruct Hs as [gs [Hgs Hs]].
    apply groupby_Ok in Hgs. destruct Hgs as [k' [Hk' ->]].
    injection Hs as <-. rewrite map_map. simpl.
    assert (k' = k) by congruence. subst k'. reflexivity. }
  split.
  { intros stats Hstats. unfold Netflix.stats in Hstats.
    apply bind_Ok in Hstats. destruct Hstats as [grouped [Hg Hstats]].
    injection Hstats as <-. unfold len, df_round. simpl. rewrite length_map.
    apply (groupby_agg_row_count _ _ _ _ Hg). }
  split; [intros by_; apply groupby_columns_size_total|].
  split; [intros by_ sizes; apply groupby_columns_size_keys|].
  split.
  { intros yearly Hy. apply yearly_row_count in Hy.
    destruct Hy as [sizes [Hs Hrows]].
    apply groupby_columns_size_keys in Hs. destruct Hs as [<- _].
    unfold len. rewrite <- (length_map snd), Hrows, length_map.
    reflexivity. }
  split; [intros p; apply pivot_data_axes|].
  repeat split; reflexivity.
Qed.

Lemma one_row_per_group_key_witness :
  exists out sizes,
    groupby_agg (L := Reference.library) Samples.retail "Product line"
      [("Transactions", "Total", Rcount)] = Ok out
    /\ groupby_columns_size Samples.retail ["Branch"; "Product line"]
       = Ok sizes
    /\ len out = 2%nat
    /\ List.length sizes = 4%nat
    /\ distinct_complete_keys Samples.retail ["Product line"] = 2%nat
    /\ distinct_complete_keys Samples.retail ["Branch"; "Product line"]
       = 4%nat
    /\ distinct_keys Samples.retail ["Branch"; "Product line"] = 5%nat.
Proof.
  destruct (one_row_per_group_key (L := Reference.library) Samples.retail)
    as [A [_ [B [C _]]]].
  destruct (B ["Branch"; "Product line"]) as [sizes Hs];
    [discriminate | |].
  { intros c [<-|[<-|[]]]; reflexivity. }
  pose (out := mkDF ["Transactions"]
                 [(VStr "Health and beauty", [int 3]);
                  (VStr "Sports and travel", [int 1])]).
  assert (Hout : groupby_agg (L := Reference.library) Samples.retail
                   "Product line" [("Transactions", "Total", Rcount)]
                 = Ok out) by (vm_compute; reflexivity).
  exists out, sizes. split; [exact Hout|]. split; [exact Hs|].
  destruct (A _ _ _ Hout) as [A1 _]. destruct (C _ _ Hs) as [C1 _].
  assert (E1 : distinct_complete_keys Samples.retail ["Product line"]
               = 2%nat) by (vm_compute; reflexivity).
  assert (E2 : distinct_complete_keys Samples.retail
                 ["Branch"; "Product line"] = 4%nat)
    by (vm_compute; reflexivity).
  split; [rewrite A1; exact E1|]. split; [rewrite C1; exact E2|].
  split; [exact E1|]. split; [exact E2 | vm_compute; reflexivity].
Defined.
